(** * The gk104 PFIFO scheduler and its fault recovery

    A shallow embedding of
    [drivers/gpu/drm/nouveau/nvkm/engine/fifo/gk104.c]: the channel
    table, the double-buffered per-engine run lists, the context-switch
    timeout monitor, the per-channel software watchdog and the two
    halves of the MMU fault recovery.

    Conventions.  A [u32] is a [Z] reduced modulo [2^32], a [u64] modulo
    [2^64].  The driver state [gk104_fifo_priv] is passed explicitly and
    every function returns the new state; a function whose C body would
    dereference a null pointer or index outside a table returns [None].
    Channels are referred to by their id (the index into
    [priv->base.channel]), which is how the pointer [priv->fault_chan]
    is represented as well.  Everything the driver only hands to the
    outside world (register writes, log lines, notifications, calls into
    the workqueue) is appended to the [trace] of the state, in program
    order.  Values the driver reads from the hardware or receives from
    helpers that live elsewhere in the tree are fields of [hw_env]. *)

From Stdlib Require Import ZArith Bool Lia.
From stdpp Require Import base option list numbers sorting gmap.

Local Open Scope Z_scope.

(** ** Machine integers and constants *)

Definition u32 (x : Z) : Z := x mod 2 ^ 32.
Definition u64 (x : Z) : Z := x mod 2 ^ 64.

(** [<errno.h>] *)
Definition EINVAL : Z := 22.
Definition ENODEV : Z := 19.
Definition ETIMEDOUT : Z := 110.
Definition EACCES : Z := 13.

(** engine status register has a field for context status *)
Definition CTXSW_STATUS_LOAD : Z := 5.
Definition CTXSW_STATUS_SAVE : Z := 6.
Definition CTXSW_STATUS_SWITCH : Z := 7.

Definition GRFIFO_TIMEOUT_CHECK_PERIOD_MS : Z := 100.
Definition GRFIFO_TIMEOUT_DEFAULT : Z := 5000.
Definition GRFIFO_CHAN_WATCHDOG_TIMEOUT_MS : Z := 10000.

(** ** Data model *)

Inductive chan_state := STOPPED | RUNNING | KILLED.

Global Instance chan_state_eq_dec : EqDecision chan_state.
Proof. solve_decision. Defined.

(** [struct gk104_fifo_chan::timeout].  [watchdog_work] is the pending
    bit of the delayed work: set by [schedule_delayed_work], cleared by
    [cancel_delayed_work] and by the workqueue when it starts the
    callback. *)
Record chan_timeout := {
  sum_ms : Z;
  limit_ms : Z;
  gpfifo_get : Z;
  watchdog_inited : bool;
  watchdog_work : bool;
  watchdog_gpfifo_get : Z
}.

Record gk104_fifo_chan := {
  chid : Z;
  engine : Z;
  state : chan_state;
  timeout : chan_timeout
}.

(** A GPU object: its address and its 32-bit words by byte offset. *)
Record nvkm_gpuobj := {
  addr : Z;
  words : gmap Z Z
}.

Definition nv_wo32 (o : nvkm_gpuobj) (off val : Z) : nvkm_gpuobj :=
  {| addr := addr o; words := <[off := val]> (words o) |}.

Definition nv_ro32 (o : nvkm_gpuobj) (off : Z) : Z :=
  default 0 (words o !! off).

(** [struct gk104_fifo_engn]: the two run-list buffers and the index of
    the one the next update writes ([cur_runlist] only ever holds 0 or
    1, here [false] or [true]). *)
Record gk104_fifo_engn := {
  runlist : nvkm_gpuobj * nvkm_gpuobj;
  cur_runlist : bool
}.

Definition runlist_at (e : gk104_fifo_engn) (i : bool) : nvkm_gpuobj :=
  if i then snd (runlist e) else fst (runlist e).

(** [struct gk104_fifo_impl]: the engine list, each entry a device index
    ([subdev]) and a context mask. *)
Record gk104_fifo_impl := {
  impl_engine : list (Z * Z);
  channels : Z
}.

Definition num_engine (impl : gk104_fifo_impl) : Z :=
  Z.of_nat (length (impl_engine impl)).

Inductive fifo_error :=
  | NOUVEAU_GEM_CHANNEL_FIFO_ERROR_IDLE_TIMEOUT
  | NOUVEAU_GEM_CHANNEL_FIFO_ERROR_MMU_ERR_FLT
  | NOUVEAU_GEM_CHANNEL_PBDMA_ERROR.

Inductive log_msg :=
  | LogRunlistAcquireMutexFailed (ret : Z)
  | LogRunlistUpdateTimeout (engn : Z)
  | LogStartWatchdog (ch : Z)
  | LogStopWatchdog (ch : Z)
  | LogChannelTimedOut (ch : Z)
  | LogUnsupportedEngines (req : Z)
  | LogWaitIdleTimeout (engn : Z)
  | LogTimesliceSet (slice ch : Z)
  | LogTimeoutSet (ms ch : Z)
  | LogEngineMmuFault (engidx ch : Z)
  | LogSchedCtxswTimeout (engidx ch : Z)
  | LogTriggerMmuFaultTimedOut
  | LogRecoveringCtxswTimeout (ch : Z)
  | LogWaitingForCtxsw (ms ch : Z)
  | LogDisablingRunlist (engm : Z)
  | LogResettingEngine (engn : Z)
  | LogUpdatingRunlist
  | LogCleanUpDone.

(** The error lines of the interrupt handlers. *)
Inductive intr_msg :=
  | MsgBindError (code : Z)
  | MsgPioError
  | MsgSchedError (code : Z)
  | MsgChswError (stat : Z)
  | MsgFbFlushTimeout
  | MsgLbError
  | MsgDroppedMmuFault (stat : Z)
  | MsgFaultingUnit (unit : Z)
  | MsgFault (write vaddr reason unit hub gpc client inst : Z)
  | MsgPbdma0 (unit show chid subc mthd data : Z)
  | MsgPbdma1 (unit stat chid hce0 hce1 : Z)
  | MsgIntr (stat : Z).

(** What the driver does to the outside world. *)
Inductive event :=
  | EvLog (m : log_msg)
  | EvWr32 (reg val : Z)
  | EvMask (reg msk val : Z)
  | EvWo32Base (ch off val : Z)
  | EvWo32User (off val : Z)
  | EvBarFlush
  | EvChanEnable (ch : Z)
  | EvChanDisable (ch : Z)
  | EvChanKick (ch : Z)
  | EvEevent (ch : Z) (err : fifo_error)
  | EvUeventFault (ch : Z)
  | EvScheduleDelayedWork (ch ms : Z)
  | EvCancelDelayedWork (ch : Z)
  | EvQueueWork
  | EvUpdateRecoveryDelay
  | EvPmuReleaseMutex
  | EvDisableClkGating
  | EvEnableClkGating
  | EvHaltFecs
  | EvEngineFini (engn : Z)
  | EvEngineInit (engn : Z)
  | EvPmRuntimePut
  | EvIntrError (m : intr_msg)
  | EvWakeUp (engn : Z)
  | EvUevent
  | EvSwCall (chid mthd data : Z).

(** [struct gk104_fifo_priv].  [mmu_fault] is the pending bit of the
    recovery work item. *)
Record gk104_fifo_priv := {
  oclass : gk104_fifo_impl;
  base_min : Z;
  base_max : Z;
  channel : gmap Z gk104_fifo_chan;
  priv_engine : gmap Z gk104_fifo_engn;
  mask : Z;
  fault_chan : option Z;
  fault_unit : Z;
  mmu_fault : bool;
  trace : list event
}.

(** An engine object; [nv_engidx] is its device index. *)
Record nvkm_engine := { nv_engidx : Z }.

(** What the driver reads from the hardware and from helpers defined
    outside this file. *)
Record hw_env := {
  (** [nv_rd32(priv, reg)] *)
  nv_rd32 : Z -> Z;
  (** [nv_ro32(nv_object(chan)->parent, 0x20)], by channel id *)
  ramfc_gpfifo_get : Z -> Z;
  (** [nv_wait(priv, reg, mask, val)] *)
  nv_wait : Z -> Z -> Z -> bool;
  (** [nvkm_engine(obj, idx)] *)
  nvkm_engine_of : Z -> option nvkm_engine;
  (** [pmu->acquire_mutex(pmu, PMU_MUTEX_ID_FIFO, &token)] *)
  pmu_acquire_mutex : Z;
  (** [wait_event_timeout(engn->wait, ...)], by engine *)
  runlist_wait_event : Z -> Z;
  (** [gf100_fifo_chan_kick(&chan->base)], by channel id *)
  gf100_fifo_chan_kick : Z -> Z;
  (** [nvkm_fifo_channel_init(&chan->base)], by channel id *)
  nvkm_fifo_channel_init : Z -> Z;
  (** [nvkm_fifo_channel_fini(&chan->base, suspend)] *)
  nvkm_fifo_channel_fini : Z -> bool -> Z;
  (** [pm_runtime_get_sync(dev)] *)
  pm_runtime_get_sync : Z;
  (** [nv_gpuobj(object->parent)->addr], by channel id *)
  base_addr : Z -> Z;
  (** [pmu->disable_clk_gating], [pmu->enable_clk_gating],
      [gr->halt_fecs] are set *)
  has_disable_clk_gating : bool;
  has_enable_clk_gating : bool;
  has_halt_fecs : bool
}.

(** ** Field updates *)

Definition set_sum_ms (v : Z) (t : chan_timeout) : chan_timeout :=
  {| sum_ms := v; limit_ms := limit_ms t; gpfifo_get := gpfifo_get t;
     watchdog_inited := watchdog_inited t; watchdog_work := watchdog_work t;
     watchdog_gpfifo_get := watchdog_gpfifo_get t |}.

Definition set_limit_ms (v : Z) (t : chan_timeout) : chan_timeout :=
  {| sum_ms := sum_ms t; limit_ms := v; gpfifo_get := gpfifo_get t;
     watchdog_inited := watchdog_inited t; watchdog_work := watchdog_work t;
     watchdog_gpfifo_get := watchdog_gpfifo_get t |}.

Definition set_gpfifo_get (v : Z) (t : chan_timeout) : chan_timeout :=
  {| sum_ms := sum_ms t; limit_ms := limit_ms t; gpfifo_get := v;
     watchdog_inited := watchdog_inited t; watchdog_work := watchdog_work t;
     watchdog_gpfifo_get := watchdog_gpfifo_get t |}.

Definition set_watchdog_inited (b : bool) (t : chan_timeout) : chan_timeout :=
  {| sum_ms := sum_ms t; limit_ms := limit_ms t; gpfifo_get := gpfifo_get t;
     watchdog_inited := b; watchdog_work := watchdog_work t;
     watchdog_gpfifo_get := watchdog_gpfifo_get t |}.

Definition set_watchdog_work (b : bool) (t : chan_timeout) : chan_timeout :=
  {| sum_ms := sum_ms t; limit_ms := limit_ms t; gpfifo_get := gpfifo_get t;
     watchdog_inited := watchdog_inited t; watchdog_work := b;
     watchdog_gpfifo_get := watchdog_gpfifo_get t |}.

Definition set_watchdog_gpfifo_get (v : Z) (t : chan_timeout) : chan_timeout :=
  {| sum_ms := sum_ms t; limit_ms := limit_ms t; gpfifo_get := gpfifo_get t;
     watchdog_inited := watchdog_inited t; watchdog_work := watchdog_work t;
     watchdog_gpfifo_get := v |}.

Definition set_timeout (f : chan_timeout -> chan_timeout)
    (c : gk104_fifo_chan) : gk104_fifo_chan :=
  {| chid := chid c; engine := engine c; state := state c;
     timeout := f (timeout c) |}.

Definition set_state (s : chan_state) (c : gk104_fifo_chan) : gk104_fifo_chan :=
  {| chid := chid c; engine := engine c; state := s; timeout := timeout c |}.

Definition set_engine (e : Z) (c : gk104_fifo_chan) : gk104_fifo_chan :=
  {| chid := chid c; engine := e; state := state c; timeout := timeout c |}.

Definition set_channel (m : gmap Z gk104_fifo_chan)
    (p : gk104_fifo_priv) : gk104_fifo_priv :=
  {| oclass := oclass p; base_min := base_min p; base_max := base_max p;
     channel := m; priv_engine := priv_engine p; mask := mask p;
     fault_chan := fault_chan p; fault_unit := fault_unit p;
     mmu_fault := mmu_fault p; trace := trace p |}.

Definition set_priv_engine (m : gmap Z gk104_fifo_engn)
    (p : gk104_fifo_priv) : gk104_fifo_priv :=
  {| oclass := oclass p; base_min := base_min p; base_max := base_max p;
     channel := channel p; priv_engine := m; mask := mask p;
     fault_chan := fault_chan p; fault_unit := fault_unit p;
     mmu_fault := mmu_fault p; trace := trace p |}.

Definition set_fault (m : Z) (c : option Z) (u : Z)
    (p : gk104_fifo_priv) : gk104_fifo_priv :=
  {| oclass := oclass p; base_min := base_min p; base_max := base_max p;
     channel := channel p; priv_engine := priv_engine p; mask := m;
     fault_chan := c; fault_unit := u;
     mmu_fault := mmu_fault p; trace := trace p |}.

Definition set_mmu_fault (b : bool) (p : gk104_fifo_priv) : gk104_fifo_priv :=
  {| oclass := oclass p; base_min := base_min p; base_max := base_max p;
     channel := channel p; priv_engine := priv_engine p; mask := mask p;
     fault_chan := fault_chan p; fault_unit := fault_unit p;
     mmu_fault := b; trace := trace p |}.

(** Append to the trace. *)
Definition emit (evs : list event) (p : gk104_fifo_priv) : gk104_fifo_priv :=
  {| oclass := oclass p; base_min := base_min p; base_max := base_max p;
     channel := channel p; priv_engine := priv_engine p; mask := mask p;
     fault_chan := fault_chan p; fault_unit := fault_unit p;
     mmu_fault := mmu_fault p; trace := trace p ++ evs |}.

(** Store a channel object back into its slot of the channel table. *)
Definition put_chan (ch : Z) (c : gk104_fifo_chan)
    (p : gk104_fifo_priv) : gk104_fifo_priv :=
  set_channel (<[ch := c]> (channel p)) p.

(** ** The kernel workqueue

    [kernel/workqueue.c] is not among the sources at hand.  A work item
    is represented by its pending bit. *)

(** Modelled from the spec: [queue_work] is not in the sources; it
    enqueues the work if it is not already pending ("enqueue the
    asynchronous recovery task if not already pending"), so the pending
    bit is set afterwards whatever it was. *)
Definition queue_work (pending : bool) : bool := true.

(** Modelled from the spec: [schedule_delayed_work] is not in the
    sources; it arms the timer of a work that is not pending yet
    ("re-arming while already armed is a no-op"), so the pending bit is
    set afterwards whatever it was. *)
Definition schedule_delayed_work (pending : bool) : bool := true.

(** Modelled from the spec: [cancel_delayed_work] is not in the sources;
    it clears the pending bit and reports whether the work was still
    pending, so the cancel of a work whose callback has been started
    already reports failure ("cancellation races with an in-flight
    firing"). *)
Definition cancel_delayed_work (pending : bool) : bool * bool := (pending, false).

(** ** FIFO channel objects *)

(** The body of the scan in [gk104_fifo_runlist_update]: one 8-byte
    entry per channel that is [RUNNING] on [engine]. *)
Definition runlist_entry (priv : gk104_fifo_priv) (engn_id : Z)
    (acc : nvkm_gpuobj * Z) (i : Z) : nvkm_gpuobj * Z :=
  match channel priv !! i with
  | Some chan =>
      if bool_decide (state chan = RUNNING) && (engine chan =? engn_id)
      then (nv_wo32 (nv_wo32 (fst acc) (snd acc + 0) i) (snd acc + 4) 0,
            snd acc + 8)
      else acc
  | None => acc
  end.

Definition gk104_fifo_runlist_update (hw : hw_env) (engn_id : Z)
    (priv : gk104_fifo_priv) : option gk104_fifo_priv :=
  engn ← priv_engine priv !! engn_id;
  let mutex_ret := pmu_acquire_mutex hw in
  let priv := if mutex_ret =? 0 then priv
              else emit [EvLog (LogRunlistAcquireMutexFailed mutex_ret)] priv in
  let idx := cur_runlist engn in
  let built := foldl (runlist_entry priv engn_id) (runlist_at engn idx, 0)
                 (seqZ 0 (base_max priv)) in
  let cur := fst built in
  let p := snd built in
  let engn' := {| runlist := if idx then (fst (runlist engn), cur)
                             else (cur, snd (runlist engn));
                  cur_runlist := negb idx |} in
  let priv := set_priv_engine (<[engn_id := engn']> (priv_engine priv)) priv in
  let priv := emit [EvBarFlush;
                    EvWr32 0x002270 (u32 (Z.shiftr (addr cur) 12));
                    EvWr32 0x002274
                      (u32 (Z.lor (Z.shiftl engn_id 20) (Z.shiftr p 3)))] priv in
  let priv := if runlist_wait_event hw engn_id =? 0
              then emit [EvLog (LogRunlistUpdateTimeout engn_id)] priv
              else priv in
  Some (if mutex_ret =? 0 then emit [EvPmuReleaseMutex] priv else priv).

Definition gk104_fifo_chan_enable (ch : Z) (enable : bool) : event :=
  let st := if enable then 0x400 else 0x800 in
  EvMask (0x800004 + ch * 8) st st.

Definition gk104_fifo_chan_timeout_start (hw : hw_env) (ch : gk104_fifo_chan)
    : gk104_fifo_chan * list event :=
  if watchdog_inited (timeout ch) then (ch, [])
  else
    let ch := set_timeout
                (set_watchdog_gpfifo_get (ramfc_gpfifo_get hw (chid ch))) ch in
    let ch := set_timeout (set_watchdog_inited true) ch in
    let ch := set_timeout
                (set_watchdog_work
                   (schedule_delayed_work (watchdog_work (timeout ch)))) ch in
    (ch, [EvScheduleDelayedWork (chid ch) GRFIFO_CHAN_WATCHDOG_TIMEOUT_MS;
          EvLog (LogStartWatchdog (chid ch))]).

Definition gk104_fifo_chan_timeout_stop (ch : gk104_fifo_chan)
    : gk104_fifo_chan * list event :=
  if negb (watchdog_inited (timeout ch)) then (ch, [])
  else
    let ch := set_timeout
                (set_watchdog_work
                   (snd (cancel_delayed_work (watchdog_work (timeout ch))))) ch in
    let ch := set_timeout (set_watchdog_inited false) ch in
    (ch, [EvCancelDelayedWork (chid ch); EvLog (LogStopWatchdog (chid ch))]).

(** ** PFIFO engine *)

(** The device indices of the engines, from [core/devidx.h]. *)
Class nvdev_idx := {
  NVDEV_ENGINE_GR : Z;
  NVDEV_ENGINE_CE2 : Z;
  NVDEV_ENGINE_MSVLD : Z;
  NVDEV_ENGINE_MSPPP : Z;
  NVDEV_ENGINE_MSPDEC : Z;
  NVDEV_ENGINE_CE0 : Z;
  NVDEV_ENGINE_CE1 : Z;
  NVDEV_ENGINE_MSENC : Z
}.

Definition gk104_fifo_engidx `{nvdev_idx} (engn : Z) : Z :=
  if engn =? NVDEV_ENGINE_GR then 0
  else if engn =? NVDEV_ENGINE_CE2 then 0
  else if engn =? NVDEV_ENGINE_MSVLD then 1
  else if engn =? NVDEV_ENGINE_MSPPP then 2
  else if engn =? NVDEV_ENGINE_MSPDEC then 3
  else if engn =? NVDEV_ENGINE_CE0 then 4
  else if engn =? NVDEV_ENGINE_CE1 then 5
  else if engn =? NVDEV_ENGINE_MSENC then 6
  else -1.

Definition gk104_fifo_engine (hw : hw_env) (priv : gk104_fifo_priv)
    (engn : Z) : option nvkm_engine :=
  if num_engine (oclass priv) <=? engn then None
  else
    e ← impl_engine (oclass priv) !! Z.to_nat engn;
    nvkm_engine_of hw (fst e).

(** The value of the [int] expression [1 << n], in two's complement on
    32 bits. *)
Definition int_shl1 (n : Z) : Z :=
  (Z.shiftl 1 n + 2 ^ 31) mod 2 ^ 32 - 2 ^ 31.

Fixpoint ffs_from (n : nat) (i x : Z) : Z :=
  match n with
  | O => i
  | S n => if Z.testbit x i then i else ffs_from n (i + 1) x
  end.

Definition __ffs64 (x : Z) : Z := ffs_from 64 0 x.

(** The header shared by the three loops of the recovery work,
    [for (todo = mask; engn = __ffs64(todo), todo; todo &= ~(1 << engn))]:
    the engines it visits, in order.  It runs out of fuel exactly when
    the C loop stops making progress. *)
Fixpoint todo_engines (fuel : nat) (todo : Z) : option (list Z) :=
  if todo =? 0 then Some []
  else
    match fuel with
    | O => None
    | S fuel =>
        let engn := __ffs64 todo in
        rest ← todo_engines fuel
                 (Z.land todo (u64 (Z.lnot (int_shl1 engn))));
        Some (engn :: rest)
    end.

Fixpoint runlist_update_all `{nvdev_idx} (hw : hw_env) (engns : list Z)
    (priv : gk104_fifo_priv) : option gk104_fifo_priv :=
  match engns with
  | [] => Some priv
  | engn :: engns =>
      priv ← gk104_fifo_runlist_update hw (u32 (gk104_fifo_engidx engn)) priv;
      runlist_update_all hw engns priv
  end.

(** What the recovery work does with the record it has taken. *)
Definition recover_engines `{nvdev_idx} (hw : hw_env) (msk : Z)
    (chan : option Z) (unit : Z) (priv : gk104_fifo_priv)
    : option gk104_fifo_priv :=
  let priv := if has_disable_clk_gating hw
              then emit [EvDisableClkGating] priv else priv in
  engns ← todo_engines 64 msk;
  let engm := foldl (λ engm engn,
                  u32 (Z.lor engm (int_shl1 (gk104_fifo_engidx engn))))
                0 engns in
  let halt_fecs := existsb (λ engn, engn =? NVDEV_ENGINE_GR) engns in
  let priv := emit [EvLog (LogDisablingRunlist engm);
                    EvMask 0x002630 engm engm] priv in
  let priv := if halt_fecs && has_halt_fecs hw
              then emit [EvHaltFecs] priv else priv in
  let priv := emit (concat (map (λ engn,
                  match nvkm_engine_of hw engn with
                  | Some _ => [EvLog (LogResettingEngine engn);
                               EvEngineFini engn; EvEngineInit engn]
                  | None => []
                  end) engns)) priv in
  let grfifo_ctrl := nv_rd32 hw 0x400500 in
  let grfifo_ctrl := Z.lor grfifo_ctrl (Z.shiftl 1 16) in
  let grfifo_ctrl := Z.lor grfifo_ctrl (Z.shiftl 1 0) in
  let priv := emit [EvWr32 0x400500 grfifo_ctrl;
                    EvLog LogUpdatingRunlist] priv in
  priv ← runlist_update_all hw engns priv;
  let priv := emit [EvWr32 0x00259c unit; EvWr32 0x00262c engm;
                    EvMask 0x002630 engm 0x00000000;
                    EvMask 0x002140 0x10000100 0x10000100] priv in
  let priv := if has_enable_clk_gating hw
              then emit [EvEnableClkGating] priv else priv in
  let priv := emit [EvLog LogCleanUpDone] priv in
  let ret := pm_runtime_get_sync hw in
  Some (if (0 <=? ret) || (ret =? - EACCES)
        then emit [EvPmRuntimePut] priv else priv).

(** The recovery work, in its two sections: the critical section under
    [priv->base.lock], in which interrupts are off, and the rest, which
    works on the locals [mask], [chan] and [unit].  [irq] is what the
    interrupt path does to the state at the first point where it can
    run again, the end of the critical section; it is [Some] when no
    interrupt arrives. *)
Definition recover_work_with `{nvdev_idx} (hw : hw_env)
    (irq : gk104_fifo_priv -> option gk104_fifo_priv)
    (priv : gk104_fifo_priv) : option gk104_fifo_priv :=
  (* spin_lock_irqsave(&priv->base.lock, flags) *)
  let msk := mask priv in
  let chan := fault_chan priv in
  let unit := fault_unit priv in
  let priv := set_fault 0 None 0 priv in
  (* spin_unlock_irqrestore(&priv->base.lock, flags) *)
  priv ← irq priv;
  recover_engines hw msk chan unit priv.

Definition gk104_fifo_mmu_fault_recover_work `{nvdev_idx} (hw : hw_env)
    (priv : gk104_fifo_priv) : option gk104_fifo_priv :=
  recover_work_with hw Some priv.

Definition gk104_fifo_mmu_fault_recover (hw : hw_env) (eng : nvkm_engine)
    (ch : Z) (unit : Z) (priv : gk104_fifo_priv) : option gk104_fifo_priv :=
  chan ← channel priv !! ch;
  let id := chid chan in
  let priv := emit [EvLog (LogEngineMmuFault (nv_engidx eng) id)] priv in
  let grfifo_ctrl := nv_rd32 hw 0x400500 in
  let grfifo_ctrl := Z.land grfifo_ctrl (u32 (Z.lnot (Z.shiftl 1 16))) in
  let grfifo_ctrl := Z.land grfifo_ctrl (u32 (Z.lnot (Z.shiftl 1 0))) in
  let priv := emit [EvWr32 0x400500 grfifo_ctrl; EvChanDisable id] priv in
  let priv := put_chan ch (set_state KILLED chan) priv in
  (* spin_lock_irqsave(&priv->base.lock, flags) *)
  let priv := set_fault
                (Z.lor (mask priv) (u64 (Z.shiftl 1 (nv_engidx eng))))
                (Some ch)
                (Z.lor (fault_unit priv) (u32 (int_shl1 unit)))
                priv in
  (* spin_unlock_irqrestore(&priv->base.lock, flags) *)
  let priv := emit [EvUeventFault id; EvQueueWork] priv in
  Some (set_mmu_fault (queue_work (mmu_fault priv)) priv).

Definition gk104_fifo_sched_ctxsw_recover (hw : hw_env)
    (engine : option nvkm_engine) (ch : Z) (priv : gk104_fifo_priv)
    : option gk104_fifo_priv :=
  chan ← channel priv !! ch;
  eng ← engine;
  let priv := emit [EvLog (LogSchedCtxswTimeout (nv_engidx eng) (chid chan));
                    EvMask 0x002140 0x10000100 0x00000000;
                    EvWr32 0x002100 0x00000100;
                    EvWr32 0x002a30 0x00000100] priv in
  let priv := if nv_wait hw 0x002100 0x10000000 0x10000000 then priv
              else emit [EvLog LogTriggerMmuFaultTimedOut] priv in
  let priv := emit [EvWr32 0x002a30 0x00000000] priv in
  gk104_fifo_mmu_fault_recover hw eng ch 0 priv.

(** ** The per-channel watchdog *)

Definition gk104_fifo_chan_timeout_work (hw : hw_env) (ch : Z)
    (priv : gk104_fifo_priv) : option gk104_fifo_priv :=
  chan ← channel priv !! ch;
  let id := chid chan in
  (* check timed out job *)
  let pre := watchdog_gpfifo_get (timeout chan) in
  let quit := negb (watchdog_inited (timeout chan)) in
  let chan := set_timeout (set_watchdog_inited false) chan in
  let priv := put_chan ch chan priv in
  if quit then Some priv
  else
    let ret := pm_runtime_get_sync hw in
    let cur := ramfc_gpfifo_get hw id in
    priv ← (if negb (cur =? pre)
            then
              (* we have some progress, so re-start timer and keep
                 monitoring *)
              let started := gk104_fifo_chan_timeout_start hw chan in
              Some (emit (snd started) (put_chan ch (fst started) priv))
            else
              (* the channel is stuck, so recover from that *)
              let priv :=
                emit [EvLog (LogChannelTimedOut id);
                      EvEevent id NOUVEAU_GEM_CHANNEL_FIFO_ERROR_IDLE_TIMEOUT]
                  priv in
              gk104_fifo_sched_ctxsw_recover hw
                (gk104_fifo_engine hw priv 0) ch priv);
    Some (if (0 <=? ret) || (ret =? - EACCES)
          then emit [EvPmRuntimePut] priv else priv).

(** The scan of [gk104_fifo_chan_timeout_restart_all] over the channel
    ids still to visit. *)
Fixpoint restart_scan (exception : Z) (ids : list Z)
    (priv : gk104_fifo_priv) : bool * gk104_fifo_priv :=
  match ids with
  | [] => (true, priv)
  | i :: ids =>
      match channel priv !! i with
      | None => restart_scan exception ids priv
      | Some ch =>
          if negb (watchdog_inited (timeout ch))
          then restart_scan exception ids priv
          else
            let cancelled := cancel_delayed_work (watchdog_work (timeout ch)) in
            let ret := fst cancelled in
            let ch := set_timeout (set_watchdog_work (snd cancelled)) ch in
            let priv := emit [EvCancelDelayedWork i] (put_chan i ch priv) in
            if negb ret then (false, priv)
            else if i =? exception
            then
              (* We will handle timeout for this faulted channel, so no
                 need to schedule another work. *)
              restart_scan exception ids priv
            else
              let ch := set_timeout
                          (set_watchdog_work
                             (schedule_delayed_work
                                (watchdog_work (timeout ch)))) ch in
              restart_scan exception ids
                (emit [EvScheduleDelayedWork i
                         GRFIFO_CHAN_WATCHDOG_TIMEOUT_MS]
                   (put_chan i ch priv))
      end
  end.

Definition gk104_fifo_chan_timeout_restart_all (priv : gk104_fifo_priv)
    (exception : Z) : bool * gk104_fifo_priv :=
  restart_scan exception
    (seqZ (base_min priv) (base_max priv - base_min priv)) priv.

(** ** Channel constructor, init and fini *)

(** [struct kepler_channel_gpfifo_a_v0], with what [nvif_unpack] made
    of it: the value it leaves in [ret] (zero when the arguments
    unpack). *)
Record kepler_channel_gpfifo_a_v0 := {
  v0_unpack : Z;
  v0_pushbuf : Z;
  v0_ioffset : Z;
  v0_ilength : Z;
  v0_engine : Z
}.

(** The engine scan of the constructor: the first index at or above [i]
    that the request names and the device exposes, or the index past
    the end of the list. *)
Fixpoint ctor_engine_scan (hw : hw_env) (req : Z) (engines : list (Z * Z))
    (i : Z) : Z :=
  match engines with
  | [] => i
  | e :: engines =>
      if negb (Z.land req (u32 (int_shl1 i)) =? 0)
         && bool_decide (is_Some (nvkm_engine_of hw (fst e)))
      then i
      else ctor_engine_scan hw req engines (i + 1)
  end.

Definition lower_32_bits (x : Z) : Z := x mod 2 ^ 32.
Definition upper_32_bits (x : Z) : Z := (x / 2 ^ 32) mod 2 ^ 32.

(** What the constructor leaves behind: its return value, the object
    it stored in [*pobject], and the driver state. *)
Record ctor_result := {
  ctor_ret : Z;
  ctor_pobject : option Z;
  ctor_priv : gk104_fifo_priv
}.

(** [create] is the outcome of [nvkm_fifo_channel_create]: its return
    value and the channel object it allocated (with its id in [chid]),
    which it has entered into the channel table on success.  [user_addr]
    is [priv->user.mem->addr]. *)
Definition gk104_fifo_chan_ctor (hw : hw_env) (user_addr : Z)
    (create : Z * gk104_fifo_chan) (args : kepler_channel_gpfifo_a_v0)
    (priv : gk104_fifo_priv) : ctor_result :=
  if negb (v0_unpack args =? 0)
  then {| ctor_ret := v0_unpack args; ctor_pobject := None;
          ctor_priv := priv |}
  else
    let impl := oclass priv in
    let i := ctor_engine_scan hw (v0_engine args) (impl_engine impl) 0 in
    if i =? num_engine impl
    then {| ctor_ret := - ENODEV; ctor_pobject := None;
            ctor_priv := emit [EvLog (LogUnsupportedEngines (v0_engine args))]
                           priv |}
    else
      let ret := fst create in
      let chan := snd create in
      let id := chid chan in
      if negb (ret =? 0)
      then {| ctor_ret := ret; ctor_pobject := Some id; ctor_priv := priv |}
      else
        let chan := set_engine i chan in
        let usermem := id * 0x200 in
        let ioffset := v0_ioffset args in
        let ilength := Z.log2_up (v0_ilength args / 8) in
        let priv :=
          emit (map (λ k, EvWo32User (usermem + 4 * k) 0x00000000)
                  (seqZ 0 128)
                ++ [EvWo32Base id 0x08 (lower_32_bits (user_addr + usermem));
                    EvWo32Base id 0x0c (upper_32_bits (user_addr + usermem));
                    EvWo32Base id 0x10 0x0000face;
                    EvWo32Base id 0x30 0xfffff902;
                    EvWo32Base id 0x48 (lower_32_bits ioffset);
                    EvWo32Base id 0x4c
                      (u32 (Z.lor (upper_32_bits ioffset)
                                  (Z.shiftl ilength 16)));
                    EvWo32Base id 0x84 0x20400000;
                    EvWo32Base id 0x94 0x30000001;
                    EvWo32Base id 0x9c 0x00000100;
                    EvWo32Base id 0xac 0x0000001f;
                    EvWo32Base id 0xe8 id;
                    EvWo32Base id 0xb8 0xf8000000;
                    EvWo32Base id 0xf8 0x10003080;
                    EvWo32Base id 0xfc 0x10000010;
                    EvBarFlush]) priv in
        let chan := set_timeout (set_sum_ms 0) chan in
        let chan := set_timeout (set_limit_ms GRFIFO_TIMEOUT_DEFAULT) chan in
        let chan := set_timeout (set_gpfifo_get 0) chan in
        {| ctor_ret := 0; ctor_pobject := Some id;
           ctor_priv := put_chan id chan priv |}.

Definition gk104_fifo_chan_init (hw : hw_env) (ch : Z)
    (priv : gk104_fifo_priv) : option (Z * gk104_fifo_priv) :=
  chan ← channel priv !! ch;
  let id := chid chan in
  let ret := nvkm_fifo_channel_init hw id in
  if negb (ret =? 0) then Some (ret, priv)
  else
    let priv :=
      emit [EvMask (0x800004 + id * 8) 0x000f0000
              (u32 (Z.shiftl (engine chan) 16));
            EvWr32 (0x800000 + id * 8)
              (u32 (Z.lor 0x80000000 (Z.shiftr (base_addr hw id) 12)))] priv in
    if bool_decide (state chan = STOPPED)
    then
      let chan := set_state RUNNING chan in
      let priv := emit [EvChanEnable id] (put_chan ch chan priv) in
      priv ← gk104_fifo_runlist_update hw (engine chan) priv;
      Some (0, emit [EvChanEnable id] priv)
    else Some (0, priv).

Definition gk104_fifo_chan_fini (hw : hw_env) (ch : Z) (suspend : bool)
    (priv : gk104_fifo_priv) : option (Z * gk104_fifo_priv) :=
  chan ← channel priv !! ch;
  let id := chid chan in
  if suspend
     && negb (nv_wait hw (0x002640 + engine chan * 8) 0x80000000 0x00000000)
  then Some (- ETIMEDOUT, emit [EvLog (LogWaitIdleTimeout (engine chan))] priv)
  else
    let stopped := gk104_fifo_chan_timeout_stop chan in
    let chan := fst stopped in
    let priv := emit (snd stopped) (put_chan ch chan priv) in
    priv ← (if bool_decide (state chan = RUNNING)
            then
              let chan := set_state STOPPED chan in
              let priv := emit [EvChanDisable id] (put_chan ch chan priv) in
              gk104_fifo_runlist_update hw (engine chan) priv
            else Some priv);
    let err := gf100_fifo_chan_kick hw id in
    let priv := emit [EvChanKick id] priv in
    if negb (err =? 0) && suspend then Some (err, priv)
    else
      Some (nvkm_fifo_channel_fini hw id suspend,
            emit [EvWr32 (0x800000 + id * 8) 0x00000000] priv).

(** ** Priority and timeout methods *)

Definition gk104_fifo_set_runlist_timeslice (ch : gk104_fifo_chan)
    (slice : Z) : list event :=
  let id := chid ch in
  [EvChanDisable id; EvChanKick id;
   EvWo32Base id 0xf8 (Z.lor slice 0x10003000);
   EvChanEnable id; EvLog (LogTimesliceSet slice id)].

(** The method and priority numbers, from [nvif/class.h]. *)
Class nvif_class := {
  KEPLER_SET_CHANNEL_PRIORITY : Z;
  KEPLER_SET_CHANNEL_TIMEOUT : Z;
  KEPLER_SET_CHANNEL_PRIORITY_LOW : Z;
  KEPLER_SET_CHANNEL_PRIORITY_MEDIUM : Z;
  KEPLER_SET_CHANNEL_PRIORITY_HIGH : Z
}.

(** [struct kepler_set_channel_priority_v0] and
    [struct kepler_set_channel_timeout_v0], each with the value
    [nvif_unpack] leaves in [ret]. *)
Record kepler_set_channel_priority_v0 := {
  prio_unpack : Z;
  priority : Z
}.

Record kepler_set_channel_timeout_v0 := {
  tmo_unpack : Z;
  timeout_ms : Z
}.

Definition gk104_fifo_chan_set_priority `{nvif_class} (ch : Z)
    (args : kepler_set_channel_priority_v0) (priv : gk104_fifo_priv)
    : option (Z * gk104_fifo_priv) :=
  chan ← channel priv !! ch;
  if prio_unpack args =? 0
  then
    let slice :=
      if priority args =? KEPLER_SET_CHANNEL_PRIORITY_LOW
      then Some 64 (* << 3 == 512 us *)
      else if priority args =? KEPLER_SET_CHANNEL_PRIORITY_MEDIUM
      then Some 128 (* 1 ms *)
      else if priority args =? KEPLER_SET_CHANNEL_PRIORITY_HIGH
      then Some 255 (* 2 ms *)
      else None in
    match slice with
    | Some slice =>
        Some (0, emit (gk104_fifo_set_runlist_timeslice chan slice) priv)
    | None => Some (- EINVAL, priv)
    end
  else Some (prio_unpack args, priv).

Definition gk104_fifo_chan_set_timeout (ch : Z)
    (args : kepler_set_channel_timeout_v0) (priv : gk104_fifo_priv)
    : option (Z * gk104_fifo_priv) :=
  chan ← channel priv !! ch;
  if tmo_unpack args =? 0
  then
    let chan' := set_timeout (set_limit_ms (timeout_ms args)) chan in
    Some (tmo_unpack args,
          emit [EvLog (LogTimeoutSet (timeout_ms args) (chid chan))]
            (put_chan ch chan' priv))
  else Some (tmo_unpack args, priv).

(** ** The context-switch timeout monitor *)

Definition gk104_fifo_update_timeout (hw : hw_env) (chan : gk104_fifo_chan)
    (dt : Z) : gk104_fifo_chan * bool :=
  let get := ramfc_gpfifo_get hw (chid chan) in
  (* advancing, but slowly; reset counting *)
  let chan := if negb (get =? gpfifo_get (timeout chan))
              then set_timeout (set_sum_ms 0) chan else chan in
  let chan := set_timeout (set_sum_ms (u32 (sum_ms (timeout chan) + dt))) chan in
  let chan := set_timeout (set_gpfifo_get get) chan in
  (chan, limit_ms (timeout chan) <? sum_ms (timeout chan)).

(** One turn of the loop of [gk104_fifo_intr_sched_ctxsw], for engine
    [engn]. *)
Definition sched_ctxsw_engn (hw : hw_env) (engn : Z)
    (priv : gk104_fifo_priv) : option gk104_fifo_priv :=
  let stat := nv_rd32 hw (0x002640 + engn * 0x08) in
  let busy := Z.land stat 0x80000000 in
  let next := Z.shiftr (Z.land stat 0x0fff0000) 16 in
  let ctxstat := Z.shiftr (Z.land stat 0x0000e000) 13 in
  let prev := Z.land stat 0x00000fff in
  let id := if ctxstat =? CTXSW_STATUS_LOAD then next else prev in
  let ctxsw_active := (ctxstat =? CTXSW_STATUS_LOAD)
                      || (ctxstat =? CTXSW_STATUS_SAVE)
                      || (ctxstat =? CTXSW_STATUS_SWITCH) in
  if negb (busy =? 0) && ctxsw_active
  then
    match channel priv !! id with
    | None => Some priv
    | Some chan =>
        match gk104_fifo_engine hw priv engn with
        | None => Some priv
        | Some eng =>
            let checked :=
              gk104_fifo_update_timeout hw chan
                GRFIFO_TIMEOUT_CHECK_PERIOD_MS in
            let priv := put_chan id (fst checked) priv in
            if snd checked
            then
              let priv :=
                emit [EvEevent id NOUVEAU_GEM_CHANNEL_FIFO_ERROR_IDLE_TIMEOUT]
                  priv in
              let restarted := gk104_fifo_chan_timeout_restart_all priv id in
              let priv := snd restarted in
              if fst restarted
              then
                gk104_fifo_sched_ctxsw_recover hw (Some eng) id
                  (emit [EvLog (LogRecoveringCtxswTimeout id)] priv)
              else Some priv
            else
              Some (emit [EvUpdateRecoveryDelay;
                          EvLog (LogWaitingForCtxsw
                                   (sum_ms (timeout (fst checked))) id)]
                      priv)
        end
    end
  else Some priv.

Fixpoint sched_ctxsw_loop (hw : hw_env) (engns : list Z)
    (priv : gk104_fifo_priv) : option gk104_fifo_priv :=
  match engns with
  | [] => Some priv
  | engn :: engns =>
      priv ← sched_ctxsw_engn hw engn priv;
      sched_ctxsw_loop hw engns priv
  end.

Definition gk104_fifo_intr_sched_ctxsw (hw : hw_env)
    (priv : gk104_fifo_priv) : option gk104_fifo_priv :=
  sched_ctxsw_loop hw (seqZ 0 (num_engine (oclass priv))) priv.


(** ** Notions used in the statements *)

(** The request mask [req] names engine [i] of the implementation's
    list, and the device exposes it. *)
Definition names_exposed (hw : hw_env) (impl : gk104_fifo_impl)
    (req i : Z) : Prop :=
  0 <= i < num_engine impl
  /\ Z.testbit req i = true
  /\ exists e, impl_engine impl !! Z.to_nat i = Some e
               /\ is_Some (nvkm_engine_of hw (fst e)).

(** The state of the channel in slot [ch], if there is one. *)
Definition chan_state_of (priv : gk104_fifo_priv) (ch : Z)
    : option chan_state :=
  state <$> channel priv !! ch.

(** The pending fault record of [priv'] is that of [priv] with the fault
    of channel [ch] on engine [eng], reported by unit [unit], merged in,
    the channel is [KILLED] and the recovery work is pending. *)
Definition fault_merged (eng : nvkm_engine) (ch unit : Z)
    (priv priv' : gk104_fifo_priv) : Prop :=
  mask priv' = Z.lor (mask priv) (u64 (Z.shiftl 1 (nv_engidx eng)))
  /\ fault_unit priv' = Z.lor (fault_unit priv) (u32 (int_shl1 unit))
  /\ fault_chan priv' = Some ch
  /\ mmu_fault priv' = true
  /\ chan_state_of priv' ch = Some KILLED.

(** Nothing of the fault recovery has happened between [priv] and
    [priv']: same record, same pending bit, same channel states, and no
    recovery work queued in the part of the trace that was added. *)
Definition no_recovery (priv priv' : gk104_fifo_priv) : Prop :=
  mask priv' = mask priv
  /\ fault_unit priv' = fault_unit priv
  /\ fault_chan priv' = fault_chan priv
  /\ mmu_fault priv' = mmu_fault priv
  /\ (forall ch, chan_state_of priv' ch = chan_state_of priv ch)
  /\ exists evs, trace priv' = trace priv ++ evs /\ EvQueueWork ∉ evs.

(** Channel [i] exists, is [RUNNING] and is assigned to engine
    [engn_id]; [runs_on] decides it. *)
Definition running_on (priv : gk104_fifo_priv) (engn_id i : Z) : Prop :=
  exists chan, channel priv !! i = Some chan
               /\ state chan = RUNNING /\ engine chan = engn_id.

Definition runs_on (priv : gk104_fifo_priv) (engn_id i : Z) : bool :=
  match channel priv !! i with
  | Some chan => bool_decide (state chan = RUNNING) && (engine chan =? engn_id)
  | None => false
  end.

(** The [n] run-list entries of a buffer from entry [first] on, each a
    channel id and a flags word. *)
Definition runlist_entries (o : nvkm_gpuobj) (first n : Z) : list (Z * Z) :=
  (λ k, (nv_ro32 o (8 * k), nv_ro32 o (8 * k + 4))) <$> seqZ first n.

(** The watchdog of the channel in slot [i] is armed but its work is not
    pending any more (its callback has been started): cancelling it
    fails. *)
Definition cancel_fails (priv : gk104_fifo_priv) (i : Z) : Prop :=
  exists c, channel priv !! i = Some c
            /\ watchdog_inited (timeout c) = true
            /\ watchdog_work (timeout c) = false.

Global Instance cancel_fails_dec (priv : gk104_fifo_priv) (i : Z) :
  Decision (cancel_fails priv i).
Proof.
  unfold cancel_fails. destruct (channel priv !! i) as [c |].
  - destruct (watchdog_inited (timeout c)) eqn:Hi;
      destruct (watchdog_work (timeout c)) eqn:Hw;
      first [ left; exists c; done
            | right; intros (c' & [= <-] & ? & ?); congruence ].
  - right. intros (c & Hc & _). discriminate.
Defined.

(** What a successful visit of the restart scan leaves of the channel in
    slot [i]: an armed watchdog is pending again unless [i] is the
    exception, in which case it stays cancelled. *)
Definition restart_chan (exception i : Z) (c : gk104_fifo_chan)
    : gk104_fifo_chan :=
  if watchdog_inited (timeout c)
  then set_timeout (set_watchdog_work (negb (i =? exception))) c
  else c.

(** What the scan emits for the slots [ids] when every cancel succeeds. *)
Definition restart_events (exception : Z) (priv : gk104_fifo_priv)
    (ids : list Z) : list event :=
  concat ((λ i,
    match channel priv !! i with
    | Some c =>
        if watchdog_inited (timeout c)
        then EvCancelDelayedWork i
             :: (if i =? exception then []
                 else [EvScheduleDelayedWork i GRFIFO_CHAN_WATCHDOG_TIMEOUT_MS])
        else []
    | None => []
    end) <$> ids).

(** [priv'] differs from [priv] at most in the channel table and the
    trace. *)
Definition same_device (priv priv' : gk104_fifo_priv) : Prop :=
  oclass priv' = oclass priv
  /\ base_min priv' = base_min priv
  /\ base_max priv' = base_max priv
  /\ priv_engine priv' = priv_engine priv
  /\ mask priv' = mask priv
  /\ fault_chan priv' = fault_chan priv
  /\ fault_unit priv' = fault_unit priv
  /\ mmu_fault priv' = mmu_fault priv.

(** The status register of engine [engn] reports it busy in a context
    switch that involves channel [id]: the next channel during a load,
    the previous one during a save or a switch. *)
Definition ctxsw_reports (hw : hw_env) (engn id : Z) : Prop :=
  let stat := nv_rd32 hw (0x002640 + engn * 0x08) in
  let ctxstat := Z.shiftr (Z.land stat 0x0000e000) 13 in
  Z.land stat 0x80000000 <> 0
  /\ ((ctxstat = CTXSW_STATUS_LOAD
       /\ id = Z.shiftr (Z.land stat 0x0fff0000) 16)
      \/ ((ctxstat = CTXSW_STATUS_SAVE \/ ctxstat = CTXSW_STATUS_SWITCH)
          /\ id = Z.land stat 0x00000fff)).

(** ** Running the recovery work *)

(** Modelled from the spec: the workqueue, which is not in the sources,
    runs a pending work item once: it clears the pending bit and calls
    the work function ("atomically take and clear the pending Fault
    Record" is then the function's first step).  With nothing pending
    there is nothing to run. *)
Definition run_mmu_fault_work `{nvdev_idx} (hw : hw_env)
    (priv : gk104_fifo_priv) : option gk104_fifo_priv :=
  if mmu_fault priv
  then gk104_fifo_mmu_fault_recover_work hw (set_mmu_fault false priv)
  else Some priv.

(** Every engine named in the mask [msk] has a device index below 32
    and a run-list slot in [priv]. *)
Definition mask_recoverable `{nvdev_idx} (priv : gk104_fifo_priv)
    (msk : Z) : Prop :=
  0 <= msk < 2 ^ 32
  /\ forall engn, Z.testbit msk engn = true ->
       is_Some (priv_engine priv !! u32 (gk104_fifo_engidx engn)).

(** What a run-list rebuild hands to the outside world: its two log
    lines, the flush, the two submit registers and the release of the
    PMU mutex. *)
Definition runlist_event (e : event) : Prop :=
  match e with
  | EvLog (LogRunlistAcquireMutexFailed _) | EvLog (LogRunlistUpdateTimeout _)
  | EvBarFlush | EvPmuReleaseMutex => True
  | EvWr32 reg _ => reg = 0x002270 \/ reg = 0x002274
  | _ => False
  end.

(** [priv'] comes from [priv] by run-list rebuilds and emissions only:
    the channel table, the fault record and the pending bit are the
    same, every engine slot is still there, and no work was queued. *)
Definition rebuild_frame (priv priv' : gk104_fifo_priv) : Prop :=
  channel priv' = channel priv
  /\ (mask priv', fault_chan priv', fault_unit priv', mmu_fault priv')
     = (mask priv, fault_chan priv, fault_unit priv, mmu_fault priv)
  /\ (oclass priv', base_min priv', base_max priv')
     = (oclass priv, base_min priv, base_max priv)
  /\ (forall e, is_Some (priv_engine priv !! e) ->
                is_Some (priv_engine priv' !! e))
  /\ exists evs, trace priv' = trace priv ++ evs /\ EvQueueWork ∉ evs.

(** ** The operations on a channel's state

    The entry points through which the driver is driven: channel init
    and fini, the two methods, a run-list rebuild, the synchronous half
    of the recovery (for a page fault, and for the synthesized fault of
    a context-switch timeout), the recovery work, a pass of the
    context-switch monitor and the firing of a channel's watchdog. *)
Inductive fifo_op :=
  | OpInit (ch : Z)
  | OpFini (ch : Z) (suspend : bool)
  | OpSetPriority (ch : Z) (args : kepler_set_channel_priority_v0)
  | OpSetTimeout (ch : Z) (args : kepler_set_channel_timeout_v0)
  | OpRunlistUpdate (engn : Z)
  | OpMmuFault (eng : nvkm_engine) (ch unit : Z)
  | OpCtxswRecover (eng : option nvkm_engine) (ch : Z)
  | OpRecoverWork
  | OpSchedCtxsw
  | OpWatchdogWork (ch : Z).

Definition fifo_step `{nvdev_idx} `{nvif_class} (hw : hw_env) (op : fifo_op)
    (priv : gk104_fifo_priv) : option gk104_fifo_priv :=
  match op with
  | OpInit ch => snd <$> gk104_fifo_chan_init hw ch priv
  | OpFini ch suspend => snd <$> gk104_fifo_chan_fini hw ch suspend priv
  | OpSetPriority ch args => snd <$> gk104_fifo_chan_set_priority ch args priv
  | OpSetTimeout ch args => snd <$> gk104_fifo_chan_set_timeout ch args priv
  | OpRunlistUpdate engn => gk104_fifo_runlist_update hw engn priv
  | OpMmuFault eng ch unit => gk104_fifo_mmu_fault_recover hw eng ch unit priv
  | OpCtxswRecover eng ch => gk104_fifo_sched_ctxsw_recover hw eng ch priv
  | OpRecoverWork => gk104_fifo_mmu_fault_recover_work hw priv
  | OpSchedCtxsw => gk104_fifo_intr_sched_ctxsw hw priv
  | OpWatchdogWork ch => gk104_fifo_chan_timeout_work hw ch priv
  end.

(** A run: operations one after the other, each with the answers the
    hardware gives at that time. *)
Fixpoint fifo_run `{nvdev_idx} `{nvif_class} (ops : list (hw_env * fifo_op))
    (priv : gk104_fifo_priv) : option gk104_fifo_priv :=
  match ops with
  | [] => Some priv
  | (hw, op) :: ops => priv ← fifo_step hw op priv; fifo_run ops priv
  end.

(** The operations that reach [gk104_fifo_mmu_fault_recover], the
    synchronous half of the recovery. *)
Definition runs_sync_half (op : fifo_op) : Prop :=
  match op with
  | OpMmuFault _ _ _ | OpCtxswRecover _ _ | OpSchedCtxsw | OpWatchdogWork _ =>
      True
  | _ => False
  end.

(** How one operation may change the state found in slot [ch]. *)
Definition state_step (op : fifo_op) (ch : Z)
    (before after : option chan_state) : Prop :=
  after = before
  \/ (op = OpInit ch /\ before = Some STOPPED /\ after = Some RUNNING)
  \/ ((exists suspend, op = OpFini ch suspend)
      /\ before = Some RUNNING /\ after = Some STOPPED)
  \/ (runs_sync_half op /\ is_Some before /\ after = Some KILLED).

(** Between [priv] and [priv'] a slot either keeps its state or holds a
    channel that has been [KILLED]. *)
Definition kill_only (priv priv' : gk104_fifo_priv) : Prop :=
  forall ch,
    chan_state_of priv' ch = chan_state_of priv ch
    \/ (is_Some (chan_state_of priv ch)
        /\ chan_state_of priv' ch = Some KILLED).

(** * Further notions

    What the remaining statements are about. *)

(** The engine slot a rebuild for [engn_id] leaves behind. *)
Definition rebuilt_engn (priv : gk104_fifo_priv) (engn_id : Z)
    (engn : gk104_fifo_engn) : gk104_fifo_engn :=
  let cur := fst (foldl (runlist_entry priv engn_id)
                    (runlist_at engn (cur_runlist engn), 0)
                    (seqZ 0 (base_max priv))) in
  {| runlist := if cur_runlist engn then (fst (runlist engn), cur)
                else (cur, snd (runlist engn));
     cur_runlist := negb (cur_runlist engn) |}.

(** The ids of the channels that are [RUNNING] on [engn_id], among those
    a rebuild scans, in increasing order. *)
Definition running_ids (priv : gk104_fifo_priv) (engn_id : Z) : list Z :=
  filter (λ i, runs_on priv engn_id i = true) (seqZ 0 (base_max priv)).

(** The run list last submitted for an engine slot: the entries of the
    buffer that [cur_runlist] does not designate, [n] of them. *)
Definition submitted_runlist (engn : gk104_fifo_engn) (n : Z)
    : list (Z * Z) :=
  runlist_entries (runlist_at engn (negb (cur_runlist engn))) 0 n.

(** ** The method entry point *)

(** The payload of a method call: what the [nvif_unpack] of each handler
    makes of the same bytes. *)
Record mthd_data := {
  as_priority : kepler_set_channel_priority_v0;
  as_timeout : kepler_set_channel_timeout_v0
}.

Definition gk104_fifo_chan_mthd `{nvif_class} (ch mthd : Z) (data : mthd_data)
    (priv : gk104_fifo_priv) : option (Z * gk104_fifo_priv) :=
  if mthd =? KEPLER_SET_CHANNEL_PRIORITY
  then gk104_fifo_chan_set_priority ch (as_priority data) priv
  else if mthd =? KEPLER_SET_CHANNEL_TIMEOUT
  then gk104_fifo_chan_set_timeout ch (as_timeout data) priv
  else Some (- EINVAL, priv).

(** [n] timeout checks of a channel in a row, as the monitor makes them
    while the hardware keeps giving the same answers. *)
Fixpoint stall_checks (hw : hw_env) (n : nat) (chan : gk104_fifo_chan)
    : gk104_fifo_chan :=
  match n with
  | O => chan
  | S n =>
      fst (gk104_fifo_update_timeout hw (stall_checks hw n chan)
             GRFIFO_TIMEOUT_CHECK_PERIOD_MS)
  end.

(** Channel [c'] is channel [c] up to the pending bit of its watchdog
    work. *)
Definition same_but_watchdog_work (c c' : gk104_fifo_chan) : Prop :=
  chid c' = chid c
  /\ engine c' = engine c
  /\ state c' = state c
  /\ sum_ms (timeout c') = sum_ms (timeout c)
  /\ limit_ms (timeout c') = limit_ms (timeout c)
  /\ gpfifo_get (timeout c') = gpfifo_get (timeout c)
  /\ watchdog_inited (timeout c') = watchdog_inited (timeout c)
  /\ watchdog_gpfifo_get (timeout c') = watchdog_gpfifo_get (timeout c).

(** The same, for what two channel tables hold in a slot. *)
Definition slot_keeps (o o' : option gk104_fifo_chan) : Prop :=
  match o, o' with
  | Some c, Some c' => same_but_watchdog_work c c'
  | None, None => True
  | _, _ => False
  end.


(** ** Interrupts *)

(** What the two PBDMA handlers do, in program order. *)
Inductive intr_event :=
  | IntrWr32 (reg val : Z)
  | IntrError (m : intr_msg)
  | IntrEevent (chid : Z) (err : fifo_error)
  | IntrSwCall (chid mthd data : Z).

(** The same actions in the trace of the driver. *)
Definition ev_of_intr (e : intr_event) : event :=
  match e with
  | IntrWr32 reg val => EvWr32 reg val
  | IntrError m => EvIntrError m
  | IntrEevent chid err => EvEevent chid err
  | IntrSwCall chid mthd data => EvSwCall chid mthd data
  end.

Definition emit_intr (evs : list intr_event) (priv : gk104_fifo_priv)
    : gk104_fifo_priv :=
  emit (ev_of_intr <$> evs) priv.

(** [__ffs(word)] on a word that is not zero. *)
Definition __ffs (word : Z) : Z := ffs_from 64 0 word.

(** The header of the loops over a [u32] mask,
    [while (mask) { unit = __ffs(mask); ...; mask &= ~(1 << unit); }]:
    the units it visits, in order. *)
Fixpoint mask_units (fuel : nat) (mask : Z) : option (list Z) :=
  if mask =? 0 then Some []
  else
    match fuel with
    | O => None
    | S fuel =>
        let unit := __ffs mask in
        rest ← mask_units fuel (Z.land mask (u32 (Z.lnot (int_shl1 unit))));
        Some (unit :: rest)
    end.

(** The body of the loop of [gk104_fifo_intr_runlist], for the engines
    it visits.  [priv->engine] is a table of [num_engine] slots, which
    [priv_engine] holds: there is no wait queue to wake for an index
    without a slot. *)
Fixpoint intr_runlist_engns (engns : list Z) (priv : gk104_fifo_priv)
    : option gk104_fifo_priv :=
  match engns with
  | [] => Some priv
  | engn :: engns =>
      (* wake_up(&priv->engine[engn].wait) *)
      _ ← priv_engine priv !! engn;
      intr_runlist_engns engns
        (emit [EvWakeUp engn; EvWr32 0x002a00 (u32 (int_shl1 engn))] priv)
  end.

Definition gk104_fifo_intr_runlist (hw : hw_env) (priv : gk104_fifo_priv)
    : option gk104_fifo_priv :=
  let mask := u32 (nv_rd32 hw 0x002a00) in
  engns ← mask_units 64 mask;
  intr_runlist_engns engns priv.

Definition gk104_fifo_intr_engine (priv : gk104_fifo_priv)
    : gk104_fifo_priv :=
  emit [EvUevent] priv.

Definition gk104_fifo_intr_bind (hw : hw_env) (priv : gk104_fifo_priv)
    : gk104_fifo_priv :=
  let intr := u32 (nv_rd32 hw 0x00252c) in
  let code := Z.land intr 0x000000ff in
  emit [EvIntrError (MsgBindError code)] priv.

Definition gk104_fifo_intr_sched (hw : hw_env) (priv : gk104_fifo_priv)
    : option gk104_fifo_priv :=
  let intr := u32 (nv_rd32 hw 0x00254c) in
  let code := Z.land intr 0x000000ff in
  if code =? 0x0a then gk104_fifo_intr_sched_ctxsw hw priv
  else Some (emit [EvIntrError (MsgSchedError code)] priv).

Definition gk104_fifo_intr_chsw (hw : hw_env) (priv : gk104_fifo_priv)
    : gk104_fifo_priv :=
  let stat := u32 (nv_rd32 hw 0x00256c) in
  emit [EvIntrError (MsgChswError stat); EvWr32 0x00256c stat] priv.

Definition gk104_fifo_intr_dropped_fault (hw : hw_env)
    (priv : gk104_fifo_priv) : gk104_fifo_priv :=
  let stat := u32 (nv_rd32 hw 0x00259c) in
  emit [EvIntrError (MsgDroppedMmuFault stat)] priv.

(** *** MMU faults *)

(** The device indices [gk104_fifo_fault_engine] names besides the
    engines of the run lists, from [core/devidx.h]. *)
Class nvdev_subdev := {
  NVDEV_SUBDEV_BAR : Z;
  NVDEV_SUBDEV_INSTMEM : Z;
  NVDEV_ENGINE_IFB : Z;
  NVDEV_ENGINE_FIFO : Z
}.

(** The classes of the channel objects, from [nvif/class.h]. *)
Class nvif_chan_class := {
  KEPLER_CHANNEL_GPFIFO_A : Z;
  MAXWELL_CHANNEL_GPFIFO_A : Z
}.

(** [gk104_fifo_fault_engine]: the value and the [data2] of each entry
    (0 where the entry names none). *)
Definition gk104_fifo_fault_engine `{nvdev_idx} `{nvdev_subdev}
    : list (Z * Z) :=
  [(0x00, NVDEV_ENGINE_GR);
   (0x03, NVDEV_ENGINE_IFB);
   (0x04, NVDEV_SUBDEV_BAR);
   (0x05, NVDEV_SUBDEV_INSTMEM);
   (0x07, NVDEV_ENGINE_FIFO);
   (0x08, NVDEV_ENGINE_FIFO);
   (0x09, NVDEV_ENGINE_FIFO);
   (0x10, NVDEV_ENGINE_MSVLD);
   (0x11, NVDEV_ENGINE_MSPPP);
   (0x13, 0);
   (0x14, NVDEV_ENGINE_MSPDEC);
   (0x15, NVDEV_ENGINE_CE0);
   (0x16, NVDEV_ENGINE_CE1);
   (0x17, 0);
   (0x19, NVDEV_ENGINE_MSENC);
   (0x1b, NVDEV_ENGINE_CE2)].

(** An object on the parent chain of an engine context: its class and,
    read as a channel, its key in the channel table. *)
Record nvkm_object := {
  nv_mclass : Z;
  obj_chan : Z
}.

(** What the fault handler receives from helpers defined outside this
    file. *)
Record fault_env := {
  (** [nvkm_enum_find(table, value)]: the [data2] of the entry found *)
  nvkm_enum_find : list (Z * Z) -> Z -> option Z;
  (** [nvkm_engctx_get(engine, inst)]: the context found and its
      parents, innermost first; none when it returns NULL *)
  nvkm_engctx_get : nvkm_engine -> Z -> list nvkm_object
}.

(** The loop of [gk104_fifo_intr_fault] over the engine context and its
    parents. *)
Fixpoint fault_objects `{nvif_chan_class} (hw : hw_env)
    (engine : option nvkm_engine) (unit : Z) (objects : list nvkm_object)
    (priv : gk104_fifo_priv) : option gk104_fifo_priv :=
  match objects with
  | [] => Some priv
  | object :: parents =>
      priv ← (if (nv_mclass object =? KEPLER_CHANNEL_GPFIFO_A)
                 || (nv_mclass object =? MAXWELL_CHANNEL_GPFIFO_A)
              then
                chan ← channel priv !! obj_chan object;
                eng ← engine;
                let priv :=
                  emit [EvEevent (chid chan)
                          NOUVEAU_GEM_CHANNEL_FIFO_ERROR_MMU_ERR_FLT;
                        EvUpdateRecoveryDelay] priv in
                gk104_fifo_mmu_fault_recover hw eng (obj_chan object) unit
                  priv
              else Some priv);
      fault_objects hw engine unit parents priv
  end.

Definition gk104_fifo_intr_fault `{nvdev_idx} `{nvdev_subdev}
    `{nvif_chan_class} (hw : hw_env) (fe : fault_env) (unit : Z)
    (priv : gk104_fifo_priv) : option gk104_fifo_priv :=
  let inst := u32 (nv_rd32 hw (0x002800 + unit * 0x10)) in
  let valo := u32 (nv_rd32 hw (0x002804 + unit * 0x10)) in
  let vahi := u32 (nv_rd32 hw (0x002808 + unit * 0x10)) in
  let stat := u32 (nv_rd32 hw (0x00280c + unit * 0x10)) in
  let gpc := Z.shiftr (Z.land stat 0x1f000000) 24 in
  let client := Z.shiftr (Z.land stat 0x00001f00) 8 in
  let write := Z.land stat 0x00000080 in
  let hub := Z.land stat 0x00000040 in
  let reason := Z.land stat 0x0000000f in
  let priv := emit [EvIntrError (MsgFaultingUnit unit)] priv in
  let eu := nvkm_enum_find fe gk104_fifo_fault_engine unit in
  let found :=
    match eu with
    | Some data2 =>
        if data2 =? NVDEV_SUBDEV_BAR
        then ([EvMask 0x001704 0x00000000 0x00000000], None, [])
        else if data2 =? NVDEV_SUBDEV_INSTMEM
        then ([EvMask 0x001714 0x00000000 0x00000000], None, [])
        else if data2 =? NVDEV_ENGINE_IFB
        then ([EvMask 0x001718 0x00000000 0x00000000], None, [])
        else
          let engine := nvkm_engine_of hw data2 in
          ([], engine,
           match engine with
           | Some eng => nvkm_engctx_get fe eng inst
           | None => []
           end)
    | None => ([], None, [])
    end in
  let engine := snd (fst found) in
  let engctx := snd found in
  let priv := emit (fst (fst found)) priv in
  let priv :=
    emit [EvIntrError
            (MsgFault write (Z.lor (Z.shiftl vahi 32) valo) reason unit hub
               gpc client (Z.shiftl inst 12))] priv in
  fault_objects hw engine unit engctx priv.

(** ** Engine contexts *)

(** [NVDEV_ENGINE_SW], from [core/devidx.h]. *)
Class nvdev_sw := { NVDEV_ENGINE_SW : Z }.

(** [struct nvkm_engctx], as far as this file uses it: whether
    [vma.node] is set, [vma.offset], and [addr]. *)
Record nvkm_engctx := {
  vma_node : bool;
  vma_offset : Z;
  engctx_addr : Z
}.

(** What the context hooks receive from helpers defined outside this
    file. *)
Record ctx_env := {
  (** [nvkm_gpuobj_map_vm(nv_gpuobj(ectx), base->vm, NV_MEM_ACCESS_RW,
      &ectx->vma)]: its return value, and the [vma.node] and
      [vma.offset] it leaves *)
  nvkm_gpuobj_map_vm : Z * (bool * Z);
  (** [gf100_fifo_chan_kick_locked(&chan->base)] *)
  gf100_fifo_chan_kick_locked : Z
}.

(** What a context hook returns and leaves behind: the instance block
    [base], the engine context, and whether [bar->flush] was called. *)
Record ctx_result := {
  ctx_ret : Z;
  ctx_base : nvkm_gpuobj;
  ctx_ectx : nvkm_engctx;
  ctx_flush : bool
}.

Definition gk104_fifo_context_attach `{nvdev_idx} `{nvdev_sw} (env : ctx_env)
    (engidx : Z) (base : nvkm_gpuobj) (ectx : nvkm_engctx) : ctx_result :=
  let done ret base ectx flush :=
    {| ctx_ret := ret; ctx_base := base; ctx_ectx := ectx;
       ctx_flush := flush |} in
  let with_addr (e : nvkm_engctx) :=
    {| vma_node := vma_node e; vma_offset := vma_offset e;
       engctx_addr := Z.shiftr (addr base) 12 |} in
  let mapped a :=
    let write (e : nvkm_engctx) :=
      let base := nv_wo32 base (a + 0x00)
                    (Z.lor (lower_32_bits (vma_offset e)) 4) in
      let base := nv_wo32 base (a + 0x04) (upper_32_bits (vma_offset e)) in
      done 0 base e true in
    if negb (vma_node ectx)
    then
      let ret := fst (nvkm_gpuobj_map_vm env) in
      let vma := snd (nvkm_gpuobj_map_vm env) in
      let ectx := {| vma_node := fst vma; vma_offset := snd vma;
                     engctx_addr := engctx_addr ectx |} in
      if negb (ret =? 0) then done ret base ectx false
      else write (with_addr ectx)
    else write ectx in
  if engidx =? NVDEV_ENGINE_SW then done 0 base ectx false
  else if (engidx =? NVDEV_ENGINE_CE0) || (engidx =? NVDEV_ENGINE_CE1)
          || (engidx =? NVDEV_ENGINE_CE2)
  then done 0 base (with_addr ectx) false
  else if engidx =? NVDEV_ENGINE_GR then mapped 0x0210
  else if engidx =? NVDEV_ENGINE_MSVLD then mapped 0x0270
  else if engidx =? NVDEV_ENGINE_MSPDEC then mapped 0x0250
  else if engidx =? NVDEV_ENGINE_MSPPP then mapped 0x0260
  else done (- EINVAL) base ectx false.

Definition gk104_fifo_context_detach `{nvdev_idx} `{nvdev_sw} (env : ctx_env)
    (suspend : bool) (engidx : Z) (base : nvkm_gpuobj) (ectx : nvkm_engctx)
    : ctx_result :=
  let done ret base flush :=
    {| ctx_ret := ret; ctx_base := base; ctx_ectx := ectx;
       ctx_flush := flush |} in
  let kicked a :=
    let err := gf100_fifo_chan_kick_locked env in
    if negb (err =? 0) && suspend then done err base false
    else if negb (a =? 0)
    then
      let base := nv_wo32 base (a + 0x00) 0x00000000 in
      let base := nv_wo32 base (a + 0x04) 0x00000000 in
      done 0 base true
    else done 0 base false in
  if engidx =? NVDEV_ENGINE_SW then done 0 base false
  else if (engidx =? NVDEV_ENGINE_CE0) || (engidx =? NVDEV_ENGINE_CE1)
          || (engidx =? NVDEV_ENGINE_CE2)
  then kicked 0x0000
  else if engidx =? NVDEV_ENGINE_GR then kicked 0x0210
  else if engidx =? NVDEV_ENGINE_MSVLD then kicked 0x0270
  else if engidx =? NVDEV_ENGINE_MSPDEC then kicked 0x0250
  else if engidx =? NVDEV_ENGINE_MSPPP then kicked 0x0260
  else done (- EINVAL) base false.

(** The instance-block offsets at which the engines keep their context
    pointer. *)
Definition ctx_slots : list Z := [0x0210; 0x0270; 0x0250; 0x0260].

(** ** PBDMA interrupts *)

(** What the PBDMA handler receives from helpers defined outside this
    file. *)
Record sw_env := {
  (** [nvkm_namedb_get_class(nv_namedb(chan), class)] finds an object,
      by channel id *)
  nvkm_namedb_get_class : Z -> Z -> bool;
  (** [nv_call(bind->object, mthd, data)], by channel id *)
  nv_call : Z -> Z -> Z -> Z;
  (** [printk_timed_ratelimit(&j, 1000)] *)
  printk_timed_ratelimit : bool
}.

Definition gk104_fifo_swmthd (sw : sw_env) (priv : gk104_fifo_priv)
    (chid mthd data : Z) : Z * list intr_event :=
  let chan := if (base_min priv <=? chid) && (chid <=? base_max priv)
              then channel priv !! chid else None in
  match chan with
  | None => (- EINVAL, [])
  | Some _ =>
      if nvkm_namedb_get_class sw chid 0x906e
      then
        if mthd =? 0 then (0, [])
        else if nv_call sw chid mthd data =? 0
        then (0, [IntrSwCall chid mthd data])
        else (- EINVAL, [IntrSwCall chid mthd data])
      else (- EINVAL, [])
  end.

Definition gk104_fifo_intr_pbdma_0 (hw : hw_env) (sw : sw_env)
    (priv : gk104_fifo_priv) (unit : Z) : list intr_event :=
  let mask := u32 (nv_rd32 hw (0x04010c + unit * 0x2000)) in
  let stat := Z.land (u32 (nv_rd32 hw (0x040108 + unit * 0x2000))) mask in
  let addr := u32 (nv_rd32 hw (0x0400c0 + unit * 0x2000)) in
  let data := u32 (nv_rd32 hw (0x0400c4 + unit * 0x2000)) in
  let chid := Z.land (u32 (nv_rd32 hw (0x040120 + unit * 0x2000))) 0xfff in
  let subc := Z.shiftr (Z.land addr 0x00070000) 16 in
  let mthd := Z.land addr 0x00003ffc in
  let show := stat in
  let swm := gk104_fifo_swmthd sw priv chid mthd data in
  let show := if negb (Z.land stat 0x00800000 =? 0) && (fst swm =? 0)
              then Z.land show (u32 (Z.lnot 0x00800000)) else show in
  (if negb (Z.land stat 0x00800000 =? 0)
   then snd swm ++ [IntrWr32 (0x0400c0 + unit * 0x2000) 0x80600008]
   else [])
  ++ (if negb (Z.land stat 0x00200000 =? 0)
      then [IntrWr32 (0x0400c0 + unit * 0x2000) 0x00000008] else [])
  ++ (if negb (show =? 0)
      then (if printk_timed_ratelimit sw
            then [IntrError (MsgPbdma0 unit show chid subc mthd data)]
            else [])
           ++ [IntrEevent chid NOUVEAU_GEM_CHANNEL_PBDMA_ERROR]
      else [])
  ++ [IntrWr32 (0x040108 + unit * 0x2000) stat].

(** The locals of [gk104_fifo_intr_pbdma_0]: the pending interrupts of
    the unit that are enabled, and the channel, method and data it was
    working on. *)
Definition pbdma_stat (hw : hw_env) (unit : Z) : Z :=
  Z.land (u32 (nv_rd32 hw (0x040108 + unit * 0x2000)))
    (u32 (nv_rd32 hw (0x04010c + unit * 0x2000))).

Definition pbdma_chid (hw : hw_env) (unit : Z) : Z :=
  Z.land (u32 (nv_rd32 hw (0x040120 + unit * 0x2000))) 0xfff.

Definition pbdma_mthd (hw : hw_env) (unit : Z) : Z :=
  Z.land (u32 (nv_rd32 hw (0x0400c0 + unit * 0x2000))) 0x00003ffc.

Definition pbdma_data (hw : hw_env) (unit : Z) : Z :=
  u32 (nv_rd32 hw (0x0400c4 + unit * 0x2000)).

(** The channel has a software object that takes the method: the id is
    within the channel range and in use, an object of class 0x906e is
    bound, and the method is 0 or the object's handler returns 0. *)
Definition sw_accepts (sw : sw_env) (priv : gk104_fifo_priv)
    (chid mthd data : Z) : Prop :=
  base_min priv <= chid <= base_max priv
  /\ is_Some (channel priv !! chid)
  /\ nvkm_namedb_get_class sw chid 0x906e = true
  /\ (mthd = 0 \/ nv_call sw chid mthd data = 0).

(** [gk104_fifo_intr_pbdma_1] *)
Definition gk104_fifo_intr_pbdma_1 (hw : hw_env) (unit : Z)
    : list intr_event :=
  let mask := u32 (nv_rd32 hw (0x04014c + unit * 0x2000)) in
  let stat := Z.land (u32 (nv_rd32 hw (0x040148 + unit * 0x2000))) mask in
  let chid := Z.land (u32 (nv_rd32 hw (0x040120 + unit * 0x2000))) 0xfff in
  (if negb (stat =? 0)
   then [IntrError (MsgPbdma1 unit stat chid
                      (u32 (nv_rd32 hw (0x040150 + unit * 0x2000)))
                      (u32 (nv_rd32 hw (0x040154 + unit * 0x2000))));
         IntrEevent chid NOUVEAU_GEM_CHANNEL_PBDMA_ERROR]
   else [])
  ++ [IntrWr32 (0x040148 + unit * 0x2000) stat].

(** ** The top-level interrupt handler *)

(** The bodies of its two loops over units. *)
Fixpoint intr_fault_units `{nvdev_idx} `{nvdev_subdev} `{nvif_chan_class}
    (hw : hw_env) (fe : fault_env) (units : list Z)
    (priv : gk104_fifo_priv) : option gk104_fifo_priv :=
  match units with
  | [] => Some priv
  | unit :: units =>
      priv ← gk104_fifo_intr_fault hw fe unit priv;
      intr_fault_units hw fe units priv
  end.

Fixpoint intr_pbdma_units (hw : hw_env) (sw : sw_env) (units : list Z)
    (priv : gk104_fifo_priv) : gk104_fifo_priv :=
  match units with
  | [] => priv
  | unit :: units =>
      let priv := emit_intr (gk104_fifo_intr_pbdma_0 hw sw priv unit) priv in
      let priv := emit_intr (gk104_fifo_intr_pbdma_1 hw unit) priv in
      let priv := emit [EvWr32 0x0025a0 (u32 (int_shl1 unit))] priv in
      intr_pbdma_units hw sw units priv
  end.

(** [if (stat & bit) { body; stat &= ~bit; }], on the pending bits and
    the state. *)
Definition on_bit (bit : Z)
    (body : gk104_fifo_priv -> option gk104_fifo_priv)
    (s : Z * gk104_fifo_priv) : option (Z * gk104_fifo_priv) :=
  if Z.land (fst s) bit =? 0 then Some s
  else
    priv ← body (snd s);
    Some (Z.land (fst s) (u32 (Z.lnot bit)), priv).

Definition gk104_fifo_intr `{nvdev_idx} `{nvdev_subdev} `{nvif_chan_class}
    (hw : hw_env) (sw : sw_env) (fe : fault_env) (priv : gk104_fifo_priv)
    : option gk104_fifo_priv :=
  let mask := u32 (nv_rd32 hw 0x002140) in
  let stat := Z.land (u32 (nv_rd32 hw 0x002100)) mask in
  s ← on_bit 0x00000001
        (λ priv, Some (emit [EvWr32 0x002100 0x00000001]
                         (gk104_fifo_intr_bind hw priv)))
        (stat, priv);
  s ← on_bit 0x00000010
        (λ priv, Some (emit [EvIntrError MsgPioError;
                             EvWr32 0x002100 0x00000010] priv)) s;
  s ← on_bit 0x00000100
        (λ priv, priv ← gk104_fifo_intr_sched hw priv;
                 Some (emit [EvWr32 0x002100 0x00000100] priv)) s;
  s ← on_bit 0x00010000
        (λ priv, Some (emit [EvWr32 0x002100 0x00010000]
                         (gk104_fifo_intr_chsw hw priv))) s;
  s ← on_bit 0x00800000
        (λ priv, Some (emit [EvIntrError MsgFbFlushTimeout;
                             EvWr32 0x002100 0x00800000] priv)) s;
  s ← on_bit 0x01000000
        (λ priv, Some (emit [EvIntrError MsgLbError;
                             EvWr32 0x002100 0x01000000] priv)) s;
  s ← on_bit 0x08000000
        (λ priv, Some (emit [EvWr32 0x002100 0x08000000]
                         (gk104_fifo_intr_dropped_fault hw priv))) s;
  s ← on_bit 0x10000000
        (λ priv,
           let mask := u32 (nv_rd32 hw 0x00259c) in
           let priv := emit [EvMask 0x002140 0x10000000 0x00000000] priv in
           units ← mask_units 64 mask;
           intr_fault_units hw fe units priv) s;
  s ← on_bit 0x20000000
        (λ priv,
           let mask := u32 (nv_rd32 hw 0x0025a0) in
           units ← mask_units 64 mask;
           Some (intr_pbdma_units hw sw units priv)) s;
  s ← on_bit 0x40000000 (gk104_fifo_intr_runlist hw) s;
  s ← on_bit 0x80000000
        (λ priv, Some (gk104_fifo_intr_engine
                         (emit [EvWr32 0x002100 0x80000000] priv))) s;
  let stat := fst s in
  let priv := snd s in
  Some (if stat =? 0 then priv
        else emit [EvIntrError (MsgIntr stat);
                   EvMask 0x002140 stat 0x00000000;
                   EvWr32 0x002100 stat] priv).

(** The bits of a [u32] that are set, in increasing order. *)
Definition set_bits (x : Z) : list Z :=
  filter (λ b, Z.testbit x b = true) (seqZ 0 32).

(** The status bits [gk104_fifo_intr] has a handler for. *)
Definition intr_known : Z := 0xf9810111.

(** A handler guarded by [bit], on status [stat]. *)
Definition when_bit (stat bit : Z)
    (body : gk104_fifo_priv -> option gk104_fifo_priv)
    (priv : gk104_fifo_priv) : option gk104_fifo_priv :=
  if Z.land stat bit =? 0 then Some priv else body priv.

(** The pending interrupts that are enabled, as [gk104_fifo_intr] reads
    them, and those among them it has no handler for. *)
Definition intr_stat (hw : hw_env) : Z :=
  Z.land (u32 (nv_rd32 hw 0x002100)) (u32 (nv_rd32 hw 0x002140)).

Definition intr_unknown (hw : hw_env) : Z :=
  Z.land (intr_stat hw) (u32 (Z.lnot intr_known)).

(** ** What the interrupt handlers leave in the trace *)

(** From [priv] to [priv'] the trace has grown, by events that all
    satisfy [may]. *)
Definition emits (may : event -> Prop) (priv priv' : gk104_fifo_priv)
    : Prop :=
  exists evs, trace priv' = trace priv ++ evs /\ Forall may evs.

(** The events of [gk104_fifo_intr_sched_ctxsw]. *)
Definition ctxsw_event (e : event) : Prop :=
  match e with
  | EvLog _
  | EvEevent _ NOUVEAU_GEM_CHANNEL_FIFO_ERROR_IDLE_TIMEOUT
  | EvCancelDelayedWork _ | EvScheduleDelayedWork _ _
  | EvUpdateRecoveryDelay | EvChanDisable _ | EvUeventFault _
  | EvQueueWork => True
  | EvWr32 reg val =>
      (reg = 0x002100 /\ val = 0x00000100) \/ reg = 0x002a30
      \/ reg = 0x400500
  | EvMask reg msk val => reg = 0x002140 /\ msk = 0x10000100 /\ val = 0
  | _ => False
  end.

(** The events of [gk104_fifo_intr_sched], by the reason code it
    reads. *)
Definition sched_code (hw : hw_env) : Z :=
  Z.land (u32 (nv_rd32 hw 0x00254c)) 0x000000ff.

Definition sched_event (hw : hw_env) (e : event) : Prop :=
  if sched_code hw =? 0x0a then ctxsw_event e
  else e = EvIntrError (MsgSchedError (sched_code hw)).

(** The events of [gk104_fifo_intr_fault] after its first line. *)
Definition fault_event (e : event) : Prop :=
  match e with
  | EvIntrError (MsgFault _ _ _ _ _ _ _ _)
  | EvLog (LogEngineMmuFault _ _)
  | EvEevent _ NOUVEAU_GEM_CHANNEL_FIFO_ERROR_MMU_ERR_FLT
  | EvUpdateRecoveryDelay | EvChanDisable _ | EvUeventFault _
  | EvQueueWork => True
  | EvWr32 reg _ => reg = 0x400500
  | EvMask reg msk val =>
      (reg = 0x001704 \/ reg = 0x001714 \/ reg = 0x001718)
      /\ msk = 0 /\ val = 0
  | _ => False
  end.

(** The events of the turn of the PBDMA loop for [unit]. *)
Definition pbdma_event (unit : Z) (e : event) : Prop :=
  match e with
  | EvWr32 reg val =>
      reg = 0x0400c0 + unit * 0x2000 \/ reg = 0x040108 + unit * 0x2000
      \/ reg = 0x040148 + unit * 0x2000
      \/ (reg = 0x0025a0 /\ val = 2 ^ unit)
  | EvIntrError (MsgPbdma0 unit' _ _ _ _ _)
  | EvIntrError (MsgPbdma1 unit' _ _ _ _) => unit' = unit
  | EvEevent _ NOUVEAU_GEM_CHANNEL_PBDMA_ERROR
  | EvSwCall _ _ _ => True
  | _ => False
  end.

(** The pending interrupts of a unit that are enabled, as
    [gk104_fifo_intr_pbdma_1] reads them. *)
Definition pbdma_1_stat (hw : hw_env) (unit : Z) : Z :=
  Z.land (u32 (nv_rd32 hw (0x040148 + unit * 0x2000)))
    (u32 (nv_rd32 hw (0x04014c + unit * 0x2000))).

(** Source [bit] is pending and enabled. *)
Definition pending (hw : hw_env) (bit : Z) : Prop :=
  Z.land (intr_stat hw) bit <> 0.

(** From [priv] to [priv'] the trace has grown by events that all
    satisfy [may], among them every event that satisfies [must]. *)
Definition emits_all (may must : event -> Prop)
    (priv priv' : gk104_fifo_priv) : Prop :=
  exists evs,
    trace priv' = trace priv ++ evs
    /\ (forall e, e ∈ evs -> may e)
    /\ (forall e, must e -> e ∈ evs).

(** What an event of the top-level handler can be, source by source. *)
Definition intr_may (hw : hw_env) (e : event) : Prop :=
  (pending hw 0x00000001
   /\ e ∈ [EvIntrError
             (MsgBindError (Z.land (u32 (nv_rd32 hw 0x00252c)) 0x000000ff));
           EvWr32 0x002100 0x00000001])
  \/ (pending hw 0x00000010
      /\ e ∈ [EvIntrError MsgPioError; EvWr32 0x002100 0x00000010])
  \/ (pending hw 0x00000100
      /\ (sched_event hw e \/ e = EvWr32 0x002100 0x00000100))
  \/ (pending hw 0x00010000
      /\ e ∈ [EvIntrError (MsgChswError (u32 (nv_rd32 hw 0x00256c)));
              EvWr32 0x00256c (u32 (nv_rd32 hw 0x00256c));
              EvWr32 0x002100 0x00010000])
  \/ (pending hw 0x00800000
      /\ e ∈ [EvIntrError MsgFbFlushTimeout; EvWr32 0x002100 0x00800000])
  \/ (pending hw 0x01000000
      /\ e ∈ [EvIntrError MsgLbError; EvWr32 0x002100 0x01000000])
  \/ (pending hw 0x08000000
      /\ e ∈ [EvIntrError (MsgDroppedMmuFault (u32 (nv_rd32 hw 0x00259c)));
              EvWr32 0x002100 0x08000000])
  \/ (pending hw 0x10000000
      /\ (e = EvMask 0x002140 0x10000000 0
          \/ fault_event e
          \/ exists u, u ∈ set_bits (nv_rd32 hw 0x00259c)
                       /\ e = EvIntrError (MsgFaultingUnit u)))
  \/ (pending hw 0x20000000
      /\ exists u, u ∈ set_bits (nv_rd32 hw 0x0025a0) /\ pbdma_event u e)
  \/ (pending hw 0x40000000
      /\ exists b, b ∈ set_bits (nv_rd32 hw 0x002a00)
                   /\ e ∈ [EvWakeUp b; EvWr32 0x002a00 (2 ^ b)])
  \/ (pending hw 0x80000000
      /\ e ∈ [EvWr32 0x002100 0x80000000; EvUevent])
  \/ (intr_unknown hw <> 0
      /\ e ∈ [EvIntrError (MsgIntr (intr_unknown hw));
              EvMask 0x002140 (intr_unknown hw) 0;
              EvWr32 0x002100 (intr_unknown hw)]).

(** What is among the events of the top-level handler for sure. *)
Definition intr_must (hw : hw_env) (e : event) : Prop :=
  (pending hw 0x00000001
   /\ e ∈ [EvIntrError
             (MsgBindError (Z.land (u32 (nv_rd32 hw 0x00252c)) 0x000000ff));
           EvWr32 0x002100 0x00000001])
  \/ (pending hw 0x00000010
      /\ e ∈ [EvIntrError MsgPioError; EvWr32 0x002100 0x00000010])
  \/ (pending hw 0x00000100 /\ e = EvWr32 0x002100 0x00000100)
  \/ (pending hw 0x00010000
      /\ e ∈ [EvIntrError (MsgChswError (u32 (nv_rd32 hw 0x00256c)));
              EvWr32 0x00256c (u32 (nv_rd32 hw 0x00256c));
              EvWr32 0x002100 0x00010000])
  \/ (pending hw 0x00800000
      /\ e ∈ [EvIntrError MsgFbFlushTimeout; EvWr32 0x002100 0x00800000])
  \/ (pending hw 0x01000000
      /\ e ∈ [EvIntrError MsgLbError; EvWr32 0x002100 0x01000000])
  \/ (pending hw 0x08000000
      /\ e ∈ [EvIntrError (MsgDroppedMmuFault (u32 (nv_rd32 hw 0x00259c)));
              EvWr32 0x002100 0x08000000])
  \/ (pending hw 0x10000000
      /\ (e = EvMask 0x002140 0x10000000 0
          \/ exists u, u ∈ set_bits (nv_rd32 hw 0x00259c)
                       /\ e = EvIntrError (MsgFaultingUnit u)))
  \/ (pending hw 0x20000000
      /\ exists u, u ∈ set_bits (nv_rd32 hw 0x0025a0)
                   /\ e ∈ [EvWr32 (0x040108 + u * 0x2000) (pbdma_stat hw u);
                           EvWr32 (0x040148 + u * 0x2000)
                             (pbdma_1_stat hw u);
                           EvWr32 0x0025a0 (2 ^ u)])
  \/ (pending hw 0x40000000
      /\ exists b, b ∈ set_bits (nv_rd32 hw 0x002a00)
                   /\ e ∈ [EvWakeUp b; EvWr32 0x002a00 (2 ^ b)])
  \/ (pending hw 0x80000000
      /\ e ∈ [EvWr32 0x002100 0x80000000; EvUevent])
  \/ (intr_unknown hw <> 0
      /\ e ∈ [EvIntrError (MsgIntr (intr_unknown hw));
              EvMask 0x002140 (intr_unknown hw) 0;
              EvWr32 0x002100 (intr_unknown hw)]).
(** * Sample states

    Concrete devices, channels and hardware answers on which the
    properties below are exercised. *)

Definition chan3 : gk104_fifo_chan :=
  {| chid := 3; engine := 0; state := RUNNING;
     timeout := {| sum_ms := 300; limit_ms := 5000; gpfifo_get := 5;
                   watchdog_inited := false; watchdog_work := false;
                   watchdog_gpfifo_get := 0 |} |}.

Definition hw_get (get : Z) : hw_env :=
  {| nv_rd32 := λ _, 0; ramfc_gpfifo_get := λ _, get;
     nv_wait := λ _ _ _, true; nvkm_engine_of := λ i, Some {| nv_engidx := i |};
     pmu_acquire_mutex := 0; runlist_wait_event := λ _, 1;
     gf100_fifo_chan_kick := λ _, 0; nvkm_fifo_channel_init := λ _, 0;
     nvkm_fifo_channel_fini := λ _ _, 0; pm_runtime_get_sync := 0;
     base_addr := λ _, 0;
     has_disable_clk_gating := true; has_enable_clk_gating := true;
     has_halt_fecs := true |}.


Definition sample_class : nvif_class :=
  {| KEPLER_SET_CHANNEL_PRIORITY := 0; KEPLER_SET_CHANNEL_TIMEOUT := 1;
     KEPLER_SET_CHANNEL_PRIORITY_LOW := 0;
     KEPLER_SET_CHANNEL_PRIORITY_MEDIUM := 1;
     KEPLER_SET_CHANNEL_PRIORITY_HIGH := 2 |}.

Definition prio_args (p : Z) : kepler_set_channel_priority_v0 :=
  {| prio_unpack := 0; priority := p |}.

Definition empty_obj (a : Z) : nvkm_gpuobj := {| addr := a; words := ∅ |}.

Definition fresh_engn (a : Z) : gk104_fifo_engn :=
  {| runlist := (empty_obj a, empty_obj (a + 0x8000)); cur_runlist := false |}.

(** A device with two engines (device indices 10 and 11) and room for
    ids 0 to 7. *)
Definition impl2 : gk104_fifo_impl :=
  {| impl_engine := [(10, 0); (11, 0)]; channels := 8 |}.

Definition priv_of (chans : list (Z * gk104_fifo_chan)) : gk104_fifo_priv :=
  {| oclass := impl2; base_min := 0; base_max := 7;
     channel := list_to_map chans;
     priv_engine := <[0 := fresh_engn 0x10000]> (<[1 := fresh_engn 0x20000]> ∅);
     mask := 0; fault_chan := None; fault_unit := 0; mmu_fault := false;
     trace := [] |}.

Definition priv3 : gk104_fifo_priv := priv_of [(3, chan3)].

(** Hardware whose engines never report idle. *)
Definition hw_busy : hw_env :=
  {| nv_rd32 := λ _, 0; ramfc_gpfifo_get := λ _, 5;
     nv_wait := λ _ _ _, false; nvkm_engine_of := λ i, Some {| nv_engidx := i |};
     pmu_acquire_mutex := 0; runlist_wait_event := λ _, 1;
     gf100_fifo_chan_kick := λ _, 0; nvkm_fifo_channel_init := λ _, 0;
     nvkm_fifo_channel_fini := λ _ _, 0; pm_runtime_get_sync := 0;
     base_addr := λ _, 0;
     has_disable_clk_gating := true; has_enable_clk_gating := true;
     has_halt_fecs := true |}.



(** A request for engines 1 and 5, and the channel object the allocator
    hands out for it. *)
Definition args_engine (req : Z) : kepler_channel_gpfifo_a_v0 :=
  {| v0_unpack := 0; v0_pushbuf := 0; v0_ioffset := 0x1000;
     v0_ilength := 0x400; v0_engine := req |}.

Definition chan_fresh (id : Z) : gk104_fifo_chan :=
  {| chid := id; engine := 0; state := STOPPED;
     timeout := {| sum_ms := 0; limit_ms := 0; gpfifo_get := 0;
                   watchdog_inited := false; watchdog_work := false;
                   watchdog_gpfifo_get := 0 |} |}.

(** Hardware on which only the engine with device index 11 exists. *)
Definition hw_only11 : hw_env :=
  {| nv_rd32 := λ _, 0; ramfc_gpfifo_get := λ _, 0;
     nv_wait := λ _ _ _, true;
     nvkm_engine_of := λ i, if i =? 11 then Some {| nv_engidx := i |} else None;
     pmu_acquire_mutex := 0; runlist_wait_event := λ _, 1;
     gf100_fifo_chan_kick := λ _, 0; nvkm_fifo_channel_init := λ _, 0;
     nvkm_fifo_channel_fini := λ _ _, 0; pm_runtime_get_sync := 0;
     base_addr := λ _, 0;
     has_disable_clk_gating := true; has_enable_clk_gating := true;
     has_halt_fecs := true |}.


(** Two channels running on engine 0 (ids 1 and 5), one stopped (2),
    one killed (3) and one running on engine 1 (4). *)
Definition chan_on (id engn : Z) (st : chan_state) : gk104_fifo_chan :=
  set_state st (set_engine engn (chan_fresh id)).

Definition priv_mixed : gk104_fifo_priv :=
  priv_of [(1, chan_on 1 0 RUNNING); (2, chan_on 2 0 STOPPED);
           (3, chan_on 3 0 KILLED); (4, chan_on 4 1 RUNNING);
           (5, chan_on 5 0 RUNNING)].

(** A channel with an armed watchdog; [pending] tells whether its work
    is still queued. *)
Definition chan_watched (id : Z) (sum : Z) (pending : bool) : gk104_fifo_chan :=
  {| chid := id; engine := 0; state := RUNNING;
     timeout := {| sum_ms := sum; limit_ms := 5000; gpfifo_get := 5;
                   watchdog_inited := true; watchdog_work := pending;
                   watchdog_gpfifo_get := 5 |} |}.

(** Channel 3 has stalled for 5000 ms; channel 1 is watched as well. *)
Definition priv_stall : gk104_fifo_priv :=
  priv_of [(1, chan_watched 1 0 true); (3, chan_watched 3 5000 true)].

(** The same, with the watchdog callback of channel 2 already started. *)
Definition priv_blocked : gk104_fifo_priv :=
  priv_of [(1, chan_watched 1 0 true); (2, chan_watched 2 0 false);
           (3, chan_watched 3 5000 true)].

(** Channel 1 is watched; the slot at [base.max] holds a channel whose
    watchdog callback has already started. *)
Definition priv_edge : gk104_fifo_priv :=
  priv_of [(1, chan_watched 1 0 true); (7, chan_watched 7 0 false)].

(** Engine 0 reports busy, saving the context of channel 3, whose
    consumer pointer still reads 5. *)
Definition hw_stall : hw_env :=
  {| nv_rd32 := λ reg, if reg =? 0x002640 then 0x8000c003 else 0;
     ramfc_gpfifo_get := λ _, 5;
     nv_wait := λ _ _ _, true; nvkm_engine_of := λ i, Some {| nv_engidx := i |};
     pmu_acquire_mutex := 0; runlist_wait_event := λ _, 1;
     gf100_fifo_chan_kick := λ _, 0; nvkm_fifo_channel_init := λ _, 0;
     nvkm_fifo_channel_fini := λ _ _, 0; pm_runtime_get_sync := 0;
     base_addr := λ _, 0;
     has_disable_clk_gating := true; has_enable_clk_gating := true;
     has_halt_fecs := true |}.

(** Device indices under which the two engines of [impl2] are the
    graphics engine (run list 0) and the video decoder (run list 1). *)
Definition sample_idx : nvdev_idx :=
  {| NVDEV_ENGINE_GR := 10; NVDEV_ENGINE_CE2 := 12;
     NVDEV_ENGINE_MSVLD := 11; NVDEV_ENGINE_MSPPP := 13;
     NVDEV_ENGINE_MSPDEC := 14; NVDEV_ENGINE_CE0 := 15;
     NVDEV_ENGINE_CE1 := 16; NVDEV_ENGINE_MSENC := 17 |}.

(** [priv_mixed] after a page fault of channel 1 on the graphics engine,
    reported by unit 0: the recovery work is queued. *)
Definition priv_faulted : gk104_fifo_priv :=
  default priv_mixed
    (gk104_fifo_mmu_fault_recover (hw_get 0) {| nv_engidx := 10 |} 1 0
       priv_mixed).

(** A run over [priv_mixed], whose channel 3 is killed: every kind of
    operation once, most of them aimed at channel 3. *)
Definition sample_ops : list (hw_env * fifo_op) :=
  [(hw_get 0, OpInit 3);
   (hw_get 0, OpFini 3 false);
   (hw_get 0, OpSetPriority 3 (prio_args 1));
   (hw_get 0, OpSetTimeout 3 {| tmo_unpack := 0; timeout_ms := 500 |});
   (hw_get 0, OpRunlistUpdate 0);
   (hw_get 0, OpMmuFault {| nv_engidx := 10 |} 1 0);
   (hw_get 0, OpRecoverWork);
   (hw_stall, OpSchedCtxsw);
   (hw_get 0, OpCtxswRecover (Some {| nv_engidx := 10 |}) 3);
   (hw_get 0, OpWatchdogWork 3);
   (hw_get 0, OpInit 3)].

(** Hardware on which the PMU mutex cannot be taken and the run-list
    acknowledgment never arrives. *)
Definition hw_contended : hw_env :=
  {| nv_rd32 := λ _, 0; ramfc_gpfifo_get := λ _, 0;
     nv_wait := λ _ _ _, true; nvkm_engine_of := λ i, Some {| nv_engidx := i |};
     pmu_acquire_mutex := -16; runlist_wait_event := λ _, 0;
     gf100_fifo_chan_kick := λ _, -16; nvkm_fifo_channel_init := λ _, 0;
     nvkm_fifo_channel_fini := λ _ _, 0; pm_runtime_get_sync := 0;
     base_addr := λ _, 0;
     has_disable_clk_gating := true; has_enable_clk_gating := true;
     has_halt_fecs := true |}.

(** A method payload that reads as medium priority and as a timeout of
    500 ms. *)
Definition sample_data : mthd_data :=
  {| as_priority := prio_args 1;
     as_timeout := {| tmo_unpack := 0; timeout_ms := 500 |} |}.

(** A channel with a limit of 500 ms, a stall counter of zero and the
    consumer pointer recorded at 5. *)
Definition chan_500 : gk104_fifo_chan :=
  {| chid := 1; engine := 0; state := RUNNING;
     timeout := {| sum_ms := 0; limit_ms := 500; gpfifo_get := 5;
                   watchdog_inited := false; watchdog_work := false;
                   watchdog_gpfifo_get := 0 |} |}.


(** Pending and enabled: the scheduler source (with reason
    CTXSW_TIMEOUT, no engine being busy), the three per-unit sources and
    bit 1, which has no handler.  Units 0 and 2 report a fault, units 0
    and 1 a PBDMA interrupt, and [engns] are the engines whose run list
    has been taken. *)
Definition hw_irq (engns : Z) : hw_env :=
  {| nv_rd32 := λ reg, if reg =? 0x002100 then 0x70000102
                       else if reg =? 0x002140 then 0xffffffff
                       else if reg =? 0x00254c then 0x0000000a
                       else if reg =? 0x00259c then 0x00000005
                       else if reg =? 0x0025a0 then 0x00000003
                       else if reg =? 0x002a00 then engns
                       else 0;
     ramfc_gpfifo_get := λ _, 0;
     nv_wait := λ _ _ _, true; nvkm_engine_of := λ i, Some {| nv_engidx := i |};
     pmu_acquire_mutex := 0; runlist_wait_event := λ _, 1;
     gf100_fifo_chan_kick := λ _, 0; nvkm_fifo_channel_init := λ _, 0;
     nvkm_fifo_channel_fini := λ _ _, 0; pm_runtime_get_sync := 0;
     base_addr := λ _, 0;
     has_disable_clk_gating := true; has_enable_clk_gating := true;
     has_halt_fecs := true |}.

Definition sample_sw : nvdev_sw := {| NVDEV_ENGINE_SW := 9 |}.

(** The mapping succeeds at offset [0x1_2345_6000]; the kick fails. *)
Definition ctx_map_ok : ctx_env :=
  {| nvkm_gpuobj_map_vm := (0, (true, 0x123456000));
     gf100_fifo_chan_kick_locked := -16 |}.

(** An engine context that has not been mapped yet. *)
Definition ectx_new : nvkm_engctx :=
  {| vma_node := false; vma_offset := 0; engctx_addr := 0 |}.

(** An instance block at [0x40000] that holds a context pointer for the
    graphics engine and one other word. *)
Definition base_gr : nvkm_gpuobj :=
  {| addr := 0x40000;
     words := <[0x0210 := 0x23456004]> (<[0x0214 := 1]> (<[0x08 := 7]> ∅)) |}.

(** Unit 0 reports a software method (DEVICE) for channel 3. *)
Definition hw_pbdma : hw_env :=
  {| nv_rd32 := λ reg, if reg =? 0x040108 then 0x00800000
                       else if reg =? 0x04010c then 0xffffffff
                       else if reg =? 0x0400c0 then 0x00000100
                       else if reg =? 0x040120 then 0x00000003
                       else 0;
     ramfc_gpfifo_get := λ _, 0;
     nv_wait := λ _ _ _, true; nvkm_engine_of := λ i, Some {| nv_engidx := i |};
     pmu_acquire_mutex := 0; runlist_wait_event := λ _, 1;
     gf100_fifo_chan_kick := λ _, 0; nvkm_fifo_channel_init := λ _, 0;
     nvkm_fifo_channel_fini := λ _ _, 0; pm_runtime_get_sync := 0;
     base_addr := λ _, 0;
     has_disable_clk_gating := true; has_enable_clk_gating := true;
     has_halt_fecs := true |}.

(** Every channel has a software object, and it takes every method. *)
Definition sw_ok : sw_env :=
  {| nvkm_namedb_get_class := λ _ _, true; nv_call := λ _ _ _, 0;
     printk_timed_ratelimit := true |}.

Definition sample_subdev : nvdev_subdev :=
  {| NVDEV_SUBDEV_BAR := 4; NVDEV_SUBDEV_INSTMEM := 5;
     NVDEV_ENGINE_IFB := 6; NVDEV_ENGINE_FIFO := 7 |}.

Definition sample_chan_class : nvif_chan_class :=
  {| KEPLER_CHANNEL_GPFIFO_A := 0xa06f; MAXWELL_CHANNEL_GPFIFO_A := 0xb06f |}.

(** The table lookup finds the first entry with the value; every engine
    context is that of channel 1, below its client. *)
Definition fe_chan1 : fault_env :=
  {| nvkm_enum_find := λ table value,
       snd <$> head (filter (λ en, fst en = value) table);
     nvkm_engctx_get := λ _ _, [{| nv_mclass := 0xa06f; obj_chan := 1 |};
                                {| nv_mclass := 0; obj_chan := 0 |}] |}.

(** [priv_mixed] after the interrupt of [hw_irq 3]. *)
Definition priv_irq : gk104_fifo_priv :=
  default priv_mixed
    (gk104_fifo_intr (H := sample_idx) (H0 := sample_subdev)
       (H1 := sample_chan_class) (hw_irq 3) sw_ok fe_chan1 priv_mixed).
(** * Properties *)

(** ** Bit arithmetic *)

Lemma u32_int_shl1 (i : Z) : u32 (int_shl1 i) = Z.shiftl 1 i mod 2 ^ 32.
Proof.
  unfold u32, int_shl1.
  rewrite Zminus_mod, Zmod_mod, <- Zminus_mod.
  f_equal. lia.
Qed.

Lemma land_bit_test (req i : Z) :
  0 <= req < 2 ^ 32 -> 0 <= i ->
  negb (Z.land req (u32 (int_shl1 i)) =? 0) = Z.testbit req i.
Proof.
  intros Hreq Hi. rewrite u32_int_shl1, Z.shiftl_1_l.
  destruct (Z.lt_ge_cases i 32) as [Hlt | Hge].
  - rewrite Z.mod_small by (split; [lia | apply Z.pow_lt_mono_r; lia]).
    destruct (Z.testbit req i) eqn:Hb.
    + apply negb_true_iff, Z.eqb_neq. intros H0.
      assert (Hc : Z.testbit (Z.land req (2 ^ i)) i = false)
        by (rewrite H0; apply Z.bits_0).
      rewrite Z.land_spec, Hb, Z.pow2_bits_true in Hc by lia. discriminate.
    + apply negb_false_iff, Z.eqb_eq. apply Z.bits_inj'. intros n Hn.
      rewrite Z.land_spec, Z.bits_0.
      destruct (Z.eq_dec n i) as [-> | Hne].
      * rewrite Hb. reflexivity.
      * rewrite Z.pow2_bits_false by lia. apply andb_false_r.
  - replace (2 ^ i) with (2 ^ 32 * 2 ^ (i - 32))
      by (rewrite <- Z.pow_add_r by lia; f_equal; lia).
    rewrite Z.mul_comm, Z_mod_mult, Z.land_0_r. simpl.
    symmetry. destruct (Z.eq_dec req 0) as [-> | Hnz]; [apply Z.bits_0 |].
    apply Z.bits_above_log2; [lia |].
    assert (Z.log2 req < 32) by (apply Z.log2_lt_pow2; lia). lia.
Qed.

(** ** The stall counter *)

(** C3, as amended.  A timeout check with interval [dt] adds [dt] to
    the stall counter when the consumer pointer equals the recorded one,
    and restarts the counter at [dt] (reset to zero, then the interval
    added) when the pointer differs; both in 32-bit arithmetic, so the
    sum is exact whenever it fits 32 bits.  The observed pointer is
    recorded either way. *)
Theorem update_timeout_sum (hw : hw_env) (chan : gk104_fifo_chan) (dt : Z) :
  let get := ramfc_gpfifo_get hw (chid chan) in
  let chan' := fst (gk104_fifo_update_timeout hw chan dt) in
  (get = gpfifo_get (timeout chan) ->
     sum_ms (timeout chan') = u32 (sum_ms (timeout chan) + dt)
     /\ (0 <= sum_ms (timeout chan) -> 0 <= dt ->
         sum_ms (timeout chan) + dt < 2 ^ 32 ->
         sum_ms (timeout chan') = sum_ms (timeout chan) + dt))
  /\ (get <> gpfifo_get (timeout chan) ->
     sum_ms (timeout chan') = u32 dt
     /\ (0 <= dt < 2 ^ 32 -> sum_ms (timeout chan') = dt))
  /\ gpfifo_get (timeout chan') = get.
Proof.
  intros get chan'. subst get chan'. unfold gk104_fifo_update_timeout.
  repeat split.
  - rewrite H. rewrite Z.eqb_refl. reflexivity.
  - intros. rewrite H, Z.eqb_refl. simpl.
    unfold u32. apply Z.mod_small. lia.
  - apply Z.eqb_neq in H. rewrite H. reflexivity.
  - intros. apply Z.eqb_neq in H. rewrite H. simpl.
    unfold u32. apply Z.mod_small. lia.
Qed.

Lemma update_timeout_sum_witness :
  sum_ms (timeout (fst (gk104_fifo_update_timeout (hw_get 5) chan3 100))) = 400
  /\ sum_ms (timeout (fst (gk104_fifo_update_timeout (hw_get 6) chan3 100))) = 100.
Proof.
  split.
  - apply (proj2 (proj1 (update_timeout_sum (hw_get 5) chan3 100) eq_refl));
      simpl; lia.
  - apply (proj2 (proj1 (proj2 (update_timeout_sum (hw_get 6) chan3 100))
                    ltac:(simpl; lia))).
    lia.
Defined.

(** C3, as stated, fails: a check that sees the pointer move from 5 to 6
    leaves the counter at the check interval, not at zero. *)
Lemma update_timeout_reset_counterexample :
  ramfc_gpfifo_get (hw_get 6) (chid chan3) <> gpfifo_get (timeout chan3)
  /\ sum_ms (timeout (fst (gk104_fifo_update_timeout (hw_get 6) chan3 100))) <> 0.
Proof. split; simpl; [lia | discriminate]. Qed.

(** ** Set-priority *)

Section set_priority.
Context `{nvif_class}.

(** The case labels of the [switch] are pairwise distinct. *)
Hypothesis LOW_MEDIUM :
  KEPLER_SET_CHANNEL_PRIORITY_LOW <> KEPLER_SET_CHANNEL_PRIORITY_MEDIUM.
Hypothesis LOW_HIGH :
  KEPLER_SET_CHANNEL_PRIORITY_LOW <> KEPLER_SET_CHANNEL_PRIORITY_HIGH.
Hypothesis MEDIUM_HIGH :
  KEPLER_SET_CHANNEL_PRIORITY_MEDIUM <> KEPLER_SET_CHANNEL_PRIORITY_HIGH.

(** C8.  On arguments that unpack, set-priority maps low, medium and
    high to the time slices 64, 128 and 255, emits exactly the sequence
    disable, kick, write of the slice into word 0xf8 of the channel's
    instance block, enable, and returns 0; on any other priority it
    returns [-EINVAL] and leaves the state and the trace as they were. *)
Theorem set_priority_slices (ch : Z) (chan : gk104_fifo_chan)
    (args : kepler_set_channel_priority_v0) (priv : gk104_fifo_priv) :
  channel priv !! ch = Some chan ->
  prio_unpack args = 0 ->
  let reprogram slice :=
    [EvChanDisable (chid chan); EvChanKick (chid chan);
     EvWo32Base (chid chan) 0xf8 (Z.lor slice 0x10003000);
     EvChanEnable (chid chan); EvLog (LogTimesliceSet slice (chid chan))] in
  (priority args = KEPLER_SET_CHANNEL_PRIORITY_LOW ->
     gk104_fifo_chan_set_priority ch args priv
     = Some (0, emit (reprogram 64) priv))
  /\ (priority args = KEPLER_SET_CHANNEL_PRIORITY_MEDIUM ->
     gk104_fifo_chan_set_priority ch args priv
     = Some (0, emit (reprogram 128) priv))
  /\ (priority args = KEPLER_SET_CHANNEL_PRIORITY_HIGH ->
     gk104_fifo_chan_set_priority ch args priv
     = Some (0, emit (reprogram 255) priv))
  /\ (priority args <> KEPLER_SET_CHANNEL_PRIORITY_LOW ->
      priority args <> KEPLER_SET_CHANNEL_PRIORITY_MEDIUM ->
      priority args <> KEPLER_SET_CHANNEL_PRIORITY_HIGH ->
     gk104_fifo_chan_set_priority ch args priv = Some (- EINVAL, priv)).
Proof.
  intros Hch Hun reprogram. unfold gk104_fifo_chan_set_priority.
  rewrite Hch, Hun. simpl.
  repeat split.
  - intros ->. rewrite Z.eqb_refl. reflexivity.
  - intros ->.
    destruct (Z.eqb_spec KEPLER_SET_CHANNEL_PRIORITY_MEDIUM
                KEPLER_SET_CHANNEL_PRIORITY_LOW); [congruence |].
    rewrite Z.eqb_refl. reflexivity.
  - intros ->.
    destruct (Z.eqb_spec KEPLER_SET_CHANNEL_PRIORITY_HIGH
                KEPLER_SET_CHANNEL_PRIORITY_LOW); [congruence |].
    destruct (Z.eqb_spec KEPLER_SET_CHANNEL_PRIORITY_HIGH
                KEPLER_SET_CHANNEL_PRIORITY_MEDIUM); [congruence |].
    rewrite Z.eqb_refl. reflexivity.
  - intros H1 H2 H3.
    apply Z.eqb_neq in H1, H2, H3. rewrite H1, H2, H3. reflexivity.
Qed.

End set_priority.

Lemma set_priority_slices_witness :
  gk104_fifo_chan_set_priority (H := sample_class) 3 (prio_args 1) priv3
  = Some (0, emit [EvChanDisable 3; EvChanKick 3;
                   EvWo32Base 3 0xf8 0x10003080;
                   EvChanEnable 3; EvLog (LogTimesliceSet 128 3)] priv3)
  /\ gk104_fifo_chan_set_priority (H := sample_class) 3 (prio_args 7) priv3
     = Some (- EINVAL, priv3).
Proof.
  pose proof (set_priority_slices (H := sample_class)
                ltac:(discriminate) ltac:(discriminate) ltac:(discriminate)
                3 chan3 (prio_args 1) priv3 eq_refl eq_refl) as Hmed.
  pose proof (set_priority_slices (H := sample_class)
                ltac:(discriminate) ltac:(discriminate) ltac:(discriminate)
                3 chan3 (prio_args 7) priv3 eq_refl eq_refl) as Hbad.
  split.
  - apply Hmed. reflexivity.
  - apply Hbad; discriminate.
Defined.

(** ** Stop with suspend *)

(** C9.  When stop is called with suspend and the wait for the engine
    to go idle expires, [gk104_fifo_chan_fini] returns [-ETIMEDOUT] at
    once: the channel table (hence the channel's state and its watchdog),
    the run lists and the fault record are untouched and the only thing
    emitted is the error line, so the channel is neither disabled nor
    kicked and its register is not written. *)
Theorem chan_fini_suspend_timeout (hw : hw_env) (ch : Z)
    (chan : gk104_fifo_chan) (priv : gk104_fifo_priv) :
  channel priv !! ch = Some chan ->
  nv_wait hw (0x002640 + engine chan * 8) 0x80000000 0x00000000 = false ->
  exists priv',
    gk104_fifo_chan_fini hw ch true priv = Some (- ETIMEDOUT, priv')
    /\ channel priv' = channel priv
    /\ priv_engine priv' = priv_engine priv
    /\ (mask priv', fault_chan priv', fault_unit priv', mmu_fault priv')
       = (mask priv, fault_chan priv, fault_unit priv, mmu_fault priv)
    /\ trace priv' = trace priv ++ [EvLog (LogWaitIdleTimeout (engine chan))].
Proof.
  intros Hch Hwait. eexists. unfold gk104_fifo_chan_fini.
  rewrite Hch. simpl. rewrite Hwait. simpl.
  split; [reflexivity |]. repeat split.
Qed.

Lemma chan_fini_suspend_timeout_witness :
  exists priv',
    gk104_fifo_chan_fini hw_busy 3 true priv3 = Some (- ETIMEDOUT, priv')
    /\ channel priv' = channel priv3
    /\ priv_engine priv' = priv_engine priv3
    /\ (mask priv', fault_chan priv', fault_unit priv', mmu_fault priv')
       = (mask priv3, fault_chan priv3, fault_unit priv3, mmu_fault priv3)
    /\ trace priv' = trace priv3 ++ [EvLog (LogWaitIdleTimeout 0)].
Proof.
  apply (chan_fini_suspend_timeout hw_busy 3 chan3 priv3); reflexivity.
Defined.

(** ** Membership in explicit event lists *)

Lemma elem_of_concat_map {A B} (f : A -> list B) (l : list A) (y : B) :
  y ∈ concat (map f l) <-> exists x, x ∈ l /\ y ∈ f x.
Proof.
  rewrite list_elem_of_In, in_concat. split.
  - intros (ys & Hys & Hy). apply in_map_iff in Hys as (x & <- & Hx).
    exists x. rewrite !list_elem_of_In. auto.
  - intros (x & Hx & Hy). exists (f x). rewrite in_map_iff.
    rewrite !list_elem_of_In in *. eauto.
Qed.

Lemma elem_of_map {A B} (f : A -> B) (l : list A) (y : B) :
  y ∈ map f l <-> exists x, x ∈ l /\ y = f x.
Proof.
  rewrite list_elem_of_In, in_map_iff. split.
  - intros (x & <- & Hx). exists x. rewrite list_elem_of_In. auto.
  - intros (x & Hx & ->). exists x. rewrite list_elem_of_In in Hx. auto.
Qed.

Ltac elem_tac :=
  repeat (rewrite elem_of_app || rewrite elem_of_cons);
  auto 12 using elem_of_nil.

Ltac not_elem_tac :=
  let Hin := fresh "Hin" in
  intros Hin;
  repeat (rewrite elem_of_app in Hin || rewrite elem_of_cons in Hin
          || rewrite elem_of_nil in Hin);
  intuition (try discriminate; try congruence).

(** ** Channel states under updates of the table *)

Lemma chan_state_of_emit (evs : list event) (priv : gk104_fifo_priv) (j : Z) :
  chan_state_of (emit evs priv) j = chan_state_of priv j.
Proof. reflexivity. Qed.

Lemma chan_state_of_put (ch : Z) (c : gk104_fifo_chan)
    (priv : gk104_fifo_priv) (j : Z) :
  chan_state_of (put_chan ch c priv) j
  = if decide (j = ch) then Some (state c) else chan_state_of priv j.
Proof.
  unfold chan_state_of, put_chan. simpl. case_decide as Hj.
  - subst j. rewrite lookup_insert_eq. reflexivity.
  - rewrite lookup_insert_ne by done. reflexivity.
Qed.

(** Storing back a channel whose state did not change keeps every
    state. *)
Lemma chan_state_of_put_same (ch : Z) (c : gk104_fifo_chan)
    (priv : gk104_fifo_priv) (c0 : gk104_fifo_chan) (j : Z) :
  channel priv !! ch = Some c0 -> state c = state c0 ->
  chan_state_of (put_chan ch c priv) j = chan_state_of priv j.
Proof.
  intros Hc0 Hst. rewrite chan_state_of_put. case_decide as Hj; [| done].
  subst j. unfold chan_state_of. rewrite Hc0. simpl. congruence.
Qed.

(** ** The synchronous half of the recovery *)

Lemma mmu_fault_recover_eq (hw : hw_env) (eng : nvkm_engine) (ch unit : Z)
    (priv : gk104_fifo_priv) (chan : gk104_fifo_chan) :
  channel priv !! ch = Some chan ->
  exists priv',
    gk104_fifo_mmu_fault_recover hw eng ch unit priv = Some priv'
    /\ channel priv' = <[ch := set_state KILLED chan]> (channel priv)
    /\ priv_engine priv' = priv_engine priv
    /\ fault_merged eng ch unit priv priv'
    /\ exists evs, trace priv' = trace priv ++ evs
         /\ EvChanDisable (chid chan) ∈ evs
         /\ EvUeventFault (chid chan) ∈ evs
         /\ EvQueueWork ∈ evs.
Proof.
  intros Hch. unfold gk104_fifo_mmu_fault_recover. rewrite Hch. simpl.
  eexists. split; [reflexivity |]. simpl.
  repeat split.
  - unfold chan_state_of. simpl. rewrite lookup_insert_eq. reflexivity.
  - eexists. split.
    + rewrite <- !app_assoc. reflexivity.
    + simpl. split; [| split]; elem_tac.
Qed.

Lemma sched_ctxsw_recover_eq (hw : hw_env) (eng : nvkm_engine) (ch : Z)
    (priv : gk104_fifo_priv) (chan : gk104_fifo_chan) :
  channel priv !! ch = Some chan ->
  exists priv',
    gk104_fifo_sched_ctxsw_recover hw (Some eng) ch priv = Some priv'
    /\ channel priv' = <[ch := set_state KILLED chan]> (channel priv)
    /\ priv_engine priv' = priv_engine priv
    /\ fault_merged eng ch 0 priv priv'
    /\ exists evs, trace priv' = trace priv ++ evs
         /\ EvChanDisable (chid chan) ∈ evs
         /\ EvUeventFault (chid chan) ∈ evs
         /\ EvQueueWork ∈ evs.
Proof.
  intros Hch. unfold gk104_fifo_sched_ctxsw_recover. rewrite Hch. simpl.
  match goal with
  | |- context [gk104_fifo_mmu_fault_recover hw eng ch 0 ?p] =>
      destruct (mmu_fault_recover_eq hw eng ch 0 p chan)
        as (priv' & Hrec & Hchan & Hengn & Hmerge & evs & Htr & Hevs)
  end.
  { destruct (nv_wait hw _ _ _); exact Hch. }
  exists priv'. split; [exact Hrec |].
  destruct (nv_wait hw _ _ _) eqn:Hw; simpl in *;
    (split; [exact Hchan |]); (split; [exact Hengn |]);
    (split; [exact Hmerge |]);
    (eexists; split;
       [rewrite Htr, <- !app_assoc; reflexivity
       | destruct Hevs as (? & ? & ?); split; [| split]; elem_tac]).
Qed.

(** ** The per-channel watchdog *)



(** ** The channel constructor *)

Lemma ctor_engine_scan_spec (hw : hw_env) (req : Z) (engines : list (Z * Z)) :
  0 <= req < 2 ^ 32 ->
  forall i0, 0 <= i0 ->
  let r := ctor_engine_scan hw req engines i0 in
  i0 <= r <= i0 + Z.of_nat (length engines)
  /\ (forall j e, i0 <= j < r ->
        engines !! Z.to_nat (j - i0) = Some e ->
        Z.testbit req j = true ->
        nvkm_engine_of hw (fst e) = None)
  /\ (r < i0 + Z.of_nat (length engines) ->
        Z.testbit req r = true
        /\ exists e, engines !! Z.to_nat (r - i0) = Some e
                     /\ is_Some (nvkm_engine_of hw (fst e))).
Proof.
  intros Hreq. induction engines as [| e engines IH]; intros i0 Hi0; simpl.
  - split; [lia |]. split; [intros; lia | intros; lia].
  - rewrite land_bit_test by lia.
    destruct (Z.testbit req i0
              && bool_decide (is_Some (nvkm_engine_of hw (fst e)))) eqn:Hsel.
    + apply andb_true_iff in Hsel as [Hbit Hdev].
      apply bool_decide_eq_true in Hdev.
      split; [lia |]. split; [intros; lia |].
      intros _. split; [exact Hbit |].
      exists e. rewrite Z.sub_diag. simpl. auto.
    + destruct (IH (i0 + 1) ltac:(lia)) as (Hrange & Hbelow & Hat).
      split; [lia |]. split.
      * intros j e' Hj He' Hbit.
        destruct (Z.eq_dec j i0) as [-> | Hne].
        -- rewrite Z.sub_diag in He'. simpl in He'. injection He' as <-.
           rewrite Hbit in Hsel. simpl in Hsel.
           apply bool_decide_eq_false in Hsel.
           destruct (nvkm_engine_of hw (fst e)) eqn:Hd; [| reflexivity].
           exfalso. apply Hsel. eauto.
        -- apply (Hbelow j e'); [lia | | exact Hbit].
           replace (Z.to_nat (j - i0)) with (S (Z.to_nat (j - (i0 + 1))))
             in He' by lia.
           exact He'.
      * intros Hlt. destruct Hat as (Hbit & e' & He' & Hd); [lia |].
        split; [exact Hbit |]. exists e'. split; [| exact Hd].
        replace (Z.to_nat (ctor_engine_scan hw req engines (i0 + 1) - i0))
          with (S (Z.to_nat
                     (ctor_engine_scan hw req engines (i0 + 1) - (i0 + 1))))
          by lia.
        exact He'.
Qed.

(** C7.  On a request that unpacks, the constructor takes its
    unsupported-engine exit (returns [-ENODEV], stores no object and
    leaves the channel table alone) exactly when the request mask names
    no engine of the implementation's list that the device exposes.
    Otherwise, when the allocator has produced the channel, the channel
    is entered with the lowest named and exposed index as its engine, a
    limit of 5000 ms and a stall counter of zero, and the constructor
    returns 0. *)
Theorem chan_ctor_engine (hw : hw_env) (user_addr : Z)
    (create : Z * gk104_fifo_chan) (args : kepler_channel_gpfifo_a_v0)
    (priv : gk104_fifo_priv) :
  v0_unpack args = 0 ->
  0 <= v0_engine args < 2 ^ 32 ->
  let r := gk104_fifo_chan_ctor hw user_addr create args priv in
  let named := names_exposed hw (oclass priv) (v0_engine args) in
  ((ctor_ret r = - ENODEV /\ ctor_pobject r = None
    /\ channel (ctor_priv r) = channel priv)
   <-> ~ exists i, named i)
  /\ (forall i, named i -> (forall j, named j -> i <= j) ->
      fst create = 0 ->
      ctor_ret r = 0
      /\ ctor_pobject r = Some (chid (snd create))
      /\ exists chan,
           channel (ctor_priv r) !! chid (snd create) = Some chan
           /\ engine chan = i
           /\ limit_ms (timeout chan) = 5000
           /\ sum_ms (timeout chan) = 0).
Proof.
  intros Hun Hreq r named. subst r named.
  unfold gk104_fifo_chan_ctor. rewrite Hun. simpl.
  pose proof (ctor_engine_scan_spec hw (v0_engine args)
                (impl_engine (oclass priv)) Hreq 0 ltac:(lia)) as Hscan.
  simpl in Hscan. fold (num_engine (oclass priv)) in Hscan.
  set (i := ctor_engine_scan hw (v0_engine args)
              (impl_engine (oclass priv)) 0) in *.
  destruct Hscan as (Hrange & Hbelow & Hat).
  assert (Hnone : i = num_engine (oclass priv) -> ~ exists k,
             names_exposed hw (oclass priv) (v0_engine args) k).
  { intros Hi (k & Hk & Hbit & e & He & Hd).
    rewrite (Hbelow k e) in Hd; [destruct Hd; discriminate | lia | | exact Hbit].
    rewrite Z.sub_0_r. exact He. }
  assert (Hsome : i <> num_engine (oclass priv) ->
             names_exposed hw (oclass priv) (v0_engine args) i
             /\ forall k, names_exposed hw (oclass priv) (v0_engine args) k ->
                          i <= k).
  { intros Hi. destruct Hat as (Hbit & e & He & Hd); [lia |].
    rewrite Z.sub_0_r in He. split.
    - split; [lia |]. split; [exact Hbit |]. eauto.
    - intros k (Hk & Hkbit & e' & He' & Hd').
      destruct (Z.lt_ge_cases k i) as [Hlt | Hge]; [| exact Hge].
      rewrite (Hbelow k e') in Hd'; [destruct Hd'; discriminate | lia | | done].
      rewrite Z.sub_0_r. exact He'. }
  destruct (Z.eqb_spec i (num_engine (oclass priv))) as [Heq | Hne]; simpl.
  - split.
    + split; [intros _; auto | intros _; auto].
    + intros k Hk. exfalso. apply (Hnone Heq). eauto.
  - destruct (Hsome Hne) as (Hnamed & Hleast). split.
    + split.
      * intros (Hret & Hobj & _). exfalso.
        destruct (fst create =? 0); simpl in Hobj; discriminate.
      * intros Hno. exfalso. apply Hno. eauto.
    + intros k Hk Hkleast Hcreate. rewrite Hcreate. simpl.
      split; [reflexivity |]. split; [reflexivity |].
      eexists. split; [apply lookup_insert_eq |]. simpl.
      split; [| split; reflexivity].
      pose proof (Hleast k Hk). pose proof (Hkleast i Hnamed). lia.
Qed.

Lemma chan_ctor_engine_witness :
  let r := gk104_fifo_chan_ctor hw_only11 0x100000 (0, chan_fresh 4)
             (args_engine 0x23) priv3 in
  ctor_ret r = 0
  /\ ctor_pobject r = Some 4
  /\ exists chan,
       channel (ctor_priv r) !! 4 = Some chan
       /\ engine chan = 1
       /\ limit_ms (timeout chan) = 5000
       /\ sum_ms (timeout chan) = 0.
Proof.
  assert (Hnamed : forall j,
             names_exposed hw_only11 (oclass priv3) 0x23 j -> j = 1).
  { intros j ((Hj0 & Hj2) & _ & e & He & Hd).
    change (num_engine (oclass priv3)) with 2 in Hj2.
    assert (j = 0 \/ j = 1) as [-> | ->] by lia; [| reflexivity].
    simpl in He. injection He as <-. destruct Hd; discriminate. }
  apply (proj2 (chan_ctor_engine hw_only11 0x100000 (0, chan_fresh 4)
                  (args_engine 0x23) priv3 eq_refl ltac:(simpl; lia)) 1).
  - split; [change (num_engine (oclass priv3)) with 2; lia |].
    split; [reflexivity |]. exists (11, 0). split; [reflexivity |].
    simpl. eauto.
  - intros j Hj. rewrite (Hnamed j Hj). lia.
  - reflexivity.
Defined.

(** ** Run-list rebuild *)

Lemma runs_on_spec (priv : gk104_fifo_priv) (engn_id i : Z) :
  runs_on priv engn_id i = true <-> running_on priv engn_id i.
Proof.
  unfold runs_on, running_on. destruct (channel priv !! i) as [chan |].
  - rewrite andb_true_iff, bool_decide_eq_true, Z.eqb_eq. split.
    + intros [Hs He]. eauto.
    + intros (c & [= <-] & Hs & He). auto.
  - split; [discriminate | intros (c & Hc & _); discriminate].
Qed.

Lemma nv_ro32_wo32 (o : nvkm_gpuobj) (off val off' : Z) :
  nv_ro32 (nv_wo32 o off val) off'
  = if decide (off = off') then val else nv_ro32 o off'.
Proof.
  unfold nv_ro32, nv_wo32. simpl. case_decide as Hoff.
  - subst. rewrite lookup_insert_eq. reflexivity.
  - rewrite lookup_insert_ne by done. reflexivity.
Qed.

Lemma runlist_entries_cons (o : nvkm_gpuobj) (first n : Z) :
  0 <= n ->
  runlist_entries o first (n + 1)
  = (nv_ro32 o (8 * first), nv_ro32 o (8 * first + 4))
    :: runlist_entries o (first + 1) n.
Proof.
  intros Hn. unfold runlist_entries. rewrite seqZ_cons by lia. simpl.
  do 3 f_equal; lia.
Qed.

(** The scan writes the selected ids, in the order of the scan, as
    consecutive entries and touches nothing below its starting entry. *)
Lemma runlist_scan (priv : gk104_fifo_priv) (engn_id : Z) (l : list Z) :
  forall (o : nvkm_gpuobj) (k : Z), 0 <= k ->
  let r := foldl (runlist_entry priv engn_id) (o, 8 * k) l in
  let ids := filter (λ i, runs_on priv engn_id i = true) l in
  snd r = 8 * (k + Z.of_nat (length ids))
  /\ addr (fst r) = addr o
  /\ (forall off, off < 8 * k -> nv_ro32 (fst r) off = nv_ro32 o off)
  /\ runlist_entries (fst r) k (Z.of_nat (length ids)) = (λ i, (i, 0)) <$> ids.
Proof.
  induction l as [| i l IH]; intros o k Hk; simpl.
  - split; [lia |]. split; [reflexivity |]. split; [reflexivity |].
    unfold runlist_entries. rewrite seqZ_nil by lia. reflexivity.
  - assert (Hsel : runlist_entry priv engn_id (o, 8 * k) i
                   = if runs_on priv engn_id i
                     then (nv_wo32 (nv_wo32 o (8 * k + 0) i) (8 * k + 4) 0,
                           8 * (k + 1))
                     else (o, 8 * k)).
    { unfold runlist_entry, runs_on. simpl.
      destruct (channel priv !! i) as [chan |]; [| reflexivity].
      destruct (_ && _); [| reflexivity]. f_equal. lia. }
    rewrite Hsel. rewrite filter_cons.
    destruct (runs_on priv engn_id i) eqn:Hrun.
    + rewrite decide_True by done.
      destruct (IH (nv_wo32 (nv_wo32 o (8 * k + 0) i) (8 * k + 4) 0) (k + 1)
                  ltac:(lia)) as (Hp & Ha & Hlow & Hent).
      simpl in *. split; [rewrite Hp; lia |]. split; [exact Ha |]. split.
      * intros off Hoff. rewrite Hlow by lia.
        rewrite !nv_ro32_wo32. rewrite !decide_False by lia. reflexivity.
      * replace (Z.of_nat (S (length (filter
                   (λ i0, runs_on priv engn_id i0 = true) l))))
          with (Z.of_nat (length (filter
                   (λ i0, runs_on priv engn_id i0 = true) l)) + 1) by lia.
        rewrite runlist_entries_cons by lia. rewrite Hent. f_equal.
        rewrite !Hlow by lia. rewrite !nv_ro32_wo32.
        rewrite (decide_False (P := 8 * k + 4 = 8 * k)) by lia.
        rewrite !decide_True by lia. reflexivity.
    + rewrite decide_False by discriminate.
      apply IH. exact Hk.
Qed.

Lemma StronglySorted_seqZ (m n : Z) : StronglySorted Z.lt (seqZ m n).
Proof.
  destruct (Z.le_gt_cases n 0) as [Hn | Hn].
  { rewrite seqZ_nil by lia. constructor. }
  rewrite <- (Z2Nat.id n) by lia. generalize (Z.to_nat n) as k. clear.
  intros k. revert m. induction k as [| k IH]; intros m.
  - constructor.
  - rewrite seqZ_cons by lia. constructor.
    + replace (Z.pred (Z.of_nat (S k))) with (Z.of_nat k) by lia. apply IH.
    + apply Forall_forall. intros x Hx. apply elem_of_seqZ in Hx. lia.
Qed.

Lemma StronglySorted_filter_lt (P : Z -> Prop) `{!forall x, Decision (P x)}
    (l : list Z) :
  StronglySorted Z.lt l -> StronglySorted Z.lt (filter P l).
Proof.
  induction 1 as [| x l Hl IH Hx]; [constructor |].
  rewrite filter_cons. case_decide; [| exact IH].
  constructor; [exact IH |].
  apply Forall_forall. intros y Hy. apply list_elem_of_filter in Hy as [_ Hy].
  rewrite Forall_forall in Hx. auto.
Qed.

(** One rebuild, spelled out. *)
Lemma runlist_update_spec (hw : hw_env) (engn_id : Z)
    (priv : gk104_fifo_priv) (engn : gk104_fifo_engn) :
  priv_engine priv !! engn_id = Some engn ->
  let ids := filter (λ i, runs_on priv engn_id i = true)
               (seqZ 0 (base_max priv)) in
  exists priv' engn',
    gk104_fifo_runlist_update hw engn_id priv = Some priv'
    /\ channel priv' = channel priv
    /\ (mask priv', fault_chan priv', fault_unit priv', mmu_fault priv')
       = (mask priv, fault_chan priv, fault_unit priv, mmu_fault priv)
    /\ (oclass priv', base_min priv', base_max priv')
       = (oclass priv, base_min priv, base_max priv)
    /\ priv_engine priv' = <[engn_id := engn']> (priv_engine priv)
    /\ cur_runlist engn' = negb (cur_runlist engn)
    /\ runlist_at engn' (negb (cur_runlist engn))
       = runlist_at engn (negb (cur_runlist engn))
    /\ addr (runlist_at engn' (cur_runlist engn))
       = addr (runlist_at engn (cur_runlist engn))
    /\ runlist_entries (runlist_at engn' (cur_runlist engn)) 0
         (Z.of_nat (length ids))
       = (λ i, (i, 0)) <$> ids
    /\ exists evs,
         trace priv' = trace priv ++ evs
         /\ EvWr32 0x002270
              (u32 (Z.shiftr (addr (runlist_at engn (cur_runlist engn))) 12)) ∈ evs
         /\ EvWr32 0x002274
              (u32 (Z.lor (Z.shiftl engn_id 20) (Z.of_nat (length ids)))) ∈ evs
         /\ EvQueueWork ∉ evs.
Proof.
  intros Hengn ids. unfold gk104_fifo_runlist_update. rewrite Hengn. simpl.
  assert (Hfold : forall p0 : gk104_fifo_priv,
             channel p0 = channel priv -> base_max p0 = base_max priv ->
             foldl (runlist_entry p0 engn_id)
               (runlist_at engn (cur_runlist engn), 0) (seqZ 0 (base_max p0))
             = foldl (runlist_entry priv engn_id)
                 (runlist_at engn (cur_runlist engn), 8 * 0)
                 (seqZ 0 (base_max priv))).
  { intros p0 Hc Hm. rewrite Hm. f_equal.
    unfold runlist_entry. rewrite Hc. reflexivity. }
  destruct (runlist_scan priv engn_id (seqZ 0 (base_max priv))
              (runlist_at engn (cur_runlist engn)) 0 ltac:(lia))
    as (Hp & Ha & _ & Hent).
  fold ids in Hp, Hent. simpl in Hp.
  set (r := foldl (runlist_entry priv engn_id)
              (runlist_at engn (cur_runlist engn), 8 * 0)
              (seqZ 0 (base_max priv))) in *.
  assert (Hcount : Z.shiftr (snd r) 3 = Z.of_nat (length ids)).
  { rewrite Hp, Z.shiftr_div_pow2 by lia.
    change (2 ^ 3) with 8. rewrite Z.mul_comm, Z_div_mult; lia. }
  destruct (pmu_acquire_mutex hw =? 0) eqn:Hm;
    rewrite Hfold by reflexivity;
    destruct (runlist_wait_event hw engn_id =? 0) eqn:Hw; simpl;
    eexists;
    exists {| runlist := if cur_runlist engn then (fst (runlist engn), fst r)
                         else (fst r, snd (runlist engn));
              cur_runlist := negb (cur_runlist engn) |};
    (split; [reflexivity |]); simpl;
    (split; [reflexivity |]); (split; [reflexivity |]);
    (split; [reflexivity |]); (split; [reflexivity |]);
    (split; [reflexivity |]);
    (split; [destruct (cur_runlist engn); reflexivity |]);
    (split; [destruct (cur_runlist engn); simpl; exact Ha |]);
    (split; [destruct (cur_runlist engn); simpl; exact Hent |]);
    rewrite <- Hcount, <- Ha;
    (eexists; split;
       [rewrite <- ?app_assoc; reflexivity
       | split; [| split; [| not_elem_tac]];
         destruct (cur_runlist engn); simpl; elem_tac]).
Qed.

(** C4.  A rebuild for an engine writes, into the buffer that
    [cur_runlist] designates (the one not submitted last), one entry
    [(id, 0)] per channel that is [RUNNING] on that engine, in
    increasing id order and without repetition, submits exactly these
    entries to the hardware (buffer address and entry count), leaves the
    other buffer as it is and flips [cur_runlist], so that the next
    rebuild writes the other buffer and leaves this one alone.  The scan
    covers the ids below [priv->base.max], which are all the channels
    when the table holds none at or above it. *)
Theorem runlist_update_rebuild (hw : hw_env) (engn_id : Z)
    (priv : gk104_fifo_priv) (engn : gk104_fifo_engn) :
  priv_engine priv !! engn_id = Some engn ->
  exists priv' engn' ids,
    gk104_fifo_runlist_update hw engn_id priv = Some priv'
    /\ priv_engine priv' !! engn_id = Some engn'
    /\ channel priv' = channel priv
    (* what is written and submitted *)
    /\ runlist_entries (runlist_at engn' (cur_runlist engn)) 0
         (Z.of_nat (length ids))
       = (λ i, (i, 0)) <$> ids
    /\ (exists evs,
         trace priv' = trace priv ++ evs
         /\ EvWr32 0x002270
              (u32 (Z.shiftr (addr (runlist_at engn' (cur_runlist engn))) 12)) ∈ evs
         /\ EvWr32 0x002274
              (u32 (Z.lor (Z.shiftl engn_id 20) (Z.of_nat (length ids)))) ∈ evs)
    /\ NoDup ids
    /\ StronglySorted Z.lt ids
    /\ (forall i, i ∈ ids <-> 0 <= i < base_max priv /\ running_on priv engn_id i)
    /\ ((forall i chan, channel priv !! i = Some chan ->
                        0 <= i < base_max priv) ->
        forall i, i ∈ ids <-> running_on priv engn_id i)
    (* the swap *)
    /\ cur_runlist engn' = negb (cur_runlist engn)
    /\ runlist_at engn' (negb (cur_runlist engn))
       = runlist_at engn (negb (cur_runlist engn))
    /\ forall hw2, exists priv'' engn'',
         gk104_fifo_runlist_update hw2 engn_id priv' = Some priv''
         /\ priv_engine priv'' !! engn_id = Some engn''
         /\ cur_runlist engn'' = cur_runlist engn
         /\ runlist_at engn'' (cur_runlist engn)
            = runlist_at engn' (cur_runlist engn).
Proof.
  intros Hengn.
  destruct (runlist_update_spec hw engn_id priv engn Hengn)
    as (priv' & engn' & Hrun & Hchan & _ & _ & Hpe & Hcur & Hother & Haddr
        & Hent & evs & Htr & Hw1 & Hw2 & _).
  assert (Hengn' : priv_engine priv' !! engn_id = Some engn')
    by (rewrite Hpe; apply lookup_insert_eq).
  assert (Hmem : forall i,
             i ∈ filter (λ i, runs_on priv engn_id i = true)
                   (seqZ 0 (base_max priv))
             <-> 0 <= i < base_max priv /\ running_on priv engn_id i).
  { intros i. rewrite list_elem_of_filter, elem_of_seqZ, runs_on_spec.
    split; intros [? ?]; split; auto; lia. }
  exists priv', engn', (filter (λ i, runs_on priv engn_id i = true)
                          (seqZ 0 (base_max priv))).
  split; [exact Hrun |]. split; [exact Hengn' |]. split; [exact Hchan |].
  split; [exact Hent |].
  split; [exists evs; rewrite Haddr; auto |].
  split; [apply NoDup_filter, NoDup_seqZ |].
  split; [apply StronglySorted_filter_lt, StronglySorted_seqZ |].
  split; [exact Hmem |].
  split.
  { intros Hwf i. rewrite Hmem. split; [tauto |].
    intros Hi. split; [| exact Hi].
    destruct Hi as (chan & Hc & _). eauto. }
  split; [exact Hcur |]. split; [exact Hother |].
  intros hw2.
  destruct (runlist_update_spec hw2 engn_id priv' engn' Hengn')
    as (priv'' & engn'' & Hrun2 & _ & _ & _ & Hpe2 & Hcur2 & Hother2 & _).
  exists priv'', engn''. split; [exact Hrun2 |].
  split; [rewrite Hpe2; apply lookup_insert_eq |].
  rewrite Hcur in Hcur2, Hother2. rewrite negb_involutive in Hcur2, Hother2.
  auto.
Qed.

Lemma runlist_update_rebuild_witness :
  exists priv' engn',
    gk104_fifo_runlist_update (hw_get 0) 0 priv_mixed = Some priv'
    /\ priv_engine priv' !! 0 = Some engn'
    /\ runlist_entries (runlist_at engn' false) 0 2 = [(1, 0); (5, 0)]
    /\ cur_runlist engn' = true.
Proof.
  destruct (runlist_update_rebuild (hw_get 0) 0 priv_mixed
              (fresh_engn 0x10000) eq_refl)
    as (priv' & engn' & ids & Hrun & Hengn & _ & Hent & _ & Hnodup & Hsort
        & Hmem & Hall & Hcur & _).
  assert (Hids : forall i, i ∈ ids <-> i = 1 \/ i = 5).
  { intros i. rewrite Hall.
    - rewrite <- runs_on_spec. split.
      + intros Hr. destruct (decide (i = 1)) as [-> | H1]; [auto |].
        destruct (decide (i = 5)) as [-> | H5]; [auto |].
        exfalso. unfold runs_on in Hr.
        destruct (decide (i = 2)) as [-> | H2]; [discriminate |].
        destruct (decide (i = 3)) as [-> | H3]; [discriminate |].
        destruct (decide (i = 4)) as [-> | H4]; [discriminate |].
        change (channel priv_mixed) with
          (<[1 := chan_on 1 0 RUNNING]> (<[2 := chan_on 2 0 STOPPED]>
            (<[3 := chan_on 3 0 KILLED]> (<[4 := chan_on 4 1 RUNNING]>
              (<[5 := chan_on 5 0 RUNNING]> (∅ : gmap Z gk104_fifo_chan))))))
          in Hr.
        rewrite !lookup_insert_ne, lookup_empty in Hr by done. discriminate.
      + intros [-> | ->]; reflexivity.
    - intros i0 chan Hi0.
      change (channel priv_mixed) with
        (<[1 := chan_on 1 0 RUNNING]> (<[2 := chan_on 2 0 STOPPED]>
          (<[3 := chan_on 3 0 KILLED]> (<[4 := chan_on 4 1 RUNNING]>
            (<[5 := chan_on 5 0 RUNNING]> (∅ : gmap Z gk104_fifo_chan))))))
        in Hi0.
      change (base_max priv_mixed) with 7.
      repeat (apply lookup_insert_Some in Hi0 as [[<- _] | [_ Hi0]]; [lia |]).
      rewrite lookup_empty in Hi0. discriminate. }
  assert (Heq : ids = [1; 5]).
  { apply (StronglySorted_unique_strong Z.lt); [intros; lia | exact Hsort | |].
    - repeat constructor; lia.
    - apply NoDup_Permutation; [exact Hnodup | |].
      + repeat constructor; not_elem_tac.
      + intros x. rewrite Hids. rewrite !elem_of_cons, elem_of_nil. tauto. }
  subst ids. exists priv', engn'.
  split; [exact Hrun |]. split; [exact Hengn |].
  split; [exact Hent |]. exact Hcur.
Defined.

(** ** The watchdog restart scan *)

Lemma same_device_refl (priv : gk104_fifo_priv) : same_device priv priv.
Proof. repeat split. Qed.

Lemma same_device_trans (p1 p2 p3 : gk104_fifo_priv) :
  same_device p1 p2 -> same_device p2 p3 -> same_device p1 p3.
Proof.
  unfold same_device. intros (? & ? & ? & ? & ? & ? & ? & ?)
    (? & ? & ? & ? & ? & ? & ? & ?).
  repeat split; congruence.
Qed.

Lemma set_watchdog_work_same (c : gk104_fifo_chan) :
  set_timeout (set_watchdog_work (watchdog_work (timeout c))) c = c.
Proof. destruct c as [? ? ? []]. reflexivity. Qed.

Lemma restart_chan_state (exception i : Z) (c : gk104_fifo_chan) :
  state (restart_chan exception i c) = state c.
Proof. unfold restart_chan. destruct (watchdog_inited _); reflexivity. Qed.

Lemma fmap_state_restart (exception k : Z) (o : option gk104_fifo_chan) :
  state <$> (restart_chan exception k <$> o) = state <$> o.
Proof.
  destruct o as [c |]; simpl; [rewrite restart_chan_state |]; reflexivity.
Qed.

Lemma restart_events_agree (exception : Z) (p1 p2 : gk104_fifo_priv)
    (ids : list Z) :
  (forall k, k ∈ ids -> channel p2 !! k = channel p1 !! k) ->
  restart_events exception p2 ids = restart_events exception p1 ids.
Proof.
  intros Hag. unfold restart_events. f_equal.
  apply list_fmap_ext. intros n k Hk.
  rewrite Hag by (eapply list_elem_of_lookup_2; exact Hk). reflexivity.
Qed.

(** The scan over a prefix on which every cancel succeeds. *)
Lemma restart_scan_prefix (exception : Z) (pre rest : list Z) :
  forall priv : gk104_fifo_priv,
  NoDup (pre ++ rest) ->
  (forall i, i ∈ pre -> ~ cancel_fails priv i) ->
  exists priv1,
    restart_scan exception (pre ++ rest) priv
    = restart_scan exception rest priv1
    /\ same_device priv priv1
    /\ (forall k, channel priv1 !! k
                  = if decide (k ∈ pre)
                    then restart_chan exception k <$> channel priv !! k
                    else channel priv !! k)
    /\ trace priv1 = trace priv ++ restart_events exception priv pre.
Proof.
  induction pre as [| i pre IH]; intros priv Hnd Hok.
  - exists priv. split; [reflexivity |]. split; [apply same_device_refl |].
    split.
    + intros k. rewrite decide_False by apply not_elem_of_nil. reflexivity.
    + unfold restart_events. simpl. rewrite app_nil_r. reflexivity.
  - simpl in Hnd. apply NoDup_cons in Hnd as [Hi Hnd].
    assert (Hstep : exists priv0,
               restart_scan exception ((i :: pre) ++ rest) priv
               = restart_scan exception (pre ++ rest) priv0
               /\ same_device priv priv0
               /\ (forall k, channel priv0 !! k
                             = if decide (k = i)
                               then restart_chan exception k
                                      <$> channel priv !! k
                               else channel priv !! k)
               /\ trace priv0
                  = trace priv ++ restart_events exception priv [i]).
    { simpl. unfold restart_events. simpl. rewrite app_nil_r.
      destruct (channel priv !! i) as [c |] eqn:Hc.
      - destruct (watchdog_inited (timeout c)) eqn:Hinit; simpl.
        + destruct (watchdog_work (timeout c)) eqn:Hwork.
          * simpl. destruct (i =? exception) eqn:Hex.
            -- eexists. split; [reflexivity |]. split; [repeat split |].
               split; [| reflexivity].
               intros k. simpl. case_decide as Hk.
               ++ subst k. rewrite lookup_insert_eq, Hc. simpl.
                  unfold restart_chan. rewrite Hinit, Hex. reflexivity.
               ++ rewrite lookup_insert_ne by done. reflexivity.
            -- eexists. split; [reflexivity |]. split; [repeat split |].
               split; [| simpl; rewrite <- app_assoc; reflexivity].
               intros k. simpl. case_decide as Hk.
               ++ subst k. rewrite lookup_insert_eq, Hc. simpl.
                  unfold restart_chan. rewrite Hinit, Hex. reflexivity.
               ++ rewrite !lookup_insert_ne by done. reflexivity.
          * exfalso. apply (Hok i); [left |]. exists c. auto.
        + exists priv. split; [reflexivity |].
          split; [apply same_device_refl |].
          split; [| rewrite app_nil_r; reflexivity].
          intros k. case_decide as Hk; [| reflexivity].
          subst k. rewrite Hc. simpl. unfold restart_chan.
          rewrite Hinit. reflexivity.
      - exists priv. split; [reflexivity |].
        split; [apply same_device_refl |].
        split; [| rewrite app_nil_r; reflexivity].
        intros k. case_decide as Hk; [| reflexivity].
        subst k. rewrite Hc. reflexivity. }
    destruct Hstep as (priv0 & Hscan0 & Hdev0 & Hch0 & Htr0).
    assert (Hag : forall k, k ∈ pre ++ rest ->
                            channel priv0 !! k = channel priv !! k).
    { intros k Hk. rewrite Hch0. rewrite decide_False; [reflexivity |].
      intros ->. contradiction. }
    destruct (IH priv0 Hnd) as (priv1 & Hscan1 & Hdev1 & Hch1 & Htr1).
    { intros k Hk (c & Hc & Hinit & Hwork). apply (Hok k); [right; exact Hk |].
      exists c. rewrite <- Hag by (apply elem_of_app; auto). auto. }
    exists priv1. split; [rewrite Hscan0; exact Hscan1 |].
    split; [eapply same_device_trans; eassumption |]. split.
    + intros k. rewrite Hch1, Hch0.
      destruct (decide (k = i)) as [-> | Hki].
      * rewrite decide_False by (intros Hin; apply Hi, elem_of_app; auto).
        rewrite decide_True by left. reflexivity.
      * destruct (decide (k ∈ pre)) as [Hin | Hnin].
        -- rewrite decide_True by (right; exact Hin). reflexivity.
        -- rewrite decide_False; [reflexivity |].
           intros Hin. apply elem_of_cons in Hin as [? | ?]; contradiction.
    + rewrite Htr1, Htr0, <- app_assoc. f_equal.
      rewrite (restart_events_agree exception priv priv0 pre)
        by (intros k Hk; apply Hag, elem_of_app; auto).
      unfold restart_events. simpl. rewrite app_nil_r. reflexivity.
Qed.

(** Every cancel succeeds: the scan returns [true]. *)
Lemma restart_scan_ok (exception : Z) (ids : list Z) (priv : gk104_fifo_priv) :
  NoDup ids ->
  (forall i, i ∈ ids -> ~ cancel_fails priv i) ->
  exists priv1,
    restart_scan exception ids priv = (true, priv1)
    /\ same_device priv priv1
    /\ (forall k, channel priv1 !! k
                  = if decide (k ∈ ids)
                    then restart_chan exception k <$> channel priv !! k
                    else channel priv !! k)
    /\ trace priv1 = trace priv ++ restart_events exception priv ids.
Proof.
  intros Hnd Hok.
  destruct (restart_scan_prefix exception ids [] priv) as (priv1 & H1 & H2);
    [rewrite app_nil_r; exact Hnd | exact Hok |].
  rewrite app_nil_r in H1. exists priv1. split; [exact H1 | exact H2].
Qed.

(** The first cancel that fails ends the scan with [false]; the slots
    before it have been restarted, the others are as they were. *)
Lemma restart_scan_fail (exception : Z) (pre : list Z) (j : Z)
    (post : list Z) (priv : gk104_fifo_priv) :
  NoDup (pre ++ j :: post) ->
  (forall i, i ∈ pre -> ~ cancel_fails priv i) ->
  cancel_fails priv j ->
  exists priv1,
    restart_scan exception (pre ++ j :: post) priv = (false, priv1)
    /\ same_device priv priv1
    /\ (forall k, channel priv1 !! k
                  = if decide (k ∈ pre)
                    then restart_chan exception k <$> channel priv !! k
                    else channel priv !! k)
    /\ trace priv1
       = trace priv ++ restart_events exception priv pre
         ++ [EvCancelDelayedWork j].
Proof.
  intros Hnd Hok (c & Hc & Hinit & Hwork).
  destruct (restart_scan_prefix exception pre (j :: post) priv Hnd Hok)
    as (priv1 & Hscan & Hdev & Hch & Htr).
  assert (Hj : j ∉ pre).
  { intros Hin. apply NoDup_app in Hnd as (_ & Hdis & _).
    apply (Hdis j Hin). left. }
  assert (Hc1 : channel priv1 !! j = Some c).
  { rewrite Hch, decide_False by exact Hj. exact Hc. }
  assert (Hsame : set_timeout (set_watchdog_work false) c = c)
    by (rewrite <- Hwork; apply set_watchdog_work_same).
  rewrite Hscan. simpl. rewrite Hc1, Hinit, Hwork. simpl. rewrite Hsame.
  eexists. split; [reflexivity |]. split; [exact Hdev |]. split.
  - intros k. simpl. destruct (decide (k = j)) as [-> | Hkj].
    + rewrite lookup_insert_eq, decide_False by exact Hj. auto.
    + rewrite lookup_insert_ne by done. apply Hch.
  - simpl. rewrite Htr, <- app_assoc. reflexivity.
Qed.

Lemma first_cancel_failure (priv : gk104_fifo_priv) (ids : list Z) (j : Z) :
  j ∈ ids -> cancel_fails priv j ->
  exists pre j0 post,
    ids = pre ++ j0 :: post
    /\ cancel_fails priv j0
    /\ forall i, i ∈ pre -> ~ cancel_fails priv i.
Proof.
  induction ids as [| i ids IH]; intros Hj Hfail.
  - apply elem_of_nil in Hj. contradiction.
  - destruct (decide (cancel_fails priv i)) as [Hi | Hi].
    + exists [], i, ids. split; [reflexivity |]. split; [exact Hi |].
      intros k Hk. apply elem_of_nil in Hk. contradiction.
    + apply elem_of_cons in Hj as [-> | Hj]; [contradiction |].
      destruct (IH Hj Hfail) as (pre & j0 & post & -> & Hj0 & Hpre).
      exists (i :: pre), j0, post. split; [reflexivity |].
      split; [exact Hj0 |].
      intros k Hk. apply elem_of_cons in Hk as [-> | Hk]; auto.
Qed.

Lemma seqZ_split_at (m n j : Z) (pre post : list Z) :
  seqZ m n = pre ++ j :: post ->
  (forall k, k ∈ pre <-> m <= k < j) /\ m <= j < m + n.
Proof.
  intros Heq.
  pose proof (StronglySorted_seqZ m n) as Hs. rewrite Heq in Hs.
  apply StronglySorted_app in Hs as (Hlt & _ & Hs2).
  apply StronglySorted_cons in Hs2 as [Hpost _].
  assert (Hin : forall k, k ∈ pre ++ j :: post <-> m <= k < m + n)
    by (intros k; rewrite <- Heq; apply elem_of_seqZ).
  assert (Hjr : m <= j < m + n)
    by (apply Hin, elem_of_app; right; left).
  split; [| exact Hjr]. intros k. split.
  - intros Hk. split.
    + apply Hin, elem_of_app. auto.
    + apply (Hlt k j Hk). left.
  - intros Hk. assert (Hk' : k ∈ pre ++ j :: post) by (apply Hin; lia).
    apply elem_of_app in Hk' as [Hk' | Hk']; [exact Hk' |].
    apply elem_of_cons in Hk' as [-> | Hk']; [lia |].
    rewrite Forall_forall in Hpost. specialize (Hpost k Hk'). lia.
Qed.

Lemma restart_events_no_queue (exception : Z) (priv : gk104_fifo_priv)
    (ids : list Z) :
  EvQueueWork ∉ restart_events exception priv ids.
Proof.
  unfold restart_events. induction ids as [| i ids IH]; simpl.
  - apply not_elem_of_nil.
  - intros Hin. apply elem_of_app in Hin as [Hin | Hin]; [| auto].
    destruct (channel priv !! i) as [c |]; [| by apply elem_of_nil in Hin].
    destruct (watchdog_inited (timeout c)); [| by apply elem_of_nil in Hin].
    destruct (i =? exception); revert Hin; not_elem_tac.
Qed.

(** The restart scan when some cancel fails, in full. *)
Lemma restart_all_fail (priv : gk104_fifo_priv) (exception j : Z) :
  base_min priv <= j < base_max priv ->
  cancel_fails priv j ->
  exists j0 priv1,
    base_min priv <= j0 <= j
    /\ cancel_fails priv j0
    /\ (forall i, base_min priv <= i < j0 -> ~ cancel_fails priv i)
    /\ gk104_fifo_chan_timeout_restart_all priv exception = (false, priv1)
    /\ same_device priv priv1
    /\ (forall k, channel priv1 !! k
                  = if decide (base_min priv <= k < j0)
                    then restart_chan exception k <$> channel priv !! k
                    else channel priv !! k)
    /\ trace priv1
       = trace priv
         ++ restart_events exception priv
              (seqZ (base_min priv) (j0 - base_min priv))
         ++ [EvCancelDelayedWork j0].
Proof.
  intros Hj Hfail. unfold gk104_fifo_chan_timeout_restart_all.
  set (ids := seqZ (base_min priv) (base_max priv - base_min priv)).
  assert (Hjin : j ∈ ids) by (apply elem_of_seqZ; lia).
  destruct (first_cancel_failure priv ids j Hjin Hfail)
    as (pre & j0 & post & Hids & Hj0 & Hpre).
  destruct (seqZ_split_at _ _ _ _ _ Hids) as [Hmem Hj0r].
  assert (Hle : j0 <= j).
  { destruct (Z.le_gt_cases j0 j) as [? | Hgt]; [assumption |].
    exfalso. apply (Hpre j); [apply Hmem; lia | exact Hfail]. }
  assert (Hpre_eq : pre = seqZ (base_min priv) (j0 - base_min priv)).
  { pose proof (seqZ_app (base_min priv) (j0 - base_min priv)
                  (base_max priv - j0) ltac:(lia) ltac:(lia)) as Happ.
    replace (j0 - base_min priv + (base_max priv - j0))
      with (base_max priv - base_min priv) in Happ by lia.
    fold ids in Happ. rewrite Hids in Happ.
    apply app_inj_1 in Happ as [Hp _]; [exact Hp |].
    rewrite length_seqZ.
    assert (Hnd : NoDup pre).
    { pose proof (NoDup_seqZ (base_min priv)
                    (base_max priv - base_min priv)) as Hnd0.
      fold ids in Hnd0. rewrite Hids in Hnd0.
      apply NoDup_app in Hnd0 as (? & _). assumption. }
    assert (Hperm : pre ≡ₚ seqZ (base_min priv) (j0 - base_min priv)).
    { apply NoDup_Permutation; [exact Hnd | apply NoDup_seqZ |].
      intros k. rewrite Hmem, elem_of_seqZ. lia. }
    rewrite Hperm, length_seqZ. reflexivity. }
  destruct (restart_scan_fail exception pre j0 post priv)
    as (priv1 & Hscan & Hdev & Hch & Htr); [| exact Hpre | exact Hj0 |].
  { rewrite <- Hids. apply NoDup_seqZ. }
  exists j0, priv1. split; [lia |]. split; [exact Hj0 |].
  split; [intros i Hi; apply Hpre, Hmem; lia |].
  split; [rewrite Hids; exact Hscan |]. split; [exact Hdev |]. split.
  - intros k. rewrite Hch.
    destruct (decide (k ∈ pre)) as [Hin | Hnin].
    + rewrite decide_True by (apply Hmem; exact Hin). reflexivity.
    + rewrite decide_False; [reflexivity |].
      intros Hk. apply Hnin, Hmem. exact Hk.
  - rewrite Htr, Hpre_eq. reflexivity.
Qed.

(** ** The context-switch timeout monitor *)

Lemma update_timeout_frame (hw : hw_env) (c : gk104_fifo_chan) (dt : Z) :
  let c' := fst (gk104_fifo_update_timeout hw c dt) in
  state c' = state c
  /\ chid c' = chid c
  /\ engine c' = engine c
  /\ limit_ms (timeout c') = limit_ms (timeout c)
  /\ watchdog_inited (timeout c') = watchdog_inited (timeout c)
  /\ watchdog_work (timeout c') = watchdog_work (timeout c)
  /\ snd (gk104_fifo_update_timeout hw c dt)
     = (limit_ms (timeout c) <? sum_ms (timeout c')).
Proof.
  unfold gk104_fifo_update_timeout.
  destruct (negb _); simpl; repeat split.
Qed.


Lemma cancel_fails_put (priv : gk104_fifo_priv) (id : Z)
    (c c' : gk104_fifo_chan) (evs : list event) (i : Z) :
  channel priv !! id = Some c ->
  watchdog_inited (timeout c') = watchdog_inited (timeout c) ->
  watchdog_work (timeout c') = watchdog_work (timeout c) ->
  cancel_fails (emit evs (put_chan id c' priv)) i <-> cancel_fails priv i.
Proof.
  intros Hc Hi Hw. unfold cancel_fails. simpl.
  destruct (decide (i = id)) as [-> | Hne].
  - rewrite lookup_insert_eq, Hc. split.
    + intros (x & [= <-] & ? & ?). exists c. split; [done |]. split; congruence.
    + intros (x & [= <-] & ? & ?). exists c'. split; [done |]. split; congruence.
  - rewrite lookup_insert_ne by done. reflexivity.
Qed.






(** ** A monitor pass while a watchdog callback is running *)

Lemma no_recovery_refl (priv : gk104_fifo_priv) : no_recovery priv priv.
Proof.
  repeat split. exists []. rewrite app_nil_r. split; [done | not_elem_tac].
Qed.

Lemma no_recovery_trans (p1 p2 p3 : gk104_fifo_priv) :
  no_recovery p1 p2 -> no_recovery p2 p3 -> no_recovery p1 p3.
Proof.
  intros (Hm1 & Hu1 & Hc1 & Hw1 & Hs1 & evs1 & Ht1 & Hq1)
         (Hm2 & Hu2 & Hc2 & Hw2 & Hs2 & evs2 & Ht2 & Hq2).
  split; [congruence |]. split; [congruence |]. split; [congruence |].
  split; [congruence |]. split.
  - intros ch. rewrite Hs2. apply Hs1.
  - exists (evs1 ++ evs2). split.
    + rewrite Ht2, Ht1, app_assoc. reflexivity.
    + intros Hin. apply elem_of_app in Hin as [? | ?]; contradiction.
Qed.

(** With a cancel bound to fail among the ids the restart scan visits,
    the turn for an engine never reaches the recovery, and the failing
    watchdog is still there afterwards. *)
Lemma sched_ctxsw_engn_blocked (hw : hw_env) (engn : Z)
    (priv : gk104_fifo_priv) :
  (exists j, base_min priv <= j < base_max priv /\ cancel_fails priv j) ->
  exists priv',
    sched_ctxsw_engn hw engn priv = Some priv'
    /\ no_recovery priv priv'
    /\ (oclass priv', base_min priv', base_max priv')
       = (oclass priv, base_min priv, base_max priv)
    /\ exists j, base_min priv' <= j < base_max priv' /\ cancel_fails priv' j.
Proof.
  intros (j & Hj & Hfail).
  assert (Hsame : exists priv',
             Some priv = Some priv' /\ no_recovery priv priv'
             /\ (oclass priv', base_min priv', base_max priv')
                = (oclass priv, base_min priv, base_max priv)
             /\ exists j, base_min priv' <= j < base_max priv'
                          /\ cancel_fails priv' j).
  { exists priv. split; [reflexivity |]. split; [apply no_recovery_refl |].
    split; [reflexivity |]. eauto. }
  unfold sched_ctxsw_engn.
  set (id := if _ =? CTXSW_STATUS_LOAD then _ else _).
  destruct (negb _ && _); [| exact Hsame].
  destruct (channel priv !! id) as [chan |] eqn:Hch; [| exact Hsame].
  destruct (gk104_fifo_engine hw priv engn) as [eng |]; [| exact Hsame].
  destruct (update_timeout_frame hw chan GRFIFO_TIMEOUT_CHECK_PERIOD_MS)
    as (Hst & _ & _ & _ & Hinit & Hwork & _).
  set (checked := gk104_fifo_update_timeout hw chan
                    GRFIFO_TIMEOUT_CHECK_PERIOD_MS) in *.
  cbv zeta. clearbody checked. destruct checked as [chan1 over].
  simpl in Hst, Hinit, Hwork. simpl fst. simpl snd.
  destruct over.
  - set (priv0 := emit [EvEevent id NOUVEAU_GEM_CHANNEL_FIFO_ERROR_IDLE_TIMEOUT]
                    (put_chan id chan1 priv)).
    destruct (restart_all_fail priv0 id j)
      as (j0 & priv1 & Hj0 & Hfail0 & _ & Hall & Hdev & Hch1 & Htr1).
    { exact Hj. }
    { unfold priv0. apply (cancel_fails_put priv id chan chan1); assumption. }
    rewrite Hall. simpl. exists priv1. split; [reflexivity |].
    destruct Hdev as (Ho & Hmin & Hmax & _ & Hm & Hfc & Hfu & Hmf).
    simpl in *. split; [| split].
    + repeat split; try assumption.
      * intros k. unfold chan_state_of. rewrite Hch1.
        assert (Hk0 : state <$> channel priv0 !! k = state <$> channel priv !! k).
        { apply (chan_state_of_put_same id chan1 priv chan k Hch Hst). }
        case_decide; [rewrite fmap_state_restart |]; exact Hk0.
      * eexists. split; [rewrite Htr1; simpl; rewrite <- app_assoc; done |].
        intros Hin. apply elem_of_cons in Hin as [? | Hin]; [discriminate |].
        apply elem_of_app in Hin as [Hin | Hin].
        -- exact (restart_events_no_queue _ _ _ Hin).
        -- revert Hin. not_elem_tac.
    + congruence.
    + exists j0. split; [lia |].
      destruct Hfail0 as (c & Hc & Hci & Hcw). exists c.
      rewrite Hch1, decide_False by lia. auto.
  - eexists. split; [reflexivity |]. split; [| split; [reflexivity |]].
    + repeat split. simpl.
      * intros k. rewrite chan_state_of_emit.
        apply (chan_state_of_put_same _ _ _ chan); assumption.
      * eexists. split; [reflexivity | not_elem_tac].
    + exists j. split; [exact Hj |].
      apply (cancel_fails_put priv id chan chan1); assumption.
Qed.

Lemma sched_ctxsw_loop_blocked (hw : hw_env) (engns : list Z) :
  forall priv : gk104_fifo_priv,
  (exists j, base_min priv <= j < base_max priv /\ cancel_fails priv j) ->
  exists priv',
    sched_ctxsw_loop hw engns priv = Some priv' /\ no_recovery priv priv'.
Proof.
  induction engns as [| engn engns IH]; intros priv Hfail; simpl.
  - exists priv. split; [reflexivity | apply no_recovery_refl].
  - destruct (sched_ctxsw_engn_blocked hw engn priv Hfail)
      as (priv1 & Hrun & Hno & _ & Hfail1).
    rewrite Hrun. simpl.
    destruct (IH priv1 Hfail1) as (priv' & Hloop & Hno').
    exists priv'. split; [exact Hloop |].
    eapply no_recovery_trans; eassumption.
Qed.

Lemma restart_events_within (exception : Z) (priv : gk104_fifo_priv)
    (ids : list Z) (e : event) :
  e ∈ restart_events exception priv ids ->
  exists i, i ∈ ids
            /\ (e = EvCancelDelayedWork i
                \/ e = EvScheduleDelayedWork i GRFIFO_CHAN_WATCHDOG_TIMEOUT_MS).
Proof.
  unfold restart_events. induction ids as [| i ids IH]; simpl.
  - intros Hin. apply elem_of_nil in Hin. destruct Hin.
  - rewrite elem_of_app. intros [Hin | Hin].
    + exists i. split; [left |].
      destruct (channel priv !! i) as [c |];
        [| apply elem_of_nil in Hin; destruct Hin].
      destruct (watchdog_inited (timeout c));
        [| apply elem_of_nil in Hin; destruct Hin].
      apply elem_of_cons in Hin as [-> | Hin]; [left; reflexivity |].
      destruct (i =? exception);
        [apply elem_of_nil in Hin; destruct Hin |].
      apply elem_of_cons in Hin as [-> | Hin]; [right; reflexivity |].
      apply elem_of_nil in Hin. destruct Hin.
    + destruct (IH Hin) as (k & Hk & He). exists k. split; [right |]; auto.
Qed.

(** The ids the restart scan visits, whatever its outcome: those from
    [priv->base.min] up to, but excluding, [priv->base.max]. *)
Lemma restart_all_range (priv : gk104_fifo_priv) (exception : Z) :
  exists r priv1 evs,
    gk104_fifo_chan_timeout_restart_all priv exception = (r, priv1)
    /\ trace priv1 = trace priv ++ evs
    /\ (forall k, ~ base_min priv <= k < base_max priv ->
          channel priv1 !! k = channel priv !! k)
    /\ (forall e i, e ∈ evs ->
          e = EvCancelDelayedWork i
          \/ e = EvScheduleDelayedWork i GRFIFO_CHAN_WATCHDOG_TIMEOUT_MS ->
          base_min priv <= i < base_max priv)
    /\ (r = false
        <-> exists j, base_min priv <= j < base_max priv /\ cancel_fails priv j).
Proof.
  set (ids := seqZ (base_min priv) (base_max priv - base_min priv)).
  assert (Hids : forall k, k ∈ ids <-> base_min priv <= k < base_max priv).
  { intros k. unfold ids. rewrite elem_of_seqZ. lia. }
  destruct (decide (Exists (cancel_fails priv) ids)) as [Hex | Hnone].
  - apply Exists_exists in Hex as (j & Hj & Hfail). apply Hids in Hj.
    destruct (restart_all_fail priv exception j Hj Hfail)
      as (j0 & priv1 & Hj0 & Hfail0 & _ & Hall & _ & Hch1 & Htr1).
    exists false, priv1. eexists.
    split; [exact Hall |]. split; [exact Htr1 |]. split; [| split].
    + intros k Hk. rewrite Hch1, decide_False by lia. reflexivity.
    + intros e i Hin He. apply elem_of_app in Hin as [Hin | Hin].
      * apply restart_events_within in Hin as (k & Hk & He').
        apply elem_of_seqZ in Hk.
        assert (i = k) by (destruct He as [-> | ->], He' as [He' | He'];
                           congruence).
        lia.
      * apply elem_of_cons in Hin as [-> | Hin];
          [| apply elem_of_nil in Hin; destruct Hin].
        destruct He as [He | He]; [injection He as <-; lia | discriminate].
    + split; [eauto | reflexivity].
  - destruct (restart_scan_ok exception ids priv)
      as (priv1 & Hscan & _ & Hch1 & Htr1).
    { apply NoDup_seqZ. }
    { intros i Hi Hfail. apply Hnone, Exists_exists. eauto. }
    exists true, priv1. eexists.
    split; [exact Hscan |]. split; [exact Htr1 |]. split; [| split].
    + intros k Hk. rewrite Hch1, decide_False; [reflexivity |].
      rewrite Hids. exact Hk.
    + intros e i Hin He.
      apply restart_events_within in Hin as (k & Hk & He').
      apply Hids in Hk.
      assert (i = k) by (destruct He as [-> | ->], He' as [He' | He'];
                         congruence).
      lia.
    + split; [discriminate |].
      intros (j & Hj & Hfail). exfalso.
      apply Hnone, Exists_exists. exists j. rewrite Hids. auto.
Qed.

(** C10, as amended.  When the cancel of an armed watchdog fails, the
    restart scan stops at the first such channel and returns [false],
    and a monitor pass in that state never invokes the recovery.  Each
    armed watchdog the scan came past before has been cancelled and
    scheduled again, except that of the exception channel, which stays
    cancelled; every other slot is as it was.  The scan never visits
    the id [priv->base.max] (nor any id outside the range from
    [priv->base.min] up to it): whatever the outcome, that slot is as
    it was, no watchdog work of an id outside the range is cancelled or
    scheduled, and the scan returns [false] only for a cancel that
    fails strictly below [priv->base.max], so that a watchdog at
    [priv->base.max] whose cancel would fail does not stop it. *)
Theorem restart_cancel_failure (priv : gk104_fifo_priv) (exception : Z) :
  (forall j,
     base_min priv <= j < base_max priv ->
     cancel_fails priv j ->
     exists j0 priv1,
       base_min priv <= j0 <= j
       /\ cancel_fails priv j0
       /\ gk104_fifo_chan_timeout_restart_all priv exception = (false, priv1)
       /\ (forall k c, base_min priv <= k < j0 ->
             channel priv !! k = Some c ->
             watchdog_inited (timeout c) = true ->
             exists c', channel priv1 !! k = Some c'
                        /\ watchdog_work (timeout c') = negb (k =? exception))
       /\ trace priv1
          = trace priv
            ++ restart_events exception priv
                 (seqZ (base_min priv) (j0 - base_min priv))
            ++ [EvCancelDelayedWork j0]
       /\ (forall k, ~ base_min priv <= k < j0 ->
             channel priv1 !! k = channel priv !! k)
       /\ channel priv1 !! base_max priv = channel priv !! base_max priv
       /\ forall hw, exists priv',
            gk104_fifo_intr_sched_ctxsw hw priv = Some priv'
            /\ no_recovery priv priv')
  /\ exists r priv1 evs,
       gk104_fifo_chan_timeout_restart_all priv exception = (r, priv1)
       /\ trace priv1 = trace priv ++ evs
       /\ channel priv1 !! base_max priv = channel priv !! base_max priv
       /\ (forall k, ~ base_min priv <= k < base_max priv ->
             channel priv1 !! k = channel priv !! k)
       /\ (forall e i, e ∈ evs ->
             e = EvCancelDelayedWork i
             \/ e = EvScheduleDelayedWork i GRFIFO_CHAN_WATCHDOG_TIMEOUT_MS ->
             base_min priv <= i < base_max priv)
       /\ (r = false
           <-> exists j, base_min priv <= j < base_max priv
                         /\ cancel_fails priv j).
Proof.
  split.
  - intros j Hj Hfail.
    destruct (restart_all_fail priv exception j Hj Hfail)
      as (j0 & priv1 & Hj0 & Hfail0 & _ & Hall & _ & Hch1 & Htr1).
    exists j0, priv1. split; [exact Hj0 |]. split; [exact Hfail0 |].
    split; [exact Hall |]. split; [| split; [exact Htr1 |]].
    + intros k c Hk Hc Hinit. rewrite Hch1, decide_True, Hc by exact Hk.
      eexists. split; [reflexivity |].
      unfold restart_chan. rewrite Hinit. reflexivity.
    + split; [| split].
      * intros k Hk. rewrite Hch1, decide_False by exact Hk. reflexivity.
      * rewrite Hch1, decide_False by lia. reflexivity.
      * intros hw. apply sched_ctxsw_loop_blocked. eauto.
  - destruct (restart_all_range priv exception)
      as (r & priv1 & evs & Hall & Htr & Hout & Hevs & Hr).
    exists r, priv1, evs. split; [exact Hall |]. split; [exact Htr |].
    split; [apply Hout; lia |]. auto.
Qed.

Lemma restart_cancel_failure_witness :
  (exists priv1,
     gk104_fifo_chan_timeout_restart_all priv_blocked 3 = (false, priv1)
     /\ (exists c', channel priv1 !! 1 = Some c'
                    /\ watchdog_work (timeout c') = true)
     /\ trace priv1
        = [EvCancelDelayedWork 1; EvScheduleDelayedWork 1 10000;
           EvCancelDelayedWork 2]
     /\ exists priv',
          gk104_fifo_intr_sched_ctxsw hw_stall priv_blocked = Some priv'
          /\ no_recovery priv_blocked priv')
  /\ cancel_fails priv_edge (base_max priv_edge)
  /\ exists priv1,
       gk104_fifo_chan_timeout_restart_all priv_edge 3 = (true, priv1)
       /\ channel priv1 !! 7 = Some (chan_watched 7 0 false).
Proof.
  split; [| split].
  - destruct (proj1 (restart_cancel_failure priv_blocked 3) 2)
      as (j0 & priv1 & Hj0 & Hfail0 & Hall & Hpre & Htr & _ & _ & Hpass).
    + change (base_min priv_blocked) with 0.
      change (base_max priv_blocked) with 7. lia.
    + exists (chan_watched 2 0 false). repeat split.
    + change (base_min priv_blocked) with 0 in *.
      assert (Hj2 : j0 = 2).
      { destruct (decide (j0 = 2)) as [? | Hne]; [assumption |].
        exfalso. destruct Hfail0 as (c & Hc & Hinit & Hwork).
        assert (j0 = 0 \/ j0 = 1) as [-> | ->] by lia;
          vm_compute in Hc; [discriminate |].
        injection Hc as <-. discriminate. }
      subst j0. exists priv1. split; [exact Hall |]. split.
      * apply (Hpre 1 (chan_watched 1 0 true)); [lia | reflexivity..].
      * split; [exact Htr | apply Hpass].
  - exists (chan_watched 7 0 false). repeat split.
  - destruct (proj2 (restart_cancel_failure priv_edge 3))
      as (r & priv1 & evs & Hall & _ & Hmax & _ & _ & Hr).
    exists priv1. split; [| exact Hmax].
    rewrite Hall. f_equal.
    destruct r; [reflexivity |]. exfalso.
    destruct (proj1 Hr eq_refl) as (j & Hj & c & Hc & Hinit & Hwork).
    change (base_min priv_edge) with 0 in Hj.
    change (base_max priv_edge) with 7 in Hj.
    assert (j = 0 \/ j = 1 \/ j = 2 \/ j = 3 \/ j = 4 \/ j = 5 \/ j = 6)
      as [-> | [-> | [-> | [-> | [-> | [-> | ->]]]]]] by lia;
      vm_compute in Hc;
      first [discriminate Hc | injection Hc as <-; discriminate].
Defined.

(** C10, as stated, fails: the watchdog of channel 1, which the scan
    came past before the cancel for channel 2 failed, has been
    scheduled again. *)
Lemma restart_reschedules_counterexample :
  cancel_fails priv_blocked 2
  /\ exists priv1 c1,
       gk104_fifo_chan_timeout_restart_all priv_blocked 3 = (false, priv1)
       /\ trace priv1
          = [EvCancelDelayedWork 1;
             EvScheduleDelayedWork 1 GRFIFO_CHAN_WATCHDOG_TIMEOUT_MS;
             EvCancelDelayedWork 2]
       /\ channel priv1 !! 1 = Some c1
       /\ watchdog_work (timeout c1) = true.
Proof.
  split; [exists (chan_watched 2 0 false); repeat split |].
  eexists. eexists. split; [vm_compute; reflexivity |].
  split; [reflexivity |]. split; [vm_compute; reflexivity | reflexivity].
Qed.

(** ** The asynchronous half of the recovery *)

Lemma ffs_from_spec (n : nat) :
  forall i x b, i <= b < i + Z.of_nat n -> Z.testbit x b = true ->
  let r := ffs_from n i x in
  i <= r <= b /\ Z.testbit x r = true.
Proof.
  induction n as [| n IH]; intros i x b Hb Hbit; simpl.
  - lia.
  - destruct (Z.testbit x i) eqn:Hi.
    + split; [lia | exact Hi].
    + destruct (Z.eq_dec b i) as [-> | Hne]; [congruence |].
      destruct (IH (i + 1) x b ltac:(lia) Hbit) as [Hr Hrb].
      split; [lia | exact Hrb].
Qed.

Lemma int_shl1_bit (engn : Z) :
  0 <= engn < 32 -> Z.testbit (int_shl1 engn) engn = true.
Proof.
  intros Hr. unfold int_shl1. rewrite Z.shiftl_1_l.
  destruct (Z.eq_dec engn 31) as [-> | Hne]; [reflexivity |].
  assert (2 ^ engn < 2 ^ 31) by (apply Z.pow_lt_mono_r; lia).
  assert (0 < 2 ^ engn) by (apply Z.pow_pos_nonneg; lia).
  rewrite Z.mod_small by lia.
  replace (2 ^ engn + 2 ^ 31 - 2 ^ 31) with (2 ^ engn) by lia.
  apply Z.pow2_bits_true. lia.
Qed.

(** The loop header visits set bits of the mask only, and comes to an
    end on a mask below [2^32]. *)
Lemma todo_engines_total (fuel : nat) :
  forall todo lo,
  0 <= todo -> 0 <= lo ->
  (forall b, 32 <= b -> Z.testbit todo b = false) ->
  (forall b, 0 <= b < lo -> Z.testbit todo b = false) ->
  32 - lo < Z.of_nat fuel ->
  exists engns,
    todo_engines fuel todo = Some engns
    /\ forall e, e ∈ engns -> Z.testbit todo e = true.
Proof.
  induction fuel as [| fuel IH]; intros todo lo Hnn Hlo Hhigh Hlow Hfuel.
  - assert (Hz : todo = 0).
    { apply Z.bits_inj'. intros b Hb. rewrite Z.bits_0.
      destruct (Z.lt_ge_cases b lo); [apply Hlow | apply Hhigh]; lia. }
    subst todo. exists []. split; [reflexivity |].
    intros e He. apply elem_of_nil in He. contradiction.
  - simpl. destruct (Z.eqb_spec todo 0) as [Hz | Hnz].
    { exists []. split; [reflexivity |].
      intros e He. apply elem_of_nil in He. contradiction. }
    assert (Hpos : 0 < todo) by lia.
    pose proof (Z.bit_log2 todo Hpos) as Hlog.
    assert (Hloglt : 0 <= Z.log2 todo < 32).
    { split; [apply Z.log2_nonneg |].
      destruct (Z.lt_ge_cases (Z.log2 todo) 32) as [? | Hge]; [assumption |].
      rewrite (Hhigh _ Hge) in Hlog. discriminate. }
    destruct (ffs_from_spec 64 0 todo (Z.log2 todo) ltac:(lia) Hlog)
      as [Hr Hrbit].
    fold (__ffs64 todo) in Hr, Hrbit.
    set (engn := __ffs64 todo) in *.
    assert (Hlo_engn : lo <= engn).
    { destruct (Z.le_gt_cases lo engn) as [? | Hgt]; [assumption |].
      rewrite Hlow in Hrbit by lia. discriminate. }
    set (todo' := Z.land todo (u64 (Z.lnot (int_shl1 engn)))).
    assert (Hbits : forall b, Z.testbit todo' b = true ->
                              Z.testbit todo b = true /\ b <> engn).
    { intros b Hb. unfold todo' in Hb. rewrite Z.land_spec in Hb.
      apply andb_true_iff in Hb as [Hb1 Hb2]. split; [exact Hb1 |].
      intros ->. unfold u64 in Hb2.
      rewrite Z.mod_pow2_bits_low, Z.lnot_spec, int_shl1_bit in Hb2 by lia.
      discriminate. }
    destruct (IH todo' (engn + 1)) as (engns & Heng & Hin).
    + unfold todo'. apply Z.land_nonneg. auto.
    + lia.
    + intros b Hb. destruct (Z.testbit todo' b) eqn:Hbt; [| reflexivity].
      apply Hbits in Hbt as [Hbt _]. rewrite Hhigh in Hbt by lia. discriminate.
    + intros b Hb. destruct (Z.testbit todo' b) eqn:Hbt; [| reflexivity].
      apply Hbits in Hbt as [Hbt Hne].
      destruct (Z.lt_ge_cases b engn) as [Hlt | Hge]; [| lia].
      destruct (ffs_from_spec 64 0 todo b ltac:(lia) Hbt) as [Hr' _].
      fold (__ffs64 todo) in Hr'. fold engn in Hr'. lia.
    + lia.
    + fold todo'. rewrite Heng. simpl. eexists. split; [reflexivity |].
      intros e He. apply elem_of_cons in He as [-> | He]; [exact Hrbit |].
      apply Hbits. apply Hin. exact He.
Qed.

Lemma runlist_update_inv (hw : hw_env) (engn_id : Z)
    (priv priv' : gk104_fifo_priv) :
  gk104_fifo_runlist_update hw engn_id priv = Some priv' ->
  channel priv' = channel priv
  /\ (mask priv', fault_chan priv', fault_unit priv', mmu_fault priv')
     = (mask priv, fault_chan priv, fault_unit priv, mmu_fault priv)
  /\ (oclass priv', base_min priv', base_max priv')
     = (oclass priv, base_min priv, base_max priv)
  /\ (forall e, is_Some (priv_engine priv !! e) ->
                is_Some (priv_engine priv' !! e))
  /\ exists evs, trace priv' = trace priv ++ evs /\ EvQueueWork ∉ evs.
Proof.
  intros Hrun.
  destruct (priv_engine priv !! engn_id) as [engn |] eqn:Hengn.
  - destruct (runlist_update_spec hw engn_id priv engn Hengn)
      as (p & engn' & Hrun' & Hch & Hrec & Hdev & Hpe & _ & _ & _ & _
          & evs & Htr & _ & _ & Hq).
    rewrite Hrun in Hrun'. injection Hrun' as <-.
    split; [exact Hch |]. split; [exact Hrec |]. split; [exact Hdev |].
    split; [| eauto].
    intros e He. rewrite Hpe.
    destruct (decide (engn_id = e)) as [-> | Hne].
    + rewrite lookup_insert_eq. eauto.
    + rewrite lookup_insert_ne by done. exact He.
  - unfold gk104_fifo_runlist_update in Hrun. rewrite Hengn in Hrun.
    discriminate.
Qed.

Lemma rebuild_frame_refl (priv : gk104_fifo_priv) : rebuild_frame priv priv.
Proof.
  repeat split; auto.
  exists []. rewrite app_nil_r. split; [done | not_elem_tac].
Qed.

Lemma rebuild_frame_trans (p1 p2 p3 : gk104_fifo_priv) :
  rebuild_frame p1 p2 -> rebuild_frame p2 p3 -> rebuild_frame p1 p3.
Proof.
  intros (Hc1 & Hr1 & Hd1 & He1 & evs1 & Ht1 & Hq1)
         (Hc2 & Hr2 & Hd2 & He2 & evs2 & Ht2 & Hq2).
  split; [congruence |]. split; [congruence |]. split; [congruence |].
  split; [auto |].
  exists (evs1 ++ evs2). split.
  - rewrite Ht2, Ht1, app_assoc. reflexivity.
  - intros Hin. apply elem_of_app in Hin as [? | ?]; contradiction.
Qed.

Lemma rebuild_frame_emit (evs : list event) (priv : gk104_fifo_priv) :
  EvQueueWork ∉ evs -> rebuild_frame priv (emit evs priv).
Proof.
  intros Hq. repeat split; auto. exists evs. split; [reflexivity | exact Hq].
Qed.

Lemma rebuild_frame_emit_if (b : bool) (evs : list event)
    (priv : gk104_fifo_priv) :
  EvQueueWork ∉ evs -> rebuild_frame priv (if b then emit evs priv else priv).
Proof.
  intros Hq. destruct b; [apply rebuild_frame_emit, Hq | apply rebuild_frame_refl].
Qed.

Section recovery_work.
Context `{nvdev_idx}.

Lemma runlist_update_all_inv (hw : hw_env) (engns : list Z) :
  forall priv priv' : gk104_fifo_priv,
  runlist_update_all hw engns priv = Some priv' -> rebuild_frame priv priv'.
Proof.
  induction engns as [| engn engns IH]; intros priv priv' Hrun; simpl in Hrun.
  - injection Hrun as <-. apply rebuild_frame_refl.
  - destruct (gk104_fifo_runlist_update hw _ priv) as [p1 |] eqn:H1;
      [| discriminate].
    simpl in Hrun. eapply rebuild_frame_trans; [| apply (IH _ _ Hrun)].
    apply (runlist_update_inv _ _ _ _ H1).
Qed.

Lemma runlist_update_all_total (hw : hw_env) (engns : list Z) :
  forall priv : gk104_fifo_priv,
  (forall e, e ∈ engns ->
     is_Some (priv_engine priv !! u32 (gk104_fifo_engidx e))) ->
  exists priv', runlist_update_all hw engns priv = Some priv'.
Proof.
  induction engns as [| engn engns IH]; intros priv Hslots; simpl.
  - eauto.
  - destruct (Hslots engn ltac:(left)) as [slot Hslot].
    destruct (runlist_update_spec hw _ priv slot Hslot)
      as (p1 & _ & Hrun & _).
    rewrite Hrun. simpl. apply IH.
    intros e He.
    apply (runlist_update_inv _ _ _ _ Hrun). apply Hslots. right. exact He.
Qed.

Lemma reset_events_quiet (hw : hw_env) (engns : list Z) :
  EvQueueWork ∉
    concat (map (λ engn,
                   match nvkm_engine_of hw engn with
                   | Some _ => [EvLog (LogResettingEngine engn);
                                EvEngineFini engn; EvEngineInit engn]
                   | None => []
                   end) engns).
Proof.
  induction engns as [| e engns IHe]; simpl; [not_elem_tac |].
  intros Hin. apply elem_of_app in Hin as [Hin | Hin]; [| auto].
  destruct (nvkm_engine_of hw e); revert Hin; not_elem_tac.
Qed.

Ltac frame_tac :=
  repeat first
    [ apply rebuild_frame_refl
    | eapply rebuild_frame_trans;
        [| apply rebuild_frame_emit;
           first [ apply reset_events_quiet | not_elem_tac ] ] ].

(** The work after the record has been taken leaves the record, the
    pending bit and the channels alone. *)
Lemma recover_engines_inv (hw : hw_env) (msk : Z) (chan : option Z)
    (unit : Z) (priv priv' : gk104_fifo_priv) :
  recover_engines hw msk chan unit priv = Some priv' ->
  rebuild_frame priv priv'.
Proof.
  unfold recover_engines. intros Hrun.
  destruct (todo_engines 64 msk) as [engns |]; [| discriminate].
  simpl in Hrun.
  match type of Hrun with
  | context [runlist_update_all hw engns ?p] =>
      destruct (runlist_update_all hw engns p) as [p2 |] eqn:Hall;
        [| discriminate];
      assert (Hpre : rebuild_frame priv p)
  end.
  { destruct (has_disable_clk_gating hw);
      destruct (existsb _ engns && has_halt_fecs hw); frame_tac. }
  simpl in Hrun. injection Hrun as <-.
  eapply rebuild_frame_trans; [exact Hpre |].
  eapply rebuild_frame_trans; [apply (runlist_update_all_inv _ _ _ _ Hall) |].
  destruct (has_enable_clk_gating hw);
    destruct ((0 <=? pm_runtime_get_sync hw)
              || (pm_runtime_get_sync hw =? - EACCES)); frame_tac.
Qed.

Lemma recover_work_inv (hw : hw_env) (priv priv' : gk104_fifo_priv) :
  gk104_fifo_mmu_fault_recover_work hw priv = Some priv' ->
  channel priv' = channel priv
  /\ (mask priv', fault_chan priv', fault_unit priv') = (0, None, 0)
  /\ mmu_fault priv' = mmu_fault priv.
Proof.
  change (gk104_fifo_mmu_fault_recover_work hw priv)
    with (recover_engines hw (mask priv) (fault_chan priv) (fault_unit priv)
            (set_fault 0 None 0 priv)).
  intros Hrun. apply recover_engines_inv in Hrun as (Hch & Hrec & _).
  change ((mask priv', fault_chan priv', fault_unit priv', mmu_fault priv')
          = (0, None, 0, mmu_fault priv)) in Hrec.
  injection Hrec as Hm Hc Hu Hw.
  split; [exact Hch |]. split; [congruence | exact Hw].
Qed.

Lemma recover_engines_total (hw : hw_env) (msk : Z) (chan : option Z)
    (unit : Z) (priv : gk104_fifo_priv) :
  mask_recoverable priv msk ->
  exists priv', recover_engines hw msk chan unit priv = Some priv'.
Proof.
  intros [Hmsk Hslots]. unfold recover_engines.
  destruct (todo_engines_total 64 msk 0) as (engns & Heng & Hin);
    [lia | lia | | intros; lia | lia |].
  { intros b Hb. destruct (Z.eq_dec msk 0) as [-> | Hnz]; [apply Z.bits_0 |].
    apply Z.bits_above_log2; [lia |].
    assert (Z.log2 msk < 32) by (apply Z.log2_lt_pow2; lia). lia. }
  rewrite Heng. simpl.
  match goal with
  | |- context [runlist_update_all hw engns ?p] =>
      destruct (runlist_update_all_total hw engns p) as (p2 & Hall)
  end.
  { intros e He. destruct (has_disable_clk_gating hw);
      destruct (_ && has_halt_fecs hw); simpl; apply Hslots, Hin, He. }
  rewrite Hall. simpl. eauto.
Qed.

Lemma runlist_update_events (hw : hw_env) (engn_id : Z)
    (priv priv' : gk104_fifo_priv) :
  gk104_fifo_runlist_update hw engn_id priv = Some priv' ->
  exists evs,
    trace priv' = trace priv ++ evs /\ forall e, e ∈ evs -> runlist_event e.
Proof.
  unfold gk104_fifo_runlist_update.
  destruct (priv_engine priv !! engn_id) as [engn |]; [| discriminate].
  cbn [mbind option_bind]. cbv zeta.
  destruct (pmu_acquire_mutex hw =? 0), (runlist_wait_event hw engn_id =? 0);
    intros Hrun; injection Hrun as <-; cbn [trace emit set_priv_engine];
    (eexists; split; [rewrite <- ?app_assoc; reflexivity |]);
    intros e He;
    repeat (apply elem_of_app in He as [He | He]
            || apply elem_of_cons in He as [-> | He]);
    try (apply elem_of_nil in He; destruct He);
    simpl; auto.
Qed.

Lemma runlist_update_all_events (hw : hw_env) (engns : list Z) :
  forall priv priv' : gk104_fifo_priv,
  runlist_update_all hw engns priv = Some priv' ->
  exists evs,
    trace priv' = trace priv ++ evs /\ forall e, e ∈ evs -> runlist_event e.
Proof.
  induction engns as [| engn engns IH]; intros priv priv' Hrun; simpl in Hrun.
  - injection Hrun as <-. exists []. split; [symmetry; apply app_nil_r |].
    intros e He. apply elem_of_nil in He. destruct He.
  - destruct (gk104_fifo_runlist_update hw _ priv) as [p1 |] eqn:H1;
      [| discriminate].
    simpl in Hrun.
    destruct (runlist_update_events _ _ _ _ H1) as (evs1 & Ht1 & He1).
    destruct (IH _ _ Hrun) as (evs2 & Ht2 & He2).
    exists (evs1 ++ evs2). split; [rewrite Ht2, Ht1, app_assoc; reflexivity |].
    intros e He. apply elem_of_app in He as [He | He]; auto.
Qed.

(** What a pass of the recovery work shows of the locals it works on:
    the engines it resets are those its loop header finds in [msk], and
    the unit mask it acknowledges is [unit]. *)
Lemma recover_engines_trace (hw : hw_env) (msk : Z) (chan : option Z)
    (unit : Z) (priv priv' : gk104_fifo_priv) :
  recover_engines hw msk chan unit priv = Some priv' ->
  exists engns evs,
    todo_engines 64 msk = Some engns
    /\ trace priv' = trace priv ++ evs
    /\ (forall v, EvWr32 0x00259c v ∈ evs <-> v = unit)
    /\ (forall e, EvEngineFini e ∈ evs
                  <-> e ∈ engns /\ is_Some (nvkm_engine_of hw e)).
Proof.
  unfold recover_engines. intros Hrun.
  destruct (todo_engines 64 msk) as [engns |]; [| discriminate].
  cbn [mbind option_bind] in Hrun. cbv zeta in Hrun.
  match type of Hrun with
  | context [runlist_update_all hw engns ?p] =>
      destruct (runlist_update_all hw engns p) as [p2 |] eqn:Hall;
        [| discriminate]
  end.
  cbn [mbind option_bind] in Hrun. injection Hrun as <-.
  destruct (runlist_update_all_events _ _ _ _ Hall) as (evs1 & Ht1 & He1).
  assert (Hfini : forall e,
            EvEngineFini e
            ∈ concat (map (λ engn,
                             match nvkm_engine_of hw engn with
                             | Some _ => [EvLog (LogResettingEngine engn);
                                          EvEngineFini engn; EvEngineInit engn]
                             | None => []
                             end) engns)
            <-> e ∈ engns /\ is_Some (nvkm_engine_of hw e)).
  { intros e. rewrite elem_of_concat_map. split.
    - intros (x & Hx & Hin). destruct (nvkm_engine_of hw x) eqn:Hex;
        [| apply elem_of_nil in Hin; destruct Hin].
      assert (e = x) by (revert Hin; rewrite !elem_of_cons, elem_of_nil;
                         intros [? | [? | [? | []]]]; congruence).
      subst. rewrite Hex. eauto.
    - intros (He & [eng Heng]). exists e. split; [exact He |].
      rewrite Heng. elem_tac. }
  assert (Hno259 : forall v,
            EvWr32 0x00259c v
            ∉ concat (map (λ engn,
                             match nvkm_engine_of hw engn with
                             | Some _ => [EvLog (LogResettingEngine engn);
                                          EvEngineFini engn; EvEngineInit engn]
                             | None => []
                             end) engns)).
  { intros v Hin. apply elem_of_concat_map in Hin as (x & _ & Hin).
    destruct (nvkm_engine_of hw x);
      [revert Hin; not_elem_tac | apply elem_of_nil in Hin; destruct Hin]. }
  assert (Hrl : forall e v, ~ runlist_event (EvEngineFini e)
                            /\ ~ runlist_event (EvWr32 0x00259c v)).
  { intros e v. split; simpl; [tauto | intros [? | ?]; discriminate]. }
  exists engns.
  set (resets := concat _) in *. clearbody resets.
  destruct (has_disable_clk_gating hw),
    (existsb (λ engn, engn =? NVDEV_ENGINE_GR) engns && has_halt_fecs hw),
    (has_enable_clk_gating hw),
    ((0 <=? pm_runtime_get_sync hw) || (pm_runtime_get_sync hw =? - EACCES));
    cbn [trace emit] in *; rewrite Ht1; cbn [trace emit];
    (eexists; split; [reflexivity |]);
    (split; [rewrite <- ?app_assoc; reflexivity |]);
    (split;
     [ intros v; rewrite !elem_of_app, !elem_of_cons, !elem_of_nil; split;
       [ intros Hin;
         repeat match goal with
           | H : _ \/ _ |- _ => destruct H as [H | H]
           end;
         try discriminate; try (destruct Hin; fail);
         try (exfalso; apply (Hno259 v); assumption);
         try (exfalso; apply (proj2 (Hrl 0 v)), He1; assumption);
         congruence
       | intros ->; auto 20 ]
     | intros e; rewrite !elem_of_app, !elem_of_cons, !elem_of_nil, <- Hfini;
       split;
       [ intros Hin;
         repeat match goal with
           | H : _ \/ _ |- _ => destruct H as [H | H]
           end;
         try discriminate; try (destruct Hin; fail);
         try assumption;
         exfalso; apply (proj1 (Hrl e 0)), He1; assumption
       | intros Hin; auto 20 ] ]).
Qed.

End recovery_work.

(** ** The pending fault record *)

Section fault_record.
Context `{nvdev_idx}.

Lemma run_mmu_fault_work_pending (hw : hw_env) (priv : gk104_fifo_priv) :
  mmu_fault priv = true ->
  run_mmu_fault_work hw priv
  = recover_engines hw (mask priv) (fault_chan priv) (fault_unit priv)
      (set_fault 0 None 0 (set_mmu_fault false priv)).
Proof. intros Hp. unfold run_mmu_fault_work. rewrite Hp. reflexivity. Qed.

Lemma run_mmu_fault_work_idle (hw : hw_env) (priv : gk104_fifo_priv) :
  mmu_fault priv = false -> run_mmu_fault_work hw priv = Some priv.
Proof. intros Hp. unfold run_mmu_fault_work. rewrite Hp. reflexivity. Qed.

Lemma run_mmu_fault_work_clears (hw : hw_env)
    (priv priv' : gk104_fifo_priv) :
  mmu_fault priv = true ->
  run_mmu_fault_work hw priv = Some priv' ->
  (mask priv', fault_chan priv', fault_unit priv') = (0, None, 0)
  /\ mmu_fault priv' = false
  /\ channel priv' = channel priv.
Proof.
  intros Hp Hrun. rewrite (run_mmu_fault_work_pending hw priv Hp) in Hrun.
  apply recover_engines_inv in Hrun as (Hch & Hrec & _).
  change ((mask priv', fault_chan priv', fault_unit priv', mmu_fault priv')
          = (0, None, 0, false)) in Hrec.
  injection Hrec as Hm Hc Hu Hw.
  split; [congruence |]. split; [exact Hw | exact Hch].
Qed.

(** The rest of a pass works on its locals: it neither reads nor
    writes the record and the pending bit of the state. *)
Lemma runlist_update_record (hw : hw_env) (engn_id : Z) (m : Z)
    (c : option Z) (u : Z) (b : bool) (p : gk104_fifo_priv) :
  gk104_fifo_runlist_update hw engn_id (set_mmu_fault b (set_fault m c u p))
  = (λ q, set_mmu_fault b (set_fault m c u q))
      <$> gk104_fifo_runlist_update hw engn_id p.
Proof.
  unfold gk104_fifo_runlist_update. cbn [priv_engine set_mmu_fault set_fault].
  destruct (priv_engine p !! engn_id) as [engn |]; [| reflexivity].
  cbn [mbind option_bind]. cbv zeta.
  destruct (pmu_acquire_mutex hw =? 0), (runlist_wait_event hw engn_id =? 0);
    reflexivity.
Qed.

Lemma runlist_update_all_record (hw : hw_env) (engns : list Z) (m : Z)
    (c : option Z) (u : Z) (b : bool) :
  forall p : gk104_fifo_priv,
  runlist_update_all hw engns (set_mmu_fault b (set_fault m c u p))
  = (λ q, set_mmu_fault b (set_fault m c u q))
      <$> runlist_update_all hw engns p.
Proof.
  induction engns as [| engn engns IH]; intros p; [reflexivity |].
  cbn [runlist_update_all]. rewrite runlist_update_record.
  destruct (gk104_fifo_runlist_update hw _ p) as [p1 |]; [| reflexivity].
  cbn [fmap option_fmap option_map mbind option_bind]. apply IH.
Qed.

Lemma recover_engines_record (hw : hw_env) (msk : Z) (chan : option Z)
    (unit : Z) (m : Z) (c : option Z) (u : Z) (b : bool)
    (p : gk104_fifo_priv) :
  recover_engines hw msk chan unit (set_mmu_fault b (set_fault m c u p))
  = (λ q, set_mmu_fault b (set_fault m c u q))
      <$> recover_engines hw msk chan unit p.
Proof.
  unfold recover_engines.
  destruct (todo_engines 64 msk) as [engns |]; [| reflexivity].
  cbn [mbind option_bind]. cbv zeta.
  destruct (has_disable_clk_gating hw),
    (existsb (λ engn, engn =? NVDEV_ENGINE_GR) engns && has_halt_fecs hw);
    match goal with
    | |- runlist_update_all hw engns ?x ≫= _
         = _ <$> (runlist_update_all hw engns ?y ≫= _) =>
        change x with (set_mmu_fault b (set_fault m c u y));
        rewrite runlist_update_all_record;
        destruct (runlist_update_all hw engns y) as [p2 |]; [| reflexivity]
    end;
    cbn [fmap option_fmap option_map mbind option_bind];
    destruct (has_enable_clk_gating hw),
      ((0 <=? pm_runtime_get_sync hw) || (pm_runtime_get_sync hw =? - EACCES));
    reflexivity.
Qed.

Lemma recover_work_with_eq (hw : hw_env)
    (irq : gk104_fifo_priv -> option gk104_fifo_priv)
    (priv : gk104_fifo_priv) :
  recover_work_with hw irq priv
  = irq (set_fault 0 None 0 priv)
      ≫= recover_engines hw (mask priv) (fault_chan priv) (fault_unit priv).
Proof. reflexivity. Qed.

Lemma bind_Some_eq {A B : Type} (f : A -> option B) (x : A) :
  Some x ≫= f = f x.
Proof. reflexivity. Qed.

Lemma run_mmu_fault_work_with (hw : hw_env) (priv : gk104_fifo_priv) :
  mmu_fault priv = true ->
  run_mmu_fault_work hw priv
  = recover_work_with hw Some (set_mmu_fault false priv).
Proof. intros Hp. unfold run_mmu_fault_work. rewrite Hp. reflexivity. Qed.

Lemma mmu_fault_recover_some (hw : hw_env) (eng : nvkm_engine) (ch unit : Z)
    (priv q : gk104_fifo_priv) :
  gk104_fifo_mmu_fault_recover hw eng ch unit priv = Some q ->
  is_Some (channel priv !! ch).
Proof.
  unfold gk104_fifo_mmu_fault_recover.
  destruct (channel priv !! ch) as [chan |]; [eauto | discriminate].
Qed.

(** C1.  A fault that arrives while the recovery work is pending is
    merged into the one record: the engine's bit is or-ed into the
    engine mask and the unit's bit into the unit mask (what was set
    stays set), the channel reference becomes the faulting channel, and
    the work is still pending once; this holds for the synthesized fault
    of a context-switch timeout as well (unit 0).

    The work takes the record and clears it in its critical section,
    before it acts.  This shows when a further fault arrives during the
    pass, at the end of the critical section: the pass still works on
    the record it took (it resets the engines of that mask and
    acknowledges that unit mask), and the record it leaves is the one
    of the new fault alone, with the work pending again and the new
    channel [KILLED]; such a pass comes to an end under the same
    conditions as an undisturbed one.  The rest of the pass neither
    reads nor writes the record or the pending bit, whatever they hold.

    A run of the pending work is the pass without a further fault; it
    clears the pending bit and leaves the record cleared, so a second
    run finds nothing to do.  On a mask that names engines with a
    run-list slot the run does come to an end. *)
Theorem fault_merge_single_pass (hw : hw_env) (eng : nvkm_engine)
    (ch unit : Z) (priv : gk104_fifo_priv) (chan : gk104_fifo_chan) :
  channel priv !! ch = Some chan ->
  mmu_fault priv = true ->
  exists priv',
    gk104_fifo_mmu_fault_recover hw eng ch unit priv = Some priv'
    /\ fault_merged eng ch unit priv priv'
    /\ (forall b, Z.testbit (mask priv) b = true ->
                  Z.testbit (mask priv') b = true)
    /\ (0 <= nv_engidx eng < 64 ->
        Z.testbit (mask priv') (nv_engidx eng) = true)
    /\ (forall b, Z.testbit (fault_unit priv) b = true ->
                  Z.testbit (fault_unit priv') b = true)
    /\ (0 <= unit < 32 -> Z.testbit (fault_unit priv') unit = true)
    /\ (exists priv2,
          gk104_fifo_sched_ctxsw_recover hw (Some eng) ch priv = Some priv2
          /\ fault_merged eng ch 0 priv priv2)
    (* a further fault during the pass *)
    /\ (forall hw' hw2 eng2 ch2 unit2 p2,
          recover_work_with hw'
            (gk104_fifo_mmu_fault_recover hw2 eng2 ch2 unit2)
            (set_mmu_fault false priv') = Some p2 ->
          (mask p2, fault_chan p2, fault_unit p2, mmu_fault p2)
          = (u64 (Z.shiftl 1 (nv_engidx eng2)), Some ch2,
             u32 (int_shl1 unit2), true)
          /\ chan_state_of p2 ch2 = Some KILLED
          /\ exists q engns evs,
               gk104_fifo_mmu_fault_recover hw2 eng2 ch2 unit2
                 (set_fault 0 None 0 (set_mmu_fault false priv')) = Some q
               /\ todo_engines 64 (mask priv') = Some engns
               /\ trace p2 = trace q ++ evs
               /\ (forall v, EvWr32 0x00259c v ∈ evs
                             <-> v = fault_unit priv')
               /\ (forall e, EvEngineFini e ∈ evs
                             <-> e ∈ engns
                                 /\ is_Some (nvkm_engine_of hw' e)))
    /\ (forall hw' hw2 eng2 ch2 unit2,
          mask_recoverable priv' (mask priv') ->
          is_Some (channel priv' !! ch2) ->
          exists p2,
            recover_work_with hw'
              (gk104_fifo_mmu_fault_recover hw2 eng2 ch2 unit2)
              (set_mmu_fault false priv') = Some p2)
    (* the rest of the pass and the record *)
    /\ (forall hw' msk c u m c' u' b p,
          recover_engines hw' msk c u (set_mmu_fault b (set_fault m c' u' p))
          = (λ q, set_mmu_fault b (set_fault m c' u' q))
              <$> recover_engines hw' msk c u p)
    (* the pass without a further fault *)
    /\ (forall hw',
          run_mmu_fault_work hw' priv'
          = recover_work_with hw' Some (set_mmu_fault false priv'))
    /\ (forall hw' priv'',
          run_mmu_fault_work hw' priv' = Some priv'' ->
          (mask priv'', fault_chan priv'', fault_unit priv'') = (0, None, 0)
          /\ mmu_fault priv'' = false
          /\ forall hw'', run_mmu_fault_work hw'' priv'' = Some priv'')
    /\ (forall hw', mask_recoverable priv' (mask priv') ->
          exists priv'', run_mmu_fault_work hw' priv' = Some priv'').
Proof.
  intros Hch Hpend.
  destruct (mmu_fault_recover_eq hw eng ch unit priv chan Hch)
    as (priv' & Hrec & _ & _ & Hmerge & _).
  exists priv'. split; [exact Hrec |]. split; [exact Hmerge |].
  destruct Hmerge as (Hm & Hu & Hc & Hw & Hs).
  split; [| split; [| split; [| split]]].
  - intros b Hb. rewrite Hm, Z.lor_spec, Hb. reflexivity.
  - intros Hr. rewrite Hm, Z.lor_spec. unfold u64.
    rewrite Z.mod_pow2_bits_low, Z.shiftl_1_l, Z.pow2_bits_true by lia.
    apply orb_true_r.
  - intros b Hb. rewrite Hu, Z.lor_spec, Hb. reflexivity.
  - intros Hr. rewrite Hu, Z.lor_spec. unfold u32.
    rewrite Z.mod_pow2_bits_low, int_shl1_bit by lia.
    apply orb_true_r.
  - split.
    { destruct (sched_ctxsw_recover_eq hw eng ch priv chan Hch)
        as (priv2 & Hrec2 & _ & _ & Hmerge2 & _).
      eauto. }
    split.
    { intros hw' hw2 eng2 ch2 unit2 p2 Hrun.
      rewrite recover_work_with_eq in Hrun.
      destruct (gk104_fifo_mmu_fault_recover hw2 eng2 ch2 unit2
                  (set_fault 0 None 0 (set_mmu_fault false priv')))
        as [q |] eqn:Hq; [| discriminate].
      rewrite bind_Some_eq in Hrun.
      destruct (mmu_fault_recover_some _ _ _ _ _ _ Hq) as [chan2 Hch2].
      destruct (mmu_fault_recover_eq hw2 eng2 ch2 unit2 _ chan2 Hch2)
        as (q' & Hq' & _ & _ & (Hqm & Hqu & Hqc & Hqw & Hqs) & _).
      rewrite Hq in Hq'. injection Hq' as <-.
      cbn [mask fault_unit set_fault] in Hqm, Hqu.
      rewrite Z.lor_0_l in Hqm, Hqu.
      destruct (recover_engines_inv _ _ _ _ _ _ Hrun) as (Hpc & Hprec & _).
      injection Hprec as Hpm Hpf Hpu Hpw.
      split; [rewrite Hpm, Hpf, Hpu, Hpw, Hqm, Hqu, Hqc, Hqw; reflexivity |].
      split; [unfold chan_state_of in *; rewrite Hpc; exact Hqs |].
      destruct (recover_engines_trace _ _ _ _ _ _ Hrun)
        as (engns & evs & Htodo & Htr & Hunit & Hfini).
      exists q, engns, evs. auto. }
    split.
    { intros hw' hw2 eng2 ch2 unit2 Hok [chan2 Hch2].
      rewrite recover_work_with_eq.
      destruct (mmu_fault_recover_eq hw2 eng2 ch2 unit2
                  (set_fault 0 None 0 (set_mmu_fault false priv')) chan2 Hch2)
        as (q & Hq & _ & Hqe & _).
      rewrite Hq, bind_Some_eq.
      apply recover_engines_total.
      destruct Hok as [Hrange Hslots]. split; [exact Hrange |].
      intros engn Hbit. rewrite Hqe. apply Hslots, Hbit. }
    split; [intros; apply recover_engines_record |].
    split.
    { intros hw'. apply run_mmu_fault_work_with. exact Hw. }
    split.
    + intros hw' priv'' Hrun.
      destruct (run_mmu_fault_work_clears hw' priv' priv'' Hw Hrun)
        as (Hclr & Hidle & _).
      split; [exact Hclr |]. split; [exact Hidle |].
      intros hw''. apply run_mmu_fault_work_idle. exact Hidle.
    + intros hw' Hok. rewrite (run_mmu_fault_work_pending hw' priv' Hw).
      apply recover_engines_total. exact Hok.
Qed.

End fault_record.

Lemma fault_merge_single_pass_witness :
  exists priv' priv'' p2,
    gk104_fifo_mmu_fault_recover (hw_get 0) {| nv_engidx := 11 |} 4 3
      priv_faulted = Some priv'
    /\ (mask priv', fault_chan priv', fault_unit priv', mmu_fault priv')
       = (0xc00, Some 4, 9, true)
    /\ recover_work_with (H := sample_idx) (hw_get 0)
         (gk104_fifo_mmu_fault_recover (hw_get 0) {| nv_engidx := 12 |} 5 1)
         (set_mmu_fault false priv') = Some p2
    /\ (mask p2, fault_chan p2, fault_unit p2, mmu_fault p2)
       = (0x1000, Some 5, 2, true)
    /\ run_mmu_fault_work (H := sample_idx) (hw_get 0) priv' = Some priv''
    /\ (mask priv'', fault_chan priv'', fault_unit priv'') = (0, None, 0)
    /\ mmu_fault priv'' = false
    /\ run_mmu_fault_work (H := sample_idx) (hw_get 0) priv'' = Some priv''.
Proof.
  destruct (fault_merge_single_pass (H := sample_idx) (hw_get 0)
              {| nv_engidx := 11 |} 4 3 priv_faulted
              (chan_on 4 1 RUNNING) eq_refl eq_refl)
    as (priv' & Hrec & Hmerge & _ & _ & _ & _ & _ & Hint & Hinttot & _ & _
        & Hrun & Htotal).
  destruct Hmerge as (Hm & Hu & Hc & Hw & _).
  assert (Hmask : mask priv' = 0xc00) by (rewrite Hm; reflexivity).
  destruct (mmu_fault_recover_eq (hw_get 0) {| nv_engidx := 11 |} 4 3
              priv_faulted (chan_on 4 1 RUNNING) eq_refl)
    as (p & Hrec' & Hpc & Hpe & _).
  rewrite Hrec in Hrec'. injection Hrec' as <-.
  assert (Hok : mask_recoverable (H := sample_idx) priv' (mask priv')).
  { rewrite Hmask. split; [lia |].
    intros engn Hbit.
    assert (Hengn : engn = 10 \/ engn = 11).
    { destruct (Z.lt_ge_cases engn 0) as [Hneg | Hnn].
      - rewrite Z.testbit_neg_r in Hbit by lia. discriminate.
      - destruct (Z.lt_ge_cases engn 12) as [Hlt | Hge].
        + assert (engn = 0 \/ engn = 1 \/ engn = 2 \/ engn = 3 \/ engn = 4
                  \/ engn = 5 \/ engn = 6 \/ engn = 7 \/ engn = 8 \/ engn = 9
                  \/ engn = 10 \/ engn = 11) as Hc12 by lia.
          repeat (destruct Hc12 as [-> | Hc12]; [try discriminate; auto |]).
          subst. auto.
        + rewrite Z.bits_above_log2 in Hbit; [discriminate | lia |].
          change (Z.log2 0xc00) with 11. lia. }
    assert (Hslots : forall e, e = 0 \/ e = 1 ->
                               is_Some (priv_engine priv' !! e)).
    { intros e He. rewrite Hpe.
      destruct He as [-> | ->]; vm_compute; eauto. }
    destruct Hengn as [-> | ->]; apply Hslots; vm_compute; auto. }
  destruct (Htotal (hw_get 0) Hok) as (priv'' & Hrun'').
  destruct (Hinttot (hw_get 0) (hw_get 0) {| nv_engidx := 12 |} 5 1 Hok)
    as (p2 & Hp2).
  { rewrite Hpc. vm_compute. eauto. }
  destruct (Hint _ _ _ _ _ _ Hp2) as (Hrec2 & _).
  destruct (Hrun (hw_get 0) priv'' Hrun'') as (Hclr & Hpend & Hagain).
  exists priv', priv'', p2. split; [exact Hrec |].
  split; [rewrite Hmask, Hc, Hu, Hw; reflexivity |].
  split; [exact Hp2 |]. split; [exact Hrec2 |].
  split; [exact Hrun'' |]. split; [exact Hclr |]. split; [exact Hpend |].
  apply Hagain.
Defined.

(** ** The channel state machine *)

Lemma kill_only_refl (priv : gk104_fifo_priv) : kill_only priv priv.
Proof. intros ch. left. reflexivity. Qed.

Lemma kill_only_same (priv priv' : gk104_fifo_priv) :
  (forall ch, chan_state_of priv' ch = chan_state_of priv ch) ->
  kill_only priv priv'.
Proof. intros Hs ch. left. apply Hs. Qed.

Lemma kill_only_trans (p1 p2 p3 : gk104_fifo_priv) :
  kill_only p1 p2 -> kill_only p2 p3 -> kill_only p1 p3.
Proof.
  intros H12 H23 ch. destruct (H23 ch) as [H3 | [H2s H3]].
  - rewrite H3. apply H12.
  - right. split; [| exact H3].
    destruct (H12 ch) as [H2 | [H1s _]]; [rewrite <- H2 |]; assumption.
Qed.

Lemma restart_scan_states (exception : Z) (ids : list Z) :
  forall (priv : gk104_fifo_priv) (ch : Z),
  chan_state_of (snd (restart_scan exception ids priv)) ch
  = chan_state_of priv ch.
Proof.
  induction ids as [| i ids IH]; intros priv ch; simpl; [reflexivity |].
  destruct (channel priv !! i) as [c |] eqn:Hc; [| apply IH].
  destruct (watchdog_inited (timeout c)); simpl; [| apply IH].
  assert (H1 : forall j, chan_state_of
                 (emit [EvCancelDelayedWork i]
                    (put_chan i (set_timeout (set_watchdog_work false) c) priv))
                 j = chan_state_of priv j).
  { intros j. rewrite chan_state_of_emit.
    apply (chan_state_of_put_same _ _ _ c); [exact Hc | reflexivity]. }
  destruct (watchdog_work (timeout c)); simpl; [| apply H1].
  destruct (i =? exception); rewrite IH; [apply H1 |].
  rewrite chan_state_of_emit.
  rewrite (chan_state_of_put_same _ _ _
             (set_timeout (set_watchdog_work false) c));
    [apply H1 | simpl; apply lookup_insert_eq | reflexivity].
Qed.

Lemma mmu_fault_recover_kill (hw : hw_env) (eng : nvkm_engine) (ch unit : Z)
    (priv priv' : gk104_fifo_priv) :
  gk104_fifo_mmu_fault_recover hw eng ch unit priv = Some priv' ->
  forall j, chan_state_of priv' j
            = if decide (j = ch) then Some KILLED else chan_state_of priv j.
Proof.
  intros Hrun j.
  destruct (channel priv !! ch) as [chan |] eqn:Hch.
  - destruct (mmu_fault_recover_eq hw eng ch unit priv chan Hch)
      as (p & Hrec & Hchan & _).
    rewrite Hrun in Hrec. injection Hrec as <-.
    unfold chan_state_of. rewrite Hchan. case_decide as Hj.
    + subst j. rewrite lookup_insert_eq. reflexivity.
    + rewrite lookup_insert_ne by done. reflexivity.
  - unfold gk104_fifo_mmu_fault_recover in Hrun. rewrite Hch in Hrun.
    discriminate.
Qed.

Lemma sched_ctxsw_recover_kill (hw : hw_env) (eng : option nvkm_engine)
    (ch : Z) (priv priv' : gk104_fifo_priv) :
  gk104_fifo_sched_ctxsw_recover hw eng ch priv = Some priv' ->
  is_Some (chan_state_of priv ch)
  /\ forall j, chan_state_of priv' j
               = if decide (j = ch) then Some KILLED else chan_state_of priv j.
Proof.
  intros Hrun. unfold gk104_fifo_sched_ctxsw_recover in Hrun.
  destruct (channel priv !! ch) as [chan |] eqn:Hch; [| discriminate].
  destruct eng as [e |]; [| discriminate]. simpl in Hrun.
  split; [unfold chan_state_of; rewrite Hch; simpl; eauto |].
  intros j. rewrite (mmu_fault_recover_kill _ _ _ _ _ _ Hrun j).
  destruct (nv_wait hw _ _ _); reflexivity.
Qed.

Lemma kill_only_of_kill (priv priv' : gk104_fifo_priv) (ch : Z) :
  is_Some (chan_state_of priv ch) ->
  (forall j, chan_state_of priv' j
             = if decide (j = ch) then Some KILLED else chan_state_of priv j) ->
  kill_only priv priv'.
Proof.
  intros Hsome Hk j. rewrite Hk. case_decide as Hj; [subst j |]; auto.
Qed.

Lemma sched_ctxsw_engn_kill (hw : hw_env) (engn : Z)
    (priv priv' : gk104_fifo_priv) :
  sched_ctxsw_engn hw engn priv = Some priv' -> kill_only priv priv'.
Proof.
  unfold sched_ctxsw_engn.
  set (id := if _ =? CTXSW_STATUS_LOAD then _ else _).
  destruct (negb _ && _);
    [| intros [= <-]; apply kill_only_refl].
  destruct (channel priv !! id) as [chan |] eqn:Hch;
    [| intros [= <-]; apply kill_only_refl].
  destruct (gk104_fifo_engine hw priv engn) as [eng |];
    [| intros [= <-]; apply kill_only_refl].
  destruct (update_timeout_frame hw chan GRFIFO_TIMEOUT_CHECK_PERIOD_MS)
    as (Hst & _).
  set (checked := gk104_fifo_update_timeout hw chan
                    GRFIFO_TIMEOUT_CHECK_PERIOD_MS) in *.
  cbv zeta. clearbody checked. destruct checked as [chan1 over].
  simpl in Hst. simpl fst. simpl snd.
  assert (H0 : forall evs j,
             chan_state_of (emit evs (put_chan id chan1 priv)) j
             = chan_state_of priv j).
  { intros evs j. rewrite chan_state_of_emit.
    apply (chan_state_of_put_same _ _ _ chan); assumption. }
  destruct over.
  - unfold gk104_fifo_chan_timeout_restart_all.
    match goal with
    | |- context [restart_scan id ?ids ?p] =>
        pose proof (restart_scan_states id ids p) as Hscan;
        destruct (restart_scan id ids p) as [ok priv1]
    end.
    simpl in Hscan. simpl fst. simpl snd.
    assert (H1 : forall j, chan_state_of priv1 j = chan_state_of priv j).
    { intros j. rewrite Hscan. apply H0. }
    destruct ok.
    + intros Hrun. apply sched_ctxsw_recover_kill in Hrun as [Hsome Hk].
      eapply kill_only_trans; [apply kill_only_same; exact H1 |].
      eapply kill_only_of_kill; [| exact Hk].
      exact Hsome.
    + intros [= <-]. apply kill_only_same. exact H1.
  - intros [= <-]. apply kill_only_same. intros j. apply H0.
Qed.

Lemma sched_ctxsw_loop_kill (hw : hw_env) (engns : list Z) :
  forall priv priv' : gk104_fifo_priv,
  sched_ctxsw_loop hw engns priv = Some priv' -> kill_only priv priv'.
Proof.
  induction engns as [| engn engns IH]; intros priv priv' Hrun; simpl in Hrun.
  - injection Hrun as <-. apply kill_only_refl.
  - destruct (sched_ctxsw_engn hw engn priv) as [p1 |] eqn:H1;
      [| discriminate].
    simpl in Hrun. eapply kill_only_trans; [| apply (IH _ _ Hrun)].
    apply (sched_ctxsw_engn_kill _ _ _ _ H1).
Qed.

Lemma timeout_work_kill (hw : hw_env) (ch : Z)
    (priv priv' : gk104_fifo_priv) :
  gk104_fifo_chan_timeout_work hw ch priv = Some priv' ->
  kill_only priv priv'.
Proof.
  unfold gk104_fifo_chan_timeout_work.
  destruct (channel priv !! ch) as [chan |] eqn:Hch; [| discriminate].
  simpl.
  assert (H0 : forall j,
             chan_state_of
               (put_chan ch (set_timeout (set_watchdog_inited false) chan) priv)
               j = chan_state_of priv j).
  { intros j. apply (chan_state_of_put_same _ _ _ chan); [exact Hch | done]. }
  destruct (negb (watchdog_inited (timeout chan)));
    [intros [= <-]; apply kill_only_same, H0 |].
  destruct (negb (_ =? _)).
  - simpl. intros [= <-]. apply kill_only_same. intros j.
    assert (H1 : forall p : gk104_fifo_priv,
               chan_state_of (if (0 <=? pm_runtime_get_sync hw)
                                 || (pm_runtime_get_sync hw =? - EACCES)
                              then emit [EvPmRuntimePut] p else p) j
               = chan_state_of p j)
      by (intros p; destruct (_ || _); reflexivity).
    rewrite H1, chan_state_of_emit.
    rewrite (chan_state_of_put_same _ _ _
               (set_timeout (set_watchdog_inited false) chan));
      [apply H0 | simpl; apply lookup_insert_eq |].
    unfold gk104_fifo_chan_timeout_start. simpl. reflexivity.
  - destruct (gk104_fifo_sched_ctxsw_recover hw _ ch _) as [p1 |] eqn:Hrec;
      [| discriminate].
    simpl. intros [= <-].
    apply sched_ctxsw_recover_kill in Hrec as [Hsome Hk].
    eapply kill_only_trans; [apply kill_only_same; exact H0 |].
    eapply kill_only_trans;
      [eapply kill_only_of_kill; [| exact Hk]; exact Hsome |].
    apply kill_only_same. intros j. destruct (_ || _); reflexivity.
Qed.

Section state_machine.
Context {idx : nvdev_idx} {cls : nvif_class}.

Lemma state_step_same (op : fifo_op) (priv priv' : gk104_fifo_priv) :
  (forall ch, chan_state_of priv' ch = chan_state_of priv ch) ->
  forall ch, state_step op ch (chan_state_of priv ch) (chan_state_of priv' ch).
Proof. intros Hs ch. left. apply Hs. Qed.

Lemma state_step_kill (op : fifo_op) (priv priv' : gk104_fifo_priv) :
  runs_sync_half op -> kill_only priv priv' ->
  forall ch, state_step op ch (chan_state_of priv ch) (chan_state_of priv' ch).
Proof.
  intros Hop Hk ch. destruct (Hk ch) as [Hs | [Hsome Hkilled]].
  - left. exact Hs.
  - right. right. right. auto.
Qed.

Lemma runlist_update_states (hw : hw_env) (engn_id : Z)
    (priv priv' : gk104_fifo_priv) :
  gk104_fifo_runlist_update hw engn_id priv = Some priv' ->
  forall ch, chan_state_of priv' ch = chan_state_of priv ch.
Proof.
  intros Hrun ch. apply runlist_update_inv in Hrun as (Hch & _).
  unfold chan_state_of. rewrite Hch. reflexivity.
Qed.

Lemma chan_init_states (hw : hw_env) (ch : Z) (ret : Z)
    (priv priv' : gk104_fifo_priv) :
  gk104_fifo_chan_init hw ch priv = Some (ret, priv') ->
  forall j, state_step (OpInit ch) j
              (chan_state_of priv j) (chan_state_of priv' j).
Proof.
  unfold gk104_fifo_chan_init.
  destruct (channel priv !! ch) as [chan |] eqn:Hch; [| discriminate].
  simpl. destruct (negb (_ =? 0)).
  { intros [= <- <-] j. left. reflexivity. }
  case_bool_decide as Hst.
  - match goal with
    | |- context [gk104_fifo_runlist_update hw ?e ?p] =>
        destruct (gk104_fifo_runlist_update hw e p) as [p1 |] eqn:Hrun;
          [| discriminate]
    end.
    simpl. intros [= <- <-] j.
    rewrite chan_state_of_emit, (runlist_update_states _ _ _ _ Hrun).
    rewrite chan_state_of_emit, chan_state_of_put.
    case_decide as Hj; [| left; reflexivity].
    subst j. right. left. unfold chan_state_of. rewrite Hch. simpl.
    rewrite Hst. auto.
  - intros [= <- <-] j. left. reflexivity.
Qed.

Lemma chan_fini_states (hw : hw_env) (ch : Z) (suspend : bool) (ret : Z)
    (priv priv' : gk104_fifo_priv) :
  gk104_fifo_chan_fini hw ch suspend priv = Some (ret, priv') ->
  forall j, state_step (OpFini ch suspend) j
              (chan_state_of priv j) (chan_state_of priv' j).
Proof.
  unfold gk104_fifo_chan_fini.
  destruct (channel priv !! ch) as [chan |] eqn:Hch; [| discriminate].
  simpl. destruct (suspend && negb _).
  { intros [= <- <-] j. left. reflexivity. }
  set (stopped := gk104_fifo_chan_timeout_stop chan).
  assert (Hst : state (fst stopped) = state chan).
  { unfold stopped, gk104_fifo_chan_timeout_stop.
    destruct (negb _); reflexivity. }
  clearbody stopped. destruct stopped as [chan1 evs]. simpl in Hst.
  simpl fst. simpl snd.
  assert (H0 : forall j,
             chan_state_of (emit evs (put_chan ch chan1 priv)) j
             = chan_state_of priv j).
  { intros j. rewrite chan_state_of_emit.
    apply (chan_state_of_put_same _ _ _ chan); assumption. }
  case_bool_decide as Hrunning.
  - match goal with
    | |- context [gk104_fifo_runlist_update hw ?e ?p] =>
        destruct (gk104_fifo_runlist_update hw e p) as [p1 |] eqn:Hrun;
          [| discriminate]
    end.
    simpl.
    assert (H1 : forall j,
               state_step (OpFini ch suspend) j
                 (chan_state_of priv j) (chan_state_of p1 j)).
    { intros j. rewrite (runlist_update_states _ _ _ _ Hrun).
      rewrite chan_state_of_emit, chan_state_of_put.
      case_decide as Hj; [| left; apply H0].
      subst j. right. right. left. split; [eauto |].
      unfold chan_state_of. rewrite Hch. simpl.
      rewrite <- Hst, Hrunning. auto. }
    destruct (negb _ && suspend); intros [= <- <-] j; apply H1.
  - simpl. destruct (negb _ && suspend); intros [= <- <-] j; left; apply H0.
Qed.

(** Every operation changes the state in a slot only along the edges
    of the state machine. *)
Lemma fifo_step_states (hw : hw_env) (op : fifo_op)
    (priv priv' : gk104_fifo_priv) :
  fifo_step hw op priv = Some priv' ->
  forall ch, state_step op ch (chan_state_of priv ch) (chan_state_of priv' ch).
Proof.
  destruct op as [ch | ch suspend | ch args | ch args | engn | eng ch unit
                  | eng ch | | | ch]; simpl; intros Hrun.
  - destruct (gk104_fifo_chan_init hw ch priv) as [[ret p] |] eqn:Hi;
      [| discriminate].
    injection Hrun as <-. apply (chan_init_states _ _ _ _ _ Hi).
  - destruct (gk104_fifo_chan_fini hw ch suspend priv) as [[ret p] |] eqn:Hf;
      [| discriminate].
    injection Hrun as <-. apply (chan_fini_states _ _ _ _ _ _ Hf).
  - unfold gk104_fifo_chan_set_priority in Hrun.
    destruct (channel priv !! ch) as [chan |]; [| discriminate].
    simpl in Hrun. apply state_step_same. intros j.
    destruct (prio_unpack args =? 0); [| injection Hrun as <-; reflexivity].
    destruct (priority args =? _);
      [injection Hrun as <-; reflexivity |].
    destruct (priority args =? _);
      [injection Hrun as <-; reflexivity |].
    destruct (priority args =? _); injection Hrun as <-; reflexivity.
  - unfold gk104_fifo_chan_set_timeout in Hrun.
    destruct (channel priv !! ch) as [chan |] eqn:Hch; [| discriminate].
    simpl in Hrun. apply state_step_same. intros j.
    destruct (tmo_unpack args =? 0); injection Hrun as <-; [| reflexivity].
    rewrite chan_state_of_emit.
    apply (chan_state_of_put_same _ _ _ chan); [exact Hch | reflexivity].
  - apply state_step_same. apply (runlist_update_states _ _ _ _ Hrun).
  - apply state_step_kill; [exact I |].
    eapply kill_only_of_kill;
      [| apply (mmu_fault_recover_kill _ _ _ _ _ _ Hrun)].
    unfold gk104_fifo_mmu_fault_recover in Hrun. unfold chan_state_of.
    destruct (channel priv !! ch); [simpl; eauto | discriminate].
  - apply state_step_kill; [exact I |].
    apply sched_ctxsw_recover_kill in Hrun as [Hsome Hk].
    eapply kill_only_of_kill; eassumption.
  - apply state_step_same. intros j.
    apply recover_work_inv in Hrun as (Hch & _).
    unfold chan_state_of. rewrite Hch. reflexivity.
  - apply state_step_kill; [exact I |].
    apply (sched_ctxsw_loop_kill _ _ _ _ Hrun).
  - apply state_step_kill; [exact I |].
    apply (timeout_work_kill _ _ _ _ Hrun).
Qed.

(** C2.  [KILLED] is terminal: whatever operations run, a slot whose
    channel is [KILLED] stays [KILLED]; init and fini do run on a
    killed channel and leave it killed.  A single operation moves a
    slot to [RUNNING] only if it is the init of that channel and the
    state was [STOPPED], to [STOPPED] only if it is the fini of that
    channel and the state was [RUNNING], and to [KILLED] only if it
    runs the synchronous half of the recovery. *)
Theorem killed_is_terminal (ops : list (hw_env * fifo_op))
    (priv priv' : gk104_fifo_priv) (ch : Z) :
  fifo_run ops priv = Some priv' ->
  chan_state_of priv ch = Some KILLED ->
  chan_state_of priv' ch = Some KILLED
  /\ (forall hw suspend,
        exists p1 p2 r1 r2,
          gk104_fifo_chan_init hw ch priv = Some (r1, p1)
          /\ chan_state_of p1 ch = Some KILLED
          /\ gk104_fifo_chan_fini hw ch suspend priv = Some (r2, p2)
          /\ chan_state_of p2 ch = Some KILLED)
  /\ forall hw op p p' j,
       fifo_step hw op p = Some p' ->
       (chan_state_of p' j = Some RUNNING ->
        chan_state_of p j <> Some RUNNING ->
        op = OpInit j /\ chan_state_of p j = Some STOPPED)
       /\ (chan_state_of p' j = Some STOPPED ->
           chan_state_of p j <> Some STOPPED ->
           (exists suspend, op = OpFini j suspend)
           /\ chan_state_of p j = Some RUNNING)
       /\ (chan_state_of p' j = Some KILLED ->
           chan_state_of p j <> Some KILLED ->
           runs_sync_half op).
Proof.
  intros Hrun Hkilled. split; [| split].
  - revert priv Hrun Hkilled.
    induction ops as [| [hw op] ops IH]; intros priv Hrun Hkilled;
      simpl in Hrun.
    + injection Hrun as <-. exact Hkilled.
    + destruct (fifo_step hw op priv) as [p1 |] eqn:Hstep; [| discriminate].
      simpl in Hrun. apply (IH p1 Hrun).
      destruct (fifo_step_states hw op priv p1 Hstep ch)
        as [Hs | [(_ & Hb & _) | [(_ & Hb & _) | (_ & _ & Ha)]]];
        congruence.
  - intros hw suspend.
    unfold chan_state_of in Hkilled.
    destruct (channel priv !! ch) as [c |] eqn:Hc; [| discriminate].
    simpl in Hkilled. injection Hkilled as Hst.
    assert (Hstop : state (fst (gk104_fifo_chan_timeout_stop c)) = KILLED).
    { unfold gk104_fifo_chan_timeout_stop. destruct (negb _); exact Hst. }
    unfold gk104_fifo_chan_init, gk104_fifo_chan_fini. rewrite Hc. simpl.
    rewrite bool_decide_eq_false_2 by congruence.
    rewrite bool_decide_eq_false_2 by congruence.
    simpl.
    assert (Hk : forall evs,
               chan_state_of
                 (emit evs
                    (put_chan ch (fst (gk104_fifo_chan_timeout_stop c)) priv))
                 ch = Some KILLED).
    { intros evs. rewrite chan_state_of_emit, chan_state_of_put.
      rewrite decide_True by done. congruence. }
    assert (Hk0 : forall evs, chan_state_of (emit evs priv) ch = Some KILLED).
    { intros evs. unfold chan_state_of. simpl. rewrite Hc. simpl. congruence. }
    assert (Hk1 : chan_state_of priv ch = Some KILLED).
    { unfold chan_state_of. rewrite Hc. simpl. congruence. }
    destruct (negb (nvkm_fifo_channel_init hw (chid c) =? 0));
      destruct (suspend && negb _);
      try destruct (negb _ && suspend);
      (do 4 eexists; split; [reflexivity |];
       split; [first [apply Hk0 | exact Hk1] |];
       split; [reflexivity |]);
      first [ apply Hk0
            | repeat rewrite chan_state_of_emit; apply (Hk []) ].
  - intros hw op p p' j Hstep.
    pose proof (fifo_step_states hw op p p' Hstep j) as Hss.
    split; [| split].
    + intros Ha Hb.
      destruct Hss as [Hs | [(Hop & Hb' & _) | [(_ & _ & Ha') | (_ & _ & Ha')]]];
        [congruence | auto | congruence | congruence].
    + intros Ha Hb.
      destruct Hss as [Hs | [(_ & _ & Ha') | [(Hop & Hb' & _) | (_ & _ & Ha')]]];
        [congruence | congruence | auto | congruence].
    + intros Ha Hb.
      destruct Hss as [Hs | [(_ & _ & Ha') | [(_ & _ & Ha') | (Hop & _)]]];
        [congruence | congruence | congruence | exact Hop].
Qed.

End state_machine.

Lemma killed_is_terminal_witness :
  exists priv',
    fifo_run (H := sample_idx) (H0 := sample_class) sample_ops priv_mixed
    = Some priv'
    /\ chan_state_of priv' 3 = Some KILLED.
Proof.
  destruct (fifo_run (H := sample_idx) (H0 := sample_class) sample_ops
              priv_mixed) as [priv' |] eqn:Hrun.
  - exists priv'. split; [reflexivity |].
    apply (proj1 (killed_is_terminal (idx := sample_idx) (cls := sample_class)
                    sample_ops priv_mixed priv' 3 Hrun eq_refl)).
  - vm_compute in Hrun. discriminate.
Defined.

(** * Further properties *)

(** ** Run-list rebuild, continued *)

Lemma runlist_update_rebuilt (hw : hw_env) (engn_id : Z)
    (priv : gk104_fifo_priv) (engn : gk104_fifo_engn) :
  priv_engine priv !! engn_id = Some engn ->
  exists priv' evs,
    gk104_fifo_runlist_update hw engn_id priv = Some priv'
    /\ channel priv' = channel priv
    /\ priv_engine priv'
       = <[engn_id := rebuilt_engn priv engn_id engn]> (priv_engine priv)
    /\ trace priv' = trace priv ++ evs
    /\ evs = (if pmu_acquire_mutex hw =? 0 then []
              else [EvLog (LogRunlistAcquireMutexFailed
                             (pmu_acquire_mutex hw))])
             ++ [EvBarFlush;
                 EvWr32 0x002270
                   (u32 (Z.shiftr (addr (runlist_at engn (cur_runlist engn))) 12));
                 EvWr32 0x002274
                   (u32 (Z.lor (Z.shiftl engn_id 20)
                           (Z.of_nat (length (running_ids priv engn_id)))))]
             ++ (if runlist_wait_event hw engn_id =? 0
                 then [EvLog (LogRunlistUpdateTimeout engn_id)] else [])
             ++ (if pmu_acquire_mutex hw =? 0
                 then [EvPmuReleaseMutex] else []).
Proof.
  intros Hengn. unfold gk104_fifo_runlist_update. rewrite Hengn. simpl.
  assert (Hfold : forall p0 : gk104_fifo_priv,
             channel p0 = channel priv -> base_max p0 = base_max priv ->
             foldl (runlist_entry p0 engn_id)
               (runlist_at engn (cur_runlist engn), 0) (seqZ 0 (base_max p0))
             = foldl (runlist_entry priv engn_id)
                 (runlist_at engn (cur_runlist engn), 8 * 0)
                 (seqZ 0 (base_max priv))).
  { intros p0 Hc Hm. rewrite Hm. f_equal.
    unfold runlist_entry. rewrite Hc. reflexivity. }
  destruct (runlist_scan priv engn_id (seqZ 0 (base_max priv))
              (runlist_at engn (cur_runlist engn)) 0 ltac:(lia))
    as (Hp & Ha & _ & _).
  fold (running_ids priv engn_id) in Hp. simpl in Hp.
  unfold rebuilt_engn. change (8 * 0) with 0 in *.
  set (r := foldl (runlist_entry priv engn_id)
              (runlist_at engn (cur_runlist engn), 0)
              (seqZ 0 (base_max priv))) in *.
  assert (Hcount : Z.shiftr (snd r) 3
                   = Z.of_nat (length (running_ids priv engn_id))).
  { rewrite Hp, Z.shiftr_div_pow2 by lia.
    change (2 ^ 3) with 8. rewrite Z.mul_comm, Z_div_mult; lia. }
  destruct (pmu_acquire_mutex hw =? 0) eqn:Hm;
    rewrite Hfold by reflexivity; change (8 * 0) with 0; fold r;
    destruct (runlist_wait_event hw engn_id =? 0) eqn:Hw; simpl;
    eexists; eexists;
    (split; [reflexivity |]); simpl;
    (split; [reflexivity |]); (split; [reflexivity |]);
    rewrite <- Hcount, <- Ha;
    (split; [rewrite <- ?app_assoc; reflexivity | reflexivity]).
Qed.

(** X1.  A run-list rebuild is best effort: whether the PMU mutex could
    be taken and whether the hardware acknowledged the new list in time
    only shows in the log and in the release of the mutex (released
    exactly when it was taken); the list that is built and submitted,
    the swap of the buffers and the channel table do not depend on
    either answer. *)
Theorem runlist_update_best_effort (hw : hw_env) (engn_id : Z)
    (priv : gk104_fifo_priv) (engn : gk104_fifo_engn) :
  priv_engine priv !! engn_id = Some engn ->
  exists priv' evs,
    gk104_fifo_runlist_update hw engn_id priv = Some priv'
    /\ trace priv' = trace priv ++ evs
    /\ (EvPmuReleaseMutex ∈ evs <-> pmu_acquire_mutex hw = 0)
    /\ (EvLog (LogRunlistAcquireMutexFailed (pmu_acquire_mutex hw)) ∈ evs
        <-> pmu_acquire_mutex hw <> 0)
    /\ (EvLog (LogRunlistUpdateTimeout engn_id) ∈ evs
        <-> runlist_wait_event hw engn_id = 0)
    /\ forall hw2, exists priv2 evs2,
         gk104_fifo_runlist_update hw2 engn_id priv = Some priv2
         /\ priv_engine priv2 = priv_engine priv'
         /\ channel priv2 = channel priv'
         /\ trace priv2 = trace priv ++ evs2
         /\ forall reg val, EvWr32 reg val ∈ evs2 <-> EvWr32 reg val ∈ evs.
Proof.
  intros Hengn.
  destruct (runlist_update_rebuilt hw engn_id priv engn Hengn)
    as (priv' & evs & Hrun & Hch & Hpe & Htr & Hevs).
  exists priv', evs. split; [exact Hrun |]. split; [exact Htr |].
  assert (Hin : forall e : event,
             e ∈ evs <->
             (pmu_acquire_mutex hw <> 0
              /\ e = EvLog (LogRunlistAcquireMutexFailed
                              (pmu_acquire_mutex hw)))
             \/ e ∈ [EvBarFlush;
                     EvWr32 0x002270
                       (u32 (Z.shiftr (addr (runlist_at engn (cur_runlist engn))) 12));
                     EvWr32 0x002274
                       (u32 (Z.lor (Z.shiftl engn_id 20)
                               (Z.of_nat (length (running_ids priv engn_id)))))]
             \/ (runlist_wait_event hw engn_id = 0
                 /\ e = EvLog (LogRunlistUpdateTimeout engn_id))
             \/ (pmu_acquire_mutex hw = 0 /\ e = EvPmuReleaseMutex)).
  { intros e. rewrite Hevs, !elem_of_app.
    destruct (Z.eqb_spec (pmu_acquire_mutex hw) 0) as [Hm | Hm];
      destruct (Z.eqb_spec (runlist_wait_event hw engn_id) 0) as [Hw | Hw];
      rewrite ?elem_of_cons, ?elem_of_nil; intuition congruence. }
  split; [| split; [| split]].
  - rewrite Hin, !elem_of_cons, elem_of_nil. intuition congruence.
  - rewrite Hin, !elem_of_cons, elem_of_nil. intuition congruence.
  - rewrite Hin, !elem_of_cons, elem_of_nil. intuition congruence.
  - intros hw2.
    destruct (runlist_update_rebuilt hw2 engn_id priv engn Hengn)
      as (priv2 & evs2 & Hrun2 & Hch2 & Hpe2 & Htr2 & Hevs2).
    exists priv2, evs2. split; [exact Hrun2 |].
    split; [congruence |]. split; [congruence |]. split; [exact Htr2 |].
    intros reg val. rewrite Hin, Hevs2, !elem_of_app.
    destruct (pmu_acquire_mutex hw2 =? 0);
      destruct (runlist_wait_event hw2 engn_id =? 0);
      rewrite ?elem_of_cons, ?elem_of_nil; intuition congruence.
Qed.

Lemma runlist_update_best_effort_witness :
  exists priv1 priv2,
    gk104_fifo_runlist_update (hw_get 0) 0 priv_mixed = Some priv1
    /\ gk104_fifo_runlist_update hw_contended 0 priv_mixed = Some priv2
    /\ priv_engine priv2 = priv_engine priv1
    /\ channel priv2 = channel priv1.
Proof.
  destruct (runlist_update_best_effort (hw_get 0) 0 priv_mixed
              (fresh_engn 0x10000) eq_refl)
    as (priv1 & evs & Hrun & _ & _ & _ & _ & Hany).
  destruct (Hany hw_contended) as (priv2 & evs2 & Hrun2 & Hpe & Hch & _).
  exists priv1, priv2. auto.
Defined.

(** ** Start and stop *)

Lemma running_ids_ext (p q : gk104_fifo_priv) (engn_id : Z) :
  (forall i, (λ c, (state c, engine c)) <$> channel p !! i
             = (λ c, (state c, engine c)) <$> channel q !! i) ->
  base_max p = base_max q ->
  running_ids p engn_id = running_ids q engn_id.
Proof.
  intros Hc Hm. unfold running_ids. rewrite Hm. apply list_filter_iff.
  intros i. unfold runs_on. specialize (Hc i).
  destruct (channel p !! i) as [c1 |], (channel q !! i) as [c2 |];
    simpl in Hc; try discriminate; [| reflexivity].
  injection Hc as -> ->. reflexivity.
Qed.

Lemma running_ids_emit (evs : list event) (p : gk104_fifo_priv)
    (engn_id : Z) :
  running_ids (emit evs p) engn_id = running_ids p engn_id.
Proof. reflexivity. Qed.

Lemma elem_of_running_ids (priv : gk104_fifo_priv) (engn_id i : Z) :
  i ∈ running_ids priv engn_id
  <-> 0 <= i < base_max priv /\ running_on priv engn_id i.
Proof.
  unfold running_ids.
  rewrite list_elem_of_filter, elem_of_seqZ, runs_on_spec.
  split; intros [? ?]; split; auto; lia.
Qed.

(** The list a rebuild submits, read back from the slot it leaves. *)
Lemma runlist_update_submitted (hw : hw_env) (engn_id : Z)
    (priv : gk104_fifo_priv) (engn : gk104_fifo_engn) :
  priv_engine priv !! engn_id = Some engn ->
  exists priv' engn',
    gk104_fifo_runlist_update hw engn_id priv = Some priv'
    /\ channel priv' = channel priv
    /\ base_max priv' = base_max priv
    /\ priv_engine priv' !! engn_id = Some engn'
    /\ (forall e, e <> engn_id -> priv_engine priv' !! e = priv_engine priv !! e)
    /\ submitted_runlist engn'
         (Z.of_nat (length (running_ids priv engn_id)))
       = (λ i, (i, 0)) <$> running_ids priv engn_id
    /\ exists evs, trace priv' = trace priv ++ evs /\ EvQueueWork ∉ evs.
Proof.
  intros Hengn.
  destruct (runlist_update_spec hw engn_id priv engn Hengn)
    as (priv' & engn' & Hrun & Hch & _ & Hdev & Hpe & Hcur & _ & _ & Hent
        & evs & Htr & _ & _ & Hq).
  exists priv', engn'. split; [exact Hrun |]. split; [exact Hch |].
  split; [congruence |].
  split; [rewrite Hpe; apply lookup_insert_eq |].
  split; [intros e He; rewrite Hpe; apply lookup_insert_ne; congruence |].
  split; [| eauto].
  unfold submitted_runlist. rewrite Hcur, negb_involutive. exact Hent.
Qed.

(** X2.  Start then stop.  Init of a [STOPPED] channel makes it
    [RUNNING] and submits, for its engine, a run list that holds its id;
    a fini that follows (its idle wait, if any, having succeeded) makes
    it [STOPPED] again, disarms its watchdog and submits a run list
    without its id: the list of running channels the engine had before
    the start. *)
Theorem init_fini_round_trip (hw : hw_env) (ch : Z)
    (priv : gk104_fifo_priv) (chan : gk104_fifo_chan)
    (engn : gk104_fifo_engn) :
  channel priv !! ch = Some chan ->
  state chan = STOPPED ->
  0 <= ch < base_max priv ->
  priv_engine priv !! engine chan = Some engn ->
  nvkm_fifo_channel_init hw (chid chan) = 0 ->
  exists p1 engn1,
    gk104_fifo_chan_init hw ch priv = Some (0, p1)
    /\ chan_state_of p1 ch = Some RUNNING
    /\ priv_engine p1 !! engine chan = Some engn1
    /\ ch ∈ running_ids p1 (engine chan)
    /\ submitted_runlist engn1
         (Z.of_nat (length (running_ids p1 (engine chan))))
       = (λ i, (i, 0)) <$> running_ids p1 (engine chan)
    /\ forall hw2 suspend,
         (suspend = true ->
          nv_wait hw2 (0x002640 + engine chan * 8) 0x80000000 0x00000000
          = true) ->
         exists r2 p2 engn2 chan2,
           gk104_fifo_chan_fini hw2 ch suspend p1 = Some (r2, p2)
           /\ channel p2 !! ch = Some chan2
           /\ state chan2 = STOPPED
           /\ watchdog_inited (timeout chan2) = false
           /\ priv_engine p2 !! engine chan = Some engn2
           /\ (ch ∉ running_ids p2 (engine chan))
           /\ running_ids p2 (engine chan) = running_ids priv (engine chan)
           /\ submitted_runlist engn2
                (Z.of_nat (length (running_ids p2 (engine chan))))
              = (λ i, (i, 0)) <$> running_ids p2 (engine chan).
Proof.
  intros Hch Hst Hrange Hengn Hinit.
  unfold gk104_fifo_chan_init. rewrite Hch. simpl. rewrite Hinit. simpl.
  rewrite bool_decide_eq_true_2 by exact Hst.
  set (pa := emit [EvChanEnable (chid chan)]
               (put_chan ch (set_state RUNNING chan) (emit _ priv))).
  destruct (runlist_update_submitted hw (engine chan) pa engn Hengn)
    as (p1 & engn1 & Hrun & Hch1 & Hmax1 & Hpe1 & _ & Hsub1 & _).
  change (engine (set_state RUNNING chan)) with (engine chan).
  rewrite Hrun. simpl.
  assert (Hids1 : forall evs, running_ids (emit evs p1) (engine chan)
                              = running_ids pa (engine chan)).
  { intros evs. apply running_ids_ext; [| exact Hmax1].
    intros i. simpl. rewrite Hch1. reflexivity. }
  assert (Hlook1 : channel p1 !! ch = Some (set_state RUNNING chan)).
  { rewrite Hch1. unfold pa. simpl. apply lookup_insert_eq. }
  eexists. exists engn1. split; [reflexivity |].
  split; [unfold chan_state_of; simpl; rewrite Hlook1; reflexivity |].
  split; [exact Hpe1 |].
  split.
  { rewrite Hids1. apply elem_of_running_ids. split; [exact Hrange |].
    exists (set_state RUNNING chan). split; [| split; reflexivity].
    unfold pa. simpl. apply lookup_insert_eq. }
  split; [rewrite Hids1; exact Hsub1 |].
  intros hw2 suspend Hwait.
  unfold gk104_fifo_chan_fini. simpl. rewrite Hlook1. simpl.
  assert (Hnowait : suspend
                    && negb (nv_wait hw2 (0x002640 + engine chan * 8)
                               0x80000000 0x00000000) = false).
  { destruct suspend; [rewrite Hwait by reflexivity |]; reflexivity. }
  rewrite Hnowait.
  set (stopped := gk104_fifo_chan_timeout_stop (set_state RUNNING chan)).
  assert (Hstop : state (fst stopped) = RUNNING
                  /\ engine (fst stopped) = engine chan
                  /\ watchdog_inited (timeout (fst stopped)) = false).
  { unfold stopped, gk104_fifo_chan_timeout_stop. simpl.
    destruct (watchdog_inited (timeout chan)) eqn:Hi; simpl; auto. }
  clearbody stopped. destruct stopped as [chanb evsb].
  simpl in Hstop. destruct Hstop as (Hstb & Hengb & Hinb).
  simpl fst. simpl snd.
  rewrite bool_decide_eq_true_2 by exact Hstb.
  set (pb := emit [EvChanDisable (chid chan)]
               (put_chan ch (set_state STOPPED chanb) _)).
  assert (Hengn_b : priv_engine pb !! engine chan = Some engn1)
    by exact Hpe1.
  change (engine (set_state STOPPED chanb)) with (engine chanb).
  rewrite Hengb.
  destruct (runlist_update_submitted hw2 (engine chan) pb engn1 Hengn_b)
    as (p2 & engn2 & Hrun2 & Hch2 & Hmax2 & Hpe2 & _ & Hsub2 & _).
  rewrite Hrun2. simpl.
  assert (Hlook2 : channel p2 !! ch = Some (set_state STOPPED chanb)).
  { rewrite Hch2. unfold pb. simpl. apply lookup_insert_eq. }
  assert (Hids2 : running_ids p2 (engine chan)
                  = running_ids pb (engine chan)).
  { apply running_ids_ext; [| exact Hmax2].
    intros i. rewrite Hch2. reflexivity. }
  assert (Hback : running_ids pb (engine chan)
                  = running_ids priv (engine chan)).
  { apply running_ids_ext; [| exact Hmax1].
    intros i. unfold pb. simpl. destruct (decide (i = ch)) as [-> | Hne].
    - rewrite lookup_insert_eq, Hch. simpl. congruence.
    - rewrite !lookup_insert_ne by congruence.
      rewrite Hch1. unfold pa. simpl.
      rewrite lookup_insert_ne by congruence. reflexivity. }
  assert (Hnot : ch ∉ running_ids priv (engine chan)).
  { rewrite elem_of_running_ids. intros (_ & c & Hc & Hs & _).
    rewrite Hch in Hc. injection Hc as <-. congruence. }
  destruct (negb (gf100_fifo_chan_kick hw2 (chid chan) =? 0) && suspend);
    do 3 eexists; exists (set_state STOPPED chanb);
    (split; [reflexivity |]); (split; [exact Hlook2 |]);
    (split; [reflexivity |]); (split; [exact Hinb |]);
    (split; [exact Hpe2 |]);
    rewrite !running_ids_emit, Hids2, Hback;
    (split; [exact Hnot |]); (split; [reflexivity |]);
    rewrite <- Hback; exact Hsub2.
Qed.

Lemma init_fini_round_trip_witness :
  exists p1 r2 p2,
    gk104_fifo_chan_init (hw_get 0) 2 priv_mixed = Some (0, p1)
    /\ chan_state_of p1 2 = Some RUNNING
    /\ 2 ∈ running_ids p1 0
    /\ gk104_fifo_chan_fini (hw_get 0) 2 true p1 = Some (r2, p2)
    /\ running_ids p2 0 = running_ids priv_mixed 0.
Proof.
  destruct (init_fini_round_trip (hw_get 0) 2 priv_mixed
              (chan_on 2 0 STOPPED) (fresh_engn 0x10000)
              eq_refl eq_refl ltac:(vm_compute; split; [discriminate | reflexivity])
              eq_refl eq_refl)
    as (p1 & engn1 & Hinit & Hst & _ & Hin & _ & Hfini).
  destruct (Hfini (hw_get 0) true ltac:(reflexivity))
    as (r2 & p2 & engn2 & chan2 & Hf & _ & _ & _ & _ & _ & Hback & _).
  exists p1, r2, p2. auto.
Defined.

(** A channel that stops running leaves the list of its engine. *)
Lemma running_ids_drop (p q : gk104_fifo_priv) (slot ch : Z)
    (c : gk104_fifo_chan) :
  channel q = <[ch := c]> (channel p) ->
  state c <> RUNNING ->
  base_max q = base_max p ->
  running_ids q slot = filter (λ i, i <> ch) (running_ids p slot).
Proof.
  intros Hc Hs Hm. unfold running_ids.
  rewrite Hm, list_filter_filter. apply list_filter_iff.
  intros i. unfold runs_on. rewrite Hc.
  destruct (decide (i = ch)) as [-> | Hne].
  - rewrite lookup_insert_eq, bool_decide_eq_false_2 by exact Hs.
    simpl. split; [discriminate | tauto].
  - rewrite lookup_insert_ne by congruence. tauto.
Qed.

(** What fini does to a [RUNNING] channel once the idle wait is behind
    it. *)
Lemma chan_fini_running (hw : hw_env) (ch : Z) (suspend : bool)
    (priv : gk104_fifo_priv) (chan : gk104_fifo_chan)
    (engn : gk104_fifo_engn) :
  channel priv !! ch = Some chan ->
  state chan = RUNNING ->
  priv_engine priv !! engine chan = Some engn ->
  (suspend = true ->
   nv_wait hw (0x002640 + engine chan * 8) 0x80000000 0x00000000 = true) ->
  exists p2 chan2 evs,
    gk104_fifo_chan_fini hw ch suspend priv
    = Some (if negb (gf100_fifo_chan_kick hw (chid chan) =? 0) && suspend
            then (gf100_fifo_chan_kick hw (chid chan),
                  emit [EvChanKick (chid chan)] p2)
            else (nvkm_fifo_channel_fini hw (chid chan) suspend,
                  emit [EvWr32 (0x800000 + chid chan * 8) 0x00000000]
                    (emit [EvChanKick (chid chan)] p2)))
    /\ channel p2 = <[ch := chan2]> (channel priv)
    /\ chid chan2 = chid chan
    /\ engine chan2 = engine chan
    /\ state chan2 = STOPPED
    /\ watchdog_inited (timeout chan2) = false
    /\ base_max p2 = base_max priv
    /\ trace p2 = trace priv ++ evs
    /\ EvChanDisable (chid chan) ∈ evs
    /\ (forall reg val, EvWr32 reg val ∈ evs ->
                        reg = 0x002270 \/ reg = 0x002274)
    /\ (exists engn2,
          priv_engine p2 !! engine chan = Some engn2
          /\ submitted_runlist engn2
               (Z.of_nat (length (running_ids p2 (engine chan))))
             = (λ i, (i, 0)) <$> running_ids p2 (engine chan))
    /\ running_ids p2 (engine chan)
       = filter (λ i, i <> ch) (running_ids priv (engine chan))
    /\ EvWr32 0x002274
         (u32 (Z.lor (Z.shiftl (engine chan) 20)
                 (Z.of_nat (length (running_ids p2 (engine chan)))))) ∈ evs.
Proof.
  intros Hch Hst Hengn Hwait.
  unfold gk104_fifo_chan_fini. rewrite Hch. simpl.
  assert (Hnowait : suspend
                    && negb (nv_wait hw (0x002640 + engine chan * 8)
                               0x80000000 0x00000000) = false).
  { destruct suspend; [rewrite Hwait by reflexivity |]; reflexivity. }
  rewrite Hnowait.
  set (stopped := gk104_fifo_chan_timeout_stop chan).
  assert (Hstop : state (fst stopped) = RUNNING
                  /\ engine (fst stopped) = engine chan
                  /\ chid (fst stopped) = chid chan
                  /\ watchdog_inited (timeout (fst stopped)) = false
                  /\ forall reg val, EvWr32 reg val ∉ snd stopped).
  { unfold stopped, gk104_fifo_chan_timeout_stop.
    destruct (watchdog_inited (timeout chan)) eqn:Hi; simpl;
      repeat split; auto; intros reg val; not_elem_tac. }
  clearbody stopped. destruct stopped as [chanb evsb].
  simpl in Hstop. destruct Hstop as (Hstb & Hengb & Hidb & Hinb & Hevb).
  simpl fst. simpl snd.
  rewrite bool_decide_eq_true_2 by exact Hstb.
  change (engine (set_state STOPPED chanb)) with (engine chanb).
  rewrite Hengb.
  match goal with
  | |- context [gk104_fifo_runlist_update hw (engine chan) ?p] =>
      destruct (runlist_update_rebuilt hw (engine chan) p engn Hengn)
        as (p2 & evs2 & Hrun2 & Hch2 & _ & Htr2 & Hevs2);
      destruct (runlist_update_submitted hw (engine chan) p engn Hengn)
        as (p2' & engn2 & Hrun2' & _ & Hmax2 & Hpe2 & _ & Hsub2 & _);
      rewrite Hrun2 in Hrun2'; injection Hrun2' as <-;
      assert (Hpre : running_ids p2 (engine chan)
                     = running_ids p (engine chan))
        by (apply running_ids_ext; [| exact Hmax2];
            intros i; rewrite Hch2; reflexivity);
      rewrite <- Hpre in Hsub2, Hevs2; clear Hpre;
      pose proof (runlist_update_inv _ _ _ _ Hrun2) as (_ & _ & Hdev2 & _)
  end.
  rewrite Hrun2. simpl.
  assert (Hbm : base_max p2 = base_max priv)
    by (simpl in Hdev2; congruence).
  assert (Hput : channel p2 = <[ch := set_state STOPPED chanb]> (channel priv))
    by (rewrite Hch2; simpl; apply insert_insert_eq).
  exists p2, (set_state STOPPED chanb), (evsb ++ [EvChanDisable (chid chan)] ++ evs2).
  split; [destruct (negb _ && suspend); reflexivity |].
  split; [exact Hput |].
  split; [exact Hidb |]. split; [exact Hengb |]. split; [reflexivity |].
  split; [exact Hinb |]. split; [exact Hbm |].
  split; [rewrite Htr2; simpl; rewrite <- !app_assoc; reflexivity |].
  split; [elem_tac |].
  split.
  { intros reg val Hin.
    apply elem_of_app in Hin as [Hin | Hin]; [exfalso; exact (Hevb _ _ Hin) |].
    apply elem_of_cons in Hin as [Hin | Hin]; [discriminate |].
    rewrite Hevs2 in Hin.
    destruct (pmu_acquire_mutex hw =? 0);
      destruct (runlist_wait_event hw (engine chan) =? 0);
      repeat (rewrite elem_of_app in Hin || rewrite elem_of_cons in Hin
              || rewrite elem_of_nil in Hin);
      repeat match goal with
             | H : _ \/ _ |- _ => destruct H
             | H : False |- _ => destruct H
             | H : EvWr32 _ _ = _ |- _ =>
                 first [discriminate H | injection H as -> _; auto]
             end. }
  split; [exists engn2; split; [exact Hpe2 | exact Hsub2] |].
  split.
  { apply (running_ids_drop priv p2 _ ch (set_state STOPPED chanb));
      [exact Hput | discriminate | exact Hbm]. }
  rewrite Hevs2. elem_tac.
Qed.

(** X3.  A failed kick is fatal to fini only when suspending, and by
    then half of the stop has happened: fini returns the kick's error
    with the channel already [STOPPED], disabled and its watchdog
    disarmed, and with the run list of its engine rebuilt and submitted
    without it (the list is the former one less the channel, its length
    is what register 0x002274 was given, and its entries are in the
    buffer that was handed to the hardware), but without clearing the
    channel's register.  Without suspend the failure is ignored: the
    register is cleared and the result is that of the base fini. *)
Theorem chan_fini_kick_failure (hw : hw_env) (ch : Z)
    (priv : gk104_fifo_priv) (chan : gk104_fifo_chan)
    (engn : gk104_fifo_engn) :
  channel priv !! ch = Some chan ->
  state chan = RUNNING ->
  priv_engine priv !! engine chan = Some engn ->
  0 <= chid chan ->
  gf100_fifo_chan_kick hw (chid chan) <> 0 ->
  (nv_wait hw (0x002640 + engine chan * 8) 0x80000000 0x00000000 = true ->
   exists p' chan' engn' evs,
     gk104_fifo_chan_fini hw ch true priv
     = Some (gf100_fifo_chan_kick hw (chid chan), p')
     /\ channel p' !! ch = Some chan'
     /\ state chan' = STOPPED
     /\ watchdog_inited (timeout chan') = false
     /\ (ch ∉ running_ids p' (engine chan))
     /\ running_ids p' (engine chan)
        = filter (λ i, i <> ch) (running_ids priv (engine chan))
     /\ priv_engine p' !! engine chan = Some engn'
     /\ submitted_runlist engn'
          (Z.of_nat (length (running_ids p' (engine chan))))
        = (λ i, (i, 0)) <$> running_ids p' (engine chan)
     /\ EvWr32 0x002274
          (u32 (Z.lor (Z.shiftl (engine chan) 20)
                  (Z.of_nat (length (running_ids p' (engine chan)))))) ∈ evs
     /\ trace p' = trace priv ++ evs
     /\ EvChanDisable (chid chan) ∈ evs
     /\ EvChanKick (chid chan) ∈ evs
     /\ forall val, EvWr32 (0x800000 + chid chan * 8) val ∉ evs)
  /\ exists p' evs,
       gk104_fifo_chan_fini hw ch false priv
       = Some (nvkm_fifo_channel_fini hw (chid chan) false, p')
       /\ chan_state_of p' ch = Some STOPPED
       /\ trace p' = trace priv ++ evs
       /\ EvWr32 (0x800000 + chid chan * 8) 0 ∈ evs.
Proof.
  intros Hch Hst Hengn Hid Hkick. apply Z.eqb_neq in Hkick. split.
  - intros Hwait.
    destruct (chan_fini_running hw ch true priv chan engn Hch Hst Hengn
                ltac:(auto))
      as (p2 & chan2 & evs & Hf & Hch2 & _ & _ & Hst2 & Hin2 & Hmax & Htr
          & Hdis & Hwr & (engn2 & Hpe2 & Hsub2) & Hids2 & Hcnt2).
    rewrite Hkick in Hf. simpl in Hf.
    eexists. exists chan2, engn2, (evs ++ [EvChanKick (chid chan)]).
    split; [exact Hf |]. simpl.
    split; [rewrite Hch2; apply lookup_insert_eq |].
    split; [exact Hst2 |]. split; [exact Hin2 |]. split.
    { rewrite running_ids_emit, elem_of_running_ids.
      intros (_ & c & Hc & Hs & _).
      rewrite Hch2, lookup_insert_eq in Hc. injection Hc as <-. congruence. }
    rewrite !running_ids_emit.
    split; [exact Hids2 |]. split; [exact Hpe2 |]. split; [exact Hsub2 |].
    split; [apply elem_of_app; left; exact Hcnt2 |].
    split; [rewrite Htr, app_assoc; reflexivity |].
    split; [elem_tac |]. split; [elem_tac |].
    intros val Hin. apply elem_of_app in Hin as [Hin | Hin].
    + apply Hwr in Hin as [Hr | Hr]; lia.
    + revert Hin. not_elem_tac.
  - destruct (chan_fini_running hw ch false priv chan engn Hch Hst Hengn
                ltac:(discriminate))
      as (p2 & chan2 & evs & Hf & Hch2 & _ & _ & Hst2 & _ & _ & Htr & _).
    rewrite andb_false_r in Hf.
    eexists. exists (evs ++ [EvChanKick (chid chan);
                             EvWr32 (0x800000 + chid chan * 8) 0]).
    split; [exact Hf |]. simpl.
    split; [unfold chan_state_of; simpl; rewrite Hch2, lookup_insert_eq;
            simpl; congruence |].
    split; [rewrite Htr, <- !app_assoc; reflexivity | elem_tac].
Qed.

Lemma chan_fini_kick_failure_witness :
  exists p' chan' engn',
    gk104_fifo_chan_fini hw_contended 1 true priv_mixed = Some (-16, p')
    /\ channel p' !! 1 = Some chan'
    /\ state chan' = STOPPED
    /\ running_ids p' 0 = [5]
    /\ priv_engine p' !! 0 = Some engn'
    /\ submitted_runlist engn' 1 = [(5, 0)].
Proof.
  destruct (chan_fini_kick_failure hw_contended 1 priv_mixed
              (chan_on 1 0 RUNNING) (fresh_engn 0x10000)
              eq_refl eq_refl eq_refl ltac:(simpl; lia) ltac:(discriminate))
    as [Hsusp _].
  destruct (Hsusp eq_refl)
    as (p' & chan' & engn' & evs & Hf & Hc & Hs & _ & _ & Hids & Hpe & Hsub
        & _).
  change (engine (chan_on 1 0 RUNNING)) with 0 in Hids, Hpe, Hsub.
  assert (Hids5 : running_ids p' 0 = [5])
    by (rewrite Hids; vm_compute; reflexivity).
  rewrite Hids5 in Hsub.
  exists p', chan', engn'.
  split; [exact Hf |]. split; [exact Hc |]. split; [exact Hs |].
  split; [exact Hids5 |]. split; [exact Hpe | exact Hsub].
Defined.

(** X4.  Init beyond the first start.  When the base init fails, its
    error is returned and nothing has happened.  On a channel that is
    not [STOPPED] (already running, or killed) init programs the two
    channel registers and returns 0, but neither enables the channel
    nor rebuilds a run list: the channel table and the engine slots are
    as before. *)
Theorem chan_init_no_restart (hw : hw_env) (ch : Z)
    (priv : gk104_fifo_priv) (chan : gk104_fifo_chan) :
  channel priv !! ch = Some chan ->
  (nvkm_fifo_channel_init hw (chid chan) <> 0 ->
   gk104_fifo_chan_init hw ch priv
   = Some (nvkm_fifo_channel_init hw (chid chan), priv))
  /\ (nvkm_fifo_channel_init hw (chid chan) = 0 ->
      state chan <> STOPPED ->
      exists p',
        gk104_fifo_chan_init hw ch priv = Some (0, p')
        /\ channel p' = channel priv
        /\ priv_engine p' = priv_engine priv
        /\ trace p'
           = trace priv
             ++ [EvMask (0x800004 + chid chan * 8) 0x000f0000
                   (u32 (Z.shiftl (engine chan) 16));
                 EvWr32 (0x800000 + chid chan * 8)
                   (u32 (Z.lor 0x80000000
                           (Z.shiftr (base_addr hw (chid chan)) 12)))]).
Proof.
  intros Hch. unfold gk104_fifo_chan_init. rewrite Hch. simpl. split.
  - intros Hret. apply Z.eqb_neq in Hret. rewrite Hret. reflexivity.
  - intros Hret Hst. rewrite Hret. simpl.
    rewrite bool_decide_eq_false_2 by exact Hst.
    eexists. split; [reflexivity |]. repeat split.
Qed.

Lemma chan_init_no_restart_witness :
  exists p',
    gk104_fifo_chan_init (hw_get 0) 3 priv_mixed = Some (0, p')
    /\ channel p' = channel priv_mixed
    /\ priv_engine p' = priv_engine priv_mixed.
Proof.
  destruct (chan_init_no_restart (hw_get 0) 3 priv_mixed
              (chan_on 3 0 KILLED) eq_refl) as [_ Hkeep].
  destruct (Hkeep eq_refl ltac:(discriminate)) as (p' & Hi & Hc & He & _).
  exists p'. auto.
Defined.

(** ** Methods *)

Section methods.
Context {cls : nvif_class}.

(** X5.  The method entry point rejects every method number but the
    two it knows with [-EINVAL], touching nothing.  Set-timeout, on
    arguments that unpack, returns 0 and replaces the limit of that one
    channel (its state, its stall counter and its watchdog stay, and so
    does every other channel), and the limit is what the next timeout
    check compares against; on arguments that do not unpack it returns
    the unpack error and changes nothing. *)
Theorem chan_mthd_dispatch (ch mthd : Z) (data : mthd_data)
    (priv : gk104_fifo_priv) (chan : gk104_fifo_chan) :
  channel priv !! ch = Some chan ->
  KEPLER_SET_CHANNEL_TIMEOUT <> KEPLER_SET_CHANNEL_PRIORITY ->
  (mthd <> KEPLER_SET_CHANNEL_PRIORITY ->
   mthd <> KEPLER_SET_CHANNEL_TIMEOUT ->
   gk104_fifo_chan_mthd ch mthd data priv = Some (- EINVAL, priv))
  /\ (tmo_unpack (as_timeout data) <> 0 ->
      gk104_fifo_chan_mthd ch KEPLER_SET_CHANNEL_TIMEOUT data priv
      = Some (tmo_unpack (as_timeout data), priv))
  /\ (tmo_unpack (as_timeout data) = 0 ->
      exists p' chan',
        gk104_fifo_chan_mthd ch KEPLER_SET_CHANNEL_TIMEOUT data priv
        = Some (0, p')
        /\ channel p' = <[ch := chan']> (channel priv)
        /\ limit_ms (timeout chan') = timeout_ms (as_timeout data)
        /\ (state chan', engine chan', chid chan',
            sum_ms (timeout chan'), gpfifo_get (timeout chan'),
            watchdog_inited (timeout chan'), watchdog_work (timeout chan'))
           = (state chan, engine chan, chid chan,
              sum_ms (timeout chan), gpfifo_get (timeout chan),
              watchdog_inited (timeout chan), watchdog_work (timeout chan))
        /\ priv_engine p' = priv_engine priv
        /\ forall hw dt,
             snd (gk104_fifo_update_timeout hw chan' dt)
             = (timeout_ms (as_timeout data)
                <? sum_ms (timeout (fst (gk104_fifo_update_timeout hw chan dt))))).
Proof.
  intros Hch Hne. unfold gk104_fifo_chan_mthd. split; [| split].
  - intros H1 H2. apply Z.eqb_neq in H1, H2. rewrite H1, H2. reflexivity.
  - intros Hun. apply Z.eqb_neq in Hne, Hun. rewrite Hne, Z.eqb_refl.
    unfold gk104_fifo_chan_set_timeout. rewrite Hch. simpl.
    rewrite Hun. reflexivity.
  - intros Hun. apply Z.eqb_neq in Hne. rewrite Hne, Z.eqb_refl.
    unfold gk104_fifo_chan_set_timeout. rewrite Hch. simpl.
    rewrite Hun. simpl.
    eexists. eexists. split; [reflexivity |]. simpl.
    split; [reflexivity |]. split; [reflexivity |].
    split; [reflexivity |]. split; [reflexivity |].
    intros hw dt. unfold gk104_fifo_update_timeout. simpl.
    destruct (negb _); reflexivity.
Qed.

End methods.

Lemma chan_mthd_dispatch_witness :
  gk104_fifo_chan_mthd (H := sample_class) 3 9 sample_data priv3
  = Some (- EINVAL, priv3)
  /\ exists p' chan',
       gk104_fifo_chan_mthd (H := sample_class) 3 1 sample_data priv3
       = Some (0, p')
       /\ channel p' = <[3 := chan']> (channel priv3)
       /\ limit_ms (timeout chan') = 500.
Proof.
  destruct (chan_mthd_dispatch (cls := sample_class) 3 9 sample_data priv3
              chan3 eq_refl ltac:(discriminate)) as (Hbad & _ & Hset).
  split; [apply Hbad; discriminate |].
  destruct (Hset eq_refl) as (p' & chan' & Hrun & Hch & Hlim & _).
  exists p', chan'. auto.
Defined.

(** ** Stall accumulation *)

Lemma stall_checks_frame (hw : hw_env) (n : nat) (chan : gk104_fifo_chan) :
  chid (stall_checks hw n chan) = chid chan
  /\ limit_ms (timeout (stall_checks hw n chan)) = limit_ms (timeout chan)
  /\ state (stall_checks hw n chan) = state chan.
Proof.
  induction n as [| n IH]; cbn [stall_checks]; [auto |].
  destruct (update_timeout_frame hw (stall_checks hw n chan)
              GRFIFO_TIMEOUT_CHECK_PERIOD_MS) as (Hs & Hc & _ & Hl & _).
  destruct IH as (IH1 & IH2 & IH3).
  split; [congruence |]. split; congruence.
Qed.

(** X6.  While the consumer pointer stays where the last check recorded
    it, [n] checks add [n] times the check period to the stall counter,
    and the check after them escalates exactly when that sum plus one
    more period exceeds the limit.  From a counter at zero, the first
    check to escalate is therefore check number [limit / 100 + 1]. *)
Theorem stall_accumulates (hw : hw_env) (n : nat) (chan : gk104_fifo_chan) :
  ramfc_gpfifo_get hw (chid chan) = gpfifo_get (timeout chan) ->
  0 <= sum_ms (timeout chan) ->
  sum_ms (timeout chan) + 100 * (Z.of_nat n + 1) < 2 ^ 32 ->
  sum_ms (timeout (stall_checks hw n chan))
  = sum_ms (timeout chan) + 100 * Z.of_nat n
  /\ gpfifo_get (timeout (stall_checks hw n chan)) = gpfifo_get (timeout chan)
  /\ snd (gk104_fifo_update_timeout hw (stall_checks hw n chan)
            GRFIFO_TIMEOUT_CHECK_PERIOD_MS)
     = (limit_ms (timeout chan)
        <? sum_ms (timeout chan) + 100 * (Z.of_nat n + 1))
  /\ (sum_ms (timeout chan) = 0 -> 0 <= limit_ms (timeout chan) ->
      (snd (gk104_fifo_update_timeout hw (stall_checks hw n chan)
              GRFIFO_TIMEOUT_CHECK_PERIOD_MS) = true
       <-> limit_ms (timeout chan) / 100 + 1 <= Z.of_nat n + 1)).
Proof.
  intros Hget Hsum Hfit.
  assert (Hacc : forall k : nat, (k <= n)%nat ->
             sum_ms (timeout (stall_checks hw k chan))
             = sum_ms (timeout chan) + 100 * Z.of_nat k
             /\ gpfifo_get (timeout (stall_checks hw k chan))
                = gpfifo_get (timeout chan)).
  { induction k as [| k IH]; intros Hk.
    - simpl. split; [lia | reflexivity].
    - destruct (IH ltac:(lia)) as [IHs IHg]. cbn [stall_checks].
      destruct (stall_checks_frame hw k chan) as (Hid & _).
      unfold gk104_fifo_update_timeout. rewrite Hid, Hget, IHg, Z.eqb_refl.
      simpl. rewrite IHs. split; [| reflexivity].
      unfold u32, GRFIFO_TIMEOUT_CHECK_PERIOD_MS.
      rewrite Z.mod_small by lia. lia. }
  destruct (Hacc n (Nat.le_refl n)) as [Hs Hg].
  split; [exact Hs |]. split; [exact Hg |].
  assert (Hnext : snd (gk104_fifo_update_timeout hw (stall_checks hw n chan)
                         GRFIFO_TIMEOUT_CHECK_PERIOD_MS)
                  = (limit_ms (timeout chan)
                     <? sum_ms (timeout chan) + 100 * (Z.of_nat n + 1))).
  { destruct (stall_checks_frame hw n chan) as (Hid & Hl & _).
    unfold gk104_fifo_update_timeout. rewrite Hid, Hget, Hg, Z.eqb_refl.
    simpl. rewrite Hs, Hl. f_equal.
    unfold u32, GRFIFO_TIMEOUT_CHECK_PERIOD_MS.
    rewrite Z.mod_small by lia. lia. }
  split; [exact Hnext |].
  intros Hzero Hlim. rewrite Hnext, Hzero, Z.ltb_lt.
  pose proof (Z.div_mod (limit_ms (timeout chan)) 100 ltac:(lia)) as Hdm.
  pose proof (Z.mod_pos_bound (limit_ms (timeout chan)) 100 ltac:(lia)).
  lia.
Qed.

Lemma stall_accumulates_witness :
  snd (gk104_fifo_update_timeout (hw_get 5) (stall_checks (hw_get 5) 4 chan_500)
         GRFIFO_TIMEOUT_CHECK_PERIOD_MS) = false
  /\ snd (gk104_fifo_update_timeout (hw_get 5)
            (stall_checks (hw_get 5) 5 chan_500)
            GRFIFO_TIMEOUT_CHECK_PERIOD_MS) = true.
Proof.
  split.
  - rewrite (proj1 (proj2 (proj2 (stall_accumulates (hw_get 5) 4 chan_500
               eq_refl ltac:(simpl; lia) ltac:(simpl; lia))))).
    reflexivity.
  - apply (proj2 (proj2 (proj2 (stall_accumulates (hw_get 5) 5 chan_500
               eq_refl ltac:(simpl; lia) ltac:(simpl; lia)))));
      [reflexivity | simpl; lia |].
    vm_compute. discriminate.
Defined.

(** ** The watchdog, continued *)


Lemma set_watchdog_inited_same (c : gk104_fifo_chan) :
  set_timeout (set_watchdog_inited (watchdog_inited (timeout c))) c = c.
Proof. destruct c as [? ? ? []]. reflexivity. Qed.



(** ** The restart scan, continued *)

(** X8.  The restart scan returns [true] exactly when no armed watchdog
    among the ids from [priv->base.min] up to, but excluding,
    [priv->base.max] has lost its pending work; then every armed
    watchdog in that range is pending again, except that of the
    exception channel, which is left cancelled, and channels without an
    armed watchdog, or outside the range, are as they were. *)
Theorem restart_all_succeeds_iff (priv : gk104_fifo_priv) (exception : Z) :
  (fst (gk104_fifo_chan_timeout_restart_all priv exception) = true
   <-> forall i, base_min priv <= i < base_max priv -> ~ cancel_fails priv i)
  /\ (fst (gk104_fifo_chan_timeout_restart_all priv exception) = true ->
      forall k,
        channel (snd (gk104_fifo_chan_timeout_restart_all priv exception)) !! k
        = if decide (base_min priv <= k < base_max priv)
          then restart_chan exception k <$> channel priv !! k
          else channel priv !! k).
Proof.
  assert (Hok : (forall i, base_min priv <= i < base_max priv ->
                           ~ cancel_fails priv i) ->
                exists priv1,
                  gk104_fifo_chan_timeout_restart_all priv exception
                  = (true, priv1)
                  /\ forall k, channel priv1 !! k
                       = if decide (base_min priv <= k < base_max priv)
                         then restart_chan exception k <$> channel priv !! k
                         else channel priv !! k).
  { intros Hall.
    destruct (restart_scan_ok exception
                (seqZ (base_min priv) (base_max priv - base_min priv)) priv
                (NoDup_seqZ _ _)) as (priv1 & Hscan & _ & Hch & _).
    { intros i Hi. apply Hall. apply elem_of_seqZ in Hi. lia. }
    exists priv1. split; [exact Hscan |].
    intros k. rewrite Hch.
    destruct (decide (k ∈ seqZ (base_min priv)
                       (base_max priv - base_min priv))) as [Hin | Hnin];
      rewrite elem_of_seqZ in *.
    - rewrite decide_True by lia. reflexivity.
    - rewrite decide_False by lia. reflexivity. }
  assert (Hiff : fst (gk104_fifo_chan_timeout_restart_all priv exception)
                 = true
                 <-> forall i, base_min priv <= i < base_max priv ->
                               ~ cancel_fails priv i).
  { split.
    - intros Htrue i Hi Hfail.
      destruct (restart_all_fail priv exception i Hi Hfail)
        as (j0 & priv1 & _ & _ & _ & Hall & _).
      rewrite Hall in Htrue. discriminate.
    - intros Hall. destruct (Hok Hall) as (priv1 & Hrun & _).
      rewrite Hrun. reflexivity. }
  split; [exact Hiff |].
  intros Htrue. destruct (Hok (proj1 Hiff Htrue)) as (priv1 & Hrun & Hch).
  rewrite Hrun. exact Hch.
Qed.

Lemma restart_all_succeeds_iff_witness :
  fst (gk104_fifo_chan_timeout_restart_all priv_stall 3) = true
  /\ fst (gk104_fifo_chan_timeout_restart_all priv_blocked 3) <> true.
Proof.
  split.
  - reflexivity.
  - intros Htrue.
    apply (proj1 (proj1 (restart_all_succeeds_iff priv_blocked 3)) Htrue 2).
    + change (base_min priv_blocked) with 0.
      change (base_max priv_blocked) with 7. lia.
    + exists (chan_watched 2 0 false). repeat split.
Defined.

(** ** The monitor, continued *)

Lemma same_but_watchdog_work_refl (c : gk104_fifo_chan) :
  same_but_watchdog_work c c.
Proof. repeat split. Qed.

Lemma slot_keeps_refl (o : option gk104_fifo_chan) : slot_keeps o o.
Proof. destruct o; simpl; [apply same_but_watchdog_work_refl | exact I]. Qed.

Lemma slot_keeps_trans (o1 o2 o3 : option gk104_fifo_chan) :
  slot_keeps o1 o2 -> slot_keeps o2 o3 -> slot_keeps o1 o3.
Proof.
  destruct o1 as [c1 |], o2 as [c2 |], o3 as [c3 |]; simpl; try tauto.
  unfold same_but_watchdog_work.
  intros (? & ? & ? & ? & ? & ? & ? & ?) (? & ? & ? & ? & ? & ? & ? & ?).
  repeat split; congruence.
Qed.

Lemma slot_keeps_put_work (priv : gk104_fifo_priv) (i j : Z)
    (c : gk104_fifo_chan) (b : bool) (evs : list event) :
  channel priv !! i = Some c ->
  slot_keeps (channel priv !! j)
    (channel (emit evs (put_chan i (set_timeout (set_watchdog_work b) c) priv))
     !! j).
Proof.
  intros Hc. simpl. destruct (decide (i = j)) as [<- | Hne].
  - rewrite lookup_insert_eq, Hc. simpl. repeat split.
  - rewrite lookup_insert_ne by done. apply slot_keeps_refl.
Qed.

(** Whatever its outcome, the restart scan changes nothing of a channel
    but the pending bit of its watchdog work. *)
Lemma restart_scan_keeps (exception : Z) (ids : list Z) :
  forall (priv : gk104_fifo_priv) (j : Z),
  slot_keeps (channel priv !! j)
    (channel (snd (restart_scan exception ids priv)) !! j).
Proof.
  induction ids as [| i ids IH]; intros priv j; simpl;
    [apply slot_keeps_refl |].
  destruct (channel priv !! i) as [c |] eqn:Hc; [| apply IH].
  destruct (watchdog_inited (timeout c)); simpl; [| apply IH].
  pose proof (slot_keeps_put_work priv i j c false [EvCancelDelayedWork i] Hc)
    as H1.
  destruct (watchdog_work (timeout c)); simpl; [| exact H1].
  destruct (i =? exception).
  - eapply slot_keeps_trans; [exact H1 | apply IH].
  - eapply slot_keeps_trans; [exact H1 |].
    eapply slot_keeps_trans; [| apply IH].
    apply (slot_keeps_put_work _ i j
             (set_timeout (set_watchdog_work false) c) true).
    simpl. apply lookup_insert_eq.
Qed.

(** A turn of the monitor touches, beyond watchdog pending bits, only
    the channel its status register reports. *)
Lemma sched_ctxsw_engn_keeps (hw : hw_env) (engn : Z)
    (priv priv' : gk104_fifo_priv) (j : Z) :
  sched_ctxsw_engn hw engn priv = Some priv' ->
  ~ ctxsw_reports hw engn j ->
  slot_keeps (channel priv !! j) (channel priv' !! j).
Proof.
  unfold sched_ctxsw_engn, ctxsw_reports.
  set (stat := nv_rd32 hw (0x002640 + engn * 0x08)).
  set (ctxstat := Z.shiftr (Z.land stat 0x0000e000) 13).
  set (id := if ctxstat =? CTXSW_STATUS_LOAD then _ else _).
  destruct (negb (Z.land stat 0x80000000 =? 0) && _) eqn:Hact;
    [| intros [= <-] _; apply slot_keeps_refl].
  destruct (channel priv !! id) as [chan |] eqn:Hch;
    [| intros [= <-] _; apply slot_keeps_refl].
  destruct (gk104_fifo_engine hw priv engn) as [eng |];
    [| intros [= <-] _; apply slot_keeps_refl].
  intros Hrun Hnot.
  assert (Hj : j <> id).
  { intros ->. apply Hnot. apply andb_true_iff in Hact as [Hbusy Hctx].
    apply negb_true_iff, Z.eqb_neq in Hbusy. split; [exact Hbusy |].
    unfold id. destruct (ctxstat =? CTXSW_STATUS_LOAD) eqn:Hl.
    - left. apply Z.eqb_eq in Hl. auto.
    - right. split; [| reflexivity].
      apply orb_true_iff in Hctx as [Hctx | Hs];
        [apply orb_true_iff in Hctx as [Hld | Hs] |].
      + congruence.
      + apply Z.eqb_eq in Hs. auto.
      + apply Z.eqb_eq in Hs. auto. }
  revert Hrun.
  set (checked := gk104_fifo_update_timeout hw chan
                    GRFIFO_TIMEOUT_CHECK_PERIOD_MS).
  cbv zeta. clearbody checked. destruct checked as [chan1 over].
  simpl fst. simpl snd.
  assert (H0 : forall evs,
             slot_keeps (channel priv !! j)
               (channel (emit evs (put_chan id chan1 priv)) !! j)).
  { intros evs. simpl. rewrite lookup_insert_ne by congruence.
    apply slot_keeps_refl. }
  destruct over; [| intros [= <-]; apply H0].
  unfold gk104_fifo_chan_timeout_restart_all.
  match goal with
  | |- context [restart_scan id ?ids ?p] =>
      pose proof (restart_scan_keeps id ids p j) as Hscan;
      destruct (restart_scan id ids p) as [ok priv1]
  end.
  simpl in Hscan. simpl fst. simpl snd.
  assert (H1 : slot_keeps (channel priv !! j) (channel priv1 !! j)).
  { eapply slot_keeps_trans; [apply (H0 []) | exact Hscan]. }
  destruct ok; [| intros [= <-]; exact H1].
  intros Hrun. unfold gk104_fifo_sched_ctxsw_recover in Hrun.
  simpl in Hrun.
  destruct (channel priv1 !! id) as [c1 |] eqn:Hc1; [| discriminate].
  simpl in Hrun.
  match type of Hrun with
  | gk104_fifo_mmu_fault_recover hw eng id 0 ?p = _ =>
      destruct (mmu_fault_recover_eq hw eng id 0 p c1)
        as (p' & Hrec & Hchan & _)
  end.
  { destruct (nv_wait hw _ _ _); exact Hc1. }
  rewrite Hrun in Hrec. injection Hrec as <-.
  rewrite Hchan.
  replace ((<[id := set_state KILLED c1]> _ : gmap Z gk104_fifo_chan) !! j)
    with (channel priv1 !! j).
  - exact H1.
  - rewrite lookup_insert_ne by congruence.
    destruct (nv_wait hw _ _ _); reflexivity.
Qed.

Lemma sched_ctxsw_loop_keeps (hw : hw_env) (j : Z) (engns : list Z) :
  forall priv priv' : gk104_fifo_priv,
  sched_ctxsw_loop hw engns priv = Some priv' ->
  (forall engn, engn ∈ engns -> ~ ctxsw_reports hw engn j) ->
  slot_keeps (channel priv !! j) (channel priv' !! j).
Proof.
  induction engns as [| engn engns IH]; intros priv priv' Hrun Hnot;
    simpl in Hrun.
  - injection Hrun as <-. apply slot_keeps_refl.
  - destruct (sched_ctxsw_engn hw engn priv) as [p1 |] eqn:H1;
      [| discriminate].
    simpl in Hrun. eapply slot_keeps_trans.
    + apply (sched_ctxsw_engn_keeps _ _ _ _ _ H1). apply Hnot. left.
    + apply (IH _ _ Hrun). intros e He. apply Hnot. right. exact He.
Qed.

(** X9.  A pass of the context-switch monitor leaves alone every
    channel that no engine's status register reports as involved in a
    busy context switch: such a channel keeps its state (it is never
    killed by the pass), its stall counter, its recorded pointer and its
    limit; all that may change is the pending bit of its watchdog
    work. *)
Theorem monitor_spares_unreported (hw : hw_env)
    (priv priv' : gk104_fifo_priv) (j : Z) (c : gk104_fifo_chan) :
  gk104_fifo_intr_sched_ctxsw hw priv = Some priv' ->
  channel priv !! j = Some c ->
  (forall engn, 0 <= engn < num_engine (oclass priv) ->
                ~ ctxsw_reports hw engn j) ->
  exists c', channel priv' !! j = Some c' /\ same_but_watchdog_work c c'.
Proof.
  intros Hrun Hc Hnot.
  pose proof (sched_ctxsw_loop_keeps hw j _ priv priv' Hrun) as Hkeep.
  rewrite Hc in Hkeep.
  destruct (channel priv' !! j) as [c' |].
  - exists c'. split; [reflexivity |]. apply Hkeep.
    intros engn He. apply Hnot. apply elem_of_seqZ in He. lia.
  - exfalso. apply Hkeep.
    intros engn He. apply Hnot. apply elem_of_seqZ in He. lia.
Qed.

Lemma monitor_spares_unreported_witness :
  exists priv' c',
    gk104_fifo_intr_sched_ctxsw hw_stall priv_stall = Some priv'
    /\ chan_state_of priv' 3 = Some KILLED
    /\ channel priv' !! 1 = Some c'
    /\ same_but_watchdog_work (chan_watched 1 0 true) c'.
Proof.
  destruct (gk104_fifo_intr_sched_ctxsw hw_stall priv_stall)
    as [priv' |] eqn:Hrun; [| vm_compute in Hrun; discriminate].
  destruct (monitor_spares_unreported hw_stall priv_stall priv' 1
              (chan_watched 1 0 true) Hrun eq_refl) as (c' & Hc' & Hsame).
  - intros engn Hengn (Hbusy & Hid).
    change (num_engine (oclass priv_stall)) with 2 in Hengn.
    assert (engn = 0 \/ engn = 1) as [-> | ->] by lia.
    + destruct Hid as [[Hl _] | [_ Hp]];
        [vm_compute in Hl | vm_compute in Hp]; discriminate.
    + apply Hbusy. reflexivity.
  - exists priv', c'. split; [reflexivity |]. split; [| auto].
    assert (Hk : Some priv' = Some priv') by reflexivity.
    rewrite <- Hrun in Hk at 1. vm_compute in Hk.
    injection Hk as <-. reflexivity.
Defined.

(** ** The recovery work, continued *)

Lemma filter_ext_in {A} (P Q : A -> Prop) `{!forall x, Decision (P x)}
    `{!forall x, Decision (Q x)} (l : list A) :
  (forall x, x ∈ l -> (P x <-> Q x)) -> filter P l = filter Q l.
Proof.
  induction l as [| a l IH]; intros Hpq; [reflexivity |].
  rewrite !filter_cons.
  rewrite IH by (intros x Hx; apply Hpq; right; exact Hx).
  apply decide_ext. apply Hpq. left.
Qed.

Lemma filter_none {A} (P : A -> Prop) `{!forall x, Decision (P x)}
    (l : list A) :
  (forall x, x ∈ l -> ~ P x) -> filter P l = [].
Proof.
  induction l as [| a l IH]; intros Hp; [reflexivity |].
  rewrite filter_cons_False by (apply Hp; left).
  apply IH. intros x Hx. apply Hp. right. exact Hx.
Qed.

(** One turn of the loop header clears the bit it has found and keeps
    the others. *)
Lemma todo_clear_bit (todo engn b : Z) :
  0 <= engn < 31 -> 0 <= b < 64 ->
  Z.testbit (Z.land todo (u64 (Z.lnot (int_shl1 engn)))) b
  = Z.testbit todo b && negb (b =? engn).
Proof.
  intros He Hb. rewrite Z.land_spec. f_equal. unfold u64.
  rewrite Z.mod_pow2_bits_low, Z.lnot_spec by lia. f_equal.
  unfold int_shl1. rewrite Z.shiftl_1_l.
  assert (2 ^ engn < 2 ^ 31) by (apply Z.pow_lt_mono_r; lia).
  assert (0 < 2 ^ engn) by (apply Z.pow_pos_nonneg; lia).
  rewrite Z.mod_small by lia.
  replace (2 ^ engn + 2 ^ 31 - 2 ^ 31) with (2 ^ engn) by lia.
  rewrite Z.pow2_bits_eqb by lia. apply Z.eqb_sym.
Qed.

Lemma todo_engines_bits (fuel : nat) :
  forall todo lo,
  0 <= todo -> 0 <= lo <= 31 ->
  (forall b, 31 <= b -> Z.testbit todo b = false) ->
  (forall b, 0 <= b < lo -> Z.testbit todo b = false) ->
  31 - lo < Z.of_nat fuel ->
  todo_engines fuel todo
  = Some (filter (λ b, Z.testbit todo b = true) (seqZ lo (31 - lo))).
Proof.
  induction fuel as [| fuel IH]; intros todo lo Hnn Hlo Hhigh Hlow Hfuel;
    [lia |].
  simpl. destruct (Z.eqb_spec todo 0) as [Hz | Hnz].
  { subst todo. rewrite filter_none; [reflexivity |].
    intros b _ Hbit. rewrite Z.bits_0 in Hbit. discriminate. }
  assert (Hpos : 0 < todo) by lia.
  pose proof (Z.bit_log2 todo Hpos) as Hlog.
  assert (Hloglt : 0 <= Z.log2 todo < 31).
  { split; [apply Z.log2_nonneg |].
    destruct (Z.lt_ge_cases (Z.log2 todo) 31) as [? | Hge]; [assumption |].
    rewrite (Hhigh _ Hge) in Hlog. discriminate. }
  destruct (ffs_from_spec 64 0 todo (Z.log2 todo) ltac:(lia) Hlog)
    as [Hr Hrbit].
  fold (__ffs64 todo) in Hr, Hrbit.
  assert (Hmin : forall b, 0 <= b -> Z.testbit todo b = true ->
                           __ffs64 todo <= b).
  { intros b Hb Hbit.
    assert (b < 31).
    { destruct (Z.lt_ge_cases b 31); [assumption |].
      rewrite Hhigh in Hbit by lia. discriminate. }
    destruct (ffs_from_spec 64 0 todo b ltac:(lia) Hbit) as [Hr' _].
    exact (proj2 Hr'). }
  set (engn := __ffs64 todo) in *. clearbody engn.
  assert (Hlo_engn : lo <= engn).
  { destruct (Z.le_gt_cases lo engn) as [? | Hgt]; [assumption |].
    rewrite Hlow in Hrbit by lia. discriminate. }
  set (todo' := Z.land todo (u64 (Z.lnot (int_shl1 engn)))).
  assert (Hbits : forall b, 0 <= b ->
                    Z.testbit todo' b = Z.testbit todo b && negb (b =? engn)).
  { intros b Hb. destruct (Z.lt_ge_cases b 64) as [Hlt | Hge].
    - apply todo_clear_bit; lia.
    - unfold todo'. rewrite Z.land_spec, Hhigh by lia. reflexivity. }
  assert (Hnn' : 0 <= todo') by (unfold todo'; apply Z.land_nonneg; auto).
  clearbody todo'.
  rewrite (IH todo' (engn + 1)).
  - simpl. f_equal.
    replace (31 - lo) with ((engn - lo) + (31 - engn)) by lia.
    rewrite (seqZ_app lo (engn - lo) (31 - engn)), filter_app by lia.
    rewrite (filter_none _ (seqZ lo (engn - lo))).
    2:{ intros b Hb Hbit. apply elem_of_seqZ in Hb.
        assert (Hb0 : 0 <= b) by lia.
        specialize (Hmin b Hb0 Hbit). lia. }
    rewrite app_nil_l.
    replace (lo + (engn - lo)) with engn by lia.
    assert (Hengn : 0 < 31 - engn).
    { pose proof (Hmin (Z.log2 todo) ltac:(lia) Hlog). lia. }
    rewrite (seqZ_cons engn (31 - engn)) by exact Hengn.
    rewrite filter_cons_True by exact Hrbit. f_equal.
    replace (Z.succ engn) with (engn + 1) by lia.
    replace (Z.pred (31 - engn)) with (31 - (engn + 1)) by lia.
    apply filter_ext_in. intros b Hb. apply elem_of_seqZ in Hb.
    rewrite Hbits by lia.
    destruct (Z.eqb_spec b engn); [lia |].
    rewrite andb_true_r. reflexivity.
  - exact Hnn'.
  - lia.
  - intros b Hb. rewrite Hbits, Hhigh by lia. reflexivity.
  - intros b Hb. rewrite Hbits by lia.
    destruct (Z.eqb_spec b engn) as [-> | Hne];
      [apply andb_false_r |].
    destruct (Z.testbit todo b) eqn:Hbit; [| reflexivity].
    specialize (Hmin b ltac:(lia) Hbit). lia.
  - lia.
Qed.

Lemma bits_above_pow2 (x n b : Z) :
  0 <= x < 2 ^ n -> n <= b -> Z.testbit x b = false.
Proof.
  intros Hx Hb. destruct (Z.eq_dec x 0) as [-> | Hnz]; [apply Z.bits_0 |].
  apply Z.bits_above_log2; [lia |].
  assert (0 <= n).
  { destruct (Z.lt_ge_cases n 0); [| assumption].
    rewrite Z.pow_neg_r in Hx; lia. }
  assert (Z.log2 x < n) by (apply Z.log2_lt_pow2; lia). lia.
Qed.

(** X10.  The loop header of the recovery work, on a mask whose engines
    have indices below 31 (where [1 << engn] is a positive [int]):
    it visits exactly the engines whose bit is set in the mask, each
    once and in increasing order, and then ends. *)
Theorem recovery_visits_named_engines (msk : Z) :
  0 <= msk < 2 ^ 31 ->
  todo_engines 64 msk
  = Some (filter (λ b, Z.testbit msk b = true) (seqZ 0 31)).
Proof.
  intros Hm.
  apply (todo_engines_bits 64 msk 0); try lia.
  intros b Hb. apply (bits_above_pow2 msk 31); assumption.
Qed.

Lemma recovery_visits_named_engines_witness :
  todo_engines 64 0xc02 = Some [1; 10; 11].
Proof.
  rewrite (recovery_visits_named_engines 0xc02) by lia. reflexivity.
Defined.

(** ** A fault and the recovery that follows *)

Lemma todo_engines_single (idx : Z) :
  0 <= idx < 31 -> todo_engines 64 (u64 (Z.shiftl 1 idx)) = Some [idx].
Proof.
  intros Hi.
  assert (Hlt : 2 ^ idx < 2 ^ 31) by (apply Z.pow_lt_mono_r; lia).
  assert (Hpos : 0 < 2 ^ idx) by (apply Z.pow_pos_nonneg; lia).
  assert (Hpow : u64 (Z.shiftl 1 idx) = 2 ^ idx).
  { unfold u64. rewrite Z.shiftl_1_l. apply Z.mod_small. lia. }
  rewrite Hpow, (todo_engines_bits 64 (2 ^ idx) 0); try lia.
  - f_equal. change (31 - 0) with 31.
    replace (seqZ 0 31) with (seqZ 0 idx ++ seqZ (0 + idx) (31 - idx)).
    2:{ rewrite <- seqZ_app by lia. f_equal. lia. }
    rewrite filter_app, (filter_none _ (seqZ 0 idx)).
    2:{ intros b Hb Hbit. apply elem_of_seqZ in Hb.
        rewrite Z.pow2_bits_eqb in Hbit by lia.
        apply Z.eqb_eq in Hbit. lia. }
    rewrite app_nil_l. change (0 + idx) with idx.
    rewrite (seqZ_cons idx (31 - idx)) by lia.
    rewrite filter_cons_True by (apply Z.pow2_bits_true; lia).
    f_equal. apply filter_none.
    intros b Hb Hbit. apply elem_of_seqZ in Hb.
    rewrite Z.pow2_bits_eqb in Hbit by lia.
    apply Z.eqb_eq in Hbit. lia.
  - intros b Hb. apply (bits_above_pow2 (2 ^ idx) 31); lia.
Qed.

(** The recovery work on a mask that names one engine: what it does
    around the one rebuild. *)
Lemma recover_engines_single `{nvdev_idx} (hw : hw_env) (msk : Z)
    (chan : option Z) (unit : Z) (priv : gk104_fifo_priv) (engn : Z) :
  todo_engines 64 msk = Some [engn] ->
  exists p0,
    channel p0 = channel priv
    /\ base_max p0 = base_max priv
    /\ priv_engine p0 = priv_engine priv
    /\ (exists pre,
          trace p0 = trace priv ++ pre
          /\ (EvEngineFini engn ∈ pre <-> is_Some (nvkm_engine_of hw engn))
          /\ (EvEngineInit engn ∈ pre <-> is_Some (nvkm_engine_of hw engn)))
    /\ forall p1,
         gk104_fifo_runlist_update hw (u32 (gk104_fifo_engidx engn)) p0
         = Some p1 ->
         exists p2 post,
           recover_engines hw msk chan unit priv = Some p2
           /\ channel p2 = channel p1
           /\ base_max p2 = base_max p1
           /\ priv_engine p2 = priv_engine p1
           /\ (mask p2, fault_chan p2, fault_unit p2, mmu_fault p2)
              = (mask p1, fault_chan p1, fault_unit p1, mmu_fault p1)
           /\ trace p2 = trace p1 ++ post.
Proof.
  intros Htodo. unfold recover_engines. rewrite Htodo. simpl.
  match goal with
  | |- context [gk104_fifo_runlist_update hw _ ?p] => exists p
  end.
  split; [destruct (has_disable_clk_gating hw),
            ((engn =? NVDEV_ENGINE_GR) || false) , (has_halt_fecs hw);
          reflexivity |].
  split; [destruct (has_disable_clk_gating hw),
            ((engn =? NVDEV_ENGINE_GR) || false) , (has_halt_fecs hw);
          reflexivity |].
  split; [destruct (has_disable_clk_gating hw),
            ((engn =? NVDEV_ENGINE_GR) || false) , (has_halt_fecs hw);
          reflexivity |].
  split.
  - rewrite app_nil_r.
    destruct (has_disable_clk_gating hw),
      ((engn =? NVDEV_ENGINE_GR) || false) , (has_halt_fecs hw),
      (nvkm_engine_of hw engn); simpl;
      (eexists; split; [rewrite <- ?app_assoc; reflexivity |]);
      simpl; split;
      first [ solve [split; [intros _; eauto | intros _; elem_tac]]
            | solve [split; [intros Hin; exfalso; revert Hin; not_elem_tac
                            | intros [? Hn]; discriminate]] ].
  - intros p1 Hp1. rewrite Hp1. simpl.
    destruct (has_enable_clk_gating hw),
      ((0 <=? pm_runtime_get_sync hw)
       || (pm_runtime_get_sync hw =? - EACCES)); simpl;
      eexists; eexists; (split; [reflexivity |]);
      repeat (split; [reflexivity |]);
      simpl; rewrite <- ?app_assoc; reflexivity.
Qed.

Lemma running_ids_kill (p q : gk104_fifo_priv) (slot ch : Z)
    (chan : gk104_fifo_chan) :
  channel q = <[ch := set_state KILLED chan]> (channel p) ->
  base_max q = base_max p ->
  running_ids q slot = filter (λ i, i <> ch) (running_ids p slot).
Proof.
  intros Hc Hm. unfold running_ids.
  rewrite Hm, list_filter_filter. apply list_filter_iff.
  intros i. unfold runs_on. rewrite Hc.
  destruct (decide (i = ch)) as [-> | Hne].
  - rewrite lookup_insert_eq. simpl. split; [discriminate | tauto].
  - rewrite lookup_insert_ne by congruence. tauto.
Qed.

(** X11.  A page fault on a record that names no engine yet, and the
    recovery work that follows it, for an engine with a device index
    below 31 and a run-list slot: the fault is taken, the work comes to
    an end, the faulting channel is [KILLED] and every other channel is
    as before, the record is cleared and nothing is pending, the engine
    is reset if the device has it, and the run list submitted for the
    engine's slot lists the channels that were running on it without
    the faulting one; the other slots are not touched. *)
Theorem fault_then_recovery `{nvdev_idx} (hw hw' : hw_env)
    (eng : nvkm_engine) (ch unit : Z) (priv : gk104_fifo_priv)
    (chan : gk104_fifo_chan) (engn : gk104_fifo_engn) :
  channel priv !! ch = Some chan ->
  mask priv = 0 ->
  0 <= nv_engidx eng < 31 ->
  priv_engine priv !! u32 (gk104_fifo_engidx (nv_engidx eng)) = Some engn ->
  exists p1 p2 engn2,
    gk104_fifo_mmu_fault_recover hw eng ch unit priv = Some p1
    /\ run_mmu_fault_work hw' p1 = Some p2
    /\ chan_state_of p2 ch = Some KILLED
    /\ (forall i, i <> ch -> channel p2 !! i = channel priv !! i)
    /\ (mask p2, fault_chan p2, fault_unit p2, mmu_fault p2)
       = (0, None, 0, false)
    /\ priv_engine p2 !! u32 (gk104_fifo_engidx (nv_engidx eng)) = Some engn2
    /\ (forall e, e <> u32 (gk104_fifo_engidx (nv_engidx eng)) ->
          priv_engine p2 !! e = priv_engine priv !! e)
    /\ running_ids p2 (u32 (gk104_fifo_engidx (nv_engidx eng)))
       = filter (λ i, i <> ch)
           (running_ids priv (u32 (gk104_fifo_engidx (nv_engidx eng))))
    /\ submitted_runlist engn2
         (Z.of_nat (length (running_ids p2
                              (u32 (gk104_fifo_engidx (nv_engidx eng))))))
       = (λ i, (i, 0))
           <$> running_ids p2 (u32 (gk104_fifo_engidx (nv_engidx eng)))
    /\ exists evs,
         trace p2 = trace p1 ++ evs
         /\ (is_Some (nvkm_engine_of hw' (nv_engidx eng)) ->
             EvEngineFini (nv_engidx eng) ∈ evs
             /\ EvEngineInit (nv_engidx eng) ∈ evs).
Proof.
  intros Hch Hmask Hidx Hslot.
  destruct (mmu_fault_recover_eq hw eng ch unit priv chan Hch)
    as (p1 & Hrec & Hch1 & Hpe1 & Hmerge & _).
  destruct Hmerge as (Hm1 & _ & _ & Hpend & Hkilled).
  rewrite Hmask, Z.lor_0_l in Hm1.
  pose proof (todo_engines_single (nv_engidx eng) Hidx) as Htodo.
  rewrite <- Hm1 in Htodo.
  destruct (recover_engines_single hw' (mask p1) (fault_chan p1)
              (fault_unit p1) (set_fault 0 None 0 (set_mmu_fault false p1))
              (nv_engidx eng) Htodo)
    as (p0 & Hch0 & Hmax0 & Hpe0 & (pre & Htr0 & Hfini & Hinit) & Hrest).
  change (channel p0 = channel p1) in Hch0.
  change (base_max p0 = base_max p1) in Hmax0.
  change (priv_engine p0 = priv_engine p1) in Hpe0.
  change (trace p0 = trace p1 ++ pre) in Htr0.
  assert (Hmax1 : base_max p1 = base_max priv).
  { unfold gk104_fifo_mmu_fault_recover in Hrec. rewrite Hch in Hrec.
    simpl in Hrec. injection Hrec as <-. reflexivity. }
  assert (Hslot0 : priv_engine p0 !! u32 (gk104_fifo_engidx (nv_engidx eng))
                   = Some engn) by (rewrite Hpe0, Hpe1; exact Hslot).
  destruct (runlist_update_submitted hw' _ p0 engn Hslot0)
    as (q1 & engn2 & Hrun & Hchq & Hmaxq & Hsq & Hothers & Hsub
        & evs1 & Htrq & _).
  destruct (Hrest q1 Hrun)
    as (p2 & post & Hwork & Hch2 & Hmax2 & Hpe2 & _ & Htr2).
  assert (Hrunwork : run_mmu_fault_work hw' p1 = Some p2).
  { rewrite (run_mmu_fault_work_pending hw' p1 Hpend). exact Hwork. }
  destruct (run_mmu_fault_work_clears hw' p1 p2 Hpend Hrunwork)
    as (Hrecord & Hnone & _).
  assert (Hchan2 : channel p2 = <[ch := set_state KILLED chan]> (channel priv))
    by congruence.
  assert (Hids : forall slot,
             running_ids p2 slot = filter (λ i, i <> ch) (running_ids priv slot)).
  { intros slot. apply (running_ids_kill priv p2 slot ch chan Hchan2).
    congruence. }
  assert (Hidsq : forall slot, running_ids p0 slot = running_ids p2 slot).
  { intros slot. apply running_ids_ext; [| congruence].
    intros i. rewrite Hch2, Hchq. reflexivity. }
  exists p1, p2, engn2.
  split; [exact Hrec |]. split; [exact Hrunwork |].
  split.
  { unfold chan_state_of. rewrite Hchan2, lookup_insert_eq. reflexivity. }
  split.
  { intros i Hi. rewrite Hchan2. apply lookup_insert_ne. congruence. }
  split.
  { injection Hrecord as Ha Hb Hc. rewrite Ha, Hb, Hc, Hnone. reflexivity. }
  split; [rewrite Hpe2; exact Hsq |].
  split.
  { intros e He. rewrite Hpe2, (Hothers e He), Hpe0, Hpe1. reflexivity. }
  split; [apply Hids |].
  split; [rewrite <- Hidsq; exact Hsub |].
  exists (pre ++ evs1 ++ post). split.
  - rewrite Htr2, Htrq, Htr0, <- !app_assoc. reflexivity.
  - intros Hsome. split; apply elem_of_app; left;
      [apply Hfini | apply Hinit]; exact Hsome.
Qed.

Lemma fault_then_recovery_witness :
  exists p1 p2 engn2,
    gk104_fifo_mmu_fault_recover (hw_get 0)
      {| nv_engidx := 10 |} 1 0 priv_mixed = Some p1
    /\ run_mmu_fault_work (H := sample_idx) (hw_get 0) p1 = Some p2
    /\ chan_state_of p2 1 = Some KILLED
    /\ priv_engine p2 !! 0 = Some engn2
    /\ running_ids p2 0 = [5]
    /\ submitted_runlist engn2 1 = [(5, 0)].
Proof.
  destruct (fault_then_recovery (H := sample_idx) (hw_get 0) (hw_get 0)
              {| nv_engidx := 10 |} 1 0 priv_mixed (chan_on 1 0 RUNNING)
              (fresh_engn 0x10000))
    as (p1 & p2 & engn2 & Hrec & Hwork & Hk & _ & _ & Hs & _ & Hids & Hsub & _);
    [reflexivity | reflexivity | simpl; lia | reflexivity |].
  exists p1, p2, engn2.
  split; [exact Hrec |]. split; [exact Hwork |]. split; [exact Hk |].
  split; [exact Hs |].
  change (u32 (gk104_fifo_engidx (nv_engidx {| nv_engidx := 10 |}))) with 0
    in Hids, Hsub.
  assert (Hfive : running_ids p2 0 = [5]) by (rewrite Hids; reflexivity).
  split; [exact Hfive |].
  rewrite Hfive in Hsub. exact Hsub.
Defined.

(** ** Interrupts *)

Lemma int_shl1_bits (engn b : Z) :
  0 <= engn < 32 -> 0 <= b < 32 ->
  Z.testbit (int_shl1 engn) b = (b =? engn).
Proof.
  intros He Hb. destruct (Z.eq_dec engn 31) as [-> | Hne].
  - change (int_shl1 31) with (Z.lnot (Z.ones 31)).
    rewrite Z.lnot_spec, Z.testbit_ones_nonneg by lia.
    destruct (Z.ltb_spec b 31), (Z.eqb_spec b 31); simpl; lia.
  - unfold int_shl1. rewrite Z.shiftl_1_l.
    assert (2 ^ engn < 2 ^ 31) by (apply Z.pow_lt_mono_r; lia).
    assert (0 < 2 ^ engn) by (apply Z.pow_pos_nonneg; lia).
    rewrite Z.mod_small by lia.
    replace (2 ^ engn + 2 ^ 31 - 2 ^ 31) with (2 ^ engn) by lia.
    rewrite Z.pow2_bits_eqb by lia. apply Z.eqb_sym.
Qed.

Lemma u32_int_shl1_pow2 (engn : Z) :
  0 <= engn < 32 -> u32 (int_shl1 engn) = 2 ^ engn.
Proof.
  intros He. apply Z.bits_inj'. intros b Hb. unfold u32.
  destruct (Z.lt_ge_cases b 32) as [Hlt | Hge].
  - rewrite Z.mod_pow2_bits_low, int_shl1_bits, Z.pow2_bits_eqb by lia.
    apply Z.eqb_sym.
  - rewrite Z.mod_pow2_bits_high, Z.pow2_bits_eqb by lia.
    symmetry. apply Z.eqb_neq. lia.
Qed.

(** One turn of the loop header clears the bit it has found and keeps
    the others. *)
Lemma mask_clear_bit (mask engn b : Z) :
  0 <= mask < 2 ^ 32 -> 0 <= engn < 32 -> 0 <= b ->
  Z.testbit (Z.land mask (u32 (Z.lnot (int_shl1 engn)))) b
  = Z.testbit mask b && negb (b =? engn).
Proof.
  intros Hm He Hb. rewrite Z.land_spec.
  destruct (Z.lt_ge_cases b 32) as [Hlt | Hge].
  - f_equal. unfold u32.
    rewrite Z.mod_pow2_bits_low, Z.lnot_spec, int_shl1_bits by lia.
    reflexivity.
  - rewrite (bits_above_pow2 mask 32 b) by lia. reflexivity.
Qed.

Lemma mask_units_bits (fuel : nat) :
  forall mask lo,
  0 <= mask < 2 ^ 32 -> 0 <= lo <= 32 ->
  (forall b, 0 <= b < lo -> Z.testbit mask b = false) ->
  32 - lo < Z.of_nat fuel ->
  mask_units fuel mask
  = Some (filter (λ b, Z.testbit mask b = true) (seqZ lo (32 - lo))).
Proof.
  induction fuel as [| fuel IH]; intros mask lo Hm Hlo Hlow Hfuel;
    [lia |].
  simpl. destruct (Z.eqb_spec mask 0) as [Hz | Hnz].
  { subst mask. rewrite filter_none; [reflexivity |].
    intros b _ Hbit. rewrite Z.bits_0 in Hbit. discriminate. }
  assert (Hpos : 0 < mask) by lia.
  pose proof (Z.bit_log2 mask Hpos) as Hlog.
  assert (Hloglt : 0 <= Z.log2 mask < 32).
  { split; [apply Z.log2_nonneg |]. apply Z.log2_lt_pow2; lia. }
  destruct (ffs_from_spec 64 0 mask (Z.log2 mask) ltac:(lia) Hlog)
    as [Hr Hrbit].
  fold (__ffs mask) in Hr, Hrbit.
  assert (Hmin : forall b, 0 <= b -> Z.testbit mask b = true ->
                           __ffs mask <= b).
  { intros b Hb Hbit.
    assert (b < 32).
    { destruct (Z.lt_ge_cases b 32); [assumption |].
      rewrite (bits_above_pow2 mask 32 b) in Hbit by lia. discriminate. }
    destruct (ffs_from_spec 64 0 mask b ltac:(lia) Hbit) as [Hr' _].
    exact (proj2 Hr'). }
  set (engn := __ffs mask) in *. clearbody engn.
  assert (Hlo_engn : lo <= engn).
  { destruct (Z.le_gt_cases lo engn) as [? | Hgt]; [assumption |].
    rewrite Hlow in Hrbit by lia. discriminate. }
  assert (Hengn : 0 < 32 - engn) by lia.
  set (mask' := Z.land mask (u32 (Z.lnot (int_shl1 engn)))).
  assert (Hbits : forall b, 0 <= b ->
                    Z.testbit mask' b = Z.testbit mask b && negb (b =? engn)).
  { intros b Hb. apply mask_clear_bit; lia. }
  assert (Hm' : 0 <= mask' < 2 ^ 32).
  { split; [unfold mask'; apply Z.land_nonneg; lia |].
    destruct (Z.eq_dec mask' 0) as [-> | Hnz']; [lia |].
    assert (Hpos' : 0 < mask').
    { assert (0 <= mask') by (unfold mask'; apply Z.land_nonneg; lia). lia. }
    apply Z.log2_lt_pow2; [exact Hpos' |].
    pose proof (Z.bit_log2 mask' Hpos') as Hlog'.
    rewrite Hbits in Hlog' by apply Z.log2_nonneg.
    apply andb_true_iff in Hlog' as [Hlog' _].
    destruct (Z.lt_ge_cases (Z.log2 mask') 32) as [? | Hge]; [assumption |].
    rewrite (bits_above_pow2 mask 32 _) in Hlog' by lia. discriminate. }
  clearbody mask'.
  rewrite (IH mask' (engn + 1)).
  - simpl. f_equal.
    replace (seqZ lo (32 - lo))
      with (seqZ lo (engn - lo) ++ seqZ (lo + (engn - lo)) (32 - engn)).
    2:{ rewrite <- seqZ_app by lia. f_equal. lia. }
    rewrite filter_app, (filter_none _ (seqZ lo (engn - lo))).
    2:{ intros b Hb Hbit. apply elem_of_seqZ in Hb.
        assert (Hb0 : 0 <= b) by lia.
        specialize (Hmin b Hb0 Hbit). lia. }
    rewrite app_nil_l.
    replace (lo + (engn - lo)) with engn by lia.
    rewrite (seqZ_cons engn (32 - engn)) by exact Hengn.
    rewrite filter_cons_True by exact Hrbit. f_equal.
    replace (Z.succ engn) with (engn + 1) by lia.
    replace (Z.pred (32 - engn)) with (32 - (engn + 1)) by lia.
    apply filter_ext_in. intros b Hb. apply elem_of_seqZ in Hb.
    rewrite Hbits by lia.
    destruct (Z.eqb_spec b engn); [lia |].
    rewrite andb_true_r. reflexivity.
  - exact Hm'.
  - lia.
  - intros b Hb. rewrite Hbits by lia.
    destruct (Z.eqb_spec b engn) as [-> | Hne];
      [apply andb_false_r |].
    destruct (Z.testbit mask b) eqn:Hbit; [| reflexivity].
    specialize (Hmin b ltac:(lia) Hbit). lia.
  - lia.
Qed.

Lemma u32_range (x : Z) : 0 <= u32 x < 2 ^ 32.
Proof. unfold u32. apply Z.mod_pos_bound. lia. Qed.

Lemma mask_units_spec (mask : Z) :
  0 <= mask < 2 ^ 32 -> mask_units 64 mask = Some (set_bits mask).
Proof.
  intros Hm. apply (mask_units_bits 64 mask 0); try lia.
Qed.

Lemma elem_of_set_bits (x b : Z) :
  b ∈ set_bits x <-> 0 <= b < 32 /\ Z.testbit x b = true.
Proof.
  unfold set_bits. rewrite list_elem_of_filter, elem_of_seqZ.
  split; intros [? ?]; split; auto; lia.
Qed.

Lemma set_bits_u32 (x : Z) : set_bits (u32 x) = set_bits x.
Proof.
  unfold set_bits. apply filter_ext_in. intros b Hb.
  apply elem_of_seqZ in Hb. unfold u32.
  rewrite Z.mod_pow2_bits_low by lia. reflexivity.
Qed.

(** ** Engine contexts *)

Lemma nv_ro32_wo32_eqb (o : nvkm_gpuobj) (off off' val : Z) :
  nv_ro32 (nv_wo32 o off val) off'
  = if off' =? off then val else nv_ro32 o off'.
Proof.
  unfold nv_ro32, nv_wo32. simpl.
  destruct (Z.eqb_spec off' off) as [-> | Hne].
  - rewrite lookup_insert_eq. reflexivity.
  - rewrite lookup_insert_ne by congruence. reflexivity.
Qed.

Ltac ctx_cases engidx :=
  destruct (engidx =? NVDEV_ENGINE_SW);
    [| destruct ((engidx =? NVDEV_ENGINE_CE0) || (engidx =? NVDEV_ENGINE_CE1)
                 || (engidx =? NVDEV_ENGINE_CE2));
       [| destruct (engidx =? NVDEV_ENGINE_GR);
          [| destruct (engidx =? NVDEV_ENGINE_MSVLD);
             [| destruct (engidx =? NVDEV_ENGINE_MSPDEC);
                [| destruct (engidx =? NVDEV_ENGINE_MSPPP)]]]]].

(** X16.  Attach, then detach.  Whenever the attach of an engine
    context succeeds, a detach that follows it succeeds as well, as long
    as it is not a suspend whose kick fails.  Then either neither of the
    two touches the instance block or flushes (what happens for the
    software and copy engines), or the attach has stored the context
    pointer (the low word of the mapping's offset with bit 2 set, then
    the high word) at one of the four engine slots and flushed, and the
    detach zeroes exactly these two words and flushes: every other word
    of the instance block reads as before the attach. *)
Theorem context_attach_detach `{nvdev_idx} `{nvdev_sw} (env env2 : ctx_env)
    (suspend : bool) (engidx : Z) (base : nvkm_gpuobj) (ectx : nvkm_engctx) :
  ctx_ret (gk104_fifo_context_attach env engidx base ectx) = 0 ->
  suspend = false \/ gf100_fifo_chan_kick_locked env2 = 0 ->
  exists att det,
    att = gk104_fifo_context_attach env engidx base ectx
    /\ det = gk104_fifo_context_detach env2 suspend engidx
               (ctx_base att) (ctx_ectx att)
    /\ ctx_ret det = 0
    /\ ((ctx_base att = base /\ ctx_base det = base
         /\ ctx_flush att = false /\ ctx_flush det = false)
        \/ exists a,
             a ∈ ctx_slots
             /\ ctx_flush att = true /\ ctx_flush det = true
             /\ nv_ro32 (ctx_base att) a
                = Z.lor (lower_32_bits (vma_offset (ctx_ectx att))) 4
             /\ nv_ro32 (ctx_base att) (a + 4)
                = upper_32_bits (vma_offset (ctx_ectx att))
             /\ forall off,
                  nv_ro32 (ctx_base det) off
                  = if (off =? a) || (off =? a + 4) then 0
                    else nv_ro32 base off).
Proof.
  intros Hret Hkick. eexists. eexists.
  split; [reflexivity |]. split; [reflexivity |].
  revert Hret.
  unfold gk104_fifo_context_attach, gk104_fifo_context_detach.
  assert (Hk : negb (gf100_fifo_chan_kick_locked env2 =? 0) && suspend
               = false).
  { destruct Hkick as [-> | ->]; [apply andb_false_r | reflexivity]. }
  ctx_cases engidx; cbv zeta; rewrite ?Hk;
    try (intros _; simpl; split; [reflexivity |]; left; auto; fail);
    try (simpl; unfold EINVAL; intros Hret; discriminate Hret);
    (destruct (vma_node ectx);
     [| destruct (fst (nvkm_gpuobj_map_vm env) =? 0) eqn:Hmap]);
    simpl; intros Hret;
    try (apply Z.eqb_neq in Hmap; contradiction);
    (split; [reflexivity |]); right;
    match goal with
    | |- context [nv_wo32 base (?a + 0) _] =>
        exists a; split; [unfold ctx_slots; elem_tac |]
    end;
    (split; [reflexivity |]); (split; [reflexivity |]);
    (split; [rewrite !nv_ro32_wo32_eqb; reflexivity |]);
    (split; [rewrite !nv_ro32_wo32_eqb; reflexivity |]);
    intros off; rewrite !nv_ro32_wo32_eqb;
    repeat match goal with
      | |- context [off =? ?y] => destruct (Z.eqb_spec off y)
      end;
    simpl; try lia; reflexivity.
Qed.

Lemma context_attach_detach_witness :
  exists att det,
    att = gk104_fifo_context_attach (H := sample_idx) (H0 := sample_sw)
            ctx_map_ok 10 base_gr ectx_new
    /\ det = gk104_fifo_context_detach (H := sample_idx) (H0 := sample_sw)
               ctx_map_ok false 10 (ctx_base att) (ctx_ectx att)
    /\ ctx_ret det = 0
    /\ nv_ro32 (ctx_base att) 0x0210 = 0x23456004
    /\ nv_ro32 (ctx_base det) 0x0210 = 0
    /\ nv_ro32 (ctx_base det) 0x08 = 7.
Proof.
  destruct (context_attach_detach (H := sample_idx) (H0 := sample_sw)
              ctx_map_ok ctx_map_ok false 10 base_gr ectx_new)
    as (att & det & Ha & Hd & Hret & _); [reflexivity | left; reflexivity |].
  exists att, det. split; [exact Ha |]. split; [exact Hd |].
  split; [exact Hret |]. subst att det. vm_compute. auto.
Defined.

(** X17.  The context hooks on failure.  An attach that fails leaves
    the instance block alone and does not flush; it fails with
    [-EINVAL] or with what the mapping returned.  A detach that fails
    does the same; it fails with [-EINVAL], or, on suspend only, with
    what the kick returned.  Without suspend the result of the kick is
    ignored altogether.  The two hooks refuse the same engines: when
    the detach answers [-EINVAL] although the kick would have passed,
    the attach has answered [-EINVAL] too. *)
Theorem context_hooks_on_failure `{nvdev_idx} `{nvdev_sw} (env env2 : ctx_env)
    (suspend : bool) (engidx : Z) (base : nvkm_gpuobj) (ectx : nvkm_engctx) :
  exists att det,
    att = gk104_fifo_context_attach env engidx base ectx
    /\ det = gk104_fifo_context_detach env suspend engidx base ectx
    /\ (ctx_ret att <> 0 ->
        ctx_base att = base /\ ctx_flush att = false
        /\ (ctx_ret att = - EINVAL
            \/ ctx_ret att = fst (nvkm_gpuobj_map_vm env)))
    /\ (ctx_ret det <> 0 ->
        ctx_base det = base /\ ctx_flush det = false
        /\ (ctx_ret det = - EINVAL
            \/ (suspend = true
                /\ ctx_ret det = gf100_fifo_chan_kick_locked env)))
    /\ (suspend = false ->
        gk104_fifo_context_detach env2 suspend engidx base ectx = det)
    /\ (gf100_fifo_chan_kick_locked env = 0 -> ctx_ret det = - EINVAL ->
        ctx_ret att = - EINVAL).
Proof.
  eexists. eexists. split; [reflexivity |]. split; [reflexivity |].
  unfold gk104_fifo_context_attach, gk104_fifo_context_detach.
  split; [| split; [| split]].
  - ctx_cases engidx; cbv zeta;
      try (simpl; intros Hne; auto; congruence);
      (destruct (vma_node ectx);
       [| destruct (fst (nvkm_gpuobj_map_vm env) =? 0) eqn:Hmap]);
      simpl; intros Hne; auto; congruence.
  - ctx_cases engidx; cbv zeta;
      try (simpl; intros Hne; auto; congruence);
      (destruct (gf100_fifo_chan_kick_locked env =? 0), suspend);
      simpl; intros Hne; auto; congruence.
  - intros ->. rewrite !andb_false_r.
    ctx_cases engidx; reflexivity.
  - intros Hk. rewrite Hk. simpl.
    ctx_cases engidx; cbv zeta; simpl; unfold EINVAL;
      try (intros Hd; discriminate Hd); auto.
Qed.

Lemma context_hooks_on_failure_witness :
  exists det,
    det = gk104_fifo_context_detach (H := sample_idx) (H0 := sample_sw)
            ctx_map_ok true 10 base_gr ectx_new
    /\ ctx_ret det = -16
    /\ ctx_base det = base_gr /\ ctx_flush det = false.
Proof.
  destruct (context_hooks_on_failure (H := sample_idx) (H0 := sample_sw)
              ctx_map_ok ctx_map_ok true 10 base_gr ectx_new)
    as (att & det & _ & Hd & _ & Hfail & _).
  exists det. split; [exact Hd |].
  assert (Hret : ctx_ret det = -16) by (subst det; reflexivity).
  split; [exact Hret |].
  destruct Hfail as (Hb & Hf & _); [rewrite Hret; discriminate |].
  auto.
Defined.

(** ** PBDMA interrupts *)

Lemma swmthd_accepts (sw : sw_env) (priv : gk104_fifo_priv)
    (chid mthd data : Z) :
  fst (gk104_fifo_swmthd sw priv chid mthd data) = 0
  <-> sw_accepts sw priv chid mthd data.
Proof.
  unfold gk104_fifo_swmthd, sw_accepts.
  destruct (Z.leb_spec (base_min priv) chid),
    (Z.leb_spec chid (base_max priv)); simpl;
    try (split; [unfold EINVAL; simpl; discriminate | intros (? & _); lia]).
  destruct (channel priv !! chid) as [c |]; simpl.
  2:{ split; [unfold EINVAL; simpl; discriminate
             | intros (_ & [? Hc] & _); discriminate]. }
  destruct (nvkm_namedb_get_class sw chid 0x906e); simpl.
  2:{ split; [unfold EINVAL; simpl; discriminate
             | intros (_ & _ & Hc & _); discriminate]. }
  destruct (Z.eqb_spec mthd 0) as [Hm | Hm]; simpl.
  { split; [intros _ | reflexivity]. repeat split; eauto; lia. }
  destruct (Z.eqb_spec (nv_call sw chid mthd data) 0) as [Hc | Hc]; simpl.
  - split; [intros _ | reflexivity]. repeat split; eauto; lia.
  - split; [unfold EINVAL; simpl; discriminate |].
    intros (_ & _ & _ & [? | ?]); contradiction.
Qed.

Lemma swmthd_calls (sw : sw_env) (priv : gk104_fifo_priv)
    (chid mthd data : Z) (e : intr_event) :
  e ∈ snd (gk104_fifo_swmthd sw priv chid mthd data)
  <-> e = IntrSwCall chid mthd data
      /\ base_min priv <= chid <= base_max priv
      /\ is_Some (channel priv !! chid)
      /\ nvkm_namedb_get_class sw chid 0x906e = true
      /\ mthd <> 0.
Proof.
  unfold gk104_fifo_swmthd.
  destruct (Z.leb_spec (base_min priv) chid),
    (Z.leb_spec chid (base_max priv)); simpl;
    try (rewrite elem_of_nil; split; [tauto | intros (_ & ? & _); lia]).
  destruct (channel priv !! chid) as [c |]; simpl.
  2:{ rewrite elem_of_nil.
      split; [tauto | intros (_ & _ & [? Hc] & _); discriminate]. }
  destruct (nvkm_namedb_get_class sw chid 0x906e); simpl.
  2:{ rewrite elem_of_nil.
      split; [tauto | intros (_ & _ & _ & Hc & _); discriminate]. }
  destruct (Z.eqb_spec mthd 0) as [Hm | Hm]; simpl.
  { rewrite elem_of_nil. split; [tauto | intros (_ & _ & _ & _ & ?); lia]. }
  destruct (nv_call sw chid mthd data =? 0); simpl;
    rewrite elem_of_cons, elem_of_nil;
    (split; [intros [-> | []]; repeat split; eauto; lia
            | intros (-> & _); left; reflexivity]).
Qed.

(** Clearing one bit of a word leaves nothing exactly when the word was
    that bit. *)
Lemma clear_bit_zero (stat n : Z) :
  0 <= stat < 2 ^ 32 -> 0 <= n < 32 ->
  Z.land stat (2 ^ n) <> 0 ->
  (Z.land stat (u32 (Z.lnot (2 ^ n))) = 0 <-> stat = 2 ^ n).
Proof.
  intros Hs Hn Hbit.
  assert (Hsn : Z.testbit stat n = true).
  { destruct (Z.testbit stat n) eqn:Hb; [reflexivity |].
    exfalso. apply Hbit. apply Z.bits_inj'. intros b Hb0.
    rewrite Z.land_spec, Z.pow2_bits_eqb, Z.bits_0 by lia.
    destruct (Z.eqb_spec n b) as [<- | Hne];
      [rewrite Hb; reflexivity | apply andb_false_r]. }
  assert (Hclr : forall b, 0 <= b ->
            Z.testbit (Z.land stat (u32 (Z.lnot (2 ^ n)))) b
            = Z.testbit stat b && negb (n =? b)).
  { intros b Hb. rewrite Z.land_spec.
    destruct (Z.lt_ge_cases b 32) as [Hlt | Hge].
    - unfold u32.
      rewrite Z.mod_pow2_bits_low, Z.lnot_spec, Z.pow2_bits_eqb by lia.
      reflexivity.
    - rewrite (bits_above_pow2 stat 32 b) by lia. reflexivity. }
  split.
  - intros Hz. apply Z.bits_inj'. intros b Hb.
    rewrite Z.pow2_bits_eqb by lia.
    destruct (Z.eqb_spec n b) as [<- | Hne]; [exact Hsn |].
    assert (Hb' : Z.testbit (Z.land stat (u32 (Z.lnot (2 ^ n)))) b = false)
      by (rewrite Hz; apply Z.bits_0).
    rewrite Hclr in Hb' by lia.
    destruct (Z.eqb_spec n b); [contradiction |].
    rewrite andb_true_r in Hb'. exact Hb'.
  - intros ->. apply Z.bits_inj'. intros b Hb.
    rewrite Hclr, Z.pow2_bits_eqb, Z.bits_0 by lia.
    destruct (n =? b); reflexivity.
Qed.

Lemma pbdma_stat_range (hw : hw_env) (unit : Z) :
  0 <= pbdma_stat hw unit < 2 ^ 32.
Proof.
  unfold pbdma_stat.
  pose proof (u32_range (nv_rd32 hw (0x040108 + unit * 0x2000))) as Ha.
  pose proof (u32_range (nv_rd32 hw (0x04010c + unit * 0x2000))) as Hb.
  set (x := Z.land _ _).
  assert (Hnn : 0 <= x) by (apply Z.land_nonneg; lia).
  split; [exact Hnn |].
  destruct (Z.eq_dec x 0) as [-> | Hnz]; [lia |].
  assert (Hpos : 0 < x) by lia.
  apply Z.log2_lt_pow2; [exact Hpos |].
  pose proof (Z.bit_log2 x Hpos) as Hlog.
  unfold x in Hlog at 1. rewrite Z.land_spec in Hlog.
  apply andb_true_iff in Hlog as [Hlog _].
  destruct (Z.lt_ge_cases (Z.log2 x) 32) as [? | Hge]; [assumption |].
  rewrite (bits_above_pow2 _ 32 _ Ha Hge) in Hlog. discriminate.
Qed.

(** X18.  The first PBDMA handler of a unit.  It ends by acknowledging
    exactly the pending interrupts that are enabled, and writes that
    register nowhere else.  It raises the PBDMA error of the channel
    the unit was working on exactly when such an interrupt is pending,
    unless the only one is a software method (DEVICE, bit 23) that the
    channel's software object takes; the rate limit only decides on the
    log line.  The software object is called exactly when DEVICE is
    pending, the channel id is in range and in use, an object of class
    0x906e is bound, and the method is not 0. *)
Theorem pbdma_0_reports (hw : hw_env) (sw : sw_env) (priv : gk104_fifo_priv)
    (unit : Z) :
  exists pre,
    gk104_fifo_intr_pbdma_0 hw sw priv unit
    = pre ++ [IntrWr32 (0x040108 + unit * 0x2000) (pbdma_stat hw unit)]
    /\ (forall v, IntrWr32 (0x040108 + unit * 0x2000) v ∉ pre)
    /\ (forall c e,
          IntrEevent c e ∈ pre
          <-> c = pbdma_chid hw unit
              /\ e = NOUVEAU_GEM_CHANNEL_PBDMA_ERROR
              /\ pbdma_stat hw unit <> 0
              /\ ~ (pbdma_stat hw unit = 0x00800000
                    /\ sw_accepts sw priv (pbdma_chid hw unit)
                         (pbdma_mthd hw unit) (pbdma_data hw unit)))
    /\ (forall m, IntrError m ∈ pre ->
          printk_timed_ratelimit sw = true
          /\ IntrEevent (pbdma_chid hw unit) NOUVEAU_GEM_CHANNEL_PBDMA_ERROR
             ∈ pre)
    /\ (forall c m d,
          IntrSwCall c m d ∈ pre
          <-> (c, m, d) = (pbdma_chid hw unit, pbdma_mthd hw unit,
                           pbdma_data hw unit)
              /\ Z.land (pbdma_stat hw unit) 0x00800000 <> 0
              /\ base_min priv <= c <= base_max priv
              /\ is_Some (channel priv !! c)
              /\ nvkm_namedb_get_class sw c 0x906e = true
              /\ m <> 0).
Proof.
  unfold gk104_fifo_intr_pbdma_0. cbv zeta.
  fold (pbdma_stat hw unit) (pbdma_chid hw unit) (pbdma_mthd hw unit)
    (pbdma_data hw unit).
  pose proof (pbdma_stat_range hw unit) as Hrange.
  pose proof (swmthd_accepts sw priv (pbdma_chid hw unit)
                (pbdma_mthd hw unit) (pbdma_data hw unit)) as Hacc.
  pose proof (swmthd_calls sw priv (pbdma_chid hw unit)
                (pbdma_mthd hw unit) (pbdma_data hw unit)) as Hcalls.
  set (stat := pbdma_stat hw unit) in *.
  set (chid := pbdma_chid hw unit) in *.
  set (mthd := pbdma_mthd hw unit) in *.
  set (data := pbdma_data hw unit) in *.
  set (swm := gk104_fifo_swmthd sw priv chid mthd data) in *.
  set (show := if negb (Z.land stat 0x00800000 =? 0) && (fst swm =? 0)
               then Z.land stat (u32 (Z.lnot 0x00800000)) else stat).
  assert (Hshow : show <> 0 <->
                  stat <> 0 /\ ~ (stat = 0x00800000
                                  /\ sw_accepts sw priv chid mthd data)).
  { unfold show.
    destruct (Z.eqb_spec (Z.land stat 0x00800000) 0) as [Hz | Hnz]; simpl.
    - split; [intros Hne; split; [exact Hne |] | tauto].
      intros [Heq _]. rewrite Heq in Hz. discriminate Hz.
    - pose proof (clear_bit_zero stat 23 Hrange ltac:(lia) Hnz) as Hclr.
      change (2 ^ 23) with 0x00800000 in Hclr.
      assert (Hsne : stat <> 0)
        by (intros Hs; apply Hnz; rewrite Hs; reflexivity).
      destruct (Z.eqb_spec (fst swm) 0) as [Hok | Hko].
      + rewrite Hclr. tauto.
      + tauto. }
  clearbody show.
  eexists. split; [rewrite !app_assoc; reflexivity |].
  rewrite <- !app_assoc.
  assert (Hreg : 0x0400c0 + unit * 0x2000 <> 0x040108 + unit * 0x2000)
    by lia.
  split; [| split; [| split]].
  - intros v Hin. rewrite !elem_of_app in Hin.
    destruct Hin as [Hin | [Hin | Hin]].
    + destruct (negb (Z.land stat 0x00800000 =? 0));
        [| apply elem_of_nil in Hin; exact Hin].
      apply elem_of_app in Hin as [Hin | Hin].
      * apply Hcalls in Hin as [Hin _]. discriminate Hin.
      * apply elem_of_cons in Hin as [Hin | Hin];
          [congruence | apply elem_of_nil in Hin; exact Hin].
    + destruct (negb (Z.land stat 0x00200000 =? 0));
        [| apply elem_of_nil in Hin; exact Hin].
      apply elem_of_cons in Hin as [Hin | Hin];
        [congruence | apply elem_of_nil in Hin; exact Hin].
    + destruct (negb (show =? 0)), (printk_timed_ratelimit sw);
        revert Hin; not_elem_tac.
  - intros c e. rewrite !elem_of_app. split.
    + intros [Hin | [Hin | Hin]].
      * destruct (negb (Z.land stat 0x00800000 =? 0));
          [| apply elem_of_nil in Hin; destruct Hin].
        apply elem_of_app in Hin as [Hin | Hin].
        -- apply Hcalls in Hin as [Hin _]. discriminate Hin.
        -- exfalso. revert Hin. not_elem_tac.
      * exfalso.
        destruct (negb (Z.land stat 0x00200000 =? 0));
          revert Hin; not_elem_tac.
      * destruct (Z.eqb_spec show 0) as [Hz | Hnz]; simpl in Hin;
          [apply elem_of_nil in Hin; destruct Hin |].
        apply Hshow in Hnz as [Hs Hn].
        assert (Heq : IntrEevent c e
                      = IntrEevent chid NOUVEAU_GEM_CHANNEL_PBDMA_ERROR).
        { destruct (printk_timed_ratelimit sw); simpl in Hin;
            repeat (apply elem_of_cons in Hin as [Hin | Hin];
                    [try discriminate Hin; try exact Hin |]);
            apply elem_of_nil in Hin; destruct Hin. }
        injection Heq as -> ->. auto.
    + intros (-> & -> & Hs & Hn).
      right. right.
      destruct (Z.eqb_spec show 0) as [Hz | Hnz]; simpl;
        [exfalso; apply (proj2 Hshow); [auto | exact Hz] |].
      elem_tac.
  - intros m Hin. rewrite !elem_of_app in Hin.
    destruct Hin as [Hin | [Hin | Hin]].
    + exfalso.
      destruct (negb (Z.land stat 0x00800000 =? 0));
        [| apply elem_of_nil in Hin; exact Hin].
      apply elem_of_app in Hin as [Hin | Hin].
      * apply Hcalls in Hin as [Hin _]. discriminate Hin.
      * revert Hin. not_elem_tac.
    + exfalso.
      destruct (negb (Z.land stat 0x00200000 =? 0));
        revert Hin; not_elem_tac.
    + destruct (negb (show =? 0)) eqn:Hsh; simpl in Hin;
        [| apply elem_of_nil in Hin; destruct Hin].
      destruct (printk_timed_ratelimit sw); simpl in Hin;
        [| exfalso; revert Hin; not_elem_tac].
      split; [reflexivity |].
      rewrite !elem_of_app. right. right. simpl. elem_tac.
  - intros c m d. rewrite !elem_of_app. split.
    + intros [Hin | [Hin | Hin]].
      * destruct (Z.eqb_spec (Z.land stat 0x00800000) 0) as [Hz | Hnz];
          simpl in Hin; [apply elem_of_nil in Hin; destruct Hin |].
        apply elem_of_app in Hin as [Hin | Hin];
          [| exfalso; revert Hin; not_elem_tac].
        apply Hcalls in Hin as (Heq & Hr & Hc & Hb & Hm).
        injection Heq as -> -> ->. auto 10.
      * exfalso.
        destruct (negb (Z.land stat 0x00200000 =? 0));
          revert Hin; not_elem_tac.
      * exfalso.
        destruct (negb (show =? 0)), (printk_timed_ratelimit sw);
          revert Hin; not_elem_tac.
    + intros (Heq & Hnz & Hr & Hc & Hb & Hm). injection Heq as -> -> ->.
      left. destruct (Z.eqb_spec (Z.land stat 0x00800000) 0) as [Hz | _];
        [contradiction |].
      simpl. apply elem_of_app. left. apply Hcalls. auto 10.
Qed.

Lemma pbdma_0_reports_witness :
  exists pre,
    gk104_fifo_intr_pbdma_0 hw_pbdma sw_ok priv3 0
    = pre ++ [IntrWr32 0x040108 0x00800000]
    /\ IntrSwCall 3 0x100 0 ∈ pre
    /\ IntrEevent 3 NOUVEAU_GEM_CHANNEL_PBDMA_ERROR ∉ pre.
Proof.
  destruct (pbdma_0_reports hw_pbdma sw_ok priv3 0)
    as (pre & Heq & _ & Hev & _ & Hcall).
  exists pre. split; [exact Heq |]. split.
  - apply Hcall. split; [reflexivity |].
    split; [vm_compute; discriminate |].
    split; [vm_compute; split; discriminate |].
    split; [eexists; reflexivity |].
    split; [reflexivity | discriminate].
  - intros Hin. apply Hev in Hin as (_ & _ & _ & Hn). apply Hn.
    split; [reflexivity |].
    split; [vm_compute; split; discriminate |].
    split; [eexists; reflexivity |].
    split; [reflexivity | right; reflexivity].
Defined.

(** ** Interrupts *)

Lemma emit_nil (priv : gk104_fifo_priv) : emit [] priv = priv.
Proof. destruct priv. unfold emit. simpl. rewrite app_nil_r. reflexivity. Qed.

Lemma emit_emit (evs evs' : list event) (priv : gk104_fifo_priv) :
  emit evs' (emit evs priv) = emit (evs ++ evs') priv.
Proof. unfold emit. simpl. rewrite app_assoc. reflexivity. Qed.

(** The loop of the run-list interrupt over engines that all have a
    slot, and over engines one of which has none. *)
Lemma intr_runlist_engns_some (engns : list Z) :
  forall priv,
  (forall b, b ∈ engns -> is_Some (priv_engine priv !! b)) ->
  intr_runlist_engns engns priv
  = Some (emit (concat (map (λ b, [EvWakeUp b;
                                   EvWr32 0x002a00 (u32 (int_shl1 b))])
                          engns)) priv).
Proof.
  induction engns as [| engn engns IH]; intros priv Hslots.
  - simpl. rewrite emit_nil. reflexivity.
  - cbn [intr_runlist_engns].
    destruct (Hslots engn ltac:(left)) as [slot Hslot].
    rewrite Hslot. cbn [mbind option_bind].
    rewrite IH by (intros b Hb; apply Hslots; right; exact Hb).
    rewrite emit_emit. reflexivity.
Qed.

Lemma intr_runlist_engns_none (engns : list Z) :
  forall priv,
  (exists b, b ∈ engns /\ priv_engine priv !! b = None) ->
  intr_runlist_engns engns priv = None.
Proof.
  induction engns as [| engn engns IH]; intros priv (b & Hb & Hnone).
  - apply elem_of_nil in Hb. destruct Hb.
  - cbn [intr_runlist_engns].
    destruct (priv_engine priv !! engn) as [slot |] eqn:Hslot;
      [| reflexivity].
    cbn [mbind option_bind]. apply IH.
    apply elem_of_cons in Hb as [-> | Hb]; [congruence |].
    exists b. split; [exact Hb | exact Hnone].
Qed.

Lemma map_runlist_pow2 (bits : Z) :
  map (λ b, [EvWakeUp b; EvWr32 0x002a00 (u32 (int_shl1 b))]) (set_bits bits)
  = map (λ b, [EvWakeUp b; EvWr32 0x002a00 (2 ^ b)]) (set_bits bits).
Proof.
  apply map_ext_in. intros b Hb.
  apply list_elem_of_In, elem_of_set_bits in Hb as [Hb _].
  rewrite u32_int_shl1_pow2 by exact Hb. reflexivity.
Qed.

(** X12.  The run-list interrupt.  Its loop has one turn for each bit
    that is set in register 0x002a00, in increasing order.  When each of
    these engines has a slot in the table of the device, the loop comes
    to an end, having woken the waiters of, and acknowledged, exactly
    these engines, each once, the acknowledgment of engine [b] being the
    value [2^b] (bit 31 included, where [1 << engn] is negative as an
    [int]); nothing else of the state changes.  When a set bit has no
    slot, the handler reaches for a wait queue beyond the table. *)
Theorem intr_runlist_acks_pending (hw : hw_env) (priv : gk104_fifo_priv) :
  ((forall b, b ∈ set_bits (nv_rd32 hw 0x002a00) ->
              is_Some (priv_engine priv !! b)) ->
   gk104_fifo_intr_runlist hw priv
   = Some (emit (concat (map (λ b, [EvWakeUp b; EvWr32 0x002a00 (2 ^ b)])
                           (set_bits (nv_rd32 hw 0x002a00)))) priv))
  /\ ((exists b, b ∈ set_bits (nv_rd32 hw 0x002a00)
                 /\ priv_engine priv !! b = None) ->
      gk104_fifo_intr_runlist hw priv = None).
Proof.
  unfold gk104_fifo_intr_runlist.
  rewrite (mask_units_spec _ (u32_range _)), set_bits_u32.
  cbn [mbind option_bind]. split.
  - intros Hslots. rewrite intr_runlist_engns_some by exact Hslots.
    rewrite map_runlist_pow2. reflexivity.
  - apply intr_runlist_engns_none.
Qed.

(** One guarded handler of the top-level handler, on a status of which
    the bits outside [C] have been cleared already. *)
Lemma on_bit_eq (stat C C' bit : Z)
    (body body' : gk104_fifo_priv -> option gk104_fifo_priv)
    (priv : gk104_fifo_priv) :
  0 <= stat < 2 ^ 32 ->
  Z.land C bit = bit ->
  C' = Z.land C (u32 (Z.lnot bit)) ->
  (forall p, body p = body' p) ->
  on_bit bit body (Z.land stat C, priv)
  = (λ p, (Z.land stat C', p)) <$> when_bit stat bit body' priv.
Proof.
  intros Hstat Hbit -> Hbody. unfold on_bit, when_bit. cbn [fst snd].
  rewrite <- Z.land_assoc, Hbit.
  destruct (Z.eqb_spec (Z.land stat bit) 0) as [Hz | Hnz].
  - cbn [fmap option_fmap option_map]. f_equal. f_equal.
    apply Z.bits_inj'. intros b Hb.
    rewrite !Z.land_spec.
    destruct (Z.testbit stat b) eqn:Hsb; [| reflexivity]. simpl.
    assert (Hb32 : b < 32).
    { destruct (Z.lt_ge_cases b 32); [assumption |].
      rewrite (bits_above_pow2 stat 32 b) in Hsb by lia. discriminate. }
    assert (Hbb : Z.testbit bit b = false).
    { assert (Hl : Z.testbit (Z.land stat bit) b = false)
        by (rewrite Hz; apply Z.bits_0).
      rewrite Z.land_spec, Hsb in Hl. exact Hl. }
    unfold u32. rewrite Z.mod_pow2_bits_low, Z.lnot_spec, Hbb by lia.
    rewrite andb_true_r. reflexivity.
  - rewrite Hbody. destruct (body' priv) as [p |]; [| reflexivity].
    cbn [fmap option_fmap option_map mbind option_bind].
    rewrite Z.land_assoc. reflexivity.
Qed.

Lemma intr_stat_range (hw : hw_env) : 0 <= intr_stat hw < 2 ^ 32.
Proof.
  unfold intr_stat.
  pose proof (u32_range (nv_rd32 hw 0x002100)) as Ha.
  pose proof (u32_range (nv_rd32 hw 0x002140)) as Hb.
  set (stat := Z.land _ _).
  split; [apply Z.land_nonneg; lia |].
  destruct (Z.eq_dec stat 0) as [-> | Hnz]; [lia |].
  assert (Hpos : 0 < stat).
  { assert (0 <= stat) by (apply Z.land_nonneg; lia). lia. }
  apply Z.log2_lt_pow2; [exact Hpos |].
  pose proof (Z.bit_log2 stat Hpos) as Hlog.
  unfold stat in Hlog at 1. rewrite Z.land_spec in Hlog.
  apply andb_true_iff in Hlog as [Hlog _].
  destruct (Z.lt_ge_cases (Z.log2 stat) 32) as [? | Hge]; [assumption |].
  rewrite (bits_above_pow2 _ 32 _ Ha Hge) in Hlog. discriminate.
Qed.

Ltac intr_step Hstat C' body' :=
  match goal with
  | |- context [on_bit ?bit ?body (Z.land ?stat ?C, ?p)] =>
      rewrite (on_bit_eq stat C C' bit body body' p Hstat eq_refl eq_refl);
      [ destruct (when_bit stat bit body' p) as [?p |];
        [cbn [fmap option_fmap option_map mbind option_bind]
        | reflexivity]
      | ]
  end.

Section intr.
Context `{nvdev_idx} `{nvdev_subdev} `{nvif_chan_class}.

(** X15.  The order of the top-level handler.  What it does is what its
    handlers do one after the other, in the fixed order bind, PIO,
    scheduler, channel switch, flush timeout, line buffer, dropped
    fault, page fault, PBDMA, run list, engine event, unrecognized, each
    on the state the one before it has left; each handler is taken on
    its bit of the status as it was read, so none of them depends on
    what the ones before it have cleared, and the per-unit loops go
    through the set bits of their mask in increasing order.  When a
    handler does not come to an end, neither does the top-level one. *)
Theorem intr_fixed_order (hw : hw_env) (sw : sw_env) (fe : fault_env)
    (priv : gk104_fifo_priv) :
  gk104_fifo_intr hw sw fe priv
  = (p ← when_bit (intr_stat hw) 0x00000001
           (λ p, Some (emit [EvWr32 0x002100 0x00000001]
                         (gk104_fifo_intr_bind hw p))) priv;
     p ← when_bit (intr_stat hw) 0x00000010
           (λ p, Some (emit [EvIntrError MsgPioError;
                             EvWr32 0x002100 0x00000010] p)) p;
     p ← when_bit (intr_stat hw) 0x00000100
           (λ p, p ← gk104_fifo_intr_sched hw p;
                 Some (emit [EvWr32 0x002100 0x00000100] p)) p;
     p ← when_bit (intr_stat hw) 0x00010000
           (λ p, Some (emit [EvWr32 0x002100 0x00010000]
                         (gk104_fifo_intr_chsw hw p))) p;
     p ← when_bit (intr_stat hw) 0x00800000
           (λ p, Some (emit [EvIntrError MsgFbFlushTimeout;
                             EvWr32 0x002100 0x00800000] p)) p;
     p ← when_bit (intr_stat hw) 0x01000000
           (λ p, Some (emit [EvIntrError MsgLbError;
                             EvWr32 0x002100 0x01000000] p)) p;
     p ← when_bit (intr_stat hw) 0x08000000
           (λ p, Some (emit [EvWr32 0x002100 0x08000000]
                         (gk104_fifo_intr_dropped_fault hw p))) p;
     p ← when_bit (intr_stat hw) 0x10000000
           (λ p, intr_fault_units hw fe (set_bits (nv_rd32 hw 0x00259c))
                   (emit [EvMask 0x002140 0x10000000 0] p)) p;
     p ← when_bit (intr_stat hw) 0x20000000
           (λ p, Some (intr_pbdma_units hw sw
                         (set_bits (nv_rd32 hw 0x0025a0)) p)) p;
     p ← when_bit (intr_stat hw) 0x40000000
           (intr_runlist_engns (set_bits (nv_rd32 hw 0x002a00))) p;
     p ← when_bit (intr_stat hw) 0x80000000
           (λ p, Some (gk104_fifo_intr_engine
                         (emit [EvWr32 0x002100 0x80000000] p))) p;
     Some (if intr_unknown hw =? 0 then p
           else emit [EvIntrError (MsgIntr (intr_unknown hw));
                      EvMask 0x002140 (intr_unknown hw) 0;
                      EvWr32 0x002100 (intr_unknown hw)] p)).
Proof.
  pose proof (intr_stat_range hw) as Hstat.
  unfold gk104_fifo_intr. cbv zeta. fold (intr_stat hw).
  unfold intr_unknown.
  change (u32 (Z.lnot intr_known)) with 0x067efeee.
  set (stat := intr_stat hw) in *. clearbody stat.
  replace (stat, priv) with (Z.land stat 0xffffffff, priv).
  2:{ f_equal. change 0xffffffff with (Z.ones 32).
      rewrite Z.land_ones, Z.mod_small; lia. }
  intr_step Hstat 0xfffffffe
    (λ p, Some (emit [EvWr32 0x002100 0x00000001]
                  (gk104_fifo_intr_bind hw p))); [| reflexivity].
  intr_step Hstat 0xffffffee
    (λ p, Some (emit [EvIntrError MsgPioError;
                      EvWr32 0x002100 0x00000010] p)); [| reflexivity].
  intr_step Hstat 0xfffffeee
    (λ p, p ← gk104_fifo_intr_sched hw p;
          Some (emit [EvWr32 0x002100 0x00000100] p)); [| reflexivity].
  intr_step Hstat 0xfffefeee
    (λ p, Some (emit [EvWr32 0x002100 0x00010000]
                  (gk104_fifo_intr_chsw hw p))); [| reflexivity].
  intr_step Hstat 0xff7efeee
    (λ p, Some (emit [EvIntrError MsgFbFlushTimeout;
                      EvWr32 0x002100 0x00800000] p)); [| reflexivity].
  intr_step Hstat 0xfe7efeee
    (λ p, Some (emit [EvIntrError MsgLbError;
                      EvWr32 0x002100 0x01000000] p)); [| reflexivity].
  intr_step Hstat 0xf67efeee
    (λ p, Some (emit [EvWr32 0x002100 0x08000000]
                  (gk104_fifo_intr_dropped_fault hw p))); [| reflexivity].
  intr_step Hstat 0xe67efeee
    (λ p, intr_fault_units hw fe (set_bits (nv_rd32 hw 0x00259c))
            (emit [EvMask 0x002140 0x10000000 0] p)).
  2:{ intros p. rewrite (mask_units_spec _ (u32_range _)), set_bits_u32.
      reflexivity. }
  intr_step Hstat 0xc67efeee
    (λ p, Some (intr_pbdma_units hw sw (set_bits (nv_rd32 hw 0x0025a0)) p)).
  2:{ intros p. rewrite (mask_units_spec _ (u32_range _)), set_bits_u32.
      reflexivity. }
  intr_step Hstat 0x867efeee
    (intr_runlist_engns (set_bits (nv_rd32 hw 0x002a00))).
  2:{ intros p. unfold gk104_fifo_intr_runlist.
      rewrite (mask_units_spec _ (u32_range _)), set_bits_u32.
      reflexivity. }
  intr_step Hstat 0x067efeee
    (λ p, Some (gk104_fifo_intr_engine
                  (emit [EvWr32 0x002100 0x80000000] p))); [| reflexivity].
  reflexivity.
Qed.

End intr.

Lemma emits_refl (may : event -> Prop) (priv : gk104_fifo_priv) :
  emits may priv priv.
Proof. exists []. split; [symmetry; apply app_nil_r | constructor]. Qed.

Lemma emits_trans (may : event -> Prop) (p1 p2 p3 : gk104_fifo_priv) :
  emits may p1 p2 -> emits may p2 p3 -> emits may p1 p3.
Proof.
  intros (evs1 & Ht1 & Hm1) (evs2 & Ht2 & Hm2). exists (evs1 ++ evs2).
  split; [rewrite Ht2, Ht1, app_assoc; reflexivity |].
  apply Forall_app. split; assumption.
Qed.

Lemma emits_mono (may may' : event -> Prop) (p1 p2 : gk104_fifo_priv) :
  (forall e, may e -> may' e) -> emits may p1 p2 -> emits may' p1 p2.
Proof.
  intros Himp (evs & Ht & Hm). exists evs. split; [exact Ht |].
  eapply Forall_impl; [exact Hm | exact Himp].
Qed.

Lemma emits_events (may : event -> Prop) (evs : list event)
    (p1 p2 : gk104_fifo_priv) :
  trace p2 = trace p1 ++ evs -> Forall may evs -> emits may p1 p2.
Proof. intros Ht Hm. exists evs. split; assumption. Qed.

Ltac forall_now :=
  cbn [app fmap list_fmap];
  repeat (apply Forall_cons_2; [simpl; auto 10 |]); apply Forall_nil_2.

Ltac emits_now :=
  first
    [ apply emits_refl
    | unfold emits;
      cbn [trace emit put_chan set_channel set_fault set_mmu_fault];
      rewrite <- ?app_assoc;
      eexists; split; [reflexivity | forall_now] ].

(** The restart scan cancels and schedules, nothing else. *)
Lemma restart_scan_emits (exception : Z) (ids : list Z) :
  forall priv,
  emits ctxsw_event priv (snd (restart_scan exception ids priv)).
Proof.
  induction ids as [| i ids IH]; intros priv; [apply emits_refl |].
  cbn [restart_scan].
  destruct (channel priv !! i) as [c |]; [| apply IH].
  destruct (watchdog_inited (timeout c)); cbn [negb]; [| apply IH].
  unfold cancel_delayed_work. cbn [fst snd].
  destruct (watchdog_work (timeout c)); cbn [negb].
  - destruct (i =? exception).
    + eapply emits_trans; [| apply IH]. emits_now.
    + eapply emits_trans; [| apply IH]. emits_now.
  - emits_now.
Qed.

Lemma mmu_fault_recover_emits (hw : hw_env) (eng : nvkm_engine)
    (ch unit : Z) (priv priv' : gk104_fifo_priv) :
  gk104_fifo_mmu_fault_recover hw eng ch unit priv = Some priv' ->
  exists chan g,
    channel priv !! ch = Some chan
    /\ trace priv'
       = trace priv ++ [EvLog (LogEngineMmuFault (nv_engidx eng) (chid chan));
                        EvWr32 0x400500 g; EvChanDisable (chid chan);
                        EvUeventFault (chid chan); EvQueueWork].
Proof.
  unfold gk104_fifo_mmu_fault_recover.
  destruct (channel priv !! ch) as [chan |]; [| discriminate].
  cbn [mbind option_bind]. cbv zeta. intros [= <-].
  eexists chan, _. split; [reflexivity |].
  cbn [trace emit put_chan set_channel set_fault set_mmu_fault].
  rewrite <- !app_assoc. reflexivity.
Qed.

Lemma sched_ctxsw_recover_emits (hw : hw_env) (eng : option nvkm_engine)
    (ch : Z) (priv priv' : gk104_fifo_priv) :
  gk104_fifo_sched_ctxsw_recover hw eng ch priv = Some priv' ->
  emits ctxsw_event priv priv'.
Proof.
  unfold gk104_fifo_sched_ctxsw_recover.
  destruct (channel priv !! ch) as [chan |]; [| discriminate].
  destruct eng as [eng |]; [| discriminate].
  cbn [mbind option_bind]. cbv zeta. intros Hrec.
  apply mmu_fault_recover_emits in Hrec as (chan' & g & _ & Htr).
  destruct (nv_wait hw 0x002100 0x10000000 0x10000000);
    (unfold emits; rewrite Htr; cbn [trace emit]; rewrite <- ?app_assoc;
     eexists; split; [reflexivity | forall_now]).
Qed.

Lemma sched_ctxsw_engn_emits (hw : hw_env) (engn : Z)
    (priv priv' : gk104_fifo_priv) :
  sched_ctxsw_engn hw engn priv = Some priv' ->
  emits ctxsw_event priv priv'.
Proof.
  unfold sched_ctxsw_engn. cbv zeta.
  destruct (negb (_ =? 0) && _); [| intros [= <-]; apply emits_refl].
  destruct (channel priv !! _) as [chan |];
    [| intros [= <-]; apply emits_refl].
  destruct (gk104_fifo_engine hw priv engn) as [eng |];
    [| intros [= <-]; apply emits_refl].
  destruct (snd (gk104_fifo_update_timeout hw chan _)).
  - match goal with
    | |- context [gk104_fifo_chan_timeout_restart_all ?p ?id] =>
        pose proof (restart_scan_emits id
                      (seqZ (base_min p) (base_max p - base_min p)) p)
          as Hscan;
        fold (gk104_fifo_chan_timeout_restart_all p id) in Hscan;
        destruct (gk104_fifo_chan_timeout_restart_all p id) as [r p1]
    end.
    cbn [fst snd] in *.
    assert (Hpre : emits ctxsw_event priv p1).
    { eapply emits_trans; [| exact Hscan]. emits_now. }
    destruct r.
    + intros Hrec. apply sched_ctxsw_recover_emits in Hrec.
      eapply emits_trans; [exact Hpre |].
      eapply emits_trans; [| exact Hrec]. emits_now.
    + intros [= <-]. exact Hpre.
  - intros [= <-]. emits_now.
Qed.

Lemma sched_ctxsw_loop_emits (hw : hw_env) (engns : list Z) :
  forall priv priv',
  sched_ctxsw_loop hw engns priv = Some priv' ->
  emits ctxsw_event priv priv'.
Proof.
  induction engns as [| engn engns IH]; intros priv priv'.
  - intros [= <-]. apply emits_refl.
  - cbn [sched_ctxsw_loop].
    destruct (sched_ctxsw_engn hw engn priv) as [p1 |] eqn:Hengn;
      [| discriminate].
    cbn [mbind option_bind]. intros Hloop.
    eapply emits_trans; [exact (sched_ctxsw_engn_emits _ _ _ _ Hengn) |].
    exact (IH _ _ Hloop).
Qed.

Lemma intr_sched_emits (hw : hw_env) (priv priv' : gk104_fifo_priv) :
  gk104_fifo_intr_sched hw priv = Some priv' ->
  emits (sched_event hw) priv priv'.
Proof.
  unfold gk104_fifo_intr_sched, sched_event. cbv zeta.
  fold (sched_code hw). destruct (sched_code hw =? 0x0a).
  - apply sched_ctxsw_loop_emits.
  - intros [= <-]. emits_now.
Qed.

Section intr_fault.
Context `{nvdev_idx} `{nvdev_subdev} `{nvif_chan_class}.

Lemma fault_objects_emits (hw : hw_env) (engine : option nvkm_engine)
    (unit : Z) (objects : list nvkm_object) :
  forall priv priv',
  fault_objects hw engine unit objects priv = Some priv' ->
  emits fault_event priv priv'.
Proof.
  induction objects as [| object parents IH]; intros priv priv'.
  - intros [= <-]. apply emits_refl.
  - cbn [fault_objects].
    destruct ((nv_mclass object =? KEPLER_CHANNEL_GPFIFO_A)
              || (nv_mclass object =? MAXWELL_CHANNEL_GPFIFO_A));
      cbn [mbind option_bind]; [| apply IH].
    destruct (channel priv !! obj_chan object) as [chan |];
      [| discriminate].
    destruct engine as [eng |]; [| discriminate].
    cbn [mbind option_bind]. cbv zeta.
    destruct (gk104_fifo_mmu_fault_recover hw eng _ unit _) as [p1 |] eqn:Hrec;
      [| discriminate].
    cbn [mbind option_bind]. intros Hrest.
    eapply emits_trans; [| exact (IH _ _ Hrest)].
    apply mmu_fault_recover_emits in Hrec as (chan' & g & _ & Htr).
    unfold emits. rewrite Htr. cbn [trace emit]. rewrite <- ?app_assoc.
    eexists. split; [reflexivity | forall_now].
Qed.

(** The fault handler of a unit: its first line, then events of the
    fault class. *)
Lemma intr_fault_emits (hw : hw_env) (fe : fault_env) (unit : Z)
    (priv priv' : gk104_fifo_priv) :
  gk104_fifo_intr_fault hw fe unit priv = Some priv' ->
  exists evs,
    trace priv' = trace priv ++ EvIntrError (MsgFaultingUnit unit) :: evs
    /\ Forall fault_event evs.
Proof.
  unfold gk104_fifo_intr_fault. cbv zeta. intros Hwalk.
  apply fault_objects_emits in Hwalk as (evs & Htr & Hevs).
  revert Htr.
  destruct (nvkm_enum_find fe gk104_fifo_fault_engine unit) as [data2 |];
    [destruct (data2 =? NVDEV_SUBDEV_BAR);
     [| destruct (data2 =? NVDEV_SUBDEV_INSTMEM);
        [| destruct (data2 =? NVDEV_ENGINE_IFB)]] |];
    cbn [fst snd trace emit]; rewrite <- ?app_assoc; intros ->;
    (eexists; split; [reflexivity |]);
    cbn [app];
    repeat (apply Forall_cons_2; [simpl; auto 10 |]); exact Hevs.
Qed.

Lemma intr_fault_units_emits (hw : hw_env) (fe : fault_env)
    (units : list Z) :
  forall priv priv',
  intr_fault_units hw fe units priv = Some priv' ->
  exists evs,
    trace priv' = trace priv ++ evs
    /\ (forall e, e ∈ evs ->
          fault_event e
          \/ exists u, u ∈ units /\ e = EvIntrError (MsgFaultingUnit u))
    /\ (forall u, u ∈ units -> EvIntrError (MsgFaultingUnit u) ∈ evs).
Proof.
  induction units as [| unit units IH]; intros priv priv'.
  - intros [= <-]. exists []. split; [symmetry; apply app_nil_r |].
    split; [intros e He | intros u Hu]; apply elem_of_nil in He || apply elem_of_nil in Hu;
      contradiction.
  - cbn [intr_fault_units].
    destruct (gk104_fifo_intr_fault hw fe unit priv) as [p1 |] eqn:Hunit;
      [| discriminate].
    cbn [mbind option_bind]. intros Hrest.
    apply intr_fault_emits in Hunit as (evs1 & Htr1 & Hevs1).
    apply IH in Hrest as (evs2 & Htr2 & Hmay2 & Hmust2).
    exists ((EvIntrError (MsgFaultingUnit unit) :: evs1) ++ evs2).
    split; [rewrite Htr2, Htr1, <- app_assoc; reflexivity |].
    split.
    + intros e He. apply elem_of_app in He as [He | He].
      * apply elem_of_cons in He as [-> | He].
        -- right. exists unit. split; [left | reflexivity].
        -- left. rewrite Forall_forall in Hevs1. exact (Hevs1 e He).
      * destruct (Hmay2 e He) as [Hf | (u & Hu & ->)]; [left; exact Hf |].
        right. exists u. split; [right; exact Hu | reflexivity].
    + intros u Hu. apply elem_of_app.
      apply elem_of_cons in Hu as [-> | Hu]; [left; left |].
      right. exact (Hmust2 u Hu).
Qed.

End intr_fault.

(** The events of the two PBDMA handlers of a unit. *)
Lemma intr_pbdma_0_events (hw : hw_env) (sw : sw_env)
    (priv : gk104_fifo_priv) (unit : Z) :
  Forall (pbdma_event unit)
    (ev_of_intr <$> gk104_fifo_intr_pbdma_0 hw sw priv unit)
  /\ EvWr32 (0x040108 + unit * 0x2000) (pbdma_stat hw unit)
     ∈ ev_of_intr <$> gk104_fifo_intr_pbdma_0 hw sw priv unit.
Proof.
  unfold gk104_fifo_intr_pbdma_0, gk104_fifo_swmthd, pbdma_stat. cbv zeta.
  destruct ((base_min priv <=? _) && (_ <=? base_max priv));
    [destruct (channel priv !! _) as [chan |];
     [destruct (nvkm_namedb_get_class sw _ 0x906e);
      [destruct (Z.land _ 0x00003ffc =? 0);
       [| destruct (nv_call sw _ _ _ =? 0)] |] |] |];
    cbn [fst snd];
    destruct (Z.land _ 0x00800000 =? 0); cbn [negb andb];
    rewrite ?Z.eqb_refl;
    destruct (Z.land _ 0x00200000 =? 0); cbn [negb];
    repeat match goal with
           | |- context [if negb (?x =? 0) then _ else _] =>
               destruct (x =? 0); cbn [negb]
           | |- context [if 22 =? 0 then _ else _] =>
               change (22 =? 0) with false; cbv iota
           | |- context [if - EINVAL =? 0 then _ else _] =>
               change (- EINVAL =? 0) with false; cbv iota
           end;
    destruct (printk_timed_ratelimit sw);
    (split; [forall_now | cbn [app fmap list_fmap ev_of_intr]; elem_tac]).
Qed.

Lemma intr_pbdma_1_events (hw : hw_env) (unit : Z) :
  Forall (pbdma_event unit) (ev_of_intr <$> gk104_fifo_intr_pbdma_1 hw unit)
  /\ EvWr32 (0x040148 + unit * 0x2000) (pbdma_1_stat hw unit)
     ∈ ev_of_intr <$> gk104_fifo_intr_pbdma_1 hw unit.
Proof.
  unfold gk104_fifo_intr_pbdma_1, pbdma_1_stat. cbv zeta.
  destruct (Z.land _ _ =? 0); cbn [negb];
    (split; [forall_now | cbn [app fmap list_fmap ev_of_intr]; elem_tac]).
Qed.

Lemma intr_pbdma_units_emits (hw : hw_env) (sw : sw_env) (units : list Z) :
  (forall u, u ∈ units -> 0 <= u < 32) ->
  forall priv,
  exists evs,
    trace (intr_pbdma_units hw sw units priv) = trace priv ++ evs
    /\ (forall e, e ∈ evs -> exists u, u ∈ units /\ pbdma_event u e)
    /\ (forall u, u ∈ units ->
          EvWr32 (0x040108 + u * 0x2000) (pbdma_stat hw u) ∈ evs
          /\ EvWr32 (0x040148 + u * 0x2000) (pbdma_1_stat hw u) ∈ evs
          /\ EvWr32 0x0025a0 (2 ^ u) ∈ evs).
Proof.
  induction units as [| unit units IH]; intros Hunits priv.
  - exists []. split; [symmetry; apply app_nil_r |].
    split; [intros e He; apply elem_of_nil in He; contradiction |].
    intros u Hu. apply elem_of_nil in Hu. contradiction.
  - cbn [intr_pbdma_units]. cbv zeta.
    match goal with
    | |- context [intr_pbdma_units hw sw units ?p] =>
        destruct (IH ltac:(intros u Hu; apply Hunits; right; exact Hu) p)
          as (evs2 & Htr2 & Hmay2 & Hmust2)
    end.
    destruct (intr_pbdma_0_events hw sw priv unit) as [Hall0 Hin0].
    destruct (intr_pbdma_1_events hw unit) as [Hall1 Hin1].
    rewrite Forall_forall in Hall0, Hall1.
    exists ((ev_of_intr <$> gk104_fifo_intr_pbdma_0 hw sw priv unit)
            ++ (ev_of_intr <$> gk104_fifo_intr_pbdma_1 hw unit)
            ++ [EvWr32 0x0025a0 (2 ^ unit)] ++ evs2).
    split.
    { rewrite Htr2. unfold emit_intr. cbn [trace emit].
      rewrite (u32_int_shl1_pow2 unit)
        by (apply Hunits; left).
      rewrite <- !app_assoc. reflexivity. }
    split.
    + intros e He. rewrite !elem_of_app in He.
      destruct He as [He | [He | [He | He]]].
      * exists unit. split; [left | exact (Hall0 e He)].
      * exists unit. split; [left | exact (Hall1 e He)].
      * apply list_elem_of_singleton in He as ->.
        exists unit. split; [left |]. simpl. auto 10.
      * destruct (Hmay2 e He) as (u & Hu & He').
        exists u. split; [right; exact Hu | exact He'].
    + intros u Hu. rewrite !elem_of_app.
      apply elem_of_cons in Hu as [-> | Hu].
      * split; [left; exact Hin0 |].
        split; [right; left; exact Hin1 |].
        right. right. left. left.
      * destruct (Hmust2 u Hu) as (Ha & Hb & Hc). auto 10.
Qed.

Lemma intr_runlist_engns_inv (engns : list Z) :
  forall priv priv',
  intr_runlist_engns engns priv = Some priv' ->
  priv' = emit (concat (map (λ b, [EvWakeUp b;
                                   EvWr32 0x002a00 (u32 (int_shl1 b))])
                          engns)) priv.
Proof.
  induction engns as [| engn engns IH]; intros priv priv'.
  - intros [= <-]. symmetry. apply emit_nil.
  - cbn [intr_runlist_engns].
    destruct (priv_engine priv !! engn) as [slot |]; [| discriminate].
    cbn [mbind option_bind]. intros Hrest.
    rewrite (IH _ _ Hrest), emit_emit. reflexivity.
Qed.

Lemma emits_all_cons (m1 k1 m2 k2 : event -> Prop)
    (p1 p2 p3 : gk104_fifo_priv) :
  emits_all m1 k1 p1 p2 -> emits_all m2 k2 p2 p3 ->
  emits_all (λ e, m1 e \/ m2 e) (λ e, k1 e \/ k2 e) p1 p3.
Proof.
  intros (evs1 & Ht1 & Hm1 & Hk1) (evs2 & Ht2 & Hm2 & Hk2).
  exists (evs1 ++ evs2).
  split; [rewrite Ht2, Ht1, app_assoc; reflexivity |].
  split; intros e He.
  - apply elem_of_app in He as [He | He]; [left | right]; auto.
  - apply elem_of_app. destruct He as [He | He]; [left | right]; auto.
Qed.

Lemma emits_all_list (evs : list event) (p q : gk104_fifo_priv) :
  trace q = trace p ++ evs -> emits_all (λ e, e ∈ evs) (λ e, e ∈ evs) p q.
Proof. intros Ht. exists evs. auto. Qed.

Lemma emits_all_mono (m k m' k' : event -> Prop) (p q : gk104_fifo_priv) :
  (forall e, m e -> m' e) -> (forall e, k' e -> k e) ->
  emits_all m k p q -> emits_all m' k' p q.
Proof.
  intros Hm Hk (evs & Ht & Hmay & Hmust). exists evs.
  split; [exact Ht |]. split; intros e He; auto.
Qed.

(** A guarded handler adds what its body adds, when its bit is
    pending, and nothing otherwise. *)
Lemma when_bit_emits (hw : hw_env) (bit : Z)
    (body : gk104_fifo_priv -> option gk104_fifo_priv)
    (may must : event -> Prop) (p p' : gk104_fifo_priv) :
  when_bit (intr_stat hw) bit body p = Some p' ->
  (body p = Some p' -> emits_all may must p p') ->
  emits_all (λ e, pending hw bit /\ may e) (λ e, pending hw bit /\ must e)
    p p'.
Proof.
  unfold when_bit, pending.
  destruct (Z.eqb_spec (Z.land (intr_stat hw) bit) 0) as [Hz | Hnz].
  - intros [= <-] _. exists []. split; [symmetry; apply app_nil_r |].
    split; intros e He; [apply elem_of_nil in He; contradiction |].
    destruct He as [He _]. contradiction.
  - intros Hbody Hemits.
    eapply emits_all_mono; [| | exact (Hemits Hbody)];
      intros e He; [split; assumption | apply He].
Qed.

Ltac list_step :=
  intros [= <-]; apply emits_all_list;
  cbn [trace emit gk104_fifo_intr_bind gk104_fifo_intr_chsw
         gk104_fifo_intr_dropped_fault gk104_fifo_intr_engine];
  rewrite <- ?app_assoc; reflexivity.

Section intr_trace.
Context `{nvdev_idx} `{nvdev_subdev} `{nvif_chan_class}.

(** The events of the top-level handler, source by source. *)
Lemma gk104_fifo_intr_emits (hw : hw_env) (sw : sw_env) (fe : fault_env)
    (priv priv' : gk104_fifo_priv) :
  gk104_fifo_intr hw sw fe priv = Some priv' ->
  emits_all (intr_may hw) (intr_must hw) priv priv'.
Proof.
  rewrite intr_fixed_order.
  destruct (when_bit _ 0x00000001 _ priv) as [p1 |] eqn:S1;
    [| discriminate]; cbn [mbind option_bind].
  destruct (when_bit _ 0x00000010 _ p1) as [p2 |] eqn:S2;
    [| discriminate]; cbn [mbind option_bind].
  destruct (when_bit _ 0x00000100 _ p2) as [p3 |] eqn:S3;
    [| discriminate]; cbn [mbind option_bind].
  destruct (when_bit _ 0x00010000 _ p3) as [p4 |] eqn:S4;
    [| discriminate]; cbn [mbind option_bind].
  destruct (when_bit _ 0x00800000 _ p4) as [p5 |] eqn:S5;
    [| discriminate]; cbn [mbind option_bind].
  destruct (when_bit _ 0x01000000 _ p5) as [p6 |] eqn:S6;
    [| discriminate]; cbn [mbind option_bind].
  destruct (when_bit _ 0x08000000 _ p6) as [p7 |] eqn:S7;
    [| discriminate]; cbn [mbind option_bind].
  destruct (when_bit _ 0x10000000 _ p7) as [p8 |] eqn:S8;
    [| discriminate]; cbn [mbind option_bind].
  destruct (when_bit _ 0x20000000 _ p8) as [p9 |] eqn:S9;
    [| discriminate]; cbn [mbind option_bind].
  destruct (when_bit _ 0x40000000 _ p9) as [p10 |] eqn:S10;
    [| discriminate]; cbn [mbind option_bind].
  destruct (when_bit _ 0x80000000 _ p10) as [p11 |] eqn:S11;
    [| discriminate]; cbn [mbind option_bind].
  intros S12.
  eapply (when_bit_emits hw) in S1; [| list_step].
  eapply (when_bit_emits hw) in S2; [| list_step].
  apply (when_bit_emits hw _ _
           (λ e, sched_event hw e \/ e = EvWr32 0x002100 0x00000100)
           (λ e, e = EvWr32 0x002100 0x00000100)) in S3.
  2:{ destruct (gk104_fifo_intr_sched hw p2) as [q |] eqn:Hsched;
        [| discriminate].
      cbn [mbind option_bind]. intros [= <-].
      apply intr_sched_emits in Hsched as (evs & Htr & Hevs).
      rewrite Forall_forall in Hevs.
      exists (evs ++ [EvWr32 0x002100 0x00000100]).
      split; [cbn [trace emit]; rewrite Htr, app_assoc; reflexivity |].
      split; intros e He.
      - apply elem_of_app in He as [He | He]; [left; auto |].
        right. apply list_elem_of_singleton in He. exact He.
      - subst e. apply elem_of_app. right. left. }
  eapply (when_bit_emits hw) in S4; [| list_step].
  eapply (when_bit_emits hw) in S5; [| list_step].
  eapply (when_bit_emits hw) in S6; [| list_step].
  eapply (when_bit_emits hw) in S7; [| list_step].
  apply (when_bit_emits hw _ _
           (λ e, e = EvMask 0x002140 0x10000000 0
                 \/ fault_event e
                 \/ exists u, u ∈ set_bits (nv_rd32 hw 0x00259c)
                              /\ e = EvIntrError (MsgFaultingUnit u))
           (λ e, e = EvMask 0x002140 0x10000000 0
                 \/ exists u, u ∈ set_bits (nv_rd32 hw 0x00259c)
                              /\ e = EvIntrError (MsgFaultingUnit u)))
    in S8.
  2:{ intros Hunits.
      apply intr_fault_units_emits in Hunits
        as (evs & Htr & Hmay & Hmust).
      exists (EvMask 0x002140 0x10000000 0 :: evs).
      split; [rewrite Htr; cbn [trace emit]; rewrite <- app_assoc;
              reflexivity |].
      split; intros e He.
      - apply elem_of_cons in He as [-> | He]; [left; reflexivity |].
        right. exact (Hmay e He).
      - destruct He as [-> | (u & Hu & ->)]; [left | right; auto]. }
  apply (when_bit_emits hw _ _
           (λ e, exists u, u ∈ set_bits (nv_rd32 hw 0x0025a0)
                           /\ pbdma_event u e)
           (λ e, exists u,
                   u ∈ set_bits (nv_rd32 hw 0x0025a0)
                   /\ e ∈ [EvWr32 (0x040108 + u * 0x2000) (pbdma_stat hw u);
                           EvWr32 (0x040148 + u * 0x2000)
                             (pbdma_1_stat hw u);
                           EvWr32 0x0025a0 (2 ^ u)])) in S9.
  2:{ intros [= <-].
      destruct (intr_pbdma_units_emits hw sw
                  (set_bits (nv_rd32 hw 0x0025a0))
                  ltac:(intros u Hu; apply elem_of_set_bits in Hu; tauto) p8)
        as (evs & Htr & Hmay & Hmust).
      exists evs. split; [exact Htr |]. split; [exact Hmay |].
      intros e (u & Hu & He).
      destruct (Hmust u Hu) as (Ha & Hb & Hc).
      repeat (apply elem_of_cons in He as [-> | He]; [assumption |]).
      apply elem_of_nil in He. contradiction. }
  apply (when_bit_emits hw _ _
           (λ e, exists b, b ∈ set_bits (nv_rd32 hw 0x002a00)
                           /\ e ∈ [EvWakeUp b; EvWr32 0x002a00 (2 ^ b)])
           (λ e, exists b, b ∈ set_bits (nv_rd32 hw 0x002a00)
                           /\ e ∈ [EvWakeUp b; EvWr32 0x002a00 (2 ^ b)]))
    in S10.
  2:{ intros Hengns. apply intr_runlist_engns_inv in Hengns as ->.
      rewrite map_runlist_pow2.
      eapply emits_all_mono;
        [| | apply emits_all_list; cbn [trace emit]; reflexivity];
        intros e He; cbv beta in *.
      - apply elem_of_concat_map in He. exact He.
      - apply elem_of_concat_map. exact He. }
  eapply (when_bit_emits hw) in S11; [| list_step].
  assert (S12' : emits_all
            (λ e, intr_unknown hw <> 0
                  /\ e ∈ [EvIntrError (MsgIntr (intr_unknown hw));
                          EvMask 0x002140 (intr_unknown hw) 0;
                          EvWr32 0x002100 (intr_unknown hw)])
            (λ e, intr_unknown hw <> 0
                  /\ e ∈ [EvIntrError (MsgIntr (intr_unknown hw));
                          EvMask 0x002140 (intr_unknown hw) 0;
                          EvWr32 0x002100 (intr_unknown hw)])
            p11 priv').
  { injection S12 as <-.
    destruct (Z.eqb_spec (intr_unknown hw) 0) as [Hz | Hnz].
    - exists []. split; [symmetry; apply app_nil_r |].
      split; intros e He; [apply elem_of_nil in He; contradiction |].
      destruct He as [He _]. contradiction.
    - eapply emits_all_mono;
        [| | apply emits_all_list; cbn [trace emit]; reflexivity];
        intros e He; [split; assumption | apply He]. }
  pose proof (emits_all_cons _ _ _ _ _ _ _ S11 S12') as R11.
  pose proof (emits_all_cons _ _ _ _ _ _ _ S10 R11) as R10.
  pose proof (emits_all_cons _ _ _ _ _ _ _ S9 R10) as R9.
  pose proof (emits_all_cons _ _ _ _ _ _ _ S8 R9) as R8.
  pose proof (emits_all_cons _ _ _ _ _ _ _ S7 R8) as R7.
  pose proof (emits_all_cons _ _ _ _ _ _ _ S6 R7) as R6.
  pose proof (emits_all_cons _ _ _ _ _ _ _ S5 R6) as R5.
  pose proof (emits_all_cons _ _ _ _ _ _ _ S4 R5) as R4.
  pose proof (emits_all_cons _ _ _ _ _ _ _ S3 R4) as R3.
  pose proof (emits_all_cons _ _ _ _ _ _ _ S2 R3) as R2.
  pose proof (emits_all_cons _ _ _ _ _ _ _ S1 R2) as R1.
  exact R1.
Qed.

Lemma gk104_fifo_intr_idle (hw : hw_env) (sw : sw_env) (fe : fault_env)
    (priv : gk104_fifo_priv) :
  intr_stat hw = 0 -> gk104_fifo_intr hw sw fe priv = Some priv.
Proof.
  intros Hz. rewrite intr_fixed_order. unfold intr_unknown, when_bit.
  rewrite Hz. reflexivity.
Qed.

End intr_trace.

Lemma intr_unknown_not_bit (hw : hw_env) (bit : Z) :
  Z.land (u32 (Z.lnot intr_known)) bit = 0 -> bit <> 0 ->
  intr_unknown hw <> bit.
Proof.
  intros Hk Hne Heq.
  assert (Hz : Z.land (intr_unknown hw) bit = 0).
  { unfold intr_unknown. rewrite <- Z.land_assoc, Hk. apply Z.land_0_r. }
  rewrite Heq, Z.land_diag in Hz. contradiction.
Qed.

Ltac intr_unknown_absurd :=
  match goal with
  | H : intr_unknown ?hw = ?bit |- _ =>
      exfalso; apply (intr_unknown_not_bit hw bit);
        [reflexivity | discriminate | exact H]
  | H : ?bit = intr_unknown ?hw |- _ =>
      exfalso; apply (intr_unknown_not_bit hw bit);
        [reflexivity | discriminate | symmetry; exact H]
  end.

(** Breaks what is known of an event of the top-level handler into the
    sources it can come from. *)
Ltac intr_break :=
  repeat match goal with
    | H : intr_may _ _ |- _ => unfold intr_may, pending in H
    | H : sched_event _ _ |- _ => unfold sched_event in H
    | H : (if ?c =? ?d then _ else _) |- _ => destruct (Z.eqb_spec c d)
    | H : ctxsw_event _ |- _ => simpl in H
    | H : fault_event _ |- _ => simpl in H
    | H : pbdma_event _ _ |- _ => simpl in H
    | H : _ \/ _ |- _ => destruct H as [H | H]
    | H : _ /\ _ |- _ => destruct H as [? H]
    | H : exists _, _ |- _ => destruct H as [? H]
    | H : False |- _ => destruct H
    | H : _ ∈ _ :: _ |- _ => apply elem_of_cons in H
    | H : _ ∈ [] |- _ => apply elem_of_nil in H
    | H : _ ∈ set_bits _ |- _ => apply elem_of_set_bits in H
    | H : @eq event _ _ |- _ => progress simplify_eq
    end;
  simplify_eq.

Section intr_sources.
Context `{nvdev_idx} `{nvdev_subdev} `{nvif_chan_class}.

(** X13.  What the top-level interrupt handler acknowledges and
    disables, whenever it comes to an end.  With no pending interrupt
    enabled it does nothing.  Register 0x002100 is written the bit of
    each of the eight plain sources that is pending and enabled and the
    enabled pending bits that have no handler, all of them at once, and
    nothing else: the fault, PBDMA and run-list sources are never
    acknowledged there.  The bits without a handler are reported in one
    line and disabled in 0x002140; apart from them only the fault
    source is disabled there, when it is pending, and the fault source
    together with the scheduler source, which only a scheduler
    interrupt with reason CTXSW_TIMEOUT does (on its way to a
    recovery). *)
Theorem intr_acks_and_disables (hw : hw_env) (sw : sw_env) (fe : fault_env)
    (priv priv' : gk104_fifo_priv) :
  gk104_fifo_intr hw sw fe priv = Some priv' ->
  exists evs,
    trace priv' = trace priv ++ evs
    /\ (intr_stat hw = 0 -> priv' = priv)
    /\ (forall v,
          EvWr32 0x002100 v ∈ evs
          <-> (v ∈ [0x00000001; 0x00000010; 0x00000100; 0x00010000;
                    0x00800000; 0x01000000; 0x08000000; 0x80000000]
               /\ Z.land (intr_stat hw) v <> 0)
              \/ (v = intr_unknown hw /\ v <> 0))
    /\ (forall m, EvIntrError (MsgIntr m) ∈ evs
                  <-> m = intr_unknown hw /\ m <> 0)
    /\ (forall m v, m <> 0x10000100 ->
          (EvMask 0x002140 m v ∈ evs
           <-> v = 0
               /\ ((m = 0x10000000
                    /\ Z.land (intr_stat hw) 0x10000000 <> 0)
                   \/ (m = intr_unknown hw /\ m <> 0))))
    /\ (forall v, EvMask 0x002140 0x10000100 v ∈ evs ->
          v = 0 /\ Z.land (intr_stat hw) 0x00000100 <> 0
          /\ Z.land (u32 (nv_rd32 hw 0x00254c)) 0x000000ff = 0x0a).
Proof.
  intros Hrun.
  destruct (gk104_fifo_intr_emits hw sw fe priv priv' Hrun)
    as (evs & Htr & Hmay & Hmust).
  exists evs. split; [exact Htr |]. split.
  { intros Hz. rewrite (gk104_fifo_intr_idle hw sw fe priv Hz) in Hrun.
    congruence. }
  split; [| split; [| split]].
  - intros v. split.
    + intros Hin. apply Hmay in Hin. intr_break;
        try (left; split; [elem_tac | assumption]; fail);
        lia.
    + intros [[Hv Hp] | [-> Hne]]; apply Hmust; unfold intr_must, pending.
      * repeat (apply elem_of_cons in Hv as [-> | Hv]);
          [.. | apply elem_of_nil in Hv; contradiction].
        -- left. split; [exact Hp | elem_tac].
        -- right. left. split; [exact Hp | elem_tac].
        -- do 2 right. left. split; [exact Hp | reflexivity].
        -- do 3 right. left. split; [exact Hp | elem_tac].
        -- do 4 right. left. split; [exact Hp | elem_tac].
        -- do 5 right. left. split; [exact Hp | elem_tac].
        -- do 6 right. left. split; [exact Hp | elem_tac].
        -- do 10 right. left. split; [exact Hp | elem_tac].
      * do 11 right. split; [exact Hne | elem_tac].
  - intros m. split.
    + intros Hin. apply Hmay in Hin. intr_break. auto.
    + intros [-> Hne]. apply Hmust. unfold intr_must.
      do 11 right. split; [exact Hne | elem_tac].
  - intros m v Hm. split.
    + intros Hin. apply Hmay in Hin. intr_break; try congruence; auto.
    + intros [-> [[-> Hp] | [-> Hne]]]; apply Hmust; unfold intr_must.
      * do 7 right. left. split; [exact Hp | left; reflexivity].
      * do 11 right. split; [exact Hne | elem_tac].
  - intros v Hin. apply Hmay in Hin. intr_break; try intr_unknown_absurd.
    unfold sched_code in *. auto.
Qed.

End intr_sources.

(** The interrupt handlers leave the table of run-list slots alone. *)
Lemma restart_scan_engines (exception : Z) (ids : list Z) :
  forall priv,
  priv_engine (snd (restart_scan exception ids priv)) = priv_engine priv.
Proof.
  induction ids as [| i ids IH]; intros priv; [reflexivity |].
  cbn [restart_scan].
  destruct (channel priv !! i) as [c |]; [| apply IH].
  destruct (watchdog_inited (timeout c)); cbn [negb]; [| apply IH].
  unfold cancel_delayed_work. cbn [fst snd].
  destruct (watchdog_work (timeout c)); cbn [negb]; [| reflexivity].
  destruct (i =? exception); rewrite IH; reflexivity.
Qed.

Lemma mmu_fault_recover_engines (hw : hw_env) (eng : nvkm_engine)
    (ch unit : Z) (priv priv' : gk104_fifo_priv) :
  gk104_fifo_mmu_fault_recover hw eng ch unit priv = Some priv' ->
  priv_engine priv' = priv_engine priv.
Proof.
  unfold gk104_fifo_mmu_fault_recover.
  destruct (channel priv !! ch) as [chan |]; [| discriminate].
  cbn [mbind option_bind]. cbv zeta. intros [= <-]. reflexivity.
Qed.

Lemma sched_ctxsw_recover_engines (hw : hw_env) (eng : option nvkm_engine)
    (ch : Z) (priv priv' : gk104_fifo_priv) :
  gk104_fifo_sched_ctxsw_recover hw eng ch priv = Some priv' ->
  priv_engine priv' = priv_engine priv.
Proof.
  unfold gk104_fifo_sched_ctxsw_recover.
  destruct (channel priv !! ch) as [chan |]; [| discriminate].
  destruct eng as [eng |]; [| discriminate].
  cbn [mbind option_bind]. cbv zeta. intros Hrec.
  apply mmu_fault_recover_engines in Hrec. rewrite Hrec.
  destruct (nv_wait hw 0x002100 0x10000000 0x10000000); reflexivity.
Qed.

Lemma sched_ctxsw_engn_engines (hw : hw_env) (engn : Z)
    (priv priv' : gk104_fifo_priv) :
  sched_ctxsw_engn hw engn priv = Some priv' ->
  priv_engine priv' = priv_engine priv.
Proof.
  unfold sched_ctxsw_engn. cbv zeta.
  destruct (negb (_ =? 0) && _); [| intros [= <-]; reflexivity].
  destruct (channel priv !! _) as [chan |];
    [| intros [= <-]; reflexivity].
  destruct (gk104_fifo_engine hw priv engn) as [eng |];
    [| intros [= <-]; reflexivity].
  destruct (snd (gk104_fifo_update_timeout hw chan _)).
  - match goal with
    | |- context [gk104_fifo_chan_timeout_restart_all ?p ?id] =>
        pose proof (restart_scan_engines id
                      (seqZ (base_min p) (base_max p - base_min p)) p)
          as Hscan;
        fold (gk104_fifo_chan_timeout_restart_all p id) in Hscan;
        destruct (gk104_fifo_chan_timeout_restart_all p id) as [r p1]
    end.
    cbn [fst snd] in *. cbn [priv_engine emit put_chan set_channel] in Hscan.
    destruct r.
    + intros Hrec. apply sched_ctxsw_recover_engines in Hrec.
      rewrite Hrec. exact Hscan.
    + intros [= <-]. exact Hscan.
  - intros [= <-]. reflexivity.
Qed.

Lemma sched_ctxsw_loop_engines (hw : hw_env) (engns : list Z) :
  forall priv priv',
  sched_ctxsw_loop hw engns priv = Some priv' ->
  priv_engine priv' = priv_engine priv.
Proof.
  induction engns as [| engn engns IH]; intros priv priv'.
  - intros [= <-]. reflexivity.
  - cbn [sched_ctxsw_loop].
    destruct (sched_ctxsw_engn hw engn priv) as [p1 |] eqn:Hengn;
      [| discriminate].
    cbn [mbind option_bind]. intros Hloop.
    rewrite (IH _ _ Hloop). exact (sched_ctxsw_engn_engines _ _ _ _ Hengn).
Qed.

Lemma intr_sched_engines (hw : hw_env) (priv priv' : gk104_fifo_priv) :
  gk104_fifo_intr_sched hw priv = Some priv' ->
  priv_engine priv' = priv_engine priv.
Proof.
  unfold gk104_fifo_intr_sched. cbv zeta.
  destruct (_ =? 0x0a).
  - apply sched_ctxsw_loop_engines.
  - intros [= <-]. reflexivity.
Qed.

Lemma intr_pbdma_units_engines (hw : hw_env) (sw : sw_env)
    (units : list Z) :
  forall priv,
  priv_engine (intr_pbdma_units hw sw units priv) = priv_engine priv.
Proof.
  induction units as [| unit units IH]; intros priv; [reflexivity |].
  cbn [intr_pbdma_units]. cbv zeta. rewrite IH. reflexivity.
Qed.

Section intr_units.
Context `{nvdev_idx} `{nvdev_subdev} `{nvif_chan_class}.

Lemma fault_objects_engines (hw : hw_env) (engine : option nvkm_engine)
    (unit : Z) (objects : list nvkm_object) :
  forall priv priv',
  fault_objects hw engine unit objects priv = Some priv' ->
  priv_engine priv' = priv_engine priv.
Proof.
  induction objects as [| object parents IH]; intros priv priv'.
  - intros [= <-]. reflexivity.
  - cbn [fault_objects].
    destruct ((nv_mclass object =? KEPLER_CHANNEL_GPFIFO_A)
              || (nv_mclass object =? MAXWELL_CHANNEL_GPFIFO_A));
      cbn [mbind option_bind]; [| apply IH].
    destruct (channel priv !! obj_chan object) as [chan |];
      [| discriminate].
    destruct engine as [eng |]; [| discriminate].
    cbn [mbind option_bind]. cbv zeta.
    destruct (gk104_fifo_mmu_fault_recover hw eng _ unit _) as [p1 |] eqn:Hrec;
      [| discriminate].
    cbn [mbind option_bind]. intros Hrest.
    rewrite (IH _ _ Hrest).
    exact (mmu_fault_recover_engines _ _ _ _ _ _ Hrec).
Qed.

Lemma intr_fault_engines (hw : hw_env) (fe : fault_env) (unit : Z)
    (priv priv' : gk104_fifo_priv) :
  gk104_fifo_intr_fault hw fe unit priv = Some priv' ->
  priv_engine priv' = priv_engine priv.
Proof.
  unfold gk104_fifo_intr_fault. cbv zeta. intros Hwalk.
  apply fault_objects_engines in Hwalk. exact Hwalk.
Qed.

Lemma intr_fault_units_engines (hw : hw_env) (fe : fault_env)
    (units : list Z) :
  forall priv priv',
  intr_fault_units hw fe units priv = Some priv' ->
  priv_engine priv' = priv_engine priv.
Proof.
  induction units as [| unit units IH]; intros priv priv'.
  - intros [= <-]. reflexivity.
  - cbn [intr_fault_units].
    destruct (gk104_fifo_intr_fault hw fe unit priv) as [p1 |] eqn:Hunit;
      [| discriminate].
    cbn [mbind option_bind]. intros Hrest.
    rewrite (IH _ _ Hrest). exact (intr_fault_engines _ _ _ _ _ Hunit).
Qed.

Lemma when_bit_engines (stat bit : Z)
    (body : gk104_fifo_priv -> option gk104_fifo_priv)
    (p p' : gk104_fifo_priv) :
  when_bit stat bit body p = Some p' ->
  (body p = Some p' -> priv_engine p' = priv_engine p) ->
  priv_engine p' = priv_engine p.
Proof.
  unfold when_bit. destruct (Z.land stat bit =? 0); [| auto].
  intros [= <-] _. reflexivity.
Qed.

(** When the top-level handler comes to an end with the run-list source
    pending, every engine named in 0x002a00 has a slot. *)
Lemma gk104_fifo_intr_slots (hw : hw_env) (sw : sw_env) (fe : fault_env)
    (priv priv' : gk104_fifo_priv) :
  gk104_fifo_intr hw sw fe priv = Some priv' ->
  priv_engine priv' = priv_engine priv
  /\ (pending hw 0x40000000 ->
      forall b, b ∈ set_bits (nv_rd32 hw 0x002a00) ->
                is_Some (priv_engine priv !! b)).
Proof.
  rewrite intr_fixed_order.
  destruct (when_bit _ 0x00000001 _ priv) as [p1 |] eqn:S1;
    [| discriminate]; cbn [mbind option_bind].
  destruct (when_bit _ 0x00000010 _ p1) as [p2 |] eqn:S2;
    [| discriminate]; cbn [mbind option_bind].
  destruct (when_bit _ 0x00000100 _ p2) as [p3 |] eqn:S3;
    [| discriminate]; cbn [mbind option_bind].
  destruct (when_bit _ 0x00010000 _ p3) as [p4 |] eqn:S4;
    [| discriminate]; cbn [mbind option_bind].
  destruct (when_bit _ 0x00800000 _ p4) as [p5 |] eqn:S5;
    [| discriminate]; cbn [mbind option_bind].
  destruct (when_bit _ 0x01000000 _ p5) as [p6 |] eqn:S6;
    [| discriminate]; cbn [mbind option_bind].
  destruct (when_bit _ 0x08000000 _ p6) as [p7 |] eqn:S7;
    [| discriminate]; cbn [mbind option_bind].
  destruct (when_bit _ 0x10000000 _ p7) as [p8 |] eqn:S8;
    [| discriminate]; cbn [mbind option_bind].
  destruct (when_bit _ 0x20000000 _ p8) as [p9 |] eqn:S9;
    [| discriminate]; cbn [mbind option_bind].
  destruct (when_bit _ 0x40000000 _ p9) as [p10 |] eqn:S10;
    [| discriminate]; cbn [mbind option_bind].
  destruct (when_bit _ 0x80000000 _ p10) as [p11 |] eqn:S11;
    [| discriminate]; cbn [mbind option_bind].
  intros S12.
  assert (E1 := S1). apply when_bit_engines in E1;
    [| intros [= <-]; reflexivity].
  assert (E2 := S2). apply when_bit_engines in E2;
    [| intros [= <-]; reflexivity].
  assert (E3 := S3). apply when_bit_engines in E3.
  2:{ destruct (gk104_fifo_intr_sched hw p2) as [q |] eqn:Hsched;
        [| discriminate].
      cbn [mbind option_bind]. intros [= <-].
      exact (intr_sched_engines _ _ _ Hsched). }
  assert (E4 := S4). apply when_bit_engines in E4;
    [| intros [= <-]; reflexivity].
  assert (E5 := S5). apply when_bit_engines in E5;
    [| intros [= <-]; reflexivity].
  assert (E6 := S6). apply when_bit_engines in E6;
    [| intros [= <-]; reflexivity].
  assert (E7 := S7). apply when_bit_engines in E7;
    [| intros [= <-]; reflexivity].
  assert (E8 := S8). apply when_bit_engines in E8.
  2:{ intros Hunits. apply intr_fault_units_engines in Hunits.
      exact Hunits. }
  assert (E9 := S9). apply when_bit_engines in E9.
  2:{ intros [= <-]. apply intr_pbdma_units_engines. }
  assert (E10 := S10). apply when_bit_engines in E10.
  2:{ intros Hengns. apply intr_runlist_engns_inv in Hengns as ->.
      reflexivity. }
  assert (E11 := S11). apply when_bit_engines in E11;
    [| intros [= <-]; reflexivity].
  assert (E9' : priv_engine p9 = priv_engine priv) by congruence.
  split.
  { injection S12 as <-.
    destruct (intr_unknown hw =? 0); cbn [priv_engine emit]; congruence. }
  intros Hpend b Hb. rewrite <- E9'.
  unfold when_bit in S10. unfold pending in Hpend.
  destruct (Z.eqb_spec (Z.land (intr_stat hw) 0x40000000) 0) as [Hz | _];
    [contradiction |].
  destruct (priv_engine p9 !! b) as [slot |] eqn:Hslot; [eauto |].
  rewrite (intr_runlist_engns_none _ p9) in S10; [discriminate |].
  exists b. split; [exact Hb | exact Hslot].
Qed.

(** X14.  The three sources of the top-level handler that carry a
    per-unit mask, whenever the handler comes to an end.  When the fault
    source is pending and enabled, the fault handler runs for exactly
    the units whose bit is set in 0x00259c (each run logs the unit
    first); when the PBDMA source is, both PBDMA handlers run for
    exactly the units set in 0x0025a0, each acknowledging the unit's
    enabled pending interrupts in its status register, and each such
    unit is acknowledged in 0x0025a0 by its own bit; when the run-list
    source is, exactly the engines set in 0x002a00 are woken and
    acknowledged there, and each of them has a slot in the table of the
    device.  None of this happens for a source that is not pending or
    not enabled. *)
Theorem intr_per_unit_sources (hw : hw_env) (sw : sw_env) (fe : fault_env)
    (priv priv' : gk104_fifo_priv) :
  gk104_fifo_intr hw sw fe priv = Some priv' ->
  exists evs,
    trace priv' = trace priv ++ evs
    /\ (forall u, EvIntrError (MsgFaultingUnit u) ∈ evs
                  <-> Z.land (intr_stat hw) 0x10000000 <> 0
                      /\ u ∈ set_bits (nv_rd32 hw 0x00259c))
    /\ (forall v, EvWr32 0x0025a0 v ∈ evs
                  <-> Z.land (intr_stat hw) 0x20000000 <> 0
                      /\ exists u, u ∈ set_bits (nv_rd32 hw 0x0025a0)
                                   /\ v = 2 ^ u)
    /\ (forall u v, 0 <= u < 32 ->
          EvWr32 (0x040108 + u * 0x2000) v ∈ evs
          \/ EvWr32 (0x040148 + u * 0x2000) v ∈ evs ->
          Z.land (intr_stat hw) 0x20000000 <> 0
          /\ u ∈ set_bits (nv_rd32 hw 0x0025a0))
    /\ (forall u, Z.land (intr_stat hw) 0x20000000 <> 0 ->
          u ∈ set_bits (nv_rd32 hw 0x0025a0) ->
          EvWr32 (0x040108 + u * 0x2000) (pbdma_stat hw u) ∈ evs
          /\ EvWr32 (0x040148 + u * 0x2000) (pbdma_1_stat hw u) ∈ evs)
    /\ (forall b, EvWakeUp b ∈ evs
                  <-> Z.land (intr_stat hw) 0x40000000 <> 0
                      /\ b ∈ set_bits (nv_rd32 hw 0x002a00))
    /\ (forall v, EvWr32 0x002a00 v ∈ evs
                  <-> Z.land (intr_stat hw) 0x40000000 <> 0
                      /\ exists b, b ∈ set_bits (nv_rd32 hw 0x002a00)
                                   /\ v = 2 ^ b)
    /\ (Z.land (intr_stat hw) 0x40000000 <> 0 ->
        forall b, b ∈ set_bits (nv_rd32 hw 0x002a00) ->
                  is_Some (priv_engine priv !! b)).
Proof.
  intros Hrun.
  destruct (gk104_fifo_intr_emits hw sw fe priv priv' Hrun)
    as (evs & Htr & Hmay & Hmust).
  destruct (gk104_fifo_intr_slots hw sw fe priv priv' Hrun) as [_ Hslots].
  exists evs. split; [exact Htr |].
  split; [| split; [| split; [| split; [| split; [| split]]]]].
  - intros u. split.
    + intros Hin. apply Hmay in Hin. intr_break.
      split; [assumption |]. apply elem_of_set_bits. auto.
    + intros [Hp Hu]. apply Hmust. unfold intr_must, pending.
      do 7 right. left. split; [exact Hp |]. right. eauto.
  - intros v. split.
    + intros Hin. apply Hmay in Hin. intr_break; try lia.
      split; [assumption |]. eexists. split; [| reflexivity].
      apply elem_of_set_bits. auto.
    + intros (Hp & u & Hu & ->). apply Hmust. unfold intr_must, pending.
      do 8 right. left. split; [exact Hp |]. exists u.
      split; [exact Hu | elem_tac].
  - intros u v Hu [Hin | Hin]; apply Hmay in Hin; intr_break; try lia;
      (split; [assumption |]); apply elem_of_set_bits;
      match goal with
      | Hx : Z.testbit _ ?x = true |- _ =>
          replace u with x by lia; auto
      end.
  - intros u Hp Hu.
    split; apply Hmust; unfold intr_must, pending;
      do 8 right; left; (split; [exact Hp |]); exists u;
      (split; [exact Hu | elem_tac]).
  - intros b. split.
    + intros Hin. apply Hmay in Hin. intr_break.
      split; [assumption |]. apply elem_of_set_bits. auto.
    + intros [Hp Hb]. apply Hmust. unfold intr_must, pending.
      do 9 right. left. split; [exact Hp |]. exists b.
      split; [exact Hb | elem_tac].
  - intros v. split.
    + intros Hin. apply Hmay in Hin. intr_break; try lia.
      split; [assumption |]. eexists. split; [| reflexivity].
      apply elem_of_set_bits. auto.
    + intros (Hp & b & Hb & ->). apply Hmust. unfold intr_must, pending.
      do 9 right. left. split; [exact Hp |]. exists b.
      split; [exact Hb | elem_tac].
  - exact Hslots.
Qed.

End intr_units.
